(** * daily_arxiv: code-link resolution, record store and renderer

    A shallow embedding of [daily_arxiv.py] and the properties its
    specification states about it.

    Conventions of the embedding.
    - A Python [str] is a [string]; each character stands for one code point
      below 256.
    - A Python [dict] is an association list in insertion order
      (section [Dict]); a well-formed one has no repeated key.
    - The outside world (HTTP endpoints, log, clock) is threaded explicitly:
      a computation is a function [World -> A * World] (section [Effects]).
    - A Python exception is a value [inl e] of a sum. *)

From Stdlib Require Import List String Ascii Bool Arith ZArith Lia.
From Stdlib Require Import Sorting.Sorted Sorting.Permutation.
Import ListNotations.

Set Warnings "-register-all".

Local Open Scope list_scope.
Local Open Scope string_scope.
Local Open Scope nat_scope.

(* ================================================================= *)
(** * Part I: the embedding *)
(* ================================================================= *)

(* ----------------------------------------------------------------- *)
(** ** Python strings *)

(** [str.isspace] on one character: the white space of [str.strip()]. *)
Definition is_space (c : ascii) : bool :=
  let n := nat_of_ascii c in
  ((9 <=? n) && (n <=? 13)) || ((28 <=? n) && (n <=? 32))
  || (n =? 133) || (n =? 160).

(** [c.isdigit()] for the [\d] of the regular expressions. *)
Definition is_digit (c : ascii) : bool :=
  let n := nat_of_ascii c in (48 <=? n) && (n <=? 57).

Definition newline : ascii := ascii_of_nat 10.

(** [s[:n]] and [s[n:]] for [0 <= n]. *)
Fixpoint take (n : nat) (s : string) : string :=
  match n, s with
  | S k, String c s' => String c (take k s')
  | _, _ => ""
  end.

Fixpoint drop (n : nat) (s : string) : string :=
  match n, s with
  | S k, String _ s' => drop k s'
  | _, _ => s
  end.

(** [s[-1]] and [s[0]], [None] standing for the IndexError on [""]. *)
Fixpoint last_char (s : string) : option ascii :=
  match s with
  | "" => None
  | String c "" => Some c
  | String _ s' => last_char s'
  end.

Definition first_char (s : string) : option ascii :=
  match s with
  | "" => None
  | String c _ => Some c
  end.

Fixpoint lstrip (s : string) : string :=
  match s with
  | "" => ""
  | String c s' => if is_space c then lstrip s' else s
  end.

Fixpoint rstrip (s : string) : string :=
  match s with
  | "" => ""
  | String c s' =>
      match rstrip s' with
      | "" => if is_space c then "" else String c ""
      | r => String c r
      end
  end.

(** [s.strip()] *)
Definition strip (s : string) : string := rstrip (lstrip s).

(** [s.startswith(sub)] *)
Fixpoint starts_with (sub s : string) : bool :=
  match sub, s with
  | "", _ => true
  | String a sub', String b s' => Ascii.eqb a b && starts_with sub' s'
  | String _ _, "" => false
  end.

(** [sub in s] *)
Fixpoint contains (sub s : string) : bool :=
  starts_with sub s ||
  match s with
  | "" => false
  | String _ s' => contains sub s'
  end.

(** [s.find(sub)]: the first index where [sub] occurs, or [-1]. *)
Fixpoint find (sub s : string) : Z :=
  if starts_with sub s then 0%Z
  else match s with
       | "" => (-1)%Z
       | String _ s' =>
           let r := find sub s' in
           if (r =? -1)%Z then (-1)%Z else (r + 1)%Z
       end.

(** [s.split(sep)] for a one-character separator. *)
Fixpoint split (sep : ascii) (s : string) : list string :=
  match s with
  | "" => [""]
  | String c s' =>
      let r := split sep s' in
      if Ascii.eqb c sep then "" :: r
      else match r with
           | h :: t => String c h :: t
           | [] => [String c ""]
           end
  end.

(** [s.replace(old, new)]: every non-overlapping occurrence, left to
    right.  [skip] counts the characters of a match still to be dropped. *)
Fixpoint replace_from (old new : string) (skip : nat) (s : string) : string :=
  match s with
  | "" => ""
  | String c s' =>
      match skip with
      | S k => replace_from old new k s'
      | O =>
          if starts_with old s
          then new ++ replace_from old new (String.length old - 1) s'
          else String c (replace_from old new 0 s')
      end
  end.

Fixpoint intersperse (new s : string) : string :=
  match s with
  | "" => new
  | String c s' => new ++ String c (intersperse new s')
  end.

Definition replace (old new s : string) : string :=
  match old with
  | "" => intersperse new s
  | _ => replace_from old new 0 s
  end.

Fixpoint lower (s : string) : string :=
  match s with
  | "" => ""
  | String c s' =>
      let n := nat_of_ascii c in
      String (if (65 <=? n) && (n <=? 90) then ascii_of_nat (n + 32)
              else if ((192 <=? n) && (n <=? 222)) && negb (n =? 215)
                   then ascii_of_nat (n + 32)
                   else c)
             (lower s')
  end.

(* ----------------------------------------------------------------- *)
(** ** The three regular expressions of the source *)

(** [.*\$] anchored at the start of [s], greedy: the offset of the last
    ["$"] before the first line break, since [.] does not match one. *)
Fixpoint last_dollar_in_line (s : string) : option nat :=
  match s with
  | "" => None
  | String c s' =>
      if Ascii.eqb c newline then None
      else match last_dollar_in_line s' with
           | Some k => Some (S k)
           | None => if Ascii.eqb c "$" then Some 0 else None
           end
  end.

Definition shift_span (k : nat) (m : option (nat * nat)) : option (nat * nat) :=
  match m with
  | Some (a, b) => Some (a + k, b + k)
  | None => None
  end.

(** [re.search(r"\$.*\$", s)]: the span [(start, end)] of the leftmost
    match, extended as far as it goes. *)
Fixpoint search_math (s : string) : option (nat * nat) :=
  match s with
  | "" => None
  | String c s' =>
      if Ascii.eqb c "$" then
        match last_dollar_in_line s' with
        | Some k => Some (0, k + 2)
        | None => shift_span 1 (search_math s')
        end
      else shift_span 1 (search_math s')
  end.

(** [.*?\]] anchored at the start of [s], lazy: the text before the
    first ["]"], which must come before any line break. *)
Fixpoint until_bracket (s : string) : option string :=
  match s with
  | "" => None
  | String c s' =>
      if Ascii.eqb c "]" then Some ""
      else if Ascii.eqb c newline then None
      else option_map (String c) (until_bracket s')
  end.

(** [re.search(r'\[(.*?)\]', s)], returning [group(1)]. *)
Fixpoint search_bracket (s : string) : option string :=
  match s with
  | "" => None
  | String c s' =>
      if Ascii.eqb c "[" then
        match until_bracket s' with
        | Some g => Some g
        | None => search_bracket s'
        end
      else search_bracket s'
  end.

(** [re.sub(r'v\d+', '', s)]: every ["v"] followed by at least one digit
    is removed together with all the digits after it.  [in_match] holds
    while the digits of a match are being consumed. *)
Fixpoint sub_version_from (in_match : bool) (s : string) : string :=
  match s with
  | "" => ""
  | String c s' =>
      if in_match && is_digit c then sub_version_from true s'
      else if Ascii.eqb c "v" &&
              match s' with String d _ => is_digit d | "" => false end
           then sub_version_from true s'
           else String c (sub_version_from false s')
  end.

Definition sub_version (s : string) : string := sub_version_from false s.

(* ----------------------------------------------------------------- *)
(** ** Canonical paper key ([get_daily_papers], lines 261-263) *)

(** [ver_pos = paper_id.find('v')];
    [paper_key = paper_id if ver_pos == -1 else paper_id[:ver_pos]] *)
Definition paper_key_of (paper_id : string) : string :=
  let ver_pos := find "v" paper_id in
  if (ver_pos =? -1)%Z then paper_id else take (Z.to_nat ver_pos) paper_id.

(* ----------------------------------------------------------------- *)
(** ** JSON values and Python exceptions *)

(** What [json.loads] and [Response.json()] produce; [JNull] is [None].
    Numbers are integers: a fractional number behaves in every operation
    below like a non-zero integer. *)
Inductive json : Type :=
| JNull
| JBool (b : bool)
| JNum (z : Z)
| JStr (s : string)
| JArr (l : list json)
| JObj (kvs : list (string * json)).

Inductive exn : Type :=
| AttributeError
| KeyError
| TypeError
| IndexError
| JSONDecodeError
| FileNotFoundError.

(** Truth value of a Python object. *)
Definition truthy (v : json) : bool :=
  match v with
  | JNull => false
  | JBool b => b
  | JNum z => negb (z =? 0)%Z
  | JStr s => negb (s =? "")%string
  | JArr l => match l with [] => false | _ => true end
  | JObj kvs => match kvs with [] => false | _ => true end
  end.

Definition is_None (v : json) : bool :=
  match v with JNull => true | _ => false end.

Fixpoint assoc {A : Type} (k : string) (kvs : list (string * A)) : option A :=
  match kvs with
  | [] => None
  | (k', v) :: rest => if (k' =? k)%string then Some v else assoc k rest
  end.

(** [v.get(key, default)] *)
Definition get_method (v : json) (key : string) (default : json) : exn + json :=
  match v with
  | JObj kvs => inr (match assoc key kvs with Some x => x | None => default end)
  | _ => inl AttributeError
  end.

(** [v[key]] for a string [key] *)
Definition subscript_str (v : json) (key : string) : exn + json :=
  match v with
  | JObj kvs => match assoc key kvs with Some x => inr x | None => inl KeyError end
  | _ => inl TypeError
  end.

(** [v[0]] *)
Definition subscript_0 (v : json) : exn + json :=
  match v with
  | JArr (x :: _) => inr x
  | JArr [] => inl IndexError
  | JStr (String c _) => inr (JStr (String c ""))
  | JStr "" => inl IndexError
  | JObj _ => inl KeyError
  | _ => inl TypeError
  end.

Fixpoint chars (s : string) : list json :=
  match s with
  | "" => []
  | String c s' => JStr (String c "") :: chars s'
  end.

(** The elements a [for] loop over [v] visits. *)
Definition py_iter (v : json) : exn + list json :=
  match v with
  | JArr l => inr l
  | JStr s => inr (chars s)
  | JObj kvs => inr (map (fun kv => JStr (fst kv)) kvs)
  | _ => inl TypeError
  end.

(** Sequencing of computations that may raise. *)
Definition bindE {A B : Type} (c : exn + A) (k : A -> exn + B) : exn + B :=
  match c with
  | inl e => inl e
  | inr a => k a
  end.

Notation "x <-? c ; k" := (bindE c (fun x => k))
  (at level 61, c at next level, right associativity).

Section Formatting.

(** [str(v)] of a value that is not a string: Python's [repr] of numbers,
    lists and dicts is not modelled and is taken as given. *)
Variable py_repr : json -> string.

(** What ["{}".format(v)] and an f-string put for [v]. *)
Definition py_str (v : json) : string :=
  match v with
  | JStr s => s
  | _ => py_repr v
  end.

End Formatting.

(* ----------------------------------------------------------------- *)
(** ** Effects: requests, log, clock, files *)

Record Response : Type := mkResponse {
  status_code : Z;
  body : option json          (* [None]: the body is not JSON *)
}.

Record Request : Type := mkRequest {
  url : string;
  headers : list (string * string);
  params : option (list (string * json));
  timeout : Z
}.

(** One call of [requests.get]: a response, or an exception. *)
Inductive Attempt : Type :=
| Responded (r : Response)
| Failed (e : string).

Inductive Event : Type :=
| EvGet (req : Request)                              (* requests.get *)
| EvSleep                                            (* time.sleep(sleep) *)
| WarnStatus (u : string) (status : Z) (try total : Z)
| ErrForbidden
| WarnException (u e : string) (try total : Z)
| ErrFailed (u : string) (total : Z)
| ErrGithubSearch (e : exn)
| ErrFindCodeRepo (e : exn)
| ErrHFRepos (e : exn)
| InfoPaper (time title author : string)
| InfoKeywords (k : string)
| InfoAttempt (paper_key : string)
| InfoFound (paper_key new_cont : string)
| ErrProcessing (paper_id contents : string) (e : exn)
| InfoFinished (task : string).

(** The world a run acts on.  [oracle n req] is what the [n]-th call of
    [requests.get] of the run answers when it is sent [req]; [trace] lists
    what the run has done so far, oldest first. *)
Record World : Type := mkWorld {
  oracle : nat -> Request -> Attempt;
  sent : nat;
  trace : list Event;
  getenv : string -> option string;
  files : string -> option string;
  today : string                      (* str(datetime.date.today()) *)
}.

Definition M (A : Type) : Type := World -> A * World.

Definition ret {A : Type} (a : A) : M A := fun w => (a, w).

Definition bind {A B : Type} (c : M A) (k : A -> M B) : M B :=
  fun w => let (a, w') := c w in k a w'.

Notation "x <- c ;; k" := (bind c (fun x => k))
  (at level 61, c at next level, right associativity).
Notation "c ;; k" := (bind c (fun _ => k))
  (at level 61, right associativity).

Definition emit (e : Event) : M unit :=
  fun w => (tt, mkWorld (oracle w) (sent w) (trace w ++ [e])%list
                        (getenv w) (files w) (today w)).

Definition requests_get (req : Request) : M Attempt :=
  fun w => (oracle w (sent w) req,
            mkWorld (oracle w) (S (sent w)) (trace w ++ [EvGet req])%list
                    (getenv w) (files w) (today w)).

Definition when (b : bool) (c : M unit) : M unit :=
  if b then c else ret tt.

(* ----------------------------------------------------------------- *)
(** ** [http_get] (lines 92-111) *)

(** The [for i in range(retries + 1)] loop: [n] iterations are left, [i]
    is the loop index.  The result carries [last_exc]. *)
Fixpoint http_get_loop (req : Request) (retries : Z) (n : nat) (i : Z)
    (last_exc : option string) : M (option Response * option string) :=
  match n with
  | O => ret (None, last_exc)
  | S n' =>
      a <- requests_get req ;;
      match a with
      | Responded r =>
          if (status_code r =? 200)%Z then ret (Some r, last_exc)
          else
            emit (WarnStatus (url req) (status_code r) (i + 1) (retries + 1)) ;;
            when (status_code r =? 403)%Z (emit ErrForbidden) ;;
            emit EvSleep ;;
            http_get_loop req retries n' (i + 1)%Z last_exc
      | Failed e =>
          emit (WarnException (url req) e (i + 1) (retries + 1)) ;;
          emit EvSleep ;;
          http_get_loop req retries n' (i + 1)%Z (Some e)
      end
  end.

Definition http_get (req : Request) (retries : Z) : M (option Response) :=
  res <- http_get_loop req retries (Z.to_nat (retries + 1)) 0%Z None ;;
  match res with
  | (Some r, _) => ret (Some r)
  | (None, last_exc) =>
      when (match last_exc with Some _ => true | None => false end)
           (emit (ErrFailed (url req) (retries + 1))) ;;
      ret None
  end.

(** [retries=2] is the default every caller uses. *)
Definition default_retries : Z := 2.

(* ----------------------------------------------------------------- *)
(** ** Constants (lines 17-43) *)

Definition HF_HEADERS : list (string * string) :=
  [("User-Agent", "arxiv-daily/1.0")].

Definition GITHUB_SEARCH_REPO : string := "https://api.github.com/search/repositories".
Definition GITHUB_SEARCH_CODE : string := "https://api.github.com/search/code".

Definition env_set (v : option string) : bool :=
  match v with
  | Some s => negb (s =? "")%string
  | None => false
  end.

Definition bearer (token : option string) : string * string :=
  ("Authorization",
   "Bearer " ++ match token with Some t => t | None => "" end).

(** [GH_HEADERS] after the module-level [if os.getenv(...)] chain. *)
Definition GH_HEADERS (w : World) : list (string * string) :=
  let base := [("Accept", "application/vnd.github+json");
               ("User-Agent", "arxiv-daily/1.0")] in
  if env_set (getenv w "MY_GITHUB_TOKEN") then
    app base [bearer (getenv w "MY_GITHUB_TOKEN")]
  else if env_set (getenv w "GITHUB_TOKEN") then
    app base [bearer (getenv w "GITHUB_TOKEN")]
  else base.

Definition arxiv_url : string := "https://arxiv.org/".

(* ----------------------------------------------------------------- *)
(** ** Decoding a response *)

(** [bool(r)] of a [requests.Response] is [r.ok]. *)
Definition resp_ok (r : Response) : bool :=
  negb ((400 <=? status_code r)%Z && (status_code r <? 600)%Z).

(** [r.json()] *)
Definition response_json (r : Response) : exn + json :=
  match body r with
  | Some j => inr j
  | None => inl JSONDecodeError
  end.

(** The test [r and r.json().get("items")]: the response when it holds. *)
Definition items_hit (r : option Response) : exn + option Response :=
  match r with
  | None => inr None
  | Some resp =>
      if resp_ok resp then
        j <-? response_json resp ;
        items <-? get_method j "items" JNull ;
        inr (if truthy items then Some resp else None)
      else inr None
  end.

(** [r.json()["items"][0]["html_url"]] *)
Definition first_html_url (resp : Response) : exn + json :=
  j <-? response_json resp ;
  items <-? subscript_str j "items" ;
  it <-? subscript_0 items ;
  subscript_str it "html_url".

(** [r.json()["items"][0]["repository"]["html_url"]] *)
Definition first_repository_url (resp : Response) : exn + json :=
  j <-? response_json resp ;
  items <-? subscript_str j "items" ;
  it <-? subscript_0 items ;
  repo <-? subscript_str it "repository" ;
  subscript_str repo "html_url".

(** The body of [get_code_link] after a truthy response (lines 129-132);
    [JNull] is the fall-through to the final [return None]. *)
Definition code_link_of (resp : Response) : exn + json :=
  results <-? response_json resp ;
  items <-? get_method results "items" (JArr []) ;
  if truthy items then
    it <-? subscript_0 items ;
    get_method it "html_url" JNull
  else inr JNull.

Section Resolver.

Variable py_repr : json -> string.

(** The [for] loop of [pick] (lines 182-187). *)
Fixpoint pick_loop (its : list json) (t : string) : exn + json :=
  match its with
  | [] => inr JNull
  | it :: rest =>
      rid <-? get_method it "id" JNull ;
      if truthy rid
      then inr (JStr ("https://huggingface.co/" ++ t ++ "/" ++ py_str py_repr rid))
      else pick_loop rest t
  end.

Definition pick (arr : json) (t : string) : exn + json :=
  its <-? py_iter (if truthy arr then arr else JArr []) ;
  pick_loop its t.

(** [pick(spaces) or pick(models) or pick(datasets)] (lines 189-191). *)
Definition hf_pick_all (data : json) : exn + json :=
  arr <-? get_method data "spaces" JNull ;
  a <-? pick arr "spaces" ;
  if truthy a then inr a
  else
    arr <-? get_method data "models" JNull ;
    b <-? pick arr "models" ;
    if truthy b then inr b
    else
      arr <-? get_method data "datasets" JNull ;
      pick arr "datasets".

Definition hf_request (arxiv_id_no_ver : string) : Request :=
  mkRequest ("https://huggingface.co/api/arxiv/" ++ arxiv_id_no_ver ++ "/repos")
            HF_HEADERS None 10.

(** [get_repo_from_hf] (lines 169-194) *)
Definition get_repo_from_hf (arxiv_id_no_ver : string) : M json :=
  r <- http_get (hf_request arxiv_id_no_ver) default_retries ;;
  match r with
  | None => ret JNull
  | Some resp =>
      if resp_ok resp then
        match (data <-? response_json resp ; hf_pick_all data) with
        | inl e => emit (ErrHFRepos e) ;; ret JNull
        | inr v => ret v
        end
      else ret JNull
  end.

(** A request to the code host carries [GH_HEADERS]. *)
Definition gh_get (u : string) (ps : list (string * json)) : M (option Response) :=
  fun w => http_get (mkRequest u (GH_HEADERS w) (Some ps) 10) default_retries w.

Definition repo_params (q : string) : list (string * json) :=
  [("q", JStr q); ("sort", JStr "stars"); ("order", JStr "desc");
   ("per_page", JNum 5)].

Definition code_params (q : string) : list (string * json) :=
  [("q", JStr q); ("per_page", JNum 5)].

(** [get_code_link] (lines 113-135) *)
Definition get_code_link (qword : string) : M json :=
  r <- gh_get GITHUB_SEARCH_REPO (repo_params qword) ;;
  match r with
  | None => ret JNull
  | Some resp =>
      if resp_ok resp then
        match code_link_of resp with
        | inl e => emit (ErrGithubSearch e) ;; ret JNull
        | inr v => ret v
        end
      else ret JNull
  end.

Definition quoted (s : string) : string :=
  String (ascii_of_nat 34) (s ++ String (ascii_of_nat 34) "").

Definition q1 (paper_title : string) : string :=
  quoted paper_title ++ " in:readme,in:description".
Definition q2 (arxiv_id_no_ver : string) : string :=
  quoted arxiv_id_no_ver ++ " in:name,readme,description".
Definition q3 (arxiv_id_no_ver : string) : string :=
  quoted arxiv_id_no_ver ++ " in:file filename:README".

(** One search of [find_code_repo]: the request, the test on its answer,
    the [return] when the test holds, and what follows otherwise.  An
    exception leaves the [try] block at once. *)
Definition search_then (get : M (option Response))
    (picked : Response -> exn + json)
    (next : M (exn + json)) : M (exn + json) :=
  r <- get ;;
  match items_hit r with
  | inl e => ret (inl e)
  | inr (Some resp) => ret (picked resp)
  | inr None => next
  end.

(** [find_code_repo] (lines 137-167) *)
Definition find_code_repo (paper_title arxiv_id_no_ver primary_author : string)
  : M json :=
  res <- search_then (gh_get GITHUB_SEARCH_REPO (repo_params (q1 paper_title)))
           first_html_url
        (search_then (gh_get GITHUB_SEARCH_REPO (repo_params (q2 arxiv_id_no_ver)))
           first_html_url
        (search_then (gh_get GITHUB_SEARCH_CODE (code_params (q3 arxiv_id_no_ver)))
           first_repository_url
        (ret (inr JNull)))) ;;
  match res with
  | inl e => emit (ErrFindCodeRepo e) ;; ret JNull
  | inr v => ret v
  end.

(** Python's [a or b] on computations: [b] runs only when [a] is falsy. *)
Definition por (a b : M json) : M json :=
  x <- a ;;
  if truthy x then ret x else b.

(** The resolution of [get_daily_papers] (lines 266-271). *)
Definition resolve_daily (paper_title paper_key paper_first_author : string)
  : M json :=
  repo_url <- get_repo_from_hf paper_key ;;
  if is_None repo_url then
    por (find_code_repo paper_title paper_key paper_first_author)
        (por (get_code_link paper_title) (get_code_link paper_key))
  else ret repo_url.

(** The resolution of [update_paper_links] (lines 343-346). *)
Definition resolve_backfill (paper_title paper_key paper_first_author : string)
  : M json :=
  por (get_repo_from_hf paper_key)
      (por (find_code_repo paper_title paper_key paper_first_author)
           (por (get_code_link paper_title) (get_code_link paper_key))).

End Resolver.

(* ----------------------------------------------------------------- *)
(** ** Python dicts *)

Section Dict.

Context {V : Type}.

(** Insertion-ordered mapping from strings; a key occurs once. *)
Definition dict : Type := list (string * V).

(** [d[k] = v]: an existing key keeps its place, a new one goes last. *)
Fixpoint dict_set (d : dict) (k : string) (v : V) : dict :=
  match d with
  | [] => [(k, v)]
  | (k', v') :: rest =>
      if (k' =? k)%string then (k', v) :: rest
      else (k', v') :: dict_set rest k v
  end.

(** [d.update(other)] *)
Definition dict_update (d other : dict) : dict :=
  fold_left (fun acc kv => dict_set acc (fst kv) (snd kv)) other d.

Definition keys (d : dict) : list string := map fst d.

End Dict.

Arguments dict V : clear implicits.

(** A topic maps paper identifiers to records; the store maps topic names
    to topics.  Records are strings: on a well-typed store
    [str(contents)] is [contents] and the test [v is not None] holds. *)
Definition Topic : Type := dict string.
Definition Store : Type := dict Topic.

(* ----------------------------------------------------------------- *)
(** ** Files *)

(** [open(path, "r").read()] *)
Definition read_file (path : string) : M (exn + string) :=
  fun w => (match files w path with
            | Some c => inr c
            | None => inl FileNotFoundError
            end, w).

(** [open(path, "w")] followed by one write of [content]. *)
Definition write_file (path content : string) : M unit :=
  fun w => (tt, mkWorld (oracle w) (sent w) (trace w) (getenv w)
                        (fun p => if (p =? path)%string then Some content
                                  else files w p)
                        (today w)).

(** [open(path, "a+")] followed by one write of [content]. *)
Definition append_file (path content : string) : M unit :=
  fun w => (tt, mkWorld (oracle w) (sent w) (trace w) (getenv w)
                        (fun p => if (p =? path)%string
                                  then Some (match files w path with
                                             | Some c => c ++ content
                                             | None => content
                                             end)
                                  else files w p)
                        (today w)).

Section Codec.

(** [json.loads] on the text of a store file and [json.dump] of a store.
    The JSON syntax is not modelled; a text that is not an object of
    objects of strings is answered by an exception. *)
Variable json_loads : string -> exn + Store.
Variable json_dumps : Store -> string.

(** The load that opens [update_paper_links] (lines 315-320),
    [update_json_file] (lines 364-369) and [json_to_md] (lines 417-422). *)
Definition load (filename : string) : M (exn + Store) :=
  c <- read_file filename ;;
  match c with
  | inl e => ret (inl e)
  | inr content =>
      if (content =? "")%string then ret (inr [])
      else ret (json_loads content)
  end.

(* ----------------------------------------------------------------- *)
(** ** [update_json_file] (lines 360-384) *)

(** The body of the inner loop, lines 376-381. *)
Definition merge_keyword (json_data : Store) (keyword : string)
    (papers : Topic) : Store :=
  match assoc keyword json_data with
  | Some existing => dict_set json_data keyword (dict_update existing papers)
  | None => dict_set json_data keyword papers
  end.

(** [for keyword in data.keys()] *)
Definition merge_data (json_data : Store) (data : Store) : Store :=
  fold_left (fun jd kv => merge_keyword jd (fst kv) (snd kv)) data json_data.

(** [for data in data_dict] *)
Definition merge_all (json_data : Store) (data_dict : list Store) : Store :=
  fold_left merge_data data_dict json_data.

(** The same loop on objects.  [json_data[keyword] = papers] stores the
    dict object of the batch itself, and [json_data[keyword].update(papers)]
    changes the object the store holds under [keyword], which may be one
    the batch brought in.  [Heap] gives the dict at each address; the
    store and the batch hold addresses. *)
Definition Heap : Type := nat -> Topic.

Definition heap_set (h : Heap) (a : nat) (t : Topic) : Heap :=
  fun b => if b =? a then t else h b.

Definition merge_keyword_obj (st : Heap * dict nat) (keyword : string)
    (papers : nat) : Heap * dict nat :=
  let (h, json_data) := st in
  match assoc keyword json_data with
  | Some existing =>
      (heap_set h existing (dict_update (h existing) (h papers)), json_data)
  | None => (h, dict_set json_data keyword papers)
  end.

Definition merge_all_obj (st : Heap * dict nat) (data_dict : list (dict nat))
  : Heap * dict nat :=
  fold_left
    (fun st data =>
       fold_left (fun st kv => merge_keyword_obj st (fst kv) (snd kv)) data st)
    data_dict st.

(** The dicts behind the addresses of [d], as [json.dump] writes them. *)
Definition deref (h : Heap) (d : dict nat) : Store :=
  map (fun kv => (fst kv, h (snd kv))) d.

Definition update_json_file (filename : string) (data_dict : list Store)
  : M (exn + unit) :=
  l <- load filename ;;
  match l with
  | inl e => ret (inl e)
  | inr m =>
      write_file filename (json_dumps (merge_all m data_dict)) ;;
      ret (inr tt)
  end.

End Codec.

(* ----------------------------------------------------------------- *)
(** ** [get_daily_papers] (lines 237-296) *)

(** One entry of the literature search, with the fields the loop reads.
    [published] and [updated] hold the text of their date. *)
Record ArxivResult : Type := mkResult {
  short_id : string;               (* result.get_short_id() *)
  title : string;
  authors : list string;
  published : option string;
  updated : option string
}.

(** [get_authors] (lines 77-82) *)
Definition get_authors (authors : list string) (first_author : bool) : string :=
  match authors with
  | [] => ""
  | a :: _ => if first_author then a else String.concat ", " authors
  end.

Definition row_resolved (update_time paper_title paper_first_author paper_key
                         paper_url repo_url : string) : string :=
  "|**" ++ update_time ++ "**|**" ++ paper_title ++ "**|" ++ paper_first_author
  ++ " et.al.|[" ++ paper_key ++ "](" ++ paper_url ++ ")|**[link](" ++ repo_url
  ++ ")**|" ++ String newline "".

Definition row_unresolved (update_time paper_title paper_first_author paper_key
                           paper_url : string) : string :=
  "|**" ++ update_time ++ "**|**" ++ paper_title ++ "**|" ++ paper_first_author
  ++ " et.al.|[" ++ paper_key ++ "](" ++ paper_url ++ ")|null|"
  ++ String newline "".

Definition web_resolved (update_time paper_title paper_first_author
                         paper_url repo_url : string) : string :=
  "- " ++ update_time ++ ", **" ++ paper_title ++ "**, " ++ paper_first_author
  ++ " et.al., Paper: [" ++ paper_url ++ "](" ++ paper_url ++ "), Code: **["
  ++ repo_url ++ "](" ++ repo_url ++ ")**".

Definition web_unresolved (update_time paper_title paper_first_author
                           paper_url : string) : string :=
  "- " ++ update_time ++ ", **" ++ paper_title ++ "**, " ++ paper_first_author
  ++ " et.al., Paper: [" ++ paper_url ++ "](" ++ paper_url ++ ")".

Section Pipeline.

Variable py_repr : json -> string.

(** The body of the loop over the search results, lines 248-292.  The
    [try] around the formatting has nothing to catch here: formatting
    strings does not raise. *)
Definition daily_step (acc : Topic * Topic) (result : ArxivResult)
  : M (Topic * Topic) :=
  let (content, content_to_web) := acc in
  let paper_id := short_id result in
  let paper_title := title result in
  let paper_first_author := get_authors (authors result) true in
  let publish_time := match published result with Some d => d | None => "" end in
  let update_time := match updated result with Some d => d | None => publish_time end in
  emit (InfoPaper update_time paper_title paper_first_author) ;;
  let paper_key := paper_key_of paper_id in
  let paper_url := arxiv_url ++ "abs/" ++ paper_key in
  repo_url <- resolve_daily py_repr paper_title paper_key paper_first_author ;;
  if negb (is_None repo_url) then
    ret (dict_set content paper_key
           (row_resolved update_time paper_title paper_first_author paper_key
                         paper_url (py_str py_repr repo_url)),
         dict_set content_to_web paper_key
           (web_resolved update_time paper_title paper_first_author
                         paper_url (py_str py_repr repo_url)
            ++ String newline ""))
  else
    ret (dict_set content paper_key
           (row_unresolved update_time paper_title paper_first_author paper_key
                           paper_url),
         dict_set content_to_web paper_key
           (web_unresolved update_time paper_title paper_first_author paper_url
            ++ String newline "")).

Fixpoint foldM {A B : Type} (f : A -> B -> M A) (l : list B) (a : A) : M A :=
  match l with
  | [] => ret a
  | b :: rest => a' <- f a b ;; foldM f rest a'
  end.

(** [results] is what [_iter_arxiv_results(query, max_results)] yields. *)
Definition get_daily_papers (topic : string) (results : list ArxivResult)
  : M (Store * Store) :=
  acc <- foldM daily_step results ([], []) ;;
  ret ([(topic, fst acc)], [(topic, snd acc)]).

(* ----------------------------------------------------------------- *)
(** ** [update_paper_links] (lines 298-358) *)

Record Fields : Type := mkFields {
  f_date : string;
  f_title : string;
  f_authors : string;
  f_arxiv_id : string;
  f_code : string;
  f_pdf_field : string
}.

Definition part (parts : list string) (i : nat) : exn + string :=
  match nth_error parts i with
  | Some x => inr x
  | None => inl IndexError
  end.

(** [parse_arxiv_string] (lines 302-313) *)
Definition parse_arxiv_string (s : string) : exn + Fields :=
  let parts := split "|" s in
  date <-? part parts 1 ;
  title <-? part parts 2 ;
  authors <-? part parts 3 ;
  pdf_field <-? part parts 4 ;
  code <-? part parts 5 ;
  let pdf_field := strip pdf_field in
  let arxiv_id := match search_bracket pdf_field with
                  | Some g => strip g
                  | None => pdf_field
                  end in
  inr (mkFields (strip date) (strip title) (strip authors)
                (sub_version arxiv_id) (strip code) pdf_field).

(** ["|{}|{}|{}|{}|{}|\n".format(...)] of line 333 *)
Definition normalized (f : Fields) : string :=
  "|" ++ f_date f ++ "|" ++ f_title f ++ "|" ++ f_authors f ++ "|"
  ++ f_pdf_field f ++ "|" ++ f_code f ++ "|" ++ String newline "".

(** The body of the loop over the records of one topic, lines 328-354;
    [v] is the topic being rewritten. *)
Definition backfill_record (v : Topic) (entry : string * string) : M Topic :=
  let (paper_id, contents) := entry in
  match parse_arxiv_string contents with
  | inl e => emit (ErrProcessing paper_id contents e) ;; ret v
  | inr f =>
      let contents := normalized f in
      let v := dict_set v paper_id contents in
      let valid_link := negb (contains "|null|" contents) in
      if valid_link then ret v
      else
        emit (InfoAttempt (f_arxiv_id f)) ;;
        repo_url <- resolve_backfill py_repr (f_title f) (f_arxiv_id f)
                                     (f_authors f) ;;
        if negb (is_None repo_url) then
          let new_cont := replace "|null|"
                            ("|**[link](" ++ py_str py_repr repo_url ++ ")**|")
                            contents in
          emit (InfoFound (f_arxiv_id f) new_cont) ;;
          ret (dict_set v paper_id new_cont)
        else ret v
  end.

(** [for paper_id, contents in list(v.items())] on the topic [v]. *)
Definition backfill_topic (entry : string * Topic) : M (string * Topic) :=
  let (keywords, v) := entry in
  emit (InfoKeywords keywords) ;;
  v' <- foldM backfill_record v v ;;
  ret (keywords, v').

Fixpoint mapM {A B : Type} (f : A -> M B) (l : list A) : M (list B) :=
  match l with
  | [] => ret []
  | a :: rest => b <- f a ;; bs <- mapM f rest ;; ret (b :: bs)
  end.

(** [for keywords, v in json_data.items()]: the topics are rewritten in
    place, one after the other. *)
Definition backfill (json_data : Store) : M Store :=
  mapM backfill_topic json_data.

Variable json_loads : string -> exn + Store.
Variable json_dumps : Store -> string.

Definition update_paper_links (filename : string) : M (exn + unit) :=
  l <- load json_loads filename ;;
  match l with
  | inl e => ret (inl e)
  | inr m =>
      json_data <- backfill m ;;
      write_file filename (json_dumps json_data) ;;
      ret (inr tt)
  end.

End Pipeline.

(* ----------------------------------------------------------------- *)
(** ** [sort_papers] (lines 84-90) *)

(** [keys.sort(reverse=True)], strings compared code point by code
    point: [k] goes before the first key that is not above it. *)
Fixpoint insert_desc (k : string) (l : list string) : list string :=
  match l with
  | [] => [k]
  | h :: t => if String.leb h k then k :: l else h :: insert_desc k t
  end.

Definition sort_desc (l : list string) : list string :=
  fold_right insert_desc [] l.

Definition sort_papers (papers : Topic) : Topic :=
  fold_left (fun output key =>
               match assoc key papers with
               | Some v => dict_set output key v
               | None => output
               end)
            (sort_desc (keys papers)) [].

(* ----------------------------------------------------------------- *)
(** ** [pretty_math] (lines 398-411) *)

(** A neighbour of the match that is neither [' '] nor ['*']. *)
Definition wants_space (c : option ascii) : bool :=
  match c with
  | Some c => negb (Ascii.eqb c " ") && negb (Ascii.eqb "*" c)
  | None => false
  end.

Definition pretty_math (s : string) : string :=
  match search_math s with
  | None => s
  | Some (math_start, math_end) =>
      let space_trail :=
        if (0 <? math_start) && wants_space (last_char (take math_start s))
        then " " else "" in
      let space_leading :=
        if (math_end <? String.length s)
           && wants_space (first_char (drop math_end s))
        then " " else "" in
      let group := take (math_end - math_start) (drop math_start s) in
      take math_start s
      ++ space_trail ++ "$"
      ++ strip (drop 1 (take (String.length group - 1) group))
      ++ "$" ++ space_leading
      ++ drop math_end s
  end.

(* ----------------------------------------------------------------- *)
(** ** [json_to_md] (lines 386-509) *)

Record Options : Type := mkOptions {
  task : string;
  to_web : bool;
  use_title : bool;
  use_tc : bool;
  show_badge : bool;
  use_b2t : bool
}.

Definition nl : string := String newline "".

Definition front_matter : string :=
  "---" ++ nl ++ "layout: default" ++ nl ++ "---" ++ nl ++ nl.

Definition badge_links : string :=
  "[![Contributors][contributors-shield]][contributors-url]" ++ nl
  ++ "[![Forks][forks-shield]][forks-url]" ++ nl
  ++ "[![Stargazers][stars-shield]][stars-url]" ++ nl
  ++ "[![Issues][issues-shield]][issues-url]" ++ nl ++ nl.

Definition badge_targets : string :=
  "[contributors-shield]: https://img.shields.io/github/contributors/Vincentqyw/cv-arxiv-daily.svg?style=for-the-badge" ++ nl
  ++ "[contributors-url]: https://github.com/Vincentqyw/cv-arxiv-daily/graphs/contributors" ++ nl
  ++ "[forks-shield]: https://img.shields.io/github/forks/Vincentqyw/cv-arxiv-daily.svg?style=for-the-badge" ++ nl
  ++ "[forks-url]: https://github.com/Vincentqyw/cv-arxiv-daily/network/members" ++ nl
  ++ "[stars-shield]: https://img.shields.io/github/stars/Vincentqyw/cv-arxiv-daily.svg?style=for-the-badge" ++ nl
  ++ "[stars-url]: https://github.com/Vincentqyw/cv-arxiv-daily/stargazers" ++ nl
  ++ "[issues-shield]: https://img.shields.io/github/issues/Vincentqyw/cv-arxiv-daily.svg?style=for-the-badge" ++ nl
  ++ "[issues-url]: https://github.com/Vincentqyw/cv-arxiv-daily/issues" ++ nl ++ nl.

Definition updated_line (o : Options) (DateNow : string) : string :=
  if use_title o then "## Updated on " ++ DateNow ++ nl
  else "> Updated on " ++ DateNow ++ nl.

Definition usage_line : string :=
  "> Usage instructions: [here](./docs/README.md#usage)" ++ nl ++ nl.

Definition is_empty {A : Type} (l : list A) : bool :=
  match l with [] => true | _ => false end.

(** One pass of the loop of lines 452-457. *)
Definition toc_entry (entry : string * Topic) : string :=
  let (keyword, day_content) := entry in
  if is_empty day_content then ""
  else
    let kw := replace " " "-" keyword in
    "    <li><a href=#" ++ lower kw ++ ">" ++ keyword ++ "</a></li>" ++ nl.

Definition table_of_contents (data : Store) : string :=
  "<details>" ++ nl
  ++ "  <summary>Table of Contents</summary>" ++ nl
  ++ "  <ol>" ++ nl
  ++ String.concat "" (map toc_entry data)
  ++ "  </ol>" ++ nl
  ++ "</details>" ++ nl ++ nl.

Definition table_head (o : Options) : string :=
  if use_title o then
    if negb (to_web o) then
      "|Publish Date|Title|Authors|PDF|Code|" ++ nl ++ "|---|---|---|---|---|" ++ nl
    else
      "| Publish Date | Title | Authors | PDF | Code |" ++ nl
      ++ "|:---------|:-----------------------|:---------|:------|:------|" ++ nl
  else "".

Definition back_to_top (DateNow : string) : string :=
  let top_info := "#Updated on " ++ DateNow in
  let top_info := replace "." "" (replace " " "-" top_info) in
  "<p align=right>(<a href=" ++ lower top_info ++ ">back to top</a>)</p>"
  ++ nl ++ nl.

(** The records of one topic as they are written, lines 476-480. *)
Definition topic_lines (day_content : Topic) : list string :=
  map (fun kv => pretty_math (snd kv)) (sort_papers day_content).

(** One pass of the loop of lines 461-488. *)
Definition topic_section (o : Options) (DateNow : string)
    (entry : string * Topic) : string :=
  let (keyword, day_content) := entry in
  if is_empty day_content then ""
  else
    "## " ++ keyword ++ nl ++ nl
    ++ table_head o
    ++ String.concat "" (topic_lines day_content)
    ++ nl
    ++ (if use_b2t o then back_to_top DateNow else "").

(** Everything [json_to_md] writes, in the order it writes it. *)
Definition render (o : Options) (DateNow : string) (data : Store) : string :=
  (if use_title o && to_web o then front_matter else "")
  ++ (if show_badge o then badge_links else "")
  ++ updated_line o DateNow
  ++ usage_line
  ++ (if use_tc o then table_of_contents data else "")
  ++ String.concat "" (map (topic_section o DateNow) data)
  ++ (if show_badge o then badge_targets else "").

Section Render.

Variable json_loads : string -> exn + Store.

Definition json_to_md (filename md_filename : string) (o : Options)
  : M (exn + unit) :=
  fun w =>
    let DateNow := replace "-" "." (today w) in
    (l <- load json_loads filename ;;
     match l with
     | inl e => ret (inl e)
     | inr data =>
         write_file md_filename "" ;;
         append_file md_filename (render o DateNow data) ;;
         emit (InfoFinished (task o)) ;;
         ret (inr tt)
     end) w.

End Render.

(* ----------------------------------------------------------------- *)
(** ** The console and the literature search *)

(** The log lines of [load_config], [_iter_arxiv_results], [demo] and
    the script, and the line [demo] prints. *)
Inductive Line : Type :=
| InfoConfig (config : string)            (* 'config = {config}' *)
| WarnEmptyPage
| ErrFallbackSearch (e : string)
| ErrSearch (e : string)
| InfoUpdatePaperLink (b_update : bool)
| InfoDailyBegin
| InfoKeyword (topic : string)
| PrintNewline                            (* print("\n") *)
| InfoDailyEnd.

(** How an iteration over [client.results(search)] ends. *)
Inductive FeedEnd : Type :=
| Exhausted
| UnexpectedEmptyPageError (e : string)
| SearchException (e : string).

(** What one iteration over [client.results(search)] yields, and how it
    ends. *)
Definition Feed : Type := (list ArxivResult * FeedEnd)%type.

(** A run of the script acts on the world of the requests and files, on
    the console, and on the literature search: [arxiv n query max_results]
    is what the [n]-th iteration over [client.results] of the run gives
    for a search of [query] limited to [max_results] entries, sorted by
    submission date. *)
Record Session : Type := mkSession {
  world : World;
  console : list Line;
  arxiv : nat -> string -> Z -> Feed;
  searches : nat
}.

Definition Script (A : Type) : Type := Session -> A * Session.

Definition retS {A : Type} (a : A) : Script A := fun s => (a, s).

Definition bindS {A B : Type} (c : Script A) (k : A -> Script B) : Script B :=
  fun s => let (a, s') := c s in k a s'.

Notation "x <~ c ;; k" := (bindS c (fun x => k))
  (at level 61, c at next level, right associativity).
Notation "c ;;; k" := (bindS c (fun _ => k))
  (at level 61, right associativity).

(** A computation on the world, run within a session. *)
Definition lift {A : Type} (c : M A) : Script A :=
  fun s => let (a, w) := c (world s) in
           (a, mkSession w (console s) (arxiv s) (searches s)).

Definition say (l : Line) : Script unit :=
  fun s => (tt, mkSession (world s) (console s ++ [l])%list (arxiv s) (searches s)).

(** [for r in client.results(search)]: the entries and the end of the
    iteration. *)
Definition client_results (query : string) (max_results : Z) : Script Feed :=
  fun s => (arxiv s (searches s) query max_results,
            mkSession (world s) (console s) (arxiv s) (S (searches s))).

(* ----------------------------------------------------------------- *)
(** ** [load_config] (lines 47-75) *)

(** [quote_if_needed] (lines 57-59) *)
Definition quote_if_needed (s : string) : string :=
  let s := strip s in
  if contains " " s || contains "-" s then quoted s else s.

(** The loop of [parse_filters] (lines 63-64): [flt.strip()] needs a
    string. *)
Fixpoint parse_terms (filters : list json) : exn + list string :=
  match filters with
  | [] => inr []
  | JStr s :: rest =>
      terms <-? parse_terms rest ;
      inr (("all:" ++ quote_if_needed s) :: terms)
  | _ :: _ => inl AttributeError
  end.

(** [parse_filters] (lines 61-65) *)
Definition parse_filters (filters : json) : exn + string :=
  its <-? py_iter filters ;
  terms <-? parse_terms its ;
  inr (String.concat " OR " terms).

(** The loop of lines 67-68 over [config['keywords'].items()]. *)
Fixpoint pretty_loop (items : list (string * json)) (keywords : dict string)
  : exn + dict string :=
  match items with
  | [] => inr keywords
  | (k, v) :: rest =>
      filters <-? subscript_str v "filters" ;
      q <-? parse_filters filters ;
      pretty_loop rest (dict_set keywords k q)
  end.

(** [pretty_filters], called with the keys of [config] as keyword
    arguments (lines 52-69) *)
Definition pretty_filters (config : list (string * json)) : exn + dict string :=
  kw <-? subscript_str (JObj config) "keywords" ;
  match kw with
  | JObj items => pretty_loop items []
  | _ => inl AttributeError
  end.

Section Config.

(** [yaml.load(f, Loader=yaml.FullLoader)] on the text of the file, for
    a document whose mappings have strings as keys; the YAML syntax is
    not modelled. *)
Variable yaml_load : string -> exn + json.
Variable py_repr : json -> string.

Definition load_config (config_file : string) : Script (exn + json) :=
  c <~ lift (read_file config_file) ;;
  match c with
  | inl e => retS (inl e)
  | inr text =>
      match yaml_load text with
      | inl e => retS (inl e)
      | inr (JObj config) =>
          match pretty_filters config with
          | inl e => retS (inl e)
          | inr kv =>
              let config :=
                dict_set config "kv"
                         (JObj (map (fun kq => (fst kq, JStr (snd kq))) kv)) in
              say (InfoConfig (py_repr (JObj config))) ;;;
              retS (inr (JObj config))
          end
      | inr _ => retS (inl TypeError)     (* [**config] needs a mapping *)
      end
  end.

End Config.

(* ----------------------------------------------------------------- *)
(** ** [_iter_arxiv_results] (lines 196-235) *)

(** All the entries the generator yields, in the order it yields them:
    those of the search, and after an empty page those of the second
    search as well. *)
Definition _iter_arxiv_results (query : string) (n : Z) : Script (list ArxivResult) :=
  first <~ client_results query n ;;
  match snd first with
  | Exhausted => retS (fst first)
  | UnexpectedEmptyPageError _ =>
      say WarnEmptyPage ;;;
      fallback <~ client_results query (Z.min n 25) ;;
      match snd fallback with
      | Exhausted => retS (fst first ++ fst fallback)%list
      | UnexpectedEmptyPageError e | SearchException e =>
          say (ErrFallbackSearch e) ;;;
          retS (fst first ++ fst fallback)%list
      end
  | SearchException e =>
      say (ErrSearch e) ;;;
      retS (fst first)
  end.

(* ----------------------------------------------------------------- *)
(** ** [demo] (lines 511-566) *)

(** A configuration that has every key [demo] reads, with values of the
    types [config.yaml] gives them. *)
Record Config : Type := mkConfig {
  kv : dict string;
  max_results : Z;
  publish_readme : bool;
  publish_gitpage : bool;
  publish_wechat : bool;
  config_show_badge : bool;
  config_update_paper_links : bool;
  json_readme_path : string;
  md_readme_path : string;
  json_gitpage_path : string;
  md_gitpage_path : string;
  json_wechat_path : string;
  md_wechat_path : string
}.

Section Demo.

Variable py_repr : json -> string.
Variable json_loads : string -> exn + Store.
Variable json_dumps : Store -> string.

(** [get_daily_papers(topic, query, max_results)] with the search it
    iterates over. *)
Definition daily_papers (topic query : string) (n : Z) : Script (Store * Store) :=
  results <~ _iter_arxiv_results query n ;;
  lift (get_daily_papers py_repr topic results).

(** The loop of lines 526-532. *)
Fixpoint collect (keywords : list (string * string)) (n : Z)
    (data_collector data_collector_web : list Store)
  : Script (list Store * list Store) :=
  match keywords with
  | [] => retS (data_collector, data_collector_web)
  | (topic, keyword) :: rest =>
      say (InfoKeyword topic) ;;;
      d <~ daily_papers topic keyword n ;;
      say PrintNewline ;;;
      collect rest n (data_collector ++ [fst d])%list
                     (data_collector_web ++ [snd d])%list
  end.

(** One of the three publishing blocks (lines 536-543, 546-555,
    558-566): the store file is backfilled or merged, then rendered.  An
    exception leaves [demo]. *)
Definition publish (update : bool) (json_file md_file : string)
    (data : list Store) (o : Options) : M (exn + unit) :=
  r <- (if update
        then update_paper_links py_repr json_loads json_dumps json_file
        else update_json_file json_loads json_dumps json_file data) ;;
  match r with
  | inl e => ret (inl e)
  | inr _ => json_to_md json_loads json_file md_file o
  end.

Definition readme_options (c : Config) : Options :=
  mkOptions "Update Readme" false true true (config_show_badge c) true.

Definition gitpage_options (c : Config) : Options :=
  mkOptions "Update GitPage" true true false (config_show_badge c) false.

Definition wechat_options (c : Config) : Options :=
  mkOptions "Update Wechat" false false true (config_show_badge c) true.

(** The three publishing blocks, in the order of lines 535-566. *)
Definition publish_targets (c : Config) (update : bool)
    (data_collector data_collector_web : list Store) : Script (exn + unit) :=
  r1 <~ (if publish_readme c
         then lift (publish update (json_readme_path c) (md_readme_path c)
                            data_collector (readme_options c))
         else retS (inr tt)) ;;
  match r1 with
  | inl e => retS (inl e)
  | inr _ =>
      r2 <~ (if publish_gitpage c
             then lift (publish update (json_gitpage_path c) (md_gitpage_path c)
                                data_collector (gitpage_options c))
             else retS (inr tt)) ;;
      match r2 with
      | inl e => retS (inl e)
      | inr _ =>
          if publish_wechat c
          then lift (publish update (json_wechat_path c) (md_wechat_path c)
                             data_collector_web (wechat_options c))
          else retS (inr tt)
      end
  end.

Definition demo (c : Config) : Script (exn + unit) :=
  let b_update := config_update_paper_links c in
  say (InfoUpdatePaperLink b_update) ;;;
  collected <~ (if negb b_update then
                  say InfoDailyBegin ;;;
                  d <~ collect (kv c) (max_results c) [] [] ;;
                  say InfoDailyEnd ;;;
                  retS d
                else retS ([], [])) ;;
  publish_targets c b_update (fst collected) (snd collected).

End Demo.

(* ================================================================= *)
(** * Part II: vocabulary of the statements *)
(* ================================================================= *)

(** No ["v"] occurs in [s]. *)
Fixpoint v_free (s : string) : Prop :=
  match s with
  | "" => True
  | String c s' => c <> "v"%char /\ v_free s'
  end.

Fixpoint count_gets (evs : list Event) : nat :=
  match evs with
  | [] => 0
  | EvGet _ :: rest => S (count_gets rest)
  | _ :: rest => count_gets rest
  end.

(** [steps w w' evs]: [w'] is [w] after the events [evs], the files left
    as they were; every request of [evs] consumed one answer. *)
Definition steps (w w' : World) (evs : list Event) : Prop :=
  oracle w' = oracle w /\ getenv w' = getenv w /\ files w' = files w
  /\ today w' = today w /\ trace w' = (trace w ++ evs)%list
  /\ sent w' = sent w + count_gets evs.

(** The answer the [k]-th request from now on receives. *)
Definition answer (w : World) (req : Request) (k : nat) : Attempt :=
  oracle w (sent w + k) req.

Definition is_200 (a : Attempt) : bool :=
  match a with
  | Responded r => (status_code r =? 200)%Z
  | Failed _ => false
  end.

(** A world with nothing in it but the answers [answers] gives, request
    after request. *)
Definition world_of (answers : nat -> Request -> Attempt) : World :=
  mkWorld answers 0 [] (fun _ => None) (fun _ => None) "2024-01-01".

Definition ok_response (j : json) : Attempt :=
  Responded (mkResponse 200 (Some j)).

Definition status_only (code : Z) : Attempt :=
  Responded (mkResponse code None).

(** A 403, then a 200. *)
Definition flaky_world : World :=
  world_of (fun n _ => match n with
                       | 0 => status_only 403
                       | _ => ok_response JNull
                       end).

(* ----------------------------------------------------------------- *)
(** ** Stages of the resolution *)

(** The six places where the resolution asks a source, in the order of
    their priority. *)
Inductive Stage : Type :=
| HubLookup         (* get_repo_from_hf *)
| ReadmeSearch      (* find_code_repo, 1) *)
| IdSearch          (* find_code_repo, 2) *)
| CodeSearch        (* find_code_repo, 3) *)
| BareTitle         (* get_code_link(paper_title) *)
| BareId.           (* get_code_link(paper_key) *)

Definition stage_rank (s : Stage) : nat :=
  match s with
  | HubLookup => 0
  | ReadmeSearch => 1
  | IdSearch => 2
  | CodeSearch => 3
  | BareTitle => 4
  | BareId => 5
  end.

(** What one stage comes back with: a value it returns, nothing, or an
    exception (which its function catches and logs). *)
Inductive Outcome : Type :=
| Found (v : json)
| NotFound
| Raised (e : exn).

Definition value_of (o : Outcome) : json :=
  match o with
  | Found v => v
  | _ => JNull
  end.

(** The stage found a link: the value Python's [or] stops at. *)
Definition success (o : Outcome) : bool := truthy (value_of o).

Definition outcome_of (v : json) : Outcome :=
  if is_None v then NotFound else Found v.

Section Stages.

Variable py_repr : json -> string.

(** One of the three searches of [find_code_repo], taken alone. *)
Definition search_stage (get : M (option Response))
    (picked : Response -> exn + json) : M Outcome :=
  r <- get ;;
  match items_hit r with
  | inl e => emit (ErrFindCodeRepo e) ;; ret (Raised e)
  | inr (Some resp) =>
      match picked resp with
      | inl e => emit (ErrFindCodeRepo e) ;; ret (Raised e)
      | inr v => ret (Found v)
      end
  | inr None => ret NotFound
  end.

Definition run_stage (s : Stage) (paper_title paper_key : string) : M Outcome :=
  match s with
  | HubLookup =>
      v <- get_repo_from_hf py_repr paper_key ;; ret (outcome_of v)
  | ReadmeSearch =>
      search_stage (gh_get GITHUB_SEARCH_REPO (repo_params (q1 paper_title)))
                   first_html_url
  | IdSearch =>
      search_stage (gh_get GITHUB_SEARCH_REPO (repo_params (q2 paper_key)))
                   first_html_url
  | CodeSearch =>
      search_stage (gh_get GITHUB_SEARCH_CODE (code_params (q3 paper_key)))
                   first_repository_url
  | BareTitle => v <- get_code_link paper_title ;; ret (outcome_of v)
  | BareId => v <- get_code_link paper_key ;; ret (outcome_of v)
  end.

(** [Exec t k w steps w']: from [w], the stages of [steps] ran one after
    the other, each with the outcome listed, and left the world [w'];
    nothing else touched the world in between. *)
Inductive Exec (t k : string) : World -> list (Stage * Outcome) -> World -> Prop :=
| Exec_done : forall w, Exec t k w [] w
| Exec_step : forall w s o w1 steps w2,
    run_stage s t k w = (o, w1) ->
    Exec t k w1 steps w2 ->
    Exec t k w ((s, o) :: steps) w2.

End Stages.

(** The value a run of stages ends with. *)
Definition final_value (steps : list (Stage * Outcome)) : json :=
  value_of (snd (last steps (HubLookup, NotFound))).

(** Priorities go up along [steps]. *)
Definition ascending (steps : list (Stage * Outcome)) : Prop :=
  StronglySorted (fun a b => stage_rank (fst a) < stage_rank (fst b)) steps.

(** No stage but the last one found a link. *)
Definition only_last_succeeds (steps : list (Stage * Outcome)) : Prop :=
  Forall (fun so => success (snd so) = false) (removelast steps).

(** A link of the hub, or nothing. *)
Definition none_or_link (v : json) : Prop :=
  v = JNull \/ exists rest, v = JStr ("https://huggingface.co/" ++ rest).

(** [Chain lo hi w steps v w']: a run of stages of priorities in
    [lo, hi) that obeys the first-success rule and ends with [v]. *)
Definition Chain (py_repr : json -> string) (t k : string) (lo hi : nat)
    (w : World) (steps : list (Stage * Outcome)) (v : json) (w' : World) : Prop :=
  Exec py_repr t k w steps w'
  /\ steps <> []
  /\ ascending steps
  /\ Forall (fun so => lo <= stage_rank (fst so) < hi) steps
  /\ only_last_succeeds steps
  /\ v = final_value steps.

(** The [except] clause of [find_code_repo]. *)
Definition find_code_repo_handler (res : exn + json) : M json :=
  match res with
  | inl e => emit (ErrFindCodeRepo e) ;; ret JNull
  | inr v => ret v
  end.

(** [resolve], run from [w], is a first-success run over the stages: a link
    of the hub lookup is its result, with the world as the lookup left
    it; and what it did is a run of stages that starts with the hub
    lookup, goes up in priority, in which no stage but the last found a
    link, and whose last outcome is the result. *)
Definition first_success_run (py_repr : json -> string)
    (paper_title paper_key : string) (resolve : M json) (w : World) : Prop :=
  (forall v w1,
      get_repo_from_hf py_repr paper_key w = (v, w1) ->
      is_None v = false ->
      resolve w = (v, w1))
  /\ exists steps,
       Exec py_repr paper_title paper_key w steps (snd (resolve w))
       /\ (exists o rest, steps = (HubLookup, o) :: rest)
       /\ ascending steps
       /\ only_last_succeeds steps
       /\ fst (resolve w) = final_value steps.

(* ----------------------------------------------------------------- *)
(** ** Stores and batches *)

(** A dict as Python builds it: no key twice. *)
Definition wf_dict {V : Type} (d : dict V) : Prop := NoDup (keys d).

Definition wf_store (s : Store) : Prop :=
  wf_dict s /\ Forall (fun kv => wf_dict (snd kv)) s.

(** The record of [id] under [topic]. *)
Definition lookup (s : Store) (topic id : string) : option string :=
  match assoc topic s with
  | Some papers => assoc id papers
  | None => None
  end.

(** The record a batch gives for [id] under [topic]: the one given last. *)
Fixpoint batch_lookup (batch : list (string * Topic)) (topic id : string)
  : option string :=
  match batch with
  | [] => None
  | (keyword, papers) :: rest =>
      match batch_lookup rest topic id with
      | Some r => Some r
      | None => if (keyword =? topic)%string then assoc id papers else None
      end
  end.

(** One pass of the inner loop, on a pair of the batch. *)
Definition merge_step (jd : Store) (kv : string * Topic) : Store :=
  merge_keyword jd (fst kv) (snd kv).

(** Every topic of the batch is in [m] with all the identifiers the batch
    gives for it. *)
Definition covered (m : Store) (batch : list (string * Topic)) : Prop :=
  forall kw p, In (kw, p) batch ->
    exists ex, assoc kw m = Some ex /\ forall id, In id (keys p) -> In id (keys ex).

(** [m2] has the topics of [m1] in the same order, each with the same
    identifiers in the same order. *)
Definition same_shape (m1 m2 : Store) : Prop :=
  keys m1 = keys m2
  /\ forall topic T, assoc topic m1 = Some T ->
       exists T', assoc topic m2 = Some T' /\ keys T' = keys T.

(** A computation that touches the world through requests and the log
    only. *)
Definition acts {A : Type} (c : M A) : Prop :=
  forall w, exists evs, steps w (snd (c w)) evs.

(** The cell a found link is written in. *)
Definition link_cell (repo_url : string) : string :=
  "|**[link](" ++ repo_url ++ ")**|".

(** [x] is what the backfill may leave in place of the record [c]: [c]
    itself when it does not parse, else its normalized form, or that
    form with a link in place of [|null|]. *)
Definition rewritten (py_repr : json -> string) (c x : string) : Prop :=
  match parse_arxiv_string c with
  | inl _ => x = c
  | inr f =>
      x = normalized f
      \/ (contains "|null|" (normalized f) = true
          /\ exists repo_url,
               is_None repo_url = false
               /\ x = replace "|null|" (link_cell (py_str py_repr repo_url))
                              (normalized f))
  end.

(** [v'] is the topic [v] after a backfill: the same identifiers in the
    same order, each record rewritten. *)
Definition topic_rewritten (py_repr : json -> string) (v v' : Topic) : Prop :=
  keys v' = keys v
  /\ forall id c, assoc id v = Some c ->
       exists x, assoc id v' = Some x /\ rewritten py_repr c x.

(* ----------------------------------------------------------------- *)
(** ** Sample inputs *)

(** No request gets through. *)
Definition silent_world : World :=
  world_of (fun _ _ => Failed "timed out").

(** Every request is answered 200 with a document in which the hub finds
    a model and the code host finds a repository. *)
Definition generous_world : World :=
  world_of (fun _ _ =>
    ok_response
      (JObj [("models", JArr [JObj [("id", JStr "org/model")]]);
             ("items", JArr [JObj [("html_url", JStr "https://github.com/a/b");
                                   ("repository",
                                    JObj [("html_url", JStr "https://github.com/a/b")])]])])).

Definition sample_paper : ArxivResult :=
  mkResult "2108.09112v1" "A Paper" ["Ann Author"; "Bob Builder"]
           (Some "2021-08-20") (Some "2021-08-21").

Definition resolved_row : string :=
  row_resolved "2024-01-02" "Title A" "Ann" "2401.00001"
               "https://arxiv.org/abs/2401.00001" "https://github.com/a/b".

Definition unresolved_row : string :=
  row_unresolved "2024-01-03" "Title B" "Bob" "2401.00002"
                 "https://arxiv.org/abs/2401.00002".

(** A line of the web listing: it has no cell at all. *)
Definition web_row : string :=
  web_resolved "2024-01-02" "Title A" "Ann"
               "https://arxiv.org/abs/2401.00001" "https://github.com/a/b" ++ nl.

(** A row with a link whose title cell reads [null]. *)
Definition null_title_row : string :=
  "|**2024-01-04**|null|Cyd et.al.|[2401.00003](https://arxiv.org/abs/2401.00003)|**[link](https://github.com/c/d)**|"
  ++ nl.

Definition sample_store : Store :=
  [("SLAM", [("2401.00001", resolved_row); ("2401.00002", unresolved_row)]);
   ("NeRF", [("2401.00009", web_row)])].

Definition sample_batch : list Store :=
  [[("SLAM", [("2401.00002", resolved_row); ("2401.00005", unresolved_row)])];
   [("VLM", [("2401.00007", unresolved_row)])]].

Definition no_repr (v : json) : string := "".

(** A store whose one record has a link in its code cell and [null] as
    its title cell. *)
Definition null_title_store : Store :=
  [("SLAM", [("2401.00003", null_title_row)])].

(** A paper whose title holds [|null|], and the store [get_daily_papers]
    writes for it when the hub knows its code. *)
Definition barred_title_paper : ArxivResult :=
  mkResult "2401.00004v2" "a|null|b" ["Dee Doe"]
           (Some "2024-01-05") (Some "2024-01-06").

Definition barred_title_store : Store :=
  fst (fst (get_daily_papers no_repr "SLAM" [barred_title_paper] generous_world)).

(** No record of [m] that parses has [|null|] in its normalized form. *)
Definition no_null_cell (m : Store) : Prop :=
  forall topic T id c f,
    In (topic, T) m -> In (id, c) T ->
    parse_arxiv_string c = inr f ->
    contains "|null|" (normalized f) = false.

(** What the backfill logs without resolving anything. *)
Definition quiet_event (e : Event) : Prop :=
  match e with
  | InfoKeywords _ | ErrProcessing _ _ _ => True
  | _ => False
  end.

(** The world [w] with the text [content] in the file [path]. *)
Definition with_file (path content : string) (w : World) : World :=
  mkWorld (oracle w) (sent w) (trace w) (getenv w)
          (fun p => if (p =? path)%string then Some content else files w p)
          (today w).

(** A world whose store file is there and empty. *)
Definition empty_file_world : World :=
  with_file "docs/store.json" "" silent_world.

(** A parser and a printer that stand for [json.loads] and [json.dump]
    where only their being called matters. *)
Definition no_loads (text : string) : exn + Store := inl JSONDecodeError.
Definition no_dumps (s : Store) : string := "{}".

Definition default_options : Options :=
  mkOptions "Update Readme" false true true true true.

(* ----------------------------------------------------------------- *)
(** ** Math spans *)

(** [c] occurs in [s]. *)
Fixpoint has_char (c : ascii) (s : string) : bool :=
  match s with
  | "" => false
  | String c' s' => Ascii.eqb c' c || has_char c s'
  end.

(** The space [pretty_math] puts next to a neighbour of the span. *)
Definition gap (neighbour : option ascii) : string :=
  if wants_space neighbour then " " else "".

(** What [pretty_math] does with a span [(math_start, math_end)], the
    body of lines 403-411. *)
Definition reformat (span : option (nat * nat)) (s : string) : string :=
  match span with
  | None => s
  | Some (math_start, math_end) =>
      let space_trail :=
        if (0 <? math_start) && wants_space (last_char (take math_start s))
        then " " else "" in
      let space_leading :=
        if (math_end <? String.length s)
           && wants_space (first_char (drop math_end s))
        then " " else "" in
      let group := take (math_end - math_start) (drop math_start s) in
      take math_start s
      ++ space_trail ++ "$"
      ++ strip (drop 1 (take (String.length group - 1) group))
      ++ "$" ++ space_leading
      ++ drop math_end s
  end.




(* ----------------------------------------------------------------- *)
(** ** Order of the rendered records *)

(** [a] comes before [b] in a listing that goes down: [b] is below [a]
    in the order of strings. *)
Definition above (a b : string) : Prop := String.ltb b a = true.

Definition above_or_equal (a b : string) : Prop := String.leb b a = true.


(** The world [w] on another day. *)
Definition with_today (date : string) (w : World) : World :=
  mkWorld (oracle w) (sent w) (trace w) (getenv w) (files w) date.

(** [json.loads] on the one text the samples use. *)
Definition sample_loads (text : string) : exn + Store :=
  if (text =? "sample")%string then inr sample_store else inl JSONDecodeError.

Definition sample_file_world : World :=
  with_file "docs/store.json" "sample" silent_world.

(** The hub knows nothing; the code host finds a repository. *)
Definition code_host_world : World :=
  world_of (fun _ req =>
    if starts_with "https://huggingface.co/" (url req)
    then ok_response (JObj [])
    else ok_response
           (JObj [("items", JArr [JObj [("html_url", JStr "https://github.com/a/b")]])])).

(** The first search of the code host answers with an item that has no
    [html_url]; every later request finds a repository. *)
Definition malformed_world : World :=
  world_of (fun n req =>
    if starts_with "https://huggingface.co/" (url req)
    then ok_response (JObj [])
    else match n with
         | 1 => ok_response (JObj [("items", JArr [JObj []])])
         | _ => ok_response
                  (JObj [("items", JArr [JObj [("html_url", JStr "https://github.com/a/b")]])])
         end).

(* ----------------------------------------------------------------- *)
(** ** Cells of a row *)

Definition bar_free (s : string) : Prop := has_char "|" s = false.

(** The five cells of a parsed row, as [normalized] writes them. *)
Definition cells (f : Fields) : list string :=
  [f_date f; f_title f; f_authors f; f_pdf_field f; f_code f].

(** One of the cells is the text [null]. *)
Definition some_cell_null (f : Fields) : bool :=
  existsb (String.eqb "null") (cells f).

(** Every record of [m] is a row with a link, as [get_daily_papers]
    writes it, made of fields that hold no bar. *)
Definition linked_rows (m : Store) : Prop :=
  forall topic T id c,
    In (topic, T) m -> In (id, c) T ->
    exists update_time paper_title paper_first_author paper_key paper_url repo_url,
      c = row_resolved update_time paper_title paper_first_author paper_key
                       paper_url repo_url
      /\ bar_free update_time /\ bar_free paper_title
      /\ bar_free paper_first_author /\ bar_free paper_key
      /\ bar_free paper_url /\ bar_free repo_url.

(** A store of one topic with one row that has a link. *)
Definition linked_store : Store := [("SLAM", [("2401.00001", resolved_row)])].

(** Two dicts of a batch under the same new topic, and the heap that
    holds them at the addresses 0 and 1. *)
Definition two_objects : Heap :=
  fun a => match a with
           | 0 => [("2401.00001", resolved_row)]
           | 1 => [("2401.00002", unresolved_row)]
           | _ => []
           end.

Definition two_object_batch : list (dict nat) := [[("SLAM", 0)]; [("SLAM", 1)]].

(* ----------------------------------------------------------------- *)
(** ** Counting what a run did *)

Fixpoint count_sleeps (evs : list Event) : nat :=
  match evs with
  | [] => 0
  | EvSleep :: rest => S (count_sleeps rest)
  | _ :: rest => count_sleeps rest
  end.

(** The attempt ended in an exception. *)
Definition raised (a : Attempt) : bool :=
  match a with
  | Failed _ => true
  | Responded _ => false
  end.

Definition is_some {A : Type} (o : option A) : bool :=
  match o with Some _ => true | None => false end.

(** The log entry that closes a failed [http_get]. *)
Definition failure_entry (e : Event) : bool :=
  match e with
  | ErrFailed _ _ => true
  | _ => false
  end.

(** A computation that leaves the files alone and sends at most [n]
    requests, whatever the world answers. *)
Definition sends_at_most {A : Type} (n : nat) (c : M A) : Prop :=
  forall w, exists evs, steps w (snd (c w)) evs /\ count_gets evs <= n.

(* ----------------------------------------------------------------- *)
(** ** Records that wait for a link *)

(** The backfill resolves the record [c] again: it parses, and its
    normalized form has [|null|]. *)
Definition needs_link (c : string) : bool :=
  match parse_arxiv_string c with
  | inr f => contains "|null|" (normalized f)
  | inl _ => false
  end.

Definition pending_in (v : Topic) : nat :=
  List.length (filter (fun r => needs_link (snd r)) v).

(** The number of records of [m] the backfill resolves again. *)
Definition pending (m : Store) : nat :=
  list_sum (map (fun kv => pending_in (snd kv)) m).

(** The requests one resolution may send: six sources, each asked
    [default_retries + 1] times at most. *)
Definition resolution_budget : nat := 6 * Z.to_nat (default_retries + 1).

(** What the backfill makes of a record when no link is found. *)
Definition normalize_record (c : string) : string :=
  match parse_arxiv_string c with
  | inl _ => c
  | inr f => normalized f
  end.

Definition normalize_topic (v : Topic) : Topic :=
  map (fun r => (fst r, normalize_record (snd r))) v.

Definition normalize_store (m : Store) : Store :=
  map (fun kv => (fst kv, normalize_topic (snd kv))) m.

(** No request is ever answered with status 200: the network is down,
    or every answer is an error or a refusal. *)
Definition unanswered (w : World) : Prop :=
  forall k req, is_200 (oracle w k req) = false.

(** The fields [get_daily_papers] reads off a search result (lines
    248-264). *)
Definition first_author_of (r : ArxivResult) : string :=
  get_authors (authors r) true.

Definition update_time_of (r : ArxivResult) : string :=
  match updated r with
  | Some d => d
  | None => match published r with Some d => d | None => "" end
  end.

Definition key_of (r : ArxivResult) : string := paper_key_of (short_id r).

Definition url_of (r : ArxivResult) : string := arxiv_url ++ "abs/" ++ key_of r.

(** The two records written for a paper without a link, and the two
    written for a paper with the link [repo_url]. *)
Definition unresolved_record (r : ArxivResult) : string :=
  row_unresolved (update_time_of r) (title r) (first_author_of r) (key_of r)
                 (url_of r).

Definition unresolved_web_record (r : ArxivResult) : string :=
  web_unresolved (update_time_of r) (title r) (first_author_of r) (url_of r) ++ nl.

Definition resolved_record (r : ArxivResult) (repo_url : string) : string :=
  row_resolved (update_time_of r) (title r) (first_author_of r) (key_of r)
               (url_of r) repo_url.

Definition resolved_web_record (r : ArxivResult) (repo_url : string) : string :=
  web_resolved (update_time_of r) (title r) (first_author_of r) (url_of r) repo_url
  ++ nl.

(** In a world where nothing is answered, [c] returns [a] after exactly
    [n] requests and leaves the files alone. *)
Definition gives_up {A : Type} (n : nat) (a : A) (c : M A) : Prop :=
  forall w, unanswered w ->
    fst (c w) = a
    /\ exists evs, steps w (snd (c w)) evs /\ count_gets evs = n.

(** The pure part of one pass of the backfill when no link is found. *)
Definition normalize_step (v : Topic) (entry : string * string) : Topic :=
  match parse_arxiv_string (snd entry) with
  | inl _ => v
  | inr f => dict_set v (fst entry) (normalized f)
  end.

(** [rec] and [web] are the two records [get_daily_papers] writes for
    the search result [r]: the pair without a link, or the pair with
    one and the same link. *)
Definition recorded (r : ArxivResult) (rec web : string) : Prop :=
  (rec = unresolved_record r /\ web = unresolved_web_record r)
  \/ exists repo_url,
       rec = resolved_record r repo_url /\ web = resolved_web_record r repo_url.

(** The number of times [c] occurs in [s]. *)
Fixpoint count_char (c : ascii) (s : string) : nat :=
  match s with
  | "" => 0
  | String c' s' => (if Ascii.eqb c' c then 1 else 0) + count_char c s'
  end.

(** The first character of [s] is there and is not white space. *)
Definition starts_black (s : string) : Prop :=
  match s with
  | "" => False
  | String c _ => is_space c = false
  end.

(** A key as the table holds it: no ["]"], no line break, no white space
    around it, no ["v"]. *)
Definition plain_key (k : string) : Prop :=
  has_char "]" k = false /\ has_char newline k = false
  /\ strip k = k /\ v_free k.

(** [json.loads] reads back the store [stored] from what [json.dump]
    writes for it, which is not the empty text. *)
Definition reads_back (json_loads : string -> exn + Store)
    (json_dumps : Store -> string) (stored : Store) : Prop :=
  json_loads (json_dumps stored) = inr stored /\ json_dumps stored <> "".

(** The literature search never gives more entries than it is asked
    for. *)
Definition honours_limit (s : Session) : Prop :=
  forall k query n, List.length (fst (arxiv s k query n)) <= Z.to_nat n.

(** [s'] is [s] after a computation that left the files, the date and
    the answers of the network as they were, sent [requests] requests
    at most, and ran [lo] to [hi] searches. *)
Definition advanced (s s' : Session) (requests lo hi : nat) : Prop :=
  arxiv s' = arxiv s
  /\ searches s + lo <= searches s' <= searches s + hi
  /\ files (world s') = files (world s)
  /\ today (world s') = today (world s)
  /\ oracle (world s') = oracle (world s)
  /\ sent (world s) <= sent (world s') <= sent (world s) + requests.

(** [d] is a pair of batches [get_daily_papers] returns for the topic of
    the entry [kq] of the configuration. *)
Definition batch_of (py_repr : json -> string) (kq : string * string)
    (d : Store * Store) : Prop :=
  exists results w, fst (get_daily_papers py_repr (fst kq) results w) = d.

(** The six files of a configuration. *)
Definition paths (c : Config) : list string :=
  [json_readme_path c; md_readme_path c; json_gitpage_path c;
   md_gitpage_path c; json_wechat_path c; md_wechat_path c].

(** The configuration [c] with other topics and another limit. *)
Definition with_keywords (keywords : dict string) (n : Z) (c : Config) : Config :=
  mkConfig keywords n (publish_readme c) (publish_gitpage c) (publish_wechat c)
           (config_show_badge c) (config_update_paper_links c)
           (json_readme_path c) (md_readme_path c)
           (json_gitpage_path c) (md_gitpage_path c)
           (json_wechat_path c) (md_wechat_path c).

(** The query [load_config] builds from the filters of a topic. *)
Definition query_of (filters : list string) : string :=
  String.concat " OR " (map (fun f => "all:" ++ quote_if_needed f) filters).

(** The entry [v] of [keywords] gives the list of strings [filters] under
    its key [filters]. *)
Definition has_filters (v : json) (filters : list string) : Prop :=
  subscript_str v "filters" = inr (JArr (map JStr filters)).

(** The characters of [s], one string each. *)
Fixpoint letters (s : string) : list string :=
  match s with
  | "" => []
  | String c s' => String c "" :: letters s'
  end.

(* ----------------------------------------------------------------- *)
(** ** The answer of the hub *)

(** The entry [it] of the hub's answer has the identifier [id], or none
    ([None]: no key [id], or [null] under it). *)
Definition id_of (it : json) (id : option string) : Prop :=
  get_method it "id" JNull
  = inr (match id with Some s => JStr s | None => JNull end).

(** The answer [data] lists the entries with the identifiers [ids] under
    [category]; a category that is missing or [null] lists nothing. *)
Definition lists (data : json) (category : string) (ids : list (option string))
  : Prop :=
  exists arr,
    get_method data category JNull = inr arr
    /\ ((arr = JNull /\ ids = [])
        \/ exists items, arr = JArr items /\ Forall2 id_of items ids).

(** The first identifier that is not empty. *)
Fixpoint first_id (ids : list (option string)) : option string :=
  match ids with
  | [] => None
  | Some (String c s) :: _ => Some (String c s)
  | _ :: rest => first_id rest
  end.

Definition hub_link (category id : string) : json :=
  JStr ("https://huggingface.co/" ++ category ++ "/" ++ id).

(** The choice the docstring of [get_repo_from_hf] describes: Spaces,
    then Models, then Datasets. *)
Definition hub_choice (spaces models datasets : list (option string)) : json :=
  match first_id spaces with
  | Some id => hub_link "spaces" id
  | None =>
      match first_id models with
      | Some id => hub_link "models" id
      | None =>
          match first_id datasets with
          | Some id => hub_link "datasets" id
          | None => JNull
          end
      end
  end.

(* ----------------------------------------------------------------- *)
(** ** Where the requests go *)

(** The token of the environment [env]: [MY_GITHUB_TOKEN] when it is set
    and not empty, else [GITHUB_TOKEN] when it is set and not empty. *)
Definition token_of (env : string -> option string) : option string :=
  match env "MY_GITHUB_TOKEN" with
  | Some (String c t) => Some (String c t)
  | _ =>
      match env "GITHUB_TOKEN" with
      | Some (String c t) => Some (String c t)
      | _ => None
      end
  end.

(** A request the resolution may send from the world [w0]: a lookup of
    the hub with the headers of the hub, or one of the two searches of
    the code host with the headers of the code host. *)
Definition allowed (w0 : World) (req : Request) : Prop :=
  (exists key, req = hf_request key)
  \/ exists u ps,
       (u = GITHUB_SEARCH_REPO \/ u = GITHUB_SEARCH_CODE)
       /\ req = mkRequest u (GH_HEADERS w0) (Some ps) 10.

Definition polite (w0 : World) (e : Event) : Prop :=
  match e with
  | EvGet req => allowed w0 req
  | _ => True
  end.

(** Whatever it is run from, [c] sends allowed requests only. *)
Definition discreet {A : Type} (c : M A) : Prop :=
  forall w, exists evs, steps w (snd (c w)) evs /\ Forall (polite w) evs.

(* ----------------------------------------------------------------- *)
(** ** More sample inputs *)

(** A store of one line of the web listing. *)
Definition web_store : Store := [("NeRF", [("2401.00009", web_row)])].

(** A topic in order, newest identifier first. *)
Definition ordered_topic : Topic :=
  [("2401.00002", unresolved_row); ("2401.00001", resolved_row)].

(** A printer and a parser for the two texts a sample run meets: the
    text of the sample file, and the text written for any store. *)
Definition merged_dumps (s : Store) : string := "merged".

Definition merged_loads (text : string) : exn + Store :=
  if (text =? "sample")%string then inr sample_store
  else if (text =? "merged")%string
       then inr (merge_all sample_store sample_batch)
       else inl JSONDecodeError.

(** A session in which every search is empty. *)
Definition quiet_session : Session :=
  mkSession sample_file_world [] (fun _ _ _ => ([], Exhausted)) 0.

(** A configuration that publishes the README only, and the batches a
    daily run collects for it in [quiet_session]. *)
Definition sample_config : Config :=
  mkConfig [("SLAM", "all:SLAM")] 2 true false false true false
           "docs/store.json" "README.md"
           "docs/gitpage.json" "docs/index.md"
           "docs/wechat.json" "docs/wechat.md".

(** A configuration document, the text that stands for it, and the
    filters of its topics. *)
Definition sample_document : list (string * json) :=
  [("max_results", JNum 2);
   ("keywords",
    JObj [("SLAM", JObj [("filters", JArr [JStr "SLAM"; JStr "Visual Odometry"])]);
          ("NeRF", JObj [("filters", JArr [JStr " NeRF "])])])].

Definition sample_yaml (text : string) : exn + json :=
  if (text =? "document")%string then inr (JObj sample_document)
  else inl JSONDecodeError.

Definition sample_filters : list (string * list string) :=
  [("SLAM", ["SLAM"; "Visual Odometry"]); ("NeRF", [" NeRF "])].

Definition config_session : Session :=
  mkSession (with_file "config.yaml" "document" silent_world) []
            (fun _ _ _ => ([], Exhausted)) 0.

(** The document every request is answered with in [generous_world]. *)
Definition generous_document : json :=
  JObj [("models", JArr [JObj [("id", JStr "org/model")]]);
        ("items", JArr [JObj [("html_url", JStr "https://github.com/a/b");
                              ("repository",
                               JObj [("html_url", JStr "https://github.com/a/b")])]])].

(** A later version of the paper [linked_store] has a record for. *)
Definition known_paper : ArxivResult :=
  mkResult "2401.00001v2" "Title A" ["Ann"] (Some "2024-01-02") None.

(** [s] without its white space. *)
Fixpoint squeeze (s : string) : string :=
  match s with
  | "" => ""
  | String c s' => if is_space c then squeeze s' else String c (squeeze s')
  end.

(* ----------------------------------------------------------------- *)
(** ** The cells of a row after a link was found *)

(** The text of the cell a found link is written in. *)
Definition link_text (repo_url : string) : string :=
  "**[link](" ++ repo_url ++ ")**".

(** The cells [cs], each followed by a bar, and the end of the line. *)
Fixpoint row_tail (cs : list string) : string :=
  match cs with
  | [] => nl
  | c :: rest => c ++ String "|" (row_tail rest)
  end.

(** The row of the table that has the cells [cs]. *)
Definition table_row (cs : list string) : string := String "|" (row_tail cs).

(** The cells [cs] after the link went in: from left to right, a cell
    that reads [null] takes the text [link], and the cell after it is
    left as it is, whatever it reads. *)
Fixpoint with_link (link : string) (cs : list string) : list string :=
  match cs with
  | [] => []
  | c :: rest =>
      if ("null" =? c)%string
      then link :: match rest with
                   | [] => []
                   | c' :: rest' => c' :: with_link link rest'
                   end
      else c :: with_link link rest
  end.

(* ----------------------------------------------------------------- *)
(** ** The searches of a run *)

(** The search of [query] limited to [n] entries, run as search number
    [k], ends on an empty page. *)
Definition empty_page (feed : nat -> string -> Z -> Feed) (k : nat)
    (query : string) (n : Z) : bool :=
  match snd (feed k query n) with
  | UnexpectedEmptyPageError _ => true
  | _ => false
  end.

(** The entries of search number [k], followed after an empty page by
    those of search number [k + 1], limited to [min n 25] entries. *)
Definition search_entries (feed : nat -> string -> Z -> Feed) (k : nat)
    (query : string) (n : Z) : list ArxivResult :=
  if empty_page feed k query n
  then (fst (feed k query n) ++ fst (feed (S k) query (Z.min n 25)))%list
  else fst (feed k query n).

(** A search that ends on an empty page after one entry the first time
    it is run, and gives two entries afterwards; no search gives more
    entries than it is asked for. *)
Definition paged_feed (k : nat) (query : string) (n : Z) : Feed :=
  match k with
  | 0 => (firstn (Z.to_nat n) [sample_paper],
          UnexpectedEmptyPageError "Page of results was unexpectedly empty")
  | _ => (firstn (Z.to_nat n) [known_paper; sample_paper], Exhausted)
  end.

Definition paged_session : Session :=
  mkSession sample_file_world [] paged_feed 0.

(** The session in which a daily run of [demo] starts to collect. *)
Definition daily_begun (s : Session) : Session :=
  snd (say InfoDailyBegin (snd (say (InfoUpdatePaperLink false) s))).

(** The batches a daily run of [demo] collects from the session [s]:
    the table batches and the web batches. *)
Definition collected (py_repr : json -> string) (c : Config) (s : Session)
  : list Store * list Store :=
  fst (collect py_repr (kv c) (max_results c) [] [] (daily_begun s)).

(** The number of searches run when the loop over [keywords] ends, [k]
    of them having been run before it: one for each topic, and one more
    for a topic whose first search ends on an empty page. *)
Fixpoint searches_after (feed : nat -> string -> Z -> Feed) (n : Z)
    (keywords : list (string * string)) (k : nat) : nat :=
  match keywords with
  | [] => k
  | (_, query) :: rest =>
      searches_after feed n rest
                     (if empty_page feed k query n then k + 2 else k + 1)
  end.

(** A configuration that publishes the three targets, and the same in
    the mode that updates links. *)
Definition full_config : Config :=
  mkConfig [("SLAM", "all:SLAM")] 2 true true true true false
           "docs/store.json" "README.md"
           "docs/gitpage.json" "docs/index.md"
           "docs/wechat.json" "docs/wechat.md".

Definition backfill_config : Config :=
  mkConfig [("SLAM", "all:SLAM")] 2 true true true true true
           "docs/store.json" "README.md"
           "docs/gitpage.json" "docs/index.md"
           "docs/wechat.json" "docs/wechat.md".

(** A printer that writes the topics of a store and their records one
    after the other, and the parser that reads back what this printer
    wrote for one of the stores [known]. *)
Definition flat_dumps (s : Store) : string :=
  "{" ++ String.concat ";"
           (map (fun kv =>
                   fst kv ++ ":"
                   ++ String.concat "," (map (fun r => fst r ++ "=" ++ snd r) (snd kv)))
                s)
  ++ "}".

Definition loads_of (known : list Store) (text : string) : exn + Store :=
  match List.find (fun s => (flat_dumps s =? text)%string) known with
  | Some s => inr s
  | None => inl JSONDecodeError
  end.

(** A session whose three store files are there: the one of the README
    holds the sample store, the one of the page is empty, the third
    holds a web listing; no request is answered, and the first search
    ends on an empty page. *)
Definition full_world : World :=
  with_file "docs/wechat.json" (flat_dumps web_store)
    (with_file "docs/gitpage.json" ""
       (with_file "docs/store.json" (flat_dumps sample_store) silent_world)).

Definition full_session : Session := mkSession full_world [] paged_feed 0.

(** The batches of a daily run in [full_session], and the parser of the
    texts such a run reads. *)
Definition full_batches : list Store * list Store :=
  collected no_repr full_config full_session.

Definition full_loads : string -> exn + Store :=
  loads_of [sample_store; web_store;
            merge_all sample_store (fst full_batches);
            merge_all [] (fst full_batches);
            merge_all web_store (snd full_batches)].

(* ================================================================= *)
(** * Part III: properties *)
(* ================================================================= *)

Example strip_ex : strip "  a b  " = "a b".
Proof. reflexivity. Qed.

Example split_ex : split "|" "|a|b|" = [""; "a"; "b"; ""].
Proof. reflexivity. Qed.

Example replace_ex : replace "|null|" "|x|" "|a|null|null|" = "|a|x|null|".
Proof. reflexivity. Qed.

Example search_math_ex : search_math "a$x$b$y$c" = Some (1, 8).
Proof. reflexivity. Qed.

Example sub_version_ex : sub_version "2108.09112v12" = "2108.09112".
Proof. reflexivity. Qed.

Example sub_version_ex2 : sub_version "solv-int/9901001v1" = "solv-int/9901001".
Proof. reflexivity. Qed.

Example paper_key_ex : paper_key_of "2108.09112v1" = "2108.09112".
Proof. reflexivity. Qed.

Example pretty_math_ex :
  pretty_math "Result on CIFAR-10 is $x=0.9$great"
  = "Result on CIFAR-10 is $x=0.9$ great".
Proof. reflexivity. Qed.

Example sort_desc_ex : sort_desc ["2401.1"; "2403.2"; "2402.9"] = ["2403.2"; "2402.9"; "2401.1"].
Proof. reflexivity. Qed.

(* ----------------------------------------------------------------- *)
(** ** Canonical paper key *)

Lemma find_lower_bound (sub s : string) : (-1 <= find sub s)%Z.
Proof.
  induction s as [| c s IH]; cbn [find].
  - destruct (starts_with sub ""); lia.
  - destruct (starts_with sub (String c s)); [lia |].
    cbv zeta. destruct (find sub s =? -1)%Z eqn:E; lia.
Qed.

Lemma starts_with_v_cons (c : ascii) (s : string) :
  starts_with "v" (String c s) = Ascii.eqb c "v".
Proof.
  cbn [starts_with]. rewrite Ascii.eqb_sym. now destruct s, (Ascii.eqb c "v").
Qed.

(** The key is computed one character at a time: it stops at the first
    ["v"], whatever follows. *)
Lemma paper_key_of_cons (c : ascii) (s : string) :
  paper_key_of (String c s)
  = if Ascii.eqb c "v" then "" else String c (paper_key_of s).
Proof.
  unfold paper_key_of.
  change (find "v" (String c s))
    with (if starts_with "v" (String c s) then 0%Z
          else let r := find "v" s in
               if (r =? -1)%Z then (-1)%Z else (r + 1)%Z).
  rewrite starts_with_v_cons.
  destruct (Ascii.eqb c "v"); [reflexivity |].
  cbv zeta.
  pose proof (find_lower_bound "v" s) as Hlb.
  destruct (find "v" s =? -1)%Z eqn:E.
  - reflexivity.
  - apply Z.eqb_neq in E.
    replace (find "v" s + 1 =? -1)%Z with false by (symmetry; apply Z.eqb_neq; lia).
    replace (Z.to_nat (find "v" s + 1)) with (S (Z.to_nat (find "v" s))) by lia.
    reflexivity.
Qed.

Lemma paper_key_of_nil : paper_key_of "" = "".
Proof. reflexivity. Qed.

Lemma paper_key_of_v_free (s : string) : v_free (paper_key_of s).
Proof.
  induction s as [| c s IH]; [exact I |].
  rewrite paper_key_of_cons.
  destruct (Ascii.eqb c "v") eqn:E; [exact I |].
  apply Ascii.eqb_neq in E. now split.
Qed.

Lemma paper_key_of_fixed (s : string) : v_free s -> paper_key_of s = s.
Proof.
  induction s as [| c s IH]; [reflexivity |].
  intros [Hc Hs]. rewrite paper_key_of_cons.
  apply Ascii.eqb_neq in Hc. rewrite Hc. now rewrite IH.
Qed.

(** On an identifier whose part before the version has no ["v"], as in
    [2108.09112v1], the key is that part. *)
Lemma paper_key_of_strips_version (base version : string) :
  v_free base -> paper_key_of (base ++ String "v" version) = base.
Proof.
  induction base as [| c base IH]; intros H.
  - simpl append. now rewrite paper_key_of_cons.
  - destruct H as [Hc Hb]. simpl append. rewrite paper_key_of_cons.
    apply Ascii.eqb_neq in Hc. rewrite Hc. now rewrite IH.
Qed.

(** The key of a key is the key. *)
Lemma paper_key_of_stable (s : string) :
  paper_key_of (paper_key_of s) = paper_key_of s.
Proof. apply paper_key_of_fixed, paper_key_of_v_free. Qed.

(** C6.  An identifier of the old scheme whose archive name holds a ["v"],
    [solv-int/9901001v1], loses everything from that letter on: its key is
    ["sol"], not [solv-int/9901001], and the same happens without a version
    suffix.  The removal of the version in [parse_arxiv_string] keeps the
    archive name on both. *)
Theorem paper_key_of_old_scheme :
  paper_key_of "solv-int/9901001v1" = "sol"
  /\ paper_key_of "solv-int/9901001" = "sol"
  /\ sub_version "solv-int/9901001v1" = "solv-int/9901001"
  /\ sub_version "solv-int/9901001" = "solv-int/9901001".
Proof. repeat split. Qed.

(* ----------------------------------------------------------------- *)
(** ** What a computation does to the world *)

Lemma count_gets_app (a b : list Event) :
  count_gets (a ++ b) = count_gets a + count_gets b.
Proof.
  induction a as [| e a IH]; [reflexivity |].
  destruct e; simpl; rewrite IH; reflexivity.
Qed.

Lemma steps_refl (w : World) : steps w w [].
Proof.
  unfold steps. rewrite app_nil_r. simpl. repeat split; lia.
Qed.

Lemma steps_trans (w1 w2 w3 : World) (e1 e2 : list Event) :
  steps w1 w2 e1 -> steps w2 w3 e2 -> steps w1 w3 (e1 ++ e2).
Proof.
  unfold steps. intros (A1 & A2 & A3 & A4 & A5 & A6) (B1 & B2 & B3 & B4 & B5 & B6).
  rewrite count_gets_app, app_assoc.
  repeat split; try congruence. lia.
Qed.

Lemma steps_emit (e : Event) (w : World) :
  count_gets [e] = 0 -> steps w (snd (emit e w)) [e].
Proof.
  intros H. unfold steps. simpl snd. cbn [oracle getenv files today trace sent].
  rewrite H. repeat split; lia.
Qed.

Lemma steps_requests_get (req : Request) (w : World) :
  steps w (snd (requests_get req w)) [EvGet req].
Proof.
  unfold steps. simpl. repeat split; lia.
Qed.

(* ----------------------------------------------------------------- *)
(** ** [http_get] *)

Lemma bind_run {A B : Type} (c : M A) (k : A -> M B) (w : World) :
  bind c k w = k (fst (c w)) (snd (c w)).
Proof. unfold bind. now destruct (c w). Qed.

Lemma steps_when (b : bool) (e : Event) (w : World) :
  count_gets [e] = 0 ->
  steps w (snd (when b (emit e) w)) (if b then [e] else []).
Proof.
  intros H. destruct b; [now apply steps_emit | apply steps_refl].
Qed.

Lemma answer_after (w w' : World) (evs : list Event) (req : Request) (k : nat) :
  steps w w' evs -> answer w' req k = answer w req (count_gets evs + k).
Proof.
  intros (Ho & _ & _ & _ & _ & Hs). unfold answer. rewrite Ho, Hs.
  f_equal. lia.
Qed.

Lemma http_get_loop_spec (req : Request) (retries : Z) :
  forall (n : nat) (i : Z) (le : option string) (w : World),
  exists evs,
    steps w (snd (http_get_loop req retries n i le w)) evs
    /\ count_gets evs <= n
    /\ (forall r, fst (fst (http_get_loop req retries n i le w)) = Some r ->
          status_code r = 200%Z
          /\ exists k, count_gets evs = S k
                       /\ answer w req k = Responded r
                       /\ forall j, j < k -> is_200 (answer w req j) = false)
    /\ (fst (fst (http_get_loop req retries n i le w)) = None ->
          count_gets evs = n
          /\ forall j, j < n -> is_200 (answer w req j) = false)
    /\ (In ErrForbidden evs <->
          exists j r, j < count_gets evs
                      /\ answer w req j = Responded r
                      /\ status_code r = 403%Z).
Proof.
  induction n as [| n IH]; intros i le w.
  - exists []. simpl. split; [apply steps_refl |].
    split; [lia |]. split; [discriminate |].
    split; [intros _; split; [reflexivity | intros j Hj; lia] |].
    split; [intros [] | intros (j & r & Hj & _); lia].
  - cbn [http_get_loop]. rewrite bind_run.
    pose proof (steps_requests_get req w) as Hget.
    set (w1 := snd (requests_get req w)) in *.
    change (fst (requests_get req w)) with (oracle w (sent w) req).
    assert (Ans0 : oracle w (sent w) req = answer w req 0)
      by (unfold answer; now rewrite Nat.add_0_r).
    rewrite Ans0. clearbody w1.
    destruct (answer w req 0) as [r | e] eqn:Ans.
    + destruct (status_code r =? 200)%Z eqn:E200.
      * (* the attempt succeeds *)
        exists [EvGet req]. unfold ret. cbn [fst snd count_gets].
        split; [exact Hget |]. split; [lia |].
        split.
        { intros r' [= <-]. split; [now apply Z.eqb_eq |].
          exists 0. repeat split; [exact Ans | intros j Hj; lia]. }
        split; [discriminate |].
        split.
        { intros [H | []]. discriminate. }
        { intros (j & r' & Hj & Hr' & H403).
          assert (j = 0) by lia. subst j. rewrite Ans in Hr'.
          injection Hr' as <-. apply Z.eqb_eq in E200. lia. }
      * (* any other status: warn, flag a 403, sleep, go on *)
        set (warn := WarnStatus (url req) (status_code r) (i + 1) (retries + 1)).
        set (flag := if (status_code r =? 403)%Z then [ErrForbidden] else []).
        rewrite !bind_run.
        pose proof (steps_emit warn w1 eq_refl) as S2.
        set (w2 := snd (emit warn w1)) in *.
        pose proof (steps_when (status_code r =? 403)%Z ErrForbidden w2 eq_refl) as S3.
        fold flag in S3.
        set (w3 := snd (when (status_code r =? 403)%Z (emit ErrForbidden) w2)) in *.
        pose proof (steps_emit EvSleep w3 eq_refl) as S4.
        set (w4 := snd (emit EvSleep w3)) in *.
        clearbody w2 w3 w4.
        destruct (IH (i + 1)%Z le w4) as (evs & S5 & Hle & Hsome & Hnone & H403).
        pose proof (steps_trans _ _ _ _ _ Hget
                     (steps_trans _ _ _ _ _ S2
                       (steps_trans _ _ _ _ _ S3 S4))) as Hpre.
        pose proof (steps_trans _ _ _ _ _ Hpre S5) as Hall.
        assert (Hflag : count_gets flag = 0)
          by (unfold flag; now destruct (status_code r =? 403)%Z).
        assert (Hcpre : count_gets ([EvGet req] ++ [warn] ++ flag ++ [EvSleep]) = 1).
        { rewrite !count_gets_app, Hflag. reflexivity. }
        assert (Hans4 : forall j, answer w4 req j = answer w req (S j)).
        { intros j. rewrite (answer_after _ _ _ req j Hpre), Hcpre. reflexivity. }
        exists (([EvGet req] ++ [warn] ++ flag ++ [EvSleep]) ++ evs)%list.
        rewrite count_gets_app, Hcpre.
        split; [exact Hall |]. split; [simpl; lia |].
        split.
        { intros r' Hr'. destruct (Hsome r' Hr') as (H200 & k & Hk & Hak & Hbefore).
          split; [exact H200 |]. exists (S k).
          split; [simpl; now rewrite Hk |]. split; [now rewrite <- Hans4 |].
          intros [| j] Hj.
          - rewrite Ans. simpl. exact E200.
          - rewrite <- Hans4. apply Hbefore. lia. }
        split.
        { intros Hn. destruct (Hnone Hn) as (Hc & Hbefore).
          split; [simpl; now rewrite Hc |].
          intros [| j] Hj.
          - rewrite Ans. simpl. exact E200.
          - rewrite <- Hans4. apply Hbefore. lia. }
        split.
        { intros Hin. apply in_app_or in Hin. destruct Hin as [Hin | Hin].
          - exists 0, r. split; [simpl; lia |]. split; [exact Ans |].
            simpl in Hin. destruct Hin as [Hin | [Hin | Hin]];
              [discriminate | discriminate |].
            apply in_app_or in Hin. destruct Hin as [Hin | Hin].
            + unfold flag in Hin.
              destruct (status_code r =? 403)%Z eqn:E; [| destruct Hin].
              now apply Z.eqb_eq.
            + simpl in Hin. destruct Hin as [Hin | []]. discriminate.
          - apply H403 in Hin. destruct Hin as (j & r' & Hj & Hr' & Hs).
            exists (S j), r'. split; [simpl; lia |].
            split; [now rewrite <- Hans4 | exact Hs]. }
        { intros (j & r' & Hj & Hr' & Hs). apply in_or_app.
          destruct j as [| j].
          - left. rewrite Ans in Hr'. injection Hr' as <-.
            simpl. right. right. apply in_or_app. left.
            unfold flag. apply Z.eqb_eq in Hs. rewrite Hs. now left.
          - right. apply H403. exists j, r'.
            split; [simpl in Hj; lia |]. split; [now rewrite Hans4 | exact Hs]. }
    + (* requests.get raised *)
      set (warn := WarnException (url req) e (i + 1) (retries + 1)).
      rewrite !bind_run.
      pose proof (steps_emit warn w1 eq_refl) as S2.
      set (w2 := snd (emit warn w1)) in *.
      pose proof (steps_emit EvSleep w2 eq_refl) as S3.
      set (w3 := snd (emit EvSleep w2)) in *.
      clearbody w2 w3.
      destruct (IH (i + 1)%Z (Some e) w3) as (evs & S5 & Hle & Hsome & Hnone & H403).
      pose proof (steps_trans _ _ _ _ _ Hget (steps_trans _ _ _ _ _ S2 S3)) as Hpre.
      pose proof (steps_trans _ _ _ _ _ Hpre S5) as Hall.
      assert (Hans3 : forall j, answer w3 req j = answer w req (S j)).
      { intros j. now rewrite (answer_after _ _ _ req j Hpre). }
      exists (([EvGet req] ++ [warn] ++ [EvSleep]) ++ evs)%list.
      rewrite count_gets_app.
      change (count_gets ([EvGet req] ++ [warn] ++ [EvSleep])) with 1.
      split; [exact Hall |]. split; [simpl; lia |].
      split.
      { intros r' Hr'. destruct (Hsome r' Hr') as (H200 & k & Hk & Hak & Hbefore).
        split; [exact H200 |]. exists (S k).
        split; [simpl; now rewrite Hk |]. split; [now rewrite <- Hans3 |].
        intros [| j] Hj.
        - now rewrite Ans.
        - rewrite <- Hans3. apply Hbefore. lia. }
      split.
      { intros Hn. destruct (Hnone Hn) as (Hc & Hbefore).
        split; [simpl; now rewrite Hc |].
        intros [| j] Hj.
        - now rewrite Ans.
        - rewrite <- Hans3. apply Hbefore. lia. }
      split.
      { intros Hin. apply in_app_or in Hin. destruct Hin as [Hin | Hin].
        - simpl in Hin. destruct Hin as [Hin | [Hin | [Hin | []]]]; discriminate.
        - apply H403 in Hin. destruct Hin as (j & r' & Hj & Hr' & Hs).
          exists (S j), r'. split; [simpl; lia |].
          split; [now rewrite <- Hans3 | exact Hs]. }
      { intros (j & r' & Hj & Hr' & Hs). apply in_or_app. right.
        destruct j as [| j].
        - rewrite Ans in Hr'. discriminate.
        - apply H403. exists j, r'.
          split; [simpl in Hj; lia |]. split; [now rewrite Hans3 | exact Hs]. }
Qed.

(** C7.  With [0 <= retries], [http_get] sends at most [retries + 1]
    requests.  When it returns a response, that response has status 200
    and answered the last request sent, every earlier request having
    failed or received another status.  When it returns [None], all
    [retries + 1] requests were sent and none received status 200.
    [http_get] has no other outcome: it never raises.  A 403 puts
    [ErrForbidden] in the log, and only a 403 does; whether the loop goes
    on depends on the status being 200 or not, on nothing else. *)
Theorem http_get_bounded_retries (req : Request) (retries : Z) (w : World) :
  (0 <= retries)%Z ->
  exists evs,
    steps w (snd (http_get req retries w)) evs
    /\ (Z.of_nat (count_gets evs) <= retries + 1)%Z
    /\ (forall r, fst (http_get req retries w) = Some r ->
          status_code r = 200%Z
          /\ exists k, count_gets evs = S k
                       /\ answer w req k = Responded r
                       /\ forall j, j < k -> is_200 (answer w req j) = false)
    /\ (fst (http_get req retries w) = None ->
          Z.of_nat (count_gets evs) = (retries + 1)%Z
          /\ forall j, j < count_gets evs -> is_200 (answer w req j) = false)
    /\ (In ErrForbidden evs <->
          exists j r, j < count_gets evs
                      /\ answer w req j = Responded r
                      /\ status_code r = 403%Z).
Proof.
  intros Hr. unfold http_get. rewrite bind_run.
  destruct (http_get_loop_spec req retries (Z.to_nat (retries + 1)) 0%Z None w)
    as (evs & S1 & Hle & Hsome & Hnone & H403).
  destruct (http_get_loop req retries (Z.to_nat (retries + 1)) 0 None w)
    as [[res le] w1] eqn:Hloop.
  cbn [fst snd] in *.
  destruct res as [r |].
  - exists evs. unfold ret. cbn [fst snd].
    split; [exact S1 |]. split; [lia |].
    split; [exact Hsome |]. split; [discriminate | exact H403].
  - rewrite bind_run. unfold ret. cbn [fst snd].
    set (b := match le with Some _ => true | None => false end).
    set (e := ErrFailed (url req) (retries + 1)).
    pose proof (steps_when b e w1 eq_refl) as S2.
    pose proof (steps_trans _ _ _ _ _ S1 S2) as Hall.
    assert (Hc : count_gets (evs ++ (if b then [e] else [])) = count_gets evs).
    { rewrite count_gets_app. destruct b; simpl; lia. }
    exists (evs ++ (if b then [e] else []))%list. rewrite Hc.
    destruct (Hnone eq_refl) as (Hn & Hbefore).
    split; [exact Hall |]. split; [lia |].
    split; [discriminate |].
    split.
    { intros _. split; [lia |]. intros j Hj. apply Hbefore. lia. }
    rewrite <- H403. split.
    + intros Hin. apply in_app_or in Hin. destruct Hin as [Hin | Hin]; [exact Hin |].
      destruct b; simpl in Hin; [destruct Hin as [Hin | []]; discriminate | destruct Hin].
    + intros Hin. apply in_or_app. now left.
Qed.

Lemma http_get_bounded_retries_witness :
  (0 <= 2)%Z /\
  exists evs,
    steps flaky_world (snd (http_get (hf_request "2108.09112") 2 flaky_world)) evs
    /\ (Z.of_nat (count_gets evs) <= 2 + 1)%Z
    /\ (forall r, fst (http_get (hf_request "2108.09112") 2 flaky_world) = Some r ->
          status_code r = 200%Z
          /\ exists k, count_gets evs = S k
                       /\ answer flaky_world (hf_request "2108.09112") k = Responded r
                       /\ forall j, j < k ->
                            is_200 (answer flaky_world (hf_request "2108.09112") j) = false)
    /\ (fst (http_get (hf_request "2108.09112") 2 flaky_world) = None ->
          Z.of_nat (count_gets evs) = (2 + 1)%Z
          /\ forall j, j < count_gets evs ->
               is_200 (answer flaky_world (hf_request "2108.09112") j) = false)
    /\ (In ErrForbidden evs <->
          exists j r, j < count_gets evs
                      /\ answer flaky_world (hf_request "2108.09112") j = Responded r
                      /\ status_code r = 403%Z).
Proof.
  split; [lia |].
  apply (http_get_bounded_retries (hf_request "2108.09112") 2 flaky_world); lia.
Defined.

Example http_get_flaky :
  fst (http_get (hf_request "2108.09112") 2 flaky_world)
  = Some (mkResponse 200 (Some JNull))
  /\ trace (snd (http_get (hf_request "2108.09112") 2 flaky_world))
     = [EvGet (hf_request "2108.09112");
        WarnStatus (url (hf_request "2108.09112")) 403 1 3;
        ErrForbidden; EvSleep;
        EvGet (hf_request "2108.09112")].
Proof. split; reflexivity. Qed.

(* ----------------------------------------------------------------- *)
(** ** The hub lookup returns a link or nothing *)

Section ResolverFacts.

Variable py_repr : json -> string.

Lemma none_or_link_truthy (v : json) :
  none_or_link v -> is_None v = false -> truthy v = true.
Proof.
  intros [-> | [rest ->]]; [discriminate | reflexivity].
Qed.

Lemma pick_loop_value (t : string) (its : list json) (v : json) :
  pick_loop py_repr its t = inr v -> none_or_link v.
Proof.
  induction its as [| it its IH]; cbn [pick_loop].
  - intros [= <-]. now left.
  - destruct (get_method it "id" JNull) as [e | rid]; cbn [bindE]; [discriminate |].
    destruct (truthy rid).
    + intros [= <-]. right. eexists. reflexivity.
    + exact IH.
Qed.

Lemma pick_value (arr : json) (t : string) (v : json) :
  pick py_repr arr t = inr v -> none_or_link v.
Proof.
  unfold pick.
  destruct (py_iter (if truthy arr then arr else JArr [])) as [e | its];
    cbn [bindE]; [discriminate | apply pick_loop_value].
Qed.

Lemma hf_pick_all_value (data v : json) :
  hf_pick_all py_repr data = inr v -> none_or_link v.
Proof.
  unfold hf_pick_all.
  destruct (get_method data "spaces" JNull) as [e | a1]; cbn [bindE]; [discriminate |].
  destruct (pick py_repr a1 "spaces") as [e | a] eqn:Pa; cbn [bindE]; [discriminate |].
  destruct (truthy a).
  { intros [= <-]. eapply pick_value, Pa. }
  destruct (get_method data "models" JNull) as [e | a2]; cbn [bindE]; [discriminate |].
  destruct (pick py_repr a2 "models") as [e | b] eqn:Pb; cbn [bindE]; [discriminate |].
  destruct (truthy b).
  { intros [= <-]. eapply pick_value, Pb. }
  destruct (get_method data "datasets" JNull) as [e | a3]; cbn [bindE]; [discriminate |].
  apply pick_value.
Qed.

Lemma get_repo_from_hf_value (key : string) (w : World) :
  none_or_link (fst (get_repo_from_hf py_repr key w)).
Proof.
  unfold get_repo_from_hf. rewrite bind_run.
  destruct (fst (http_get (hf_request key) default_retries w)) as [resp |];
    [| now left].
  destruct (resp_ok resp); [| now left].
  destruct (data <-? response_json resp; hf_pick_all py_repr data) as [e | v] eqn:E.
  - rewrite bind_run. now left.
  - unfold ret. cbn [fst].
    destruct (response_json resp) as [e | data]; cbn [bindE] in E; [discriminate |].
    eapply hf_pick_all_value, E.
Qed.

End ResolverFacts.

(* ----------------------------------------------------------------- *)
(** ** Runs of stages *)

Lemma value_of_outcome_of (v : json) : value_of (outcome_of v) = v.
Proof. now destruct v. Qed.

Lemma last_app_nonempty {A : Type} (l1 l2 : list A) (d : A) :
  l2 <> [] -> last (l1 ++ l2) d = last l2 d.
Proof.
  intros H. induction l1 as [| a l1 IH]; [reflexivity |].
  simpl app. cbn [last]. rewrite IH.
  destruct (l1 ++ l2)%list eqn:E; [| reflexivity].
  apply app_eq_nil in E. destruct E. contradiction.
Qed.

Lemma ascending_app (s1 s2 : list (Stage * Outcome)) (mid : nat) :
  ascending s1 -> ascending s2 ->
  Forall (fun so => stage_rank (fst so) < mid) s1 ->
  Forall (fun so => mid <= stage_rank (fst so)) s2 ->
  ascending (s1 ++ s2).
Proof.
  unfold ascending. intros A1 A2 B1 B2.
  induction s1 as [| a s1 IH]; [exact A2 |].
  inversion A1 as [| ? ? Hs Hf]; subst. inversion B1 as [| ? ? Ha Hrest]; subst.
  simpl. constructor; [now apply IH |].
  apply Forall_app. split; [exact Hf |].
  eapply Forall_impl; [| exact B2]. intros b Hb. simpl in Hb. lia.
Qed.

Lemma all_fail_when_last_fails (steps : list (Stage * Outcome)) :
  only_last_succeeds steps ->
  truthy (final_value steps) = false ->
  Forall (fun so => success (snd so) = false) steps.
Proof.
  unfold only_last_succeeds, final_value.
  destruct steps as [| a steps] using rev_ind; [constructor |].
  clear IHsteps. rewrite removelast_last, last_last.
  intros H1 H2. apply Forall_app. split; [exact H1 |].
  constructor; [exact H2 | constructor].
Qed.

Section Chains.

Variable py_repr : json -> string.
Variables t k : string.

Lemma Exec_app (w w1 w2 : World) (s1 s2 : list (Stage * Outcome)) :
  Exec py_repr t k w s1 w1 -> Exec py_repr t k w1 s2 w2 ->
  Exec py_repr t k w (s1 ++ s2) w2.
Proof.
  intros E1 E2. induction E1 as [| w s o wa steps wb Hrun E1 IH];
    [exact E2 |].
  simpl. econstructor; [exact Hrun | now apply IH].
Qed.

Lemma Chain_single (lo hi : nat) (s : Stage) (w : World) :
  lo <= stage_rank s < hi ->
  Chain py_repr t k lo hi w
        [(s, fst (run_stage py_repr s t k w))]
        (value_of (fst (run_stage py_repr s t k w)))
        (snd (run_stage py_repr s t k w)).
Proof.
  intros Hr. unfold Chain. split.
  - econstructor; [apply surjective_pairing | constructor].
  - split; [discriminate |].
    split; [repeat constructor |].
    split; [repeat constructor; simpl; lia |].
    split; [constructor | reflexivity].
Qed.

(** Two runs one after the other make one run, as long as the first did
    not find a link. *)
Lemma Chain_app (lo mid hi : nat) (w w1 w2 : World)
    (s1 s2 : list (Stage * Outcome)) (v1 v2 : json) :
  Chain py_repr t k lo mid w s1 v1 w1 ->
  truthy v1 = false ->
  Chain py_repr t k mid hi w1 s2 v2 w2 ->
  Chain py_repr t k lo hi w (s1 ++ s2) v2 w2.
Proof.
  intros (E1 & N1 & A1 & B1 & O1 & V1) Hv (E2 & N2 & A2 & B2 & O2 & V2).
  unfold Chain.
  assert (Hlo : Forall (fun so => mid <= stage_rank (fst so)) s2).
  { eapply Forall_impl; [| exact B2]. intros a Ha. simpl in Ha. lia. }
  assert (Hhi : Forall (fun so => stage_rank (fst so) < mid) s1).
  { eapply Forall_impl; [| exact B1]. intros a Ha. simpl in Ha. lia. }
  split; [eapply Exec_app; eassumption |].
  split; [intros H; apply app_eq_nil in H; destruct H; contradiction |].
  split; [eapply ascending_app; eassumption |].
  split.
  { apply Forall_app. split.
    - eapply Forall_impl; [| exact B1]. intros a Ha. simpl in *.
      destruct s2 as [| b s2]; [contradiction |].
      inversion B2 as [| ? ? Hb _]; subst. simpl in Hb. lia.
    - eapply Forall_impl; [| exact B2]. intros a Ha. simpl in *.
      destruct s1 as [| b s1]; [contradiction |].
      inversion B1 as [| ? ? Hb _]; subst. simpl in Hb. lia. }
  split.
  { unfold only_last_succeeds. rewrite removelast_app by exact N2.
    apply Forall_app. split; [| exact O2].
    apply all_fail_when_last_fails; [exact O1 | now rewrite <- V1]. }
  unfold final_value. rewrite last_app_nonempty by exact N2. exact V2.
Qed.

(** [a or b]: the run of [a], followed by the run of [b] when [a] found
    nothing. *)
Lemma Chain_por (lo mid hi : nat) (a b : M json) (w : World)
    (s1 : list (Stage * Outcome)) :
  Chain py_repr t k lo mid w s1 (fst (a w)) (snd (a w)) ->
  (forall w1, exists s2,
      Chain py_repr t k mid hi w1 s2 (fst (b w1)) (snd (b w1))) ->
  mid <= hi ->
  exists s2, Chain py_repr t k lo hi w (s1 ++ s2)
                   (fst (por a b w)) (snd (por a b w)).
Proof.
  intros Ca Cb Hmid. unfold por. rewrite bind_run.
  destruct (truthy (fst (a w))) eqn:Ht.
  - exists []. rewrite app_nil_r. unfold ret. cbn [fst snd].
    destruct Ca as (E1 & N1 & A1 & B1 & O1 & V1).
    repeat split; try assumption.
    eapply Forall_impl; [| exact B1]. intros x Hx. simpl in Hx. lia.
  - destruct (Cb (snd (a w))) as (s2 & C2).
    exists s2. eapply Chain_app; eassumption.
Qed.

End Chains.

(* ----------------------------------------------------------------- *)
(** ** The resolution chain *)

Section Resolution.

Variable py_repr : json -> string.
Variables paper_title paper_key paper_first_author : string.

Lemma search_then_as_stage (get : M (option Response))
    (picked : Response -> exn + json) (next : M (exn + json)) (w : World) :
  bind (search_then get picked next) find_code_repo_handler w
  = match fst (search_stage get picked w) with
    | NotFound => bind next find_code_repo_handler (snd (search_stage get picked w))
    | o => (value_of o, snd (search_stage get picked w))
    end.
Proof.
  unfold search_then, search_stage. rewrite !bind_run.
  destruct (items_hit (fst (get w))) as [e | [resp |]].
  - unfold ret at 1. cbn [fst snd find_code_repo_handler].
    rewrite !bind_run. reflexivity.
  - unfold ret at 1. cbn [fst snd].
    destruct (picked resp) as [e | v]; cbn [find_code_repo_handler].
    + rewrite !bind_run. reflexivity.
    + reflexivity.
  - reflexivity.
Qed.

Lemma search_then_last (get : M (option Response))
    (picked : Response -> exn + json) (w : World) :
  bind (search_then get picked (ret (inr JNull))) find_code_repo_handler w
  = (value_of (fst (search_stage get picked w)), snd (search_stage get picked w)).
Proof.
  rewrite search_then_as_stage.
  now destruct (fst (search_stage get picked w)).
Qed.

(** What [find_code_repo] does is a run of its three searches. *)
Lemma find_code_repo_chain (w : World) :
  exists steps,
    Chain py_repr paper_title paper_key 1 4 w steps
           (fst (find_code_repo paper_title paper_key paper_first_author w))
           (snd (find_code_repo paper_title paper_key paper_first_author w)).
Proof.
  change (find_code_repo paper_title paper_key paper_first_author)
    with (bind (search_then (gh_get GITHUB_SEARCH_REPO (repo_params (q1 paper_title)))
                  first_html_url
               (search_then (gh_get GITHUB_SEARCH_REPO (repo_params (q2 paper_key)))
                  first_html_url
               (search_then (gh_get GITHUB_SEARCH_CODE (code_params (q3 paper_key)))
                  first_repository_url
               (ret (inr JNull)))))
            find_code_repo_handler).
  rewrite search_then_as_stage.
  pose proof (Chain_single py_repr paper_title paper_key 1 4 ReadmeSearch w) as C1.
  pose proof (Chain_single py_repr paper_title paper_key 1 2 ReadmeSearch w) as C1'.
  cbn [run_stage stage_rank] in C1, C1'.
  destruct (fst (search_stage _ first_html_url w)) as [v1 | | e1] eqn:O1;
    [eexists; apply C1; lia | | eexists; apply C1; lia].
  set (w1 := snd (search_stage _ first_html_url w)) in *.
  rewrite search_then_as_stage.
  pose proof (Chain_single py_repr paper_title paper_key 2 4 IdSearch w1) as C2.
  pose proof (Chain_single py_repr paper_title paper_key 2 3 IdSearch w1) as C2'.
  cbn [run_stage stage_rank] in C2, C2'.
  destruct (fst (search_stage _ first_html_url w1)) as [v2 | | e2] eqn:O2.
  - eexists. eapply Chain_app; [apply C1'; lia | reflexivity | apply C2; lia].
  - set (w2 := snd (search_stage _ first_html_url w1)) in *.
    rewrite search_then_last.
    pose proof (Chain_single py_repr paper_title paper_key 3 4 CodeSearch w2) as C3.
    cbn [run_stage stage_rank] in C3.
    eexists.
    eapply Chain_app; [apply C1'; lia | reflexivity |].
    eapply Chain_app; [apply C2'; lia | reflexivity | apply C3; lia].
  - eexists. eapply Chain_app; [apply C1'; lia | reflexivity | apply C2; lia].
Qed.

Lemma get_code_link_chain (s : Stage) (q : string) (lo hi : nat) (w : World) :
  run_stage py_repr s paper_title paper_key
  = (v <- get_code_link q ;; ret (outcome_of v)) ->
  lo <= stage_rank s < hi ->
  exists steps,
    Chain py_repr paper_title paper_key lo hi w steps (fst (get_code_link q w)) (snd (get_code_link q w)).
Proof.
  intros Hs Hr.
  pose proof (Chain_single py_repr paper_title paper_key lo hi s w Hr) as C.
  rewrite Hs, bind_run in C. unfold ret in C. cbn [fst snd] in C.
  rewrite value_of_outcome_of in C. eexists. exact C.
Qed.

Lemma hub_chain (w : World) :
  Chain py_repr paper_title paper_key 0 1 w
         [(HubLookup, outcome_of (fst (get_repo_from_hf py_repr paper_key w)))]
         (fst (get_repo_from_hf py_repr paper_key w))
         (snd (get_repo_from_hf py_repr paper_key w)).
Proof.
  pose proof (Chain_single py_repr paper_title paper_key 0 1 HubLookup w) as C.
  cbn [run_stage stage_rank] in C. rewrite bind_run in C.
  unfold ret in C. cbn [fst snd] in C. rewrite value_of_outcome_of in C.
  apply C. lia.
Qed.

(** Both call sites resolve in the same way: the hub lookup never returns
    a falsy value other than [None]. *)
Lemma resolve_daily_backfill (w : World) :
  resolve_daily py_repr paper_title paper_key paper_first_author w
  = resolve_backfill py_repr paper_title paper_key paper_first_author w.
Proof.
  unfold resolve_daily, resolve_backfill. unfold por at 3. rewrite !bind_run.
  pose proof (get_repo_from_hf_value py_repr paper_key w) as Hv.
  destruct (is_None (fst (get_repo_from_hf py_repr paper_key w))) eqn:E.
  - destruct (fst (get_repo_from_hf py_repr paper_key w)); try discriminate.
    reflexivity.
  - now rewrite (none_or_link_truthy _ Hv E).
Qed.

Lemma resolve_backfill_first_success (w : World) :
  first_success_run py_repr paper_title paper_key
    (resolve_backfill py_repr paper_title paper_key paper_first_author) w.
Proof.
  split.
  - intros v w1 Hhub Hv. unfold resolve_backfill, por at 1. rewrite bind_run, Hhub.
    cbn [fst snd].
    pose proof (get_repo_from_hf_value py_repr paper_key w) as Hl.
    rewrite Hhub in Hl. cbn [fst] in Hl.
    now rewrite (none_or_link_truthy _ Hl Hv).
  - assert (Tail : forall w1, exists s2,
               Chain py_repr paper_title paper_key 1 6 w1 s2
                 (fst (por (find_code_repo paper_title paper_key paper_first_author)
                           (por (get_code_link paper_title)
                                (get_code_link paper_key)) w1))
                 (snd (por (find_code_repo paper_title paper_key paper_first_author)
                           (por (get_code_link paper_title)
                                (get_code_link paper_key)) w1))).
    { intros w1. destruct (find_code_repo_chain w1) as (s1 & C1).
      destruct (Chain_por py_repr paper_title paper_key 1 4 6 _
                  (por (get_code_link paper_title)
                       (get_code_link paper_key)) w1 s1 C1)
        as (s2 & C2); [| lia | eexists; exact C2].
      intros w2.
      destruct (get_code_link_chain BareTitle paper_title 4 5 w2 eq_refl)
        as (s3 & C3); [simpl; lia |].
      destruct (Chain_por py_repr paper_title paper_key 4 5 6 _
                  (get_code_link paper_key) w2 s3 C3)
        as (s4 & C4); [| lia | eexists; exact C4].
      intros w3. apply (get_code_link_chain BareId paper_key 5 6 w3 eq_refl).
      simpl; lia. }
    destruct (Chain_por py_repr paper_title paper_key 0 1 6 _ _ w _ (hub_chain w) Tail)
      as (s2 & (E & N & A & B & O & V)); [lia |].
    eexists. split; [exact E |].
    split; [simpl; eauto |]. split; [exact A |]. split; [exact O | exact V].
Qed.

(** C1.  In [get_daily_papers] and in [update_paper_links] alike, a link
    returned by the hub lookup is the result of the resolution, and the
    world is then as the lookup left it: no search was sent.  What the
    resolution does is a run of stages that starts with the hub lookup
    and goes up in priority, in which no stage but the last one run
    found a link, and whose last outcome is the result. *)
Theorem resolution_first_success (w : World) :
  first_success_run py_repr paper_title paper_key
    (resolve_daily py_repr paper_title paper_key paper_first_author) w
  /\ first_success_run py_repr paper_title paper_key
       (resolve_backfill py_repr paper_title paper_key paper_first_author) w.
Proof.
  pose proof (resolve_backfill_first_success w) as H.
  split; [| exact H].
  destruct H as (Hhub & steps & Hsteps).
  split.
  - intros v w1 H1 H2. rewrite resolve_daily_backfill. now apply Hhub.
  - exists steps. now rewrite resolve_daily_backfill.
Qed.

End Resolution.

(* ----------------------------------------------------------------- *)
(** ** Dicts *)

Section DictFacts.

Context {V : Type}.
Implicit Types (d o : dict V) (k : string) (v : V).

Lemma assoc_dict_set d k v k' :
  assoc k' (dict_set d k v) = if (k =? k')%string then Some v else assoc k' d.
Proof.
  induction d as [| [k0 v0] d IH]; cbn [dict_set assoc].
  - reflexivity.
  - destruct (k0 =? k)%string eqn:E0; cbn [assoc].
    + apply String.eqb_eq in E0. subst k0.
      destruct (k =? k')%string; reflexivity.
    + destruct (k0 =? k')%string eqn:E1; [| exact IH].
      apply String.eqb_eq in E1. subst k0. now rewrite String.eqb_sym, E0.
Qed.

Lemma assoc_in_keys d k : assoc k d <> None <-> In k (keys d).
Proof.
  induction d as [| [k0 v0] d IH]; cbn [assoc keys map fst].
  - split; [intros H; now elim H | intros []].
  - destruct (k0 =? k)%string eqn:E.
    + apply String.eqb_eq in E. split; [now left | discriminate].
    + apply String.eqb_neq in E. rewrite IH. unfold keys.
      split; [now right | intros [H | H]; [contradiction | exact H]].
Qed.

Lemma assoc_none_keys d k : assoc k d = None <-> ~ In k (keys d).
Proof.
  rewrite <- assoc_in_keys. destruct (assoc k d); split; intros H;
    try congruence; try (intros H'; congruence).
  exfalso. apply H. discriminate.
Qed.

(** Setting a key that is there leaves the keys where they are. *)
Lemma keys_dict_set_present d k v :
  In k (keys d) -> keys (dict_set d k v) = keys d.
Proof.
  induction d as [| [k0 v0] d IH]; cbn [dict_set keys map fst]; [intros [] |].
  intros H. destruct (k0 =? k)%string eqn:E; cbn [map fst]; [reflexivity |].
  apply String.eqb_neq in E. destruct H as [H | H]; [contradiction |].
  f_equal. now apply IH.
Qed.

(** Setting a new key puts it last. *)
Lemma keys_dict_set_absent d k v :
  ~ In k (keys d) -> keys (dict_set d k v) = (keys d ++ [k])%list.
Proof.
  induction d as [| [k0 v0] d IH]; cbn [dict_set keys map fst]; [reflexivity |].
  intros H. destruct (k0 =? k)%string eqn:E.
  - apply String.eqb_eq in E. exfalso. apply H. now left.
  - cbn [map fst app]. f_equal. apply IH. intros H'. apply H. now right.
Qed.

Lemma keys_dict_set d k v :
  exists added, keys (dict_set d k v) = (keys d ++ added)%list.
Proof.
  destruct (in_dec string_dec k (keys d)) as [H | H].
  - exists []. rewrite app_nil_r. now apply keys_dict_set_present.
  - exists [k]. now apply keys_dict_set_absent.
Qed.

Lemma wf_dict_set d k v : wf_dict d -> wf_dict (dict_set d k v).
Proof.
  unfold wf_dict. intros H.
  destruct (in_dec string_dec k (keys d)) as [Hin | Hout].
  - now rewrite keys_dict_set_present.
  - rewrite keys_dict_set_absent by exact Hout.
    apply NoDup_app; [exact H | repeat constructor; intros [] |].
    intros x Hx [<- | []]. contradiction.
Qed.

Lemma dict_update_cons d k v o :
  dict_update d ((k, v) :: o) = dict_update (dict_set d k v) o.
Proof. reflexivity. Qed.

Lemma wf_dict_update d o : wf_dict d -> wf_dict (dict_update d o).
Proof.
  revert d. induction o as [| [k v] o IH]; intros d H; [exact H |].
  rewrite dict_update_cons. now apply IH, wf_dict_set.
Qed.

(** [d.update(o)] is a right-biased union. *)
Lemma assoc_dict_update d o k :
  wf_dict o ->
  assoc k (dict_update d o)
  = match assoc k o with Some v => Some v | None => assoc k d end.
Proof.
  unfold wf_dict. revert d.
  induction o as [| [k0 v0] o IH]; intros d Ho; [reflexivity |].
  rewrite dict_update_cons. cbn [keys map fst] in Ho.
  inversion Ho as [| ? ? Hnot Ho']; subst.
  rewrite IH by exact Ho'. cbn [assoc].
  rewrite assoc_dict_set.
  destruct (k0 =? k)%string eqn:E.
  - apply String.eqb_eq in E. subst k0.
    apply assoc_none_keys in Hnot. now rewrite Hnot.
  - reflexivity.
Qed.

Lemma keys_dict_update d o :
  exists added, keys (dict_update d o) = (keys d ++ added)%list.
Proof.
  revert d. induction o as [| [k v] o IH]; intros d.
  - exists []. now rewrite app_nil_r.
  - rewrite dict_update_cons. destruct (IH (dict_set d k v)) as (a1 & H1).
    destruct (keys_dict_set d k v) as (a2 & H2).
    exists (a2 ++ a1)%list. now rewrite H1, H2, app_assoc.
Qed.

Lemma keys_dict_update_present d o :
  (forall k, In k (keys o) -> In k (keys d)) ->
  keys (dict_update d o) = keys d.
Proof.
  revert d. induction o as [| [k v] o IH]; intros d H; [reflexivity |].
  rewrite dict_update_cons.
  assert (Hk : keys (dict_set d k v) = keys d).
  { apply keys_dict_set_present, H. now left. }
  rewrite IH; [exact Hk |].
  intros k' Hk'. rewrite Hk. apply H. now right.
Qed.

(** Two well-formed dicts with the same keys in the same order and the
    same value under each key are equal. *)
Lemma dict_ext d1 d2 :
  wf_dict d1 -> keys d1 = keys d2 ->
  (forall k, assoc k d1 = assoc k d2) -> d1 = d2.
Proof.
  unfold wf_dict. revert d2.
  induction d1 as [| [k1 v1] d1 IH]; intros [| [k2 v2] d2] Hwf Hk Ha;
    try discriminate; [reflexivity |].
  cbn [keys map fst] in Hwf, Hk. injection Hk as <- Hk.
  inversion Hwf as [| ? ? Hnot Hwf']; subst.
  pose proof (Ha k1) as H1. cbn [assoc] in H1. rewrite String.eqb_refl in H1.
  injection H1 as <-. f_equal. apply IH; [exact Hwf' | exact Hk |].
  intros k. pose proof (Ha k) as H. cbn [assoc] in H.
  destruct (k1 =? k)%string eqn:E; [| exact H].
  apply String.eqb_eq in E. subst k.
  assert (A1 : assoc k1 d1 = None) by now apply assoc_none_keys.
  assert (A2 : assoc k1 d2 = None).
  { apply assoc_none_keys. unfold keys in *. now rewrite <- Hk. }
  now rewrite A1, A2.
Qed.

End DictFacts.

(* ----------------------------------------------------------------- *)
(** ** [update_json_file]: the merge *)

Section DictForall.

Context {V : Type}.

Lemma assoc_In (d : dict V) (k : string) (v : V) :
  assoc k d = Some v -> In (k, v) d.
Proof.
  induction d as [| [k0 v0] d IH]; cbn [assoc]; [discriminate |].
  destruct (k0 =? k)%string eqn:E.
  - apply String.eqb_eq in E. intros [= <-]. subst. now left.
  - intros H. right. now apply IH.
Qed.

Lemma Forall_dict_set (Q : V -> Prop) (d : dict V) (k : string) (v : V) :
  Forall (fun kv => Q (snd kv)) d -> Q v ->
  Forall (fun kv => Q (snd kv)) (dict_set d k v).
Proof.
  intros Hd Hv. induction d as [| [k0 v0] d IH]; cbn [dict_set].
  - now repeat constructor.
  - inversion Hd as [| ? ? H0 Hd']; subst.
    destruct (k0 =? k)%string; constructor; auto.
Qed.

Lemma Forall_assoc (Q : V -> Prop) (d : dict V) (k : string) (v : V) :
  Forall (fun kv => Q (snd kv)) d -> assoc k d = Some v -> Q v.
Proof.
  intros Hd Ha. apply assoc_In in Ha.
  rewrite Forall_forall in Hd. exact (Hd _ Ha).
Qed.

End DictForall.

Lemma merge_all_flat (m : Store) (data_dict : list Store) :
  merge_all m data_dict = fold_left merge_step (List.concat data_dict) m.
Proof.
  unfold merge_all. revert m.
  induction data_dict as [| data dd IH]; intros m; [reflexivity |].
  cbn [fold_left List.concat]. rewrite fold_left_app. apply IH.
Qed.

Lemma lookup_merge_keyword (m : Store) (kw : string) (p : Topic) (topic id : string) :
  wf_dict p ->
  lookup (merge_keyword m kw p) topic id
  = if (kw =? topic)%string
    then match assoc id p with Some r => Some r | None => lookup m topic id end
    else lookup m topic id.
Proof.
  intros Hp. unfold lookup, merge_keyword.
  destruct (assoc kw m) as [ex |] eqn:E; rewrite assoc_dict_set;
    destruct (kw =? topic)%string eqn:Ek; try reflexivity;
    apply String.eqb_eq in Ek; subst topic; rewrite E.
  - now apply assoc_dict_update.
  - now destruct (assoc id p).
Qed.

(** A topic that is in the store stays in it through one pass, its
    identifiers where they were. *)
Lemma merge_keyword_keeps (m : Store) (kw : string) (p : Topic)
    (topic : string) (ex : Topic) :
  assoc topic m = Some ex ->
  exists merged added,
    assoc topic (merge_keyword m kw p) = Some merged
    /\ keys merged = (keys ex ++ added)%list.
Proof.
  intros H. unfold merge_keyword.
  destruct (assoc kw m) as [ex' |] eqn:E; rewrite assoc_dict_set;
    destruct (kw =? topic)%string eqn:Ek.
  - apply String.eqb_eq in Ek. subst topic. rewrite E in H. injection H as ->.
    destruct (keys_dict_update ex p) as (added & Ha). eauto.
  - exists ex, []. now rewrite app_nil_r.
  - apply String.eqb_eq in Ek. subst topic. congruence.
  - exists ex, []. now rewrite app_nil_r.
Qed.

Lemma merge_keyword_has (m : Store) (kw : string) (p : Topic) :
  assoc kw (merge_keyword m kw p) <> None.
Proof.
  unfold merge_keyword.
  destruct (assoc kw m); rewrite assoc_dict_set, String.eqb_refl; discriminate.
Qed.

Lemma wf_merge_keyword (m : Store) (kw : string) (p : Topic) :
  wf_store m -> wf_dict p -> wf_store (merge_keyword m kw p).
Proof.
  intros [Hm Ht] Hp. unfold merge_keyword, wf_store.
  destruct (assoc kw m) as [ex |] eqn:E.
  - split; [now apply wf_dict_set |].
    apply Forall_dict_set; [exact Ht |].
    apply wf_dict_update. eapply (Forall_assoc (fun t : Topic => wf_dict t)); eassumption.
  - split; [now apply wf_dict_set | now apply Forall_dict_set].
Qed.

(** The merge is a right-biased union, record by record. *)
Lemma lookup_merge (batch : list (string * Topic)) (m : Store) (topic id : string) :
  Forall (fun kv => wf_dict (snd kv)) batch ->
  lookup (fold_left merge_step batch m) topic id
  = match batch_lookup batch topic id with
    | Some r => Some r
    | None => lookup m topic id
    end.
Proof.
  intros Hb. revert m. induction Hb as [| [kw p] rest Hp Hrest IH]; intros m;
    [reflexivity |].
  cbn [fold_left batch_lookup]. rewrite IH. unfold merge_step. cbn [fst snd].
  destruct (batch_lookup rest topic id); [reflexivity |].
  rewrite lookup_merge_keyword by exact Hp.
  destruct (kw =? topic)%string; [| reflexivity].
  now destruct (assoc id p).
Qed.

Lemma wf_merge (batch : list (string * Topic)) (m : Store) :
  Forall (fun kv => wf_dict (snd kv)) batch ->
  wf_store m -> wf_store (fold_left merge_step batch m).
Proof.
  intros Hb. revert m. induction Hb as [| [kw p] rest Hp Hrest IH]; intros m Hm;
    [exact Hm |].
  cbn [fold_left]. apply IH. now apply wf_merge_keyword.
Qed.

Lemma merge_keeps (batch : list (string * Topic)) (m : Store)
    (topic : string) (ex : Topic) :
  assoc topic m = Some ex ->
  exists merged added,
    assoc topic (fold_left merge_step batch m) = Some merged
    /\ keys merged = (keys ex ++ added)%list.
Proof.
  revert m ex. induction batch as [| [kw p] rest IH]; intros m ex H.
  - exists ex, []. now rewrite app_nil_r.
  - cbn [fold_left]. unfold merge_step at 2. cbn [fst snd].
    destruct (merge_keyword_keeps m kw p topic ex H) as (m1 & a1 & H1 & K1).
    destruct (IH _ _ H1) as (m2 & a2 & H2 & K2).
    exists m2, (a1 ++ a2)%list. split; [exact H2 |].
    now rewrite K2, K1, app_assoc.
Qed.

Lemma merge_has (batch : list (string * Topic)) (m : Store)
    (kw : string) (p : Topic) :
  In (kw, p) batch -> assoc kw (fold_left merge_step batch m) <> None.
Proof.
  revert m. induction batch as [| [kw0 p0] rest IH]; intros m; [intros [] |].
  intros [H | H]; cbn [fold_left].
  - injection H as -> ->. unfold merge_step at 2. cbn [fst snd].
    destruct (assoc kw (merge_keyword m kw p)) as [ex |] eqn:E.
    + destruct (merge_keeps rest _ kw ex E) as (m2 & a2 & H2 & _). congruence.
    + now apply merge_keyword_has in E.
  - now apply IH.
Qed.

Lemma batch_lookup_has (batch : list (string * Topic)) (kw id : string) (p : Topic) :
  In (kw, p) batch -> In id (keys p) -> batch_lookup batch kw id <> None.
Proof.
  induction batch as [| [kw0 p0] rest IH]; [intros [] |].
  intros [H | H] Hid; cbn [batch_lookup].
  - injection H as -> ->.
    destruct (batch_lookup rest kw id); [discriminate |].
    rewrite String.eqb_refl. now apply assoc_in_keys.
  - specialize (IH H Hid).
    destruct (batch_lookup rest kw id); [discriminate | contradiction].
Qed.

Lemma same_shape_refl (m : Store) : same_shape m m.
Proof. split; [reflexivity | eauto]. Qed.

Lemma same_shape_trans (m1 m2 m3 : Store) :
  same_shape m1 m2 -> same_shape m2 m3 -> same_shape m1 m3.
Proof.
  intros [K1 T1] [K2 T2]. split; [congruence |].
  intros topic T H. destruct (T1 _ _ H) as (T' & H' & E').
  destruct (T2 _ _ H') as (T'' & H'' & E''). exists T''. split; congruence.
Qed.

Lemma covered_same_shape (m1 m2 : Store) (batch : list (string * Topic)) :
  covered m1 batch -> same_shape m1 m2 -> covered m2 batch.
Proof.
  intros C [_ S] kw p Hin. destruct (C kw p Hin) as (ex & Hex & Hids).
  destruct (S _ _ Hex) as (T' & H' & E'). exists T'. split; [exact H' |].
  intros id Hid. rewrite E'. now apply Hids.
Qed.

Lemma merge_keyword_same_shape (m : Store) (kw : string) (p ex : Topic) :
  assoc kw m = Some ex ->
  (forall id, In id (keys p) -> In id (keys ex)) ->
  same_shape m (merge_keyword m kw p).
Proof.
  intros Hex Hids. unfold merge_keyword. rewrite Hex. split.
  - symmetry. apply keys_dict_set_present, assoc_in_keys. congruence.
  - intros topic T HT. rewrite assoc_dict_set.
    destruct (kw =? topic)%string eqn:E; [| eauto].
    apply String.eqb_eq in E. subst topic.
    rewrite Hex in HT. injection HT as <-.
    eexists. split; [reflexivity |]. now apply keys_dict_update_present.
Qed.

Lemma merge_same_shape (batch : list (string * Topic)) (m : Store) :
  covered m batch -> same_shape m (fold_left merge_step batch m).
Proof.
  revert m. induction batch as [| [kw p] rest IH]; intros m C.
  - apply same_shape_refl.
  - cbn [fold_left]. unfold merge_step at 2. cbn [fst snd].
    destruct (C kw p (or_introl eq_refl)) as (ex & Hex & Hids).
    pose proof (merge_keyword_same_shape m kw p ex Hex Hids) as S1.
    eapply same_shape_trans; [exact S1 |]. apply IH.
    eapply covered_same_shape; [| exact S1].
    intros kw' p' Hin. apply C. now right.
Qed.

Lemma covered_after_merge (batch : list (string * Topic)) (m : Store) :
  Forall (fun kv => wf_dict (snd kv)) batch ->
  covered (fold_left merge_step batch m) batch.
Proof.
  intros Hb kw p Hin.
  destruct (assoc kw (fold_left merge_step batch m)) as [ex |] eqn:E;
    [| now apply (merge_has batch m kw p Hin) in E].
  exists ex. split; [reflexivity |]. intros id Hid.
  pose proof (lookup_merge batch m kw id Hb) as L.
  pose proof (batch_lookup_has batch kw id p Hin Hid) as B.
  unfold lookup in L at 1. rewrite E in L.
  apply assoc_in_keys. rewrite L.
  destruct (batch_lookup batch kw id); [discriminate | contradiction].
Qed.

(** Merging a batch again changes nothing. *)
Lemma merge_twice (batch : list (string * Topic)) (m : Store) :
  Forall (fun kv => wf_dict (snd kv)) batch ->
  wf_store m ->
  fold_left merge_step batch (fold_left merge_step batch m)
  = fold_left merge_step batch m.
Proof.
  intros Hb Hm.
  set (m1 := fold_left merge_step batch m).
  set (m2 := fold_left merge_step batch m1).
  assert (W1 : wf_store m1) by now apply wf_merge.
  assert (S : same_shape m1 m2) by apply merge_same_shape, covered_after_merge, Hb.
  assert (L : forall topic id, lookup m2 topic id = lookup m1 topic id).
  { intros topic id. unfold m2. rewrite lookup_merge by exact Hb.
    unfold m1. rewrite lookup_merge by exact Hb.
    now destruct (batch_lookup batch topic id). }
  destruct W1 as [Wk Wt]. destruct S as [Sk St].
  symmetry. apply dict_ext; [exact Wk | exact Sk |].
  intros topic. destruct (assoc topic m1) as [T |] eqn:E1.
  - destruct (St _ _ E1) as (T' & E2 & Ek). rewrite E2. f_equal.
    apply dict_ext.
    + eapply (Forall_assoc (fun t : Topic => wf_dict t)); eassumption.
    + now symmetry.
    + intros id. specialize (L topic id). unfold lookup in L.
      now rewrite E1, E2 in L.
  - symmetry. apply assoc_none_keys. rewrite <- Sk. now apply assoc_none_keys.
Qed.

Lemma wf_batch_flat (data_dict : list Store) :
  Forall wf_store data_dict ->
  Forall (fun kv => wf_dict (snd kv)) (List.concat data_dict).
Proof.
  intros H. apply Forall_concat.
  eapply Forall_impl; [| exact H]. now intros d [_ Hd].
Qed.

(** C2.  On well-formed dicts, [update_json_file] merges as a
    right-biased union.  A record of the merged store is the one the
    batch gives last for its topic and identifier, and the one the store
    had when the batch gives none.  A topic of the store is still there
    after the merge, with its identifiers where they were, new ones after
    them.  Merging the batch a second time leaves the store as the first
    merge made it. *)
Theorem merge_right_biased_union (m : Store) (data_dict : list Store) :
  wf_store m ->
  Forall wf_store data_dict ->
  (forall topic id,
      lookup (merge_all m data_dict) topic id
      = match batch_lookup (List.concat data_dict) topic id with
        | Some r => Some r
        | None => lookup m topic id
        end)
  /\ (forall topic existing,
        assoc topic m = Some existing ->
        exists merged added,
          assoc topic (merge_all m data_dict) = Some merged
          /\ keys merged = (keys existing ++ added)%list)
  /\ merge_all (merge_all m data_dict) data_dict = merge_all m data_dict.
Proof.
  intros Hm Hb. apply wf_batch_flat in Hb.
  rewrite !merge_all_flat. split; [| split].
  - intros topic id. now apply lookup_merge.
  - intros topic existing. apply merge_keeps.
  - now apply merge_twice.
Qed.

(* ----------------------------------------------------------------- *)
(** ** The resolver only sends requests and writes to the log *)

Lemma acts_ret {A : Type} (a : A) : acts (ret a).
Proof. intros w. exists []. apply steps_refl. Qed.

Lemma acts_bind {A B : Type} (c : M A) (k : A -> M B) :
  acts c -> (forall a, acts (k a)) -> acts (bind c k).
Proof.
  intros Hc Hk w. rewrite bind_run.
  destruct (Hc w) as (e1 & S1).
  destruct (Hk (fst (c w)) (snd (c w))) as (e2 & S2).
  exists (e1 ++ e2)%list. eapply steps_trans; eassumption.
Qed.

Lemma acts_emit (e : Event) : count_gets [e] = 0 -> acts (emit e).
Proof. intros H w. exists [e]. now apply steps_emit. Qed.

Lemma acts_http_get_loop (req : Request) (retries : Z) (n : nat) (i : Z)
    (le : option string) :
  acts (http_get_loop req retries n i le).
Proof.
  intros w. destruct (http_get_loop_spec req retries n i le w) as (evs & S & _).
  now exists evs.
Qed.

Lemma acts_http_get (req : Request) (retries : Z) : acts (http_get req retries).
Proof.
  unfold http_get. apply acts_bind; [apply acts_http_get_loop |].
  intros [[r |] le]; [apply acts_ret |].
  apply acts_bind; [| intros; apply acts_ret].
  destruct le; [now apply acts_emit | apply acts_ret].
Qed.

Lemma acts_gh_get (u : string) (ps : list (string * json)) : acts (gh_get u ps).
Proof. intros w. unfold gh_get. apply acts_http_get. Qed.

Lemma acts_get_code_link (q : string) : acts (get_code_link q).
Proof.
  unfold get_code_link. apply acts_bind; [apply acts_gh_get |].
  intros [resp |]; [| apply acts_ret].
  destruct (resp_ok resp); [| apply acts_ret].
  destruct (code_link_of resp); [| apply acts_ret].
  apply acts_bind; [now apply acts_emit | intros; apply acts_ret].
Qed.

Lemma acts_search_then (get : M (option Response))
    (picked : Response -> exn + json) (next : M (exn + json)) :
  acts get -> acts next -> acts (search_then get picked next).
Proof.
  intros Hg Hn. unfold search_then. apply acts_bind; [exact Hg |].
  intros r. destruct (items_hit r) as [e | [resp |]];
    [apply acts_ret | apply acts_ret | exact Hn].
Qed.

Lemma acts_find_code_repo (t k a : string) : acts (find_code_repo t k a).
Proof.
  unfold find_code_repo. apply acts_bind.
  - repeat (apply acts_search_then; [apply acts_gh_get |]). apply acts_ret.
  - intros [e | v]; [| apply acts_ret].
    apply acts_bind; [now apply acts_emit | intros; apply acts_ret].
Qed.

Lemma acts_por (a b : M json) : acts a -> acts b -> acts (por a b).
Proof.
  intros Ha Hb. unfold por. apply acts_bind; [exact Ha |].
  intros x. destruct (truthy x); [apply acts_ret | exact Hb].
Qed.

Section ActsResolver.

Variable py_repr : json -> string.

Lemma acts_get_repo_from_hf (k : string) : acts (get_repo_from_hf py_repr k).
Proof.
  unfold get_repo_from_hf. apply acts_bind; [apply acts_http_get |].
  intros [resp |]; [| apply acts_ret].
  destruct (resp_ok resp); [| apply acts_ret].
  destruct (data <-? response_json resp; hf_pick_all py_repr data);
    [| apply acts_ret].
  apply acts_bind; [now apply acts_emit | intros; apply acts_ret].
Qed.

Lemma acts_resolve_backfill (t k a : string) :
  acts (resolve_backfill py_repr t k a).
Proof.
  unfold resolve_backfill.
  repeat apply acts_por;
    auto using acts_get_repo_from_hf, acts_find_code_repo, acts_get_code_link.
Qed.

Lemma acts_backfill_record (v : Topic) (entry : string * string) :
  acts (backfill_record py_repr v entry).
Proof.
  destruct entry as [paper_id contents]. unfold backfill_record.
  destruct (parse_arxiv_string contents) as [e | f].
  - apply acts_bind; [now apply acts_emit | intros; apply acts_ret].
  - destruct (negb (contains "|null|" (normalized f))); [apply acts_ret |].
    apply acts_bind; [now apply acts_emit |]. intros _.
    apply acts_bind; [apply acts_resolve_backfill |]. intros repo_url.
    destruct (negb (is_None repo_url)); [| apply acts_ret].
    apply acts_bind; [now apply acts_emit | intros; apply acts_ret].
Qed.

Lemma acts_foldM {A B : Type} (f : A -> B -> M A) (l : list B) (a : A) :
  (forall a b, acts (f a b)) -> acts (foldM f l a).
Proof.
  intros H. revert a. induction l as [| b l IH]; intros a; cbn [foldM].
  - apply acts_ret.
  - apply acts_bind; [apply H | exact IH].
Qed.

Lemma acts_mapM {A B : Type} (f : A -> M B) (l : list A) :
  (forall a, acts (f a)) -> acts (mapM f l).
Proof.
  intros H. induction l as [| a l IH]; cbn [mapM].
  - apply acts_ret.
  - apply acts_bind; [apply H |]. intros b.
    apply acts_bind; [exact IH | intros; apply acts_ret].
Qed.

Lemma acts_backfill_topic (entry : string * Topic) :
  acts (backfill_topic py_repr entry).
Proof.
  destruct entry as [kw v]. unfold backfill_topic.
  apply acts_bind; [now apply acts_emit |]. intros _.
  apply acts_bind; [| intros; apply acts_ret].
  apply acts_foldM. intros; apply acts_backfill_record.
Qed.

Lemma acts_backfill (m : Store) : acts (backfill py_repr m).
Proof. apply acts_mapM, acts_backfill_topic. Qed.

End ActsResolver.

(* ----------------------------------------------------------------- *)
(** ** [update_paper_links]: one record, one topic, the store *)

Lemma dict_set_set {V : Type} (d : dict V) (k : string) (a b : V) :
  dict_set (dict_set d k a) k b = dict_set d k b.
Proof.
  induction d as [| [k0 v0] d IH]; cbn [dict_set].
  - now rewrite String.eqb_refl.
  - destruct (k0 =? k)%string eqn:E; cbn [dict_set]; rewrite E; [reflexivity |].
    now rewrite IH.
Qed.

Lemma steps_In (w w1 w2 : World) (e1 e2 : list Event) (x : Event) :
  steps w w1 e1 -> steps w1 w2 e2 -> In x e1 \/ In x e2 ->
  exists evs, steps w w2 evs /\ In x evs.
Proof.
  intros S1 S2 H. exists (e1 ++ e2)%list.
  split; [eapply steps_trans; eassumption | now apply in_or_app].
Qed.

Section Backfill.

Variable py_repr : json -> string.

(** A record that does not parse is logged and the topic is left as it
    was. *)
Lemma backfill_record_failure (v : Topic) (id c : string) (e : exn) (w : World) :
  parse_arxiv_string c = inl e ->
  backfill_record py_repr v (id, c) w
  = (v, snd (emit (ErrProcessing id c e) w)).
Proof.
  intros H. unfold backfill_record. rewrite H, bind_run. reflexivity.
Qed.

(** A record that parses and has no [|null|] in its normalized form is
    replaced by that form, and nothing else happens. *)
Lemma backfill_record_valid (v : Topic) (id c : string) (f : Fields) (w : World) :
  parse_arxiv_string c = inr f ->
  contains "|null|" (normalized f) = false ->
  backfill_record py_repr v (id, c) w = (dict_set v id (normalized f), w).
Proof.
  intros H1 H2. unfold backfill_record. now rewrite H1, H2.
Qed.

(** A record that parses and has [|null|] in its normalized form is
    resolved again; a result other than [None] goes in the place of
    every [|null|]. *)
Lemma backfill_record_null (v : Topic) (id c : string) (f : Fields) (w : World) :
  parse_arxiv_string c = inr f ->
  contains "|null|" (normalized f) = true ->
  let w1 := snd (emit (InfoAttempt (f_arxiv_id f)) w) in
  let r := resolve_backfill py_repr (f_title f) (f_arxiv_id f) (f_authors f) w1 in
  backfill_record py_repr v (id, c) w
  = if is_None (fst r)
    then (dict_set v id (normalized f), snd r)
    else
      let new_cont := replace "|null|" (link_cell (py_str py_repr (fst r)))
                              (normalized f) in
      (dict_set v id new_cont,
       snd (emit (InfoFound (f_arxiv_id f) new_cont) (snd r))).
Proof.
  intros H1 H2. unfold backfill_record. rewrite H1, H2. cbn [negb].
  rewrite !bind_run. cbv zeta.
  destruct (is_None (fst (resolve_backfill py_repr (f_title f) (f_arxiv_id f)
                            (f_authors f)
                            (snd (emit (InfoAttempt (f_arxiv_id f)) w))))) eqn:E;
    cbn [negb].
  - reflexivity.
  - rewrite bind_run. unfold ret. cbn [fst snd]. now rewrite dict_set_set.
Qed.

Lemma backfill_record_rewrites (v : Topic) (id c : string) (w : World) :
  match parse_arxiv_string c with
  | inl _ => fst (backfill_record py_repr v (id, c) w) = v
  | inr _ => exists x, rewritten py_repr c x
                       /\ fst (backfill_record py_repr v (id, c) w) = dict_set v id x
  end.
Proof.
  destruct (parse_arxiv_string c) as [e | f] eqn:P.
  - now rewrite (backfill_record_failure v id c e w P).
  - unfold rewritten. rewrite P.
    destruct (contains "|null|" (normalized f)) eqn:N.
    + rewrite (backfill_record_null v id c f w P N). cbv zeta.
      destruct (is_None (fst (resolve_backfill _ _ _ _ _))) eqn:E.
      * eexists. split; [left; reflexivity | reflexivity].
      * eexists. split; [right; split; [reflexivity | eauto] | reflexivity].
    + rewrite (backfill_record_valid v id c f w P N).
      eexists. split; [left; reflexivity | reflexivity].
Qed.

(** The loop over the records of a topic. *)
Lemma foldM_backfill_record (items : list (string * string)) :
  forall (v : Topic) (w : World),
  NoDup (keys items) ->
  (forall id c, In (id, c) items -> assoc id v = Some c) ->
  let v' := fst (foldM (backfill_record py_repr) items v w) in
  keys v' = keys v
  /\ (forall id, ~ In id (keys items) -> assoc id v' = assoc id v)
  /\ (forall id c, In (id, c) items ->
        exists x, assoc id v' = Some x /\ rewritten py_repr c x).
Proof.
  induction items as [| [id0 c0] items IH]; intros v w Hnd Hv; cbv zeta.
  - cbn. repeat split; auto. intros id c [].
  - cbn [foldM]. rewrite bind_run.
    cbn [keys map fst] in Hnd. inversion Hnd as [| ? ? Hnot Hnd']; subst.
    set (v1 := fst (backfill_record py_repr v (id0, c0) w)).
    set (w1 := snd (backfill_record py_repr v (id0, c0) w)).
    assert (H0 : assoc id0 v = Some c0) by (apply Hv; now left).
    assert (Hv1 : keys v1 = keys v
                  /\ (forall id, id <> id0 -> assoc id v1 = assoc id v)
                  /\ exists x, assoc id0 v1 = Some x /\ rewritten py_repr c0 x).
    { pose proof (backfill_record_rewrites v id0 c0 w) as R. fold v1 in R.
      destruct (parse_arxiv_string c0) as [e | f] eqn:P.
      - rewrite R. repeat split; auto.
        exists c0. split; [exact H0 |]. unfold rewritten. now rewrite P.
      - destruct R as (x & Rx & ->).
        split; [apply keys_dict_set_present, assoc_in_keys; congruence |].
        split.
        + intros id Hne. rewrite assoc_dict_set.
          destruct (id0 =? id)%string eqn:E; [| reflexivity].
          apply String.eqb_eq in E. congruence.
        + exists x. split; [| exact Rx].
          now rewrite assoc_dict_set, String.eqb_refl. }
    destruct Hv1 as (K1 & O1 & x0 & A0 & R0).
    destruct (IH v1 w1 Hnd') as (K2 & O2 & R2).
    { intros id c Hin. rewrite O1; [apply Hv; now right |].
      intros ->. apply Hnot. change id0 with (fst (id0, c)).
      now apply in_map. }
    split; [congruence |]. split.
    + intros id Hid. rewrite O2.
      * apply O1. intros ->. apply Hid. now left.
      * intros H. apply Hid. now right.
    + intros id c [Hin | Hin].
      * injection Hin as <- <-. exists x0. split; [| exact R0].
        now rewrite O2.
      * now apply R2.
Qed.

Lemma In_assoc {V : Type} (d : dict V) (k : string) (v : V) :
  wf_dict d -> In (k, v) d -> assoc k d = Some v.
Proof.
  unfold wf_dict. induction d as [| [k0 v0] d IH]; [intros _ [] |].
  cbn [keys map fst]. intros Hnd [Hin | Hin]; cbn [assoc].
  - injection Hin as -> ->. now rewrite String.eqb_refl.
  - inversion Hnd as [| ? ? Hnot Hnd']; subst.
    destruct (k0 =? k)%string eqn:E; [| now apply IH].
    apply String.eqb_eq in E. subst k0. exfalso. apply Hnot.
    change k with (fst (k, v)). now apply in_map.
Qed.

Lemma backfill_topic_rewrites (kw : string) (v : Topic) (w : World) :
  wf_dict v ->
  fst (fst (backfill_topic py_repr (kw, v) w)) = kw
  /\ topic_rewritten py_repr v (snd (fst (backfill_topic py_repr (kw, v) w))).
Proof.
  intros Hv. unfold backfill_topic. rewrite !bind_run. unfold ret.
  cbn [fst snd]. split; [reflexivity |].
  destruct (foldM_backfill_record v v (snd (emit (InfoKeywords kw) w)) Hv)
    as (K & _ & R).
  { intros id c. now apply In_assoc. }
  split; [exact K |].
  intros id c H. apply R. now apply assoc_In.
Qed.

Lemma backfill_rewrites (m : Store) (w : World) :
  Forall (fun kv => wf_dict (snd kv)) m ->
  Forall2 (fun kv kv' => fst kv' = fst kv
                         /\ topic_rewritten py_repr (snd kv) (snd kv'))
          m (fst (backfill py_repr m w)).
Proof.
  intros Hm. revert w. unfold backfill.
  induction Hm as [| [kw v] m Hv Hm IH]; intros w; cbn [mapM].
  - constructor.
  - rewrite !bind_run. unfold ret. cbn [fst snd].
    constructor; [| apply IH].
    cbn [fst snd]. now apply backfill_topic_rewrites.
Qed.

Lemma Forall2_assoc {V : Type} (R : V -> V -> Prop) (d d' : dict V) :
  Forall2 (fun kv kv' => fst kv' = fst kv /\ R (snd kv) (snd kv')) d d' ->
  keys d' = keys d
  /\ forall k v, assoc k d = Some v -> exists v', assoc k d' = Some v' /\ R v v'.
Proof.
  induction 1 as [| [k0 v0] [k0' v0'] d d' [Hk Hr] _ [IHk IHa]].
  - split; [reflexivity | discriminate].
  - cbn [fst snd] in Hk, Hr. subst k0'. cbn [keys map fst assoc].
    split; [now f_equal |].
    intros k v. destruct (k0 =? k)%string.
    + intros [= <-]. eauto.
    + apply IHa.
Qed.

(** The backfill keeps every topic and every identifier in place and
    rewrites each record. *)
Lemma backfill_store (m : Store) (w : World) :
  wf_store m ->
  same_shape m (fst (backfill py_repr m w))
  /\ forall topic id c,
       lookup m topic id = Some c ->
       exists x, lookup (fst (backfill py_repr m w)) topic id = Some x
                 /\ rewritten py_repr c x.
Proof.
  intros [_ Hm].
  destruct (Forall2_assoc _ _ _ (backfill_rewrites m w Hm)) as (K & A).
  split.
  - split; [now symmetry |].
    intros topic T HT. destruct (A _ _ HT) as (T' & HT' & (KT & _)). eauto.
  - intros topic id c. unfold lookup.
    destruct (assoc topic m) as [T |] eqn:E; [| discriminate].
    destruct (A _ _ E) as (T' & HT' & (_ & RT)). rewrite HT'. apply RT.
Qed.

End Backfill.

Section BackfillLog.

Variable py_repr : json -> string.

Lemma foldM_logs_failure (items : list (string * string)) :
  forall (v : Topic) (w : World) (id c : string) (e : exn),
  In (id, c) items ->
  parse_arxiv_string c = inl e ->
  exists evs,
    steps w (snd (foldM (backfill_record py_repr) items v w)) evs
    /\ In (ErrProcessing id c e) evs.
Proof.
  induction items as [| [id0 c0] items IH]; intros v w id c e Hin P;
    [destruct Hin |].
  cbn [foldM]. rewrite bind_run.
  destruct (acts_backfill_record py_repr v (id0, c0) w) as (e1 & S1).
  destruct Hin as [Hin | Hin].
  - injection Hin as -> ->.
    destruct (acts_foldM (backfill_record py_repr) items
                (fst (backfill_record py_repr v (id, c) w))
                (acts_backfill_record py_repr)
                (snd (backfill_record py_repr v (id, c) w))) as (e2 & S2).
    rewrite (backfill_record_failure py_repr v id c e w P) in *. cbn [fst snd] in *.
    pose proof (steps_emit (ErrProcessing id c e) w eq_refl) as S0.
    eapply steps_In; [exact S0 | exact S2 | left; now left].
  - destruct (IH (fst (backfill_record py_repr v (id0, c0) w))
                 (snd (backfill_record py_repr v (id0, c0) w)) id c e Hin P)
      as (e2 & S2 & Hin2).
    eapply steps_In; [exact S1 | exact S2 | now right].
Qed.

Lemma backfill_logs_failure (m : Store) :
  forall (w : World) (topic id c : string) (T : Topic) (e : exn),
  In (topic, T) m -> In (id, c) T ->
  parse_arxiv_string c = inl e ->
  exists evs,
    steps w (snd (backfill py_repr m w)) evs
    /\ In (ErrProcessing id c e) evs.
Proof.
  unfold backfill.
  induction m as [| [kw v] m IH]; intros w topic id c T e HT Hin P;
    [destruct HT |].
  cbn [mapM]. rewrite !bind_run. unfold ret at 1. cbn [snd].
  destruct (acts_backfill_topic py_repr (kw, v) w) as (e1 & S1).
  destruct HT as [HT | HT].
  - injection HT as -> ->.
    destruct (acts_mapM (backfill_topic py_repr) m (acts_backfill_topic py_repr)
                (snd (backfill_topic py_repr (topic, T) w))) as (e2 & S2).
    clear S1 e1. unfold backfill_topic in *. rewrite !bind_run in *.
    unfold ret in *. cbn [fst snd] in *.
    pose proof (steps_emit (InfoKeywords topic) w eq_refl) as S0.
    destruct (foldM_logs_failure T T (snd (emit (InfoKeywords topic) w)) id c e Hin P)
      as (e3 & S3 & Hin3).
    exists (([InfoKeywords topic] ++ e3) ++ e2)%list. split.
    + eapply steps_trans; [eapply steps_trans; eassumption | exact S2].
    + apply in_or_app. left. apply in_or_app. now right.
  - destruct (IH (snd (backfill_topic py_repr (kw, v) w)) topic id c T e HT Hin P)
      as (e2 & S2 & Hin2).
    eapply steps_In; [exact S1 | exact S2 | now right].
Qed.

(** C4.  In a well-formed store, a record that does not parse is still
    there, unchanged, after the backfill, and the failure is in the log
    with the identifier and the text of the record.  The backfill goes
    through all the same: the store it returns has every topic and every
    identifier of the one it was given, in place, and every record of
    it rewritten, whichever records failed to parse. *)
Theorem backfill_skips_unparsable (m : Store) (w : World)
    (topic id c : string) (e : exn) :
  wf_store m ->
  lookup m topic id = Some c ->
  parse_arxiv_string c = inl e ->
  lookup (fst (backfill py_repr m w)) topic id = Some c
  /\ (exists evs, steps w (snd (backfill py_repr m w)) evs
                  /\ In (ErrProcessing id c e) evs)
  /\ same_shape m (fst (backfill py_repr m w))
  /\ (forall topic' id' c',
        lookup m topic' id' = Some c' ->
        exists x, lookup (fst (backfill py_repr m w)) topic' id' = Some x
                  /\ rewritten py_repr c' x).
Proof.
  intros Hm Hl P. destruct (backfill_store py_repr m w Hm) as (Sh & R).
  split; [| split; [| split; [exact Sh | exact R]]].
  - destruct (R _ _ _ Hl) as (x & Hx & Rx). unfold rewritten in Rx.
    rewrite P in Rx. now subst x.
  - unfold lookup in Hl. destruct (assoc topic m) as [T |] eqn:E; [| discriminate].
    eapply backfill_logs_failure; [eapply assoc_In, E | eapply assoc_In, Hl | exact P].
Qed.

End BackfillLog.

(* ----------------------------------------------------------------- *)
(** ** Witnesses for the merge and the backfill *)

Ltac no_dup :=
  repeat (constructor; [simpl; intuition discriminate |]); constructor.

Ltac well_formed :=
  repeat match goal with
         | |- wf_store _ => split
         | |- wf_dict _ => unfold wf_dict; simpl; no_dup
         | |- Forall _ _ => constructor
         | |- _ => cbn [snd]
         end.

Lemma wf_sample_store : wf_store sample_store.
Proof. well_formed. Qed.

Lemma wf_sample_batch : Forall wf_store sample_batch.
Proof. well_formed. Qed.

Lemma merge_right_biased_union_witness :
  wf_store sample_store /\ Forall wf_store sample_batch
  /\ (forall topic id,
        lookup (merge_all sample_store sample_batch) topic id
        = match batch_lookup (List.concat sample_batch) topic id with
          | Some r => Some r
          | None => lookup sample_store topic id
          end)
  /\ (forall topic existing,
        assoc topic sample_store = Some existing ->
        exists merged added,
          assoc topic (merge_all sample_store sample_batch) = Some merged
          /\ keys merged = (keys existing ++ added)%list)
  /\ merge_all (merge_all sample_store sample_batch) sample_batch
     = merge_all sample_store sample_batch.
Proof.
  split; [exact wf_sample_store |]. split; [exact wf_sample_batch |].
  exact (merge_right_biased_union sample_store sample_batch
           wf_sample_store wf_sample_batch).
Defined.

Example merge_sample :
  merge_all sample_store sample_batch
  = [("SLAM", [("2401.00001", resolved_row); ("2401.00002", resolved_row);
               ("2401.00005", unresolved_row)]);
     ("NeRF", [("2401.00009", web_row)]);
     ("VLM", [("2401.00007", unresolved_row)])].
Proof. reflexivity. Qed.

Example web_row_does_not_parse : parse_arxiv_string web_row = inl IndexError.
Proof. reflexivity. Qed.

Lemma backfill_skips_unparsable_witness :
  wf_store sample_store
  /\ lookup sample_store "NeRF" "2401.00009" = Some web_row
  /\ parse_arxiv_string web_row = inl IndexError
  /\ lookup (fst (backfill no_repr sample_store silent_world)) "NeRF" "2401.00009"
     = Some web_row
  /\ (exists evs,
        steps silent_world (snd (backfill no_repr sample_store silent_world)) evs
        /\ In (ErrProcessing "2401.00009" web_row IndexError) evs)
  /\ same_shape sample_store (fst (backfill no_repr sample_store silent_world))
  /\ (forall topic' id' c',
        lookup sample_store topic' id' = Some c' ->
        exists x,
          lookup (fst (backfill no_repr sample_store silent_world)) topic' id' = Some x
          /\ rewritten no_repr c' x).
Proof.
  split; [exact wf_sample_store |]. split; [reflexivity |]. split; [reflexivity |].
  exact (backfill_skips_unparsable no_repr sample_store silent_world
           "NeRF" "2401.00009" web_row IndexError
           wf_sample_store eq_refl eq_refl).
Defined.

(* ----------------------------------------------------------------- *)
(** ** The unresolved marker *)

Lemma contains_app_r (sub a b : string) :
  contains sub b = true -> contains sub (a ++ b) = true.
Proof.
  intros H. induction a as [| c a IH]; [exact H |].
  cbn [append contains]. rewrite IH. apply orb_true_r.
Qed.

Lemma row_unresolved_has_null (update_time paper_title paper_first_author
                               paper_key paper_url : string) :
  contains "|null|" (row_unresolved update_time paper_title paper_first_author
                                    paper_key paper_url) = true.
Proof.
  unfold row_unresolved. do 10 apply contains_app_r. reflexivity.
Qed.

Lemma final_value_absent (steps : list (Stage * Outcome)) :
  Forall (fun so => value_of (snd so) = JNull) steps ->
  final_value steps = JNull.
Proof.
  unfold final_value. intros H.
  destruct steps as [| a steps] using rev_ind; [reflexivity |].
  rewrite last_last. apply Forall_app in H. destruct H as [_ H].
  now inversion H.
Qed.


(* ----------------------------------------------------------------- *)
(** ** Backfill of rows that already have a link *)

(** C3.  A store in which every record has a link is not always left
    alone.  [get_daily_papers] stores, for a paper titled [a|null|b]
    whose link the hub finds, a row with that link; the backfill of this
    store sends a request, and the link it gets is written where the
    title had [|null|], the row losing its last cells.  Likewise a row
    with a link in its code cell and [null] as its title cell is
    resolved again, with one request when the hub answers and eighteen
    when nothing does, and the link found is written over the title. *)
Theorem backfill_resolves_linked_row :
  barred_title_store
  = [("SLAM",
      [("2401.00004",
        row_resolved "2024-01-06" "a|null|b" "Dee Doe" "2401.00004"
                     "https://arxiv.org/abs/2401.00004"
                     "https://huggingface.co/models/org/model")])]
  /\ sent (snd (backfill no_repr barred_title_store generous_world)) = 1
  /\ fst (backfill no_repr barred_title_store generous_world)
     = [("SLAM",
         [("2401.00004",
           "|**2024-01-06**|**a|**[link](https://huggingface.co/models/org/model)**|b**|Dee Doe et.al.|"
           ++ nl)])]
  /\ (exists f, parse_arxiv_string null_title_row = inr f
                /\ f_code f = "**[link](https://github.com/c/d)**"
                /\ f_title f = "null")
  /\ sent (snd (backfill no_repr null_title_store generous_world)) = 1
  /\ fst (backfill no_repr null_title_store generous_world)
     = [("SLAM",
         [("2401.00003",
           "|**2024-01-04**|**[link](https://huggingface.co/models/org/model)**|Cyd et.al.|[2401.00003](https://arxiv.org/abs/2401.00003)|**[link](https://github.com/c/d)**|"
           ++ nl)])]
  /\ sent (snd (backfill no_repr null_title_store silent_world)) = 18.
Proof.
  split; [reflexivity |]. split; [reflexivity |]. split; [reflexivity |].
  split; [eexists; repeat split |].
  split; [reflexivity |]. split; reflexivity.
Qed.

Section BackfillQuiet.

Variable py_repr : json -> string.

Lemma foldM_backfill_quiet (items : list (string * string)) :
  forall (v : Topic) (w : World),
  (forall id c f, In (id, c) items -> parse_arxiv_string c = inr f ->
                  contains "|null|" (normalized f) = false) ->
  exists evs,
    steps w (snd (foldM (backfill_record py_repr) items v w)) evs
    /\ count_gets evs = 0
    /\ Forall quiet_event evs.
Proof.
  induction items as [| [id c] items IH]; intros v w H; cbn [foldM].
  - exists []. split; [apply steps_refl | split; [reflexivity | constructor]].
  - rewrite bind_run.
    assert (H1 : exists e1,
               steps w (snd (backfill_record py_repr v (id, c) w)) e1
               /\ count_gets e1 = 0 /\ Forall quiet_event e1).
    { destruct (parse_arxiv_string c) as [e | f] eqn:P.
      - rewrite (backfill_record_failure py_repr v id c e w P). cbn [snd].
        exists [ErrProcessing id c e].
        split; [now apply steps_emit | split; [reflexivity | now repeat constructor]].
      - rewrite (backfill_record_valid py_repr v id c f w P);
          [| apply (H id c f); [now left | exact P]].
        exists []. split; [apply steps_refl | split; [reflexivity | constructor]]. }
    destruct H1 as (e1 & S1 & C1 & Q1).
    destruct (IH (fst (backfill_record py_repr v (id, c) w))
                 (snd (backfill_record py_repr v (id, c) w)))
      as (e2 & S2 & C2 & Q2).
    { intros id' c' f' Hin. apply (H id' c' f'). now right. }
    exists (e1 ++ e2)%list.
    split; [eapply steps_trans; eassumption |].
    split; [rewrite count_gets_app; lia | now apply Forall_app].
Qed.

(** On a store without [|null|] in the normalized form of any record,
    the backfill sends no request: it logs the topics and the records
    that do not parse, and nothing else. *)
Lemma backfill_quiet (m : Store) (w : World) :
  no_null_cell m ->
  exists evs,
    steps w (snd (backfill py_repr m w)) evs
    /\ count_gets evs = 0
    /\ Forall quiet_event evs.
Proof.
  unfold backfill. revert w.
  induction m as [| [kw v] m IH]; intros w H; cbn [mapM].
  - exists []. split; [apply steps_refl | split; [reflexivity | constructor]].
  - rewrite !bind_run. unfold ret at 1. cbn [snd].
    unfold backfill_topic at 2. rewrite !bind_run. unfold ret at 1. cbn [snd].
    pose proof (steps_emit (InfoKeywords kw) w eq_refl) as S0.
    destruct (foldM_backfill_quiet v v (snd (emit (InfoKeywords kw) w)))
      as (e1 & S1 & C1 & Q1).
    { intros id c f Hin P. apply (H kw v id c f); [now left | exact Hin | exact P]. }
    destruct (IH (snd (foldM (backfill_record py_repr) v v
                         (snd (emit (InfoKeywords kw) w)))))
      as (e2 & S2 & C2 & Q2).
    { intros topic T id c f HT. apply (H topic T id c f). now right. }
    exists (([InfoKeywords kw] ++ e1) ++ e2)%list.
    split; [eapply steps_trans; [eapply steps_trans; eassumption | exact S2] |].
    split; [rewrite !count_gets_app; simpl; lia |].
    apply Forall_app. split; [| exact Q2].
    apply Forall_app. split; [now repeat constructor | exact Q1].
Qed.

Lemma backfill_quiet_sends_nothing (m : Store) (w : World) :
  no_null_cell m -> sent (snd (backfill py_repr m w)) = sent w.
Proof.
  intros H. destruct (backfill_quiet m w H) as (evs & S & C & _).
  destruct S as (_ & _ & _ & _ & _ & Hs). lia.
Qed.

End BackfillQuiet.

(* ----------------------------------------------------------------- *)
(** ** Loading the store *)

Section Load.

Variable py_repr : json -> string.
Variable json_loads : string -> exn + Store.
Variable json_dumps : Store -> string.

Lemma load_empty (filename : string) (w : World) :
  files w filename = Some "" ->
  load json_loads filename w = (inr [], w).
Proof.
  intros H. unfold load, read_file. rewrite bind_run. cbn [fst snd].
  now rewrite H.
Qed.

Lemma load_absent (filename : string) (w : World) :
  files w filename = None ->
  load json_loads filename w = (inl FileNotFoundError, w).
Proof.
  intros H. unfold load, read_file. rewrite bind_run. cbn [fst snd].
  now rewrite H.
Qed.

(** C5, as the code has it.  A store file that is there and empty loads
    as the empty store in each of the three operations: the merge writes
    the batch merged into nothing, the backfill writes the empty store
    without a request, the renderer writes the listing of no topic.  A
    store file that is not there makes the load, and with it each of the
    three operations, raise [FileNotFoundError] and leave the world as
    it was. *)
Theorem load_empty_or_absent (filename md_filename : string)
    (data_dict : list Store) (o : Options) (w : World) :
  (files w filename = Some "" ->
   load json_loads filename w = (inr [], w)
   /\ update_json_file json_loads json_dumps filename data_dict w
      = (inr tt, with_file filename (json_dumps (merge_all [] data_dict)) w)
   /\ update_paper_links py_repr json_loads json_dumps filename w
      = (inr tt, with_file filename (json_dumps []) w)
   /\ fst (json_to_md json_loads filename md_filename o w) = inr tt
   /\ files (snd (json_to_md json_loads filename md_filename o w)) md_filename
      = Some (render o (replace "-" "." (today w)) []))
  /\ (files w filename = None ->
      load json_loads filename w = (inl FileNotFoundError, w)
      /\ update_json_file json_loads json_dumps filename data_dict w
         = (inl FileNotFoundError, w)
      /\ update_paper_links py_repr json_loads json_dumps filename w
         = (inl FileNotFoundError, w)
      /\ json_to_md json_loads filename md_filename o w
         = (inl FileNotFoundError, w)).
Proof.
  split; intros H.
  - split; [now apply load_empty |].
    split; [| split; [| split]].
    + unfold update_json_file. rewrite bind_run, (load_empty _ _ H). reflexivity.
    + unfold update_paper_links. rewrite bind_run, (load_empty _ _ H). reflexivity.
    + unfold json_to_md. rewrite bind_run, (load_empty _ _ H). reflexivity.
    + unfold json_to_md. rewrite bind_run, (load_empty _ _ H).
      cbn. now rewrite String.eqb_refl.
  - split; [now apply load_absent |].
    split; [| split].
    + unfold update_json_file. rewrite bind_run, (load_absent _ _ H). reflexivity.
    + unfold update_paper_links. rewrite bind_run, (load_absent _ _ H). reflexivity.
    + unfold json_to_md. rewrite bind_run, (load_absent _ _ H). reflexivity.
Qed.

End Load.

(** C5, as the specification has it, fails where the file is absent:
    nothing is loaded, and each operation raises. *)
Lemma load_absent_is_an_error :
  files silent_world "docs/store.json" = None
  /\ fst (load no_loads "docs/store.json" silent_world) = inl FileNotFoundError
  /\ fst (load no_loads "docs/store.json" silent_world) <> inr []
  /\ fst (update_json_file no_loads no_dumps "docs/store.json" sample_batch silent_world)
     = inl FileNotFoundError
  /\ fst (update_paper_links no_repr no_loads no_dumps "docs/store.json" silent_world)
     = inl FileNotFoundError
  /\ fst (json_to_md no_loads "docs/store.json" "README.md" default_options silent_world)
     = inl FileNotFoundError.
Proof. repeat split. discriminate. Qed.

Lemma load_empty_or_absent_witness :
  files empty_file_world "docs/store.json" = Some ""
  /\ load no_loads "docs/store.json" empty_file_world = (inr [], empty_file_world)
  /\ files silent_world "docs/store.json" = None
  /\ load no_loads "docs/store.json" silent_world = (inl FileNotFoundError, silent_world).
Proof.
  split; [reflexivity |].
  split; [exact (proj1 (proj1 (load_empty_or_absent no_repr no_loads no_dumps
                                 "docs/store.json" "README.md" sample_batch
                                 default_options empty_file_world) eq_refl)) |].
  split; [reflexivity |].
  exact (proj1 (proj2 (load_empty_or_absent no_repr no_loads no_dumps
                         "docs/store.json" "README.md" sample_batch
                         default_options silent_world) eq_refl)).
Defined.

(* ----------------------------------------------------------------- *)
(** ** [pretty_math] *)

Lemma length_append (a b : string) :
  String.length (a ++ b) = String.length a + String.length b.
Proof. induction a as [| c a IH]; simpl; [reflexivity | now rewrite IH]. Qed.

Lemma take_append (a b : string) : take (String.length a) (a ++ b) = a.
Proof. induction a as [| c a IH]; simpl; [now destruct b | now rewrite IH]. Qed.

Lemma drop_append (a b : string) : drop (String.length a) (a ++ b) = b.
Proof. induction a as [| c a IH]; simpl; [reflexivity | exact IH]. Qed.

Lemma pretty_math_reformat (s : string) :
  pretty_math s = reformat (search_math s) s.
Proof. reflexivity. Qed.

(** The greedy [.*\$]: with no line break in [inner] and no further
    ["$"] on the line of [post], the last ["$"] is the one after
    [inner]. *)
Lemma last_dollar_after (inner post : string) :
  has_char newline inner = false ->
  last_dollar_in_line post = None ->
  last_dollar_in_line (inner ++ String "$" post) = Some (String.length inner).
Proof.
  intros Hn Hp. induction inner as [| c inner IH]; cbn [append last_dollar_in_line].
  - now rewrite Hp.
  - cbn [has_char] in Hn. apply orb_false_elim in Hn. destruct Hn as [Hc Hn].
    rewrite Hc, (IH Hn). reflexivity.
Qed.






Lemma wants_space_guard_front (pre : string) :
  (0 <? String.length pre) && wants_space (last_char pre)
  = wants_space (last_char pre).
Proof. now destruct pre. Qed.

Lemma wants_space_guard_back (post : string) (n : nat) :
  (n <? n + String.length post) && wants_space (first_char post)
  = wants_space (first_char post).
Proof.
  destruct post as [| c post]; [apply andb_false_r |].
  cbn [String.length].
  replace (n <? n + S (String.length post)) with true; [reflexivity |].
  symmetry. apply Nat.ltb_lt. lia.
Qed.

(** The reformatting of the span between the ["$"] after [pre] and the
    ["$"] before [post]. *)
Lemma reformat_span (pre inner post : string) :
  reformat (Some (String.length pre, String.length pre + String.length inner + 2))
           (pre ++ String "$" (inner ++ String "$" post))
  = pre ++ gap (last_char pre) ++ "$" ++ strip inner ++ "$"
    ++ gap (first_char post) ++ post.
Proof.
  unfold reformat, gap.
  set (s := pre ++ String "$" (inner ++ String "$" post)).
  assert (Hs : s = (pre ++ String "$" (inner ++ "$")) ++ post).
  { unfold s. clear s. induction pre as [| c pre IH]; simpl.
    - f_equal. induction inner as [| c inner IH]; simpl; [reflexivity | now rewrite IH].
    - now rewrite IH. }
  assert (Hlen : String.length pre + String.length inner + 2
                 = String.length (pre ++ String "$" (inner ++ "$"))).
  { rewrite length_append. cbn [String.length]. rewrite length_append.
    cbn [String.length]. lia. }
  replace (take (String.length pre) s) with pre by (unfold s; now rewrite take_append).
  replace (drop (String.length pre + String.length inner + 2) s) with post
    by (rewrite Hlen, Hs; now rewrite drop_append).
  replace (String.length s)
    with (String.length pre + String.length inner + 2 + String.length post)
    by (rewrite Hs, length_append; lia).
  rewrite wants_space_guard_front, wants_space_guard_back.
  replace (drop (String.length pre) s) with (String "$" (inner ++ String "$" post))
    by (unfold s; now rewrite drop_append).
  replace (String.length pre + String.length inner + 2 - String.length pre)
    with (S (String.length inner + 1)) by lia.
  cbn [take].
  assert (Hg : take (String.length inner + 1) (inner ++ String "$" post)
               = inner ++ "$").
  { clear. induction inner as [| c inner IH]; simpl; [now destruct post |].
    now rewrite IH. }
  rewrite Hg. cbn [String.length].
  replace (S (String.length (inner ++ "$")) - 1) with (S (String.length inner))
    by (rewrite length_append; simpl; lia).
  cbn [take drop].
  replace (take (String.length inner) (inner ++ "$")) with inner
    by now rewrite take_append.
  reflexivity.
Qed.




(* ----------------------------------------------------------------- *)
(** ** [sort_papers] *)

Lemma insert_desc_perm (k : string) (l : list string) :
  Permutation (insert_desc k l) (k :: l).
Proof.
  induction l as [| h t IH]; cbn [insert_desc]; [reflexivity |].
  destruct (String.leb h k); [reflexivity |].
  rewrite IH. apply perm_swap.
Qed.

Lemma sort_desc_perm (l : list string) : Permutation (sort_desc l) l.
Proof.
  induction l as [| k l IH]; cbn [sort_desc fold_right]; [reflexivity |].
  fold (sort_desc l). rewrite insert_desc_perm. now constructor.
Qed.

Lemma insert_desc_hd (h k : string) (t : list string) :
  String.leb h k = false ->
  HdRel above_or_equal h t ->
  HdRel above_or_equal h (insert_desc k t).
Proof.
  intros Hhk Ht. assert (Hkh : above_or_equal h k).
  { unfold above_or_equal. destruct (String.leb_total h k); congruence. }
  destruct t as [| x t]; cbn [insert_desc]; [now constructor |].
  destruct (String.leb x k); constructor; [exact Hkh |].
  now inversion Ht.
Qed.

Lemma insert_desc_sorted (k : string) (l : list string) :
  Sorted above_or_equal l -> Sorted above_or_equal (insert_desc k l).
Proof.
  induction 1 as [| h t Hs IH Hh]; cbn [insert_desc].
  - repeat constructor.
  - destruct (String.leb h k) eqn:E.
    + constructor; [now constructor | now constructor].
    + constructor; [exact IH | now apply insert_desc_hd].
Qed.

Lemma sort_desc_sorted (l : list string) : Sorted above_or_equal (sort_desc l).
Proof.
  induction l as [| k l IH]; cbn [sort_desc fold_right]; [constructor |].
  now apply insert_desc_sorted.
Qed.

Lemma above_of_distinct (a b : string) :
  above_or_equal a b -> a <> b -> above a b.
Proof.
  unfold above_or_equal, above, String.leb, String.ltb.
  destruct (String.compare b a) eqn:E; try easy.
  apply String.compare_eq_iff in E. congruence.
Qed.

Lemma sorted_strict (l : list string) :
  Sorted above_or_equal l -> NoDup l -> Sorted above l.
Proof.
  induction 1 as [| h t Hs IH Hh]; intros Hnd; [constructor |].
  inversion Hnd as [| ? ? Hnot Hnd']; subst.
  constructor; [now apply IH |].
  destruct Hh as [| x t Hx]; constructor.
  apply above_of_distinct; [exact Hx |].
  intros ->. apply Hnot. now left.
Qed.

Lemma sort_papers_build (papers : Topic) (ks : list string) :
  forall output : Topic,
  NoDup ks ->
  (forall k, In k ks -> ~ In k (keys output)) ->
  (forall k, In k ks -> assoc k papers <> None) ->
  let result :=
    fold_left (fun output key => match assoc key papers with
                                 | Some v => dict_set output key v
                                 | None => output
                                 end) ks output in
  keys result = (keys output ++ ks)%list
  /\ (forall id, In id ks -> assoc id result = assoc id papers)
  /\ (forall id, ~ In id ks -> assoc id result = assoc id output).
Proof.
  induction ks as [| k ks IH]; intros output Hnd Hfresh Hin; cbv zeta.
  - cbn [fold_left]. rewrite app_nil_r. repeat split; auto. intros id [].
  - cbn [fold_left]. inversion Hnd as [| ? ? Hnot Hnd']; subst.
    destruct (assoc k papers) as [v |] eqn:E;
      [| exfalso; apply (Hin k); [now left | exact E]].
    destruct (IH (dict_set output k v) Hnd') as (K & A & B).
    + intros k' Hk'. rewrite keys_dict_set_absent by (apply Hfresh; now left).
      intros H. apply in_app_or in H. destruct H as [H | [<- | []]].
      * apply (Hfresh k'); [now right | exact H].
      * contradiction.
    + intros k' Hk'. apply Hin. now right.
    + split; [| split].
      * rewrite K, keys_dict_set_absent by (apply Hfresh; now left).
        now rewrite <- app_assoc.
      * intros id [<- | Hid]; [| now apply A].
        rewrite B by exact Hnot. now rewrite assoc_dict_set, String.eqb_refl.
      * intros id Hid. rewrite B by (intros H; apply Hid; now right).
        rewrite assoc_dict_set.
        destruct (k =? id)%string eqn:Ek; [| reflexivity].
        apply String.eqb_eq in Ek. subst id. exfalso. apply Hid. now left.
Qed.

(** [sort_papers] keeps the records and lists them by identifier, going
    down. *)
Lemma sort_papers_sorted (papers : Topic) :
  wf_dict papers ->
  keys (sort_papers papers) = sort_desc (keys papers)
  /\ Sorted above (keys (sort_papers papers))
  /\ Permutation (keys (sort_papers papers)) (keys papers)
  /\ forall id, assoc id (sort_papers papers) = assoc id papers.
Proof.
  intros Hwf. unfold sort_papers.
  pose proof (sort_desc_perm (keys papers)) as P.
  assert (Hnd : NoDup (sort_desc (keys papers))).
  { eapply Permutation_NoDup; [symmetry; exact P | exact Hwf]. }
  destruct (sort_papers_build papers (sort_desc (keys papers)) [] Hnd)
    as (K & A & B).
  { intros k _ []. }
  { intros k Hk. apply assoc_in_keys. eapply Permutation_in; eassumption. }
  cbn [keys map app] in K. split; [exact K |].
  split; [rewrite K; apply sorted_strict; [apply sort_desc_sorted | exact Hnd] |].
  split; [now rewrite K |].
  intros id. destruct (in_dec string_dec id (sort_desc (keys papers))) as [Hin | Hout].
  - now apply A.
  - rewrite B by exact Hout. cbn [assoc]. symmetry.
    apply assoc_none_keys. intros H. apply Hout.
    eapply Permutation_in; [symmetry; exact P | exact H].
Qed.

(* ----------------------------------------------------------------- *)
(** ** [json_to_md] *)

Lemma append_nil_r (s : string) : s ++ "" = s.
Proof. induction s as [| c s IH]; simpl; [reflexivity | now rewrite IH]. Qed.

Lemma append_assoc (a b c : string) : (a ++ b) ++ c = a ++ b ++ c.
Proof. induction a as [| x a IH]; simpl; [reflexivity | now rewrite IH]. Qed.

Lemma concat_cons (x : string) (xs : list string) :
  String.concat "" (x :: xs) = x ++ String.concat "" xs.
Proof.
  destruct xs as [| y ys]; cbn [String.concat]; [now rewrite append_nil_r |].
  reflexivity.
Qed.

Lemma concat_app (l1 l2 : list string) :
  String.concat "" (l1 ++ l2) = String.concat "" l1 ++ String.concat "" l2.
Proof.
  induction l1 as [| x l1 IH]; [reflexivity |].
  change ((x :: l1) ++ l2)%list with (x :: (l1 ++ l2))%list.
  now rewrite !concat_cons, IH, append_assoc.
Qed.

Lemma concat_skip (f : string * Topic -> string) (before after : Store)
    (entry : string * Topic) :
  f entry = "" ->
  String.concat "" (map f (before ++ entry :: after)%list)
  = String.concat "" (map f (before ++ after)%list).
Proof.
  intros H. rewrite !map_app, !concat_app. cbn [map].
  now rewrite concat_cons, H.
Qed.

(** A topic without records leaves no trace in the listing. *)
Lemma render_skips_empty (o : Options) (DateNow : string)
    (before after : Store) (keyword : string) :
  render o DateNow (before ++ (keyword, []) :: after)%list
  = render o DateNow (before ++ after)%list.
Proof.
  unfold render, table_of_contents.
  now rewrite !(concat_skip _ before after (keyword, [])).
Qed.

Section RenderFacts.

Variable json_loads : string -> exn + Store.

Lemma load_world (filename : string) (w : World) :
  snd (load json_loads filename w) = w.
Proof.
  unfold load, read_file. rewrite bind_run. cbn [fst snd].
  destruct (files w filename) as [c |]; [| reflexivity].
  now destruct (c =? "")%string.
Qed.

Lemma load_reads_file (filename : string) (w1 w2 : World) :
  files w2 filename = files w1 filename ->
  fst (load json_loads filename w2) = fst (load json_loads filename w1).
Proof.
  intros H. unfold load, read_file. rewrite !bind_run. cbn [fst snd].
  rewrite H. destruct (files w1 filename) as [c |]; [| reflexivity].
  now destruct (c =? "")%string.
Qed.

Lemma json_to_md_writes (filename md_filename : string) (o : Options)
    (data : Store) (w : World) :
  fst (load json_loads filename w) = inr data ->
  fst (json_to_md json_loads filename md_filename o w) = inr tt
  /\ files (snd (json_to_md json_loads filename md_filename o w)) md_filename
     = Some (render o (replace "-" "." (today w)) data)
  /\ (forall p, p <> md_filename ->
        files (snd (json_to_md json_loads filename md_filename o w)) p = files w p)
  /\ today (snd (json_to_md json_loads filename md_filename o w)) = today w.
Proof.
  intros H. unfold json_to_md. rewrite bind_run, H, load_world.
  rewrite !bind_run. unfold ret. cbn [fst snd files today emit append_file write_file].
  rewrite String.eqb_refl. repeat split.
  intros p Hp. apply String.eqb_neq in Hp. now rewrite Hp.
Qed.

(** C9, as the code has it.  The listing is a function of the store
    file, the options and the date of the day: two runs that agree on
    these write the same text, whatever the listing file held before,
    and a second run on the same day rewrites the text of the first.
    The records of a topic are written in the order of [sort_papers]:
    the same records, each identifier above the next.  A topic without
    records adds nothing to the listing.  For a store without topics the
    listing holds the header lines, the badges and an empty table of
    contents, as the options ask, and [json_to_md] returns normally. *)
Theorem render_deterministic_per_day (filename md_filename : string)
    (o : Options) (data : Store) (w1 w2 : World) :
  fst (load json_loads filename w1) = inr data ->
  files w2 filename = files w1 filename ->
  today w2 = today w1 ->
  let DateNow := replace "-" "." (today w1) in
  let run := json_to_md json_loads filename md_filename o in
  fst (run w1) = inr tt
  /\ files (snd (run w1)) md_filename = Some (render o DateNow data)
  /\ files (snd (run w2)) md_filename = files (snd (run w1)) md_filename
  /\ (filename <> md_filename ->
      files (snd (run (snd (run w1)))) md_filename
      = files (snd (run w1)) md_filename)
  /\ (forall topic day_content,
        wf_dict day_content -> day_content <> [] ->
        topic_section o DateNow (topic, day_content)
        = "## " ++ topic ++ nl ++ nl ++ table_head o
          ++ String.concat ""
               (map (fun kv => pretty_math (snd kv)) (sort_papers day_content))
          ++ nl ++ (if use_b2t o then back_to_top DateNow else "")
        /\ Sorted above (keys (sort_papers day_content))
        /\ Permutation (keys (sort_papers day_content)) (keys day_content)
        /\ forall id, assoc id (sort_papers day_content) = assoc id day_content)
  /\ (forall before after keyword,
        render o DateNow (before ++ (keyword, []) :: after)%list
        = render o DateNow (before ++ after)%list)
  /\ render o DateNow []
     = (if use_title o && to_web o then front_matter else "")
       ++ (if show_badge o then badge_links else "")
       ++ updated_line o DateNow ++ usage_line
       ++ (if use_tc o
           then "<details>" ++ nl ++ "  <summary>Table of Contents</summary>" ++ nl
                ++ "  <ol>" ++ nl ++ "  </ol>" ++ nl ++ "</details>" ++ nl ++ nl
           else "")
       ++ (if show_badge o then badge_targets else "").
Proof.
  intros Hload Hfile Hday. cbv zeta.
  destruct (json_to_md_writes filename md_filename o data w1 Hload)
    as (R1 & F1 & O1 & D1).
  assert (Hload2 : fst (load json_loads filename w2) = inr data)
    by now rewrite (load_reads_file filename w1 w2 Hfile).
  destruct (json_to_md_writes filename md_filename o data w2 Hload2)
    as (R2 & F2 & _ & _).
  split; [exact R1 |]. split; [exact F1 |].
  split; [now rewrite F2, F1, Hday |].
  split.
  { intros Hne.
    assert (Hload3 : fst (load json_loads filename
                            (snd (json_to_md json_loads filename md_filename o w1)))
                     = inr data).
    { rewrite (load_reads_file filename w1); [exact Hload | now apply O1]. }
    destruct (json_to_md_writes filename md_filename o data _ Hload3)
      as (_ & F3 & _ & _).
    now rewrite F3, F1, D1. }
  split.
  { intros topic day_content Hwf Hne.
    destruct (sort_papers_sorted day_content Hwf) as (_ & S & P & A).
    split; [| split; [exact S | split; [exact P | exact A]]].
    unfold topic_section, topic_lines. now destruct day_content. }
  split; [intros; apply render_skips_empty |].
  unfold render. cbn [map String.concat table_of_contents].
  destruct (use_tc o); reflexivity.
Qed.

End RenderFacts.

Lemma render_deterministic_per_day_witness :
  fst (load sample_loads "docs/store.json" sample_file_world) = inr sample_store
  /\ files (with_file "README.md" "an older listing" sample_file_world) "docs/store.json"
     = files sample_file_world "docs/store.json"
  /\ today (with_file "README.md" "an older listing" sample_file_world)
     = today sample_file_world
  /\ files (snd (json_to_md sample_loads "docs/store.json" "README.md" default_options
                   (with_file "README.md" "an older listing" sample_file_world)))
           "README.md"
     = files (snd (json_to_md sample_loads "docs/store.json" "README.md"
                     default_options sample_file_world))
             "README.md".
Proof.
  split; [reflexivity |]. split; [reflexivity |]. split; [reflexivity |].
  exact (proj1 (proj2 (proj2
           (render_deterministic_per_day sample_loads "docs/store.json" "README.md"
              default_options sample_store sample_file_world
              (with_file "README.md" "an older listing" sample_file_world)
              eq_refl eq_refl eq_refl)))).
Defined.

(** C9, as the specification has it, fails across days: the same store
    and the same options give two listings when the date differs. *)
Lemma render_depends_on_the_day :
  files (with_today "2024-01-02" sample_file_world) "docs/store.json"
  = files sample_file_world "docs/store.json"
  /\ files (snd (json_to_md sample_loads "docs/store.json" "README.md"
                   default_options (with_today "2024-01-02" sample_file_world)))
           "README.md"
     <> files (snd (json_to_md sample_loads "docs/store.json" "README.md"
                      default_options sample_file_world))
              "README.md".
Proof.
  split; [reflexivity |]. vm_compute. discriminate.
Qed.

(* ----------------------------------------------------------------- *)
(** ** The resolution on sample worlds *)

(** Hub and code host would both answer: the hub link is returned and one
    request is sent. *)
Example resolve_prefers_hub :
  fst (resolve_daily no_repr "A Paper" "2108.09112" "Ann Author" generous_world)
  = JStr "https://huggingface.co/models/org/model"
  /\ trace (snd (resolve_daily no_repr "A Paper" "2108.09112" "Ann Author"
                   generous_world))
     = [EvGet (hf_request "2108.09112")].
Proof. split; reflexivity. Qed.

(** The hub has nothing: the first search of the code host decides, and
    no later stage sends a request. *)
Example resolve_falls_back :
  fst (resolve_backfill no_repr "A Paper" "2108.09112" "Ann Author" code_host_world)
  = JStr "https://github.com/a/b"
  /\ sent (snd (resolve_backfill no_repr "A Paper" "2108.09112" "Ann Author"
                  code_host_world)) = 2.
Proof. split; reflexivity. Qed.

(** Nothing answers: all six stages are tried, three requests each, and
    the result is [None]. *)
Example resolve_gives_up :
  fst (resolve_daily no_repr "A Paper" "2108.09112" "Ann Author" silent_world) = JNull
  /\ sent (snd (resolve_daily no_repr "A Paper" "2108.09112" "Ann Author"
                  silent_world)) = 18.
Proof. split; reflexivity. Qed.

(** A search of [find_code_repo] that raises ends [find_code_repo]: the
    two searches after it are not sent, and the bare title search is the
    next stage to run. *)
Example resolve_after_malformed_answer :
  fst (resolve_daily no_repr "A Paper" "2108.09112" "Ann Author" malformed_world)
  = JStr "https://github.com/a/b"
  /\ map (fun e => match e with
                   | EvGet req => match params req with
                                  | Some (("q", JStr q) :: _) => q
                                  | _ => url req
                                  end
                   | ErrFindCodeRepo _ => "find_code_repo error"
                   | _ => ""
                   end)
         (trace (snd (resolve_daily no_repr "A Paper" "2108.09112" "Ann Author"
                        malformed_world)))
     = ["https://huggingface.co/api/arxiv/2108.09112/repos";
        quoted "A Paper" ++ " in:readme,in:description";
        "find_code_repo error";
        "A Paper"].
Proof. split; reflexivity. Qed.

(* ----------------------------------------------------------------- *)
(** ** The merge on objects agrees with the merge on values *)

Lemma assoc_deref (h : Heap) (d : dict nat) (k : string) :
  assoc k (deref h d) = option_map h (assoc k d).
Proof.
  induction d as [| [k0 a0] d IH]; [reflexivity |].
  cbn [deref map assoc fst snd]. destruct (k0 =? k)%string; [reflexivity | exact IH].
Qed.

Lemma assoc_In_snd (d : dict nat) (k : string) (a : nat) :
  assoc k d = Some a -> In a (map snd d).
Proof.
  intros H. apply assoc_In in H. change a with (snd (k, a)). now apply in_map.
Qed.

Lemma deref_heap_set_other (h : Heap) (d : dict nat) (b : nat) (t : Topic) :
  ~ In b (map snd d) -> deref (heap_set h b t) d = deref h d.
Proof.
  intros H. unfold deref. apply map_ext_in. intros [k a] Hin. cbn [fst snd].
  unfold heap_set. destruct (a =? b) eqn:E; [| reflexivity].
  apply Nat.eqb_eq in E. subst a. exfalso. apply H.
  change b with (snd (k, b)). now apply in_map.
Qed.

(** Updating the object a topic points to is setting the topic. *)
Lemma deref_heap_set (h : Heap) (d : dict nat) (kw : string) (b : nat) (t : Topic) :
  NoDup (map snd d) ->
  assoc kw d = Some b ->
  deref (heap_set h b t) d = dict_set (deref h d) kw t.
Proof.
  induction d as [| [k0 a0] d IH]; [discriminate |].
  cbn [map snd assoc]. intros Hnd Ha.
  inversion Hnd as [| ? ? Hnot Hnd']; subst.
  cbn [deref map fst snd dict_set].
  destruct (k0 =? kw)%string eqn:E.
  - injection Ha as ->. unfold heap_set at 1. rewrite Nat.eqb_refl.
    f_equal. now apply deref_heap_set_other.
  - assert (a0 <> b).
    { intros ->. apply Hnot. eapply assoc_In_snd, Ha. }
    unfold heap_set at 1.
    replace (a0 =? b) with false by (symmetry; now apply Nat.eqb_neq).
    f_equal. now apply IH.
Qed.

Lemma deref_dict_set_absent (h : Heap) (d : dict nat) (kw : string) (a : nat) :
  assoc kw d = None ->
  deref h (dict_set d kw a) = dict_set (deref h d) kw (h a).
Proof.
  induction d as [| [k0 a0] d IH]; [reflexivity |].
  cbn [assoc dict_set deref map fst snd].
  destruct (k0 =? kw)%string; [discriminate |].
  intros H. cbn [map fst snd]. f_equal. now apply IH.
Qed.

Lemma map_snd_dict_set_absent (d : dict nat) (kw : string) (a : nat) :
  assoc kw d = None -> map snd (dict_set d kw a) = (map snd d ++ [a])%list.
Proof.
  induction d as [| [k0 a0] d IH]; [reflexivity |].
  cbn [assoc dict_set]. destruct (k0 =? kw)%string; [discriminate |].
  intros H. cbn [map snd app]. f_equal. now apply IH.
Qed.

Lemma NoDup_app_disjoint {A : Type} (l1 l2 : list A) (x : A) :
  NoDup (l1 ++ l2) -> In x l1 -> ~ In x l2.
Proof.
  induction l1 as [| a l1 IH]; [intros _ [] |].
  cbn [app]. intros Hnd Hin H2. inversion Hnd as [| ? ? Hnot Hnd']; subst.
  destruct Hin as [-> | Hin].
  - apply Hnot, in_or_app. now right.
  - now apply (IH Hnd' Hin).
Qed.

Lemma merge_obj_flat (st : Heap * dict nat) (data_dict : list (dict nat)) :
  merge_all_obj st data_dict
  = fold_left (fun st kv => merge_keyword_obj st (fst kv) (snd kv))
              (List.concat data_dict) st.
Proof.
  unfold merge_all_obj. revert st.
  induction data_dict as [| data dd IH]; intros st; [reflexivity |].
  cbn [fold_left List.concat]. rewrite fold_left_app. apply IH.
Qed.

Lemma merge_obj_refines_flat (flat : list (string * nat)) :
  forall (h : Heap) (jd : dict nat),
  NoDup (map snd jd ++ map snd flat) ->
  let st := fold_left (fun st kv => merge_keyword_obj st (fst kv) (snd kv))
                      flat (h, jd) in
  deref (fst st) (snd st)
  = fold_left merge_step (deref h flat) (deref h jd).
Proof.
  induction flat as [| [kw a] flat IH]; intros h jd Hnd; [reflexivity |].
  cbv zeta. cbn [fold_left].
  change (deref h ((kw, a) :: flat)) with ((kw, h a) :: deref h flat).
  cbn [fold_left fst snd]. unfold merge_step at 2, merge_keyword. cbn [fst snd].
  rewrite assoc_deref.
  assert (Hs : merge_keyword_obj (h, jd) kw a
               = match assoc kw jd with
                 | Some existing =>
                     (heap_set h existing (dict_update (h existing) (h a)), jd)
                 | None => (h, dict_set jd kw a)
                 end) by reflexivity.
  rewrite Hs. clear Hs. cbn [map snd] in Hnd.
  destruct (assoc kw jd) as [b |] eqn:E; cbn [option_map].
  - assert (Hjd : NoDup (map snd jd)) by (eapply NoDup_app_remove_r; exact Hnd).
    assert (Hb : In b (map snd jd)) by (eapply assoc_In_snd, E).
    assert (Hrest : ~ In b (map snd flat)).
    { intros H. apply (NoDup_app_disjoint _ _ b Hnd Hb). now right. }
    rewrite <- (deref_heap_set h jd kw b _ Hjd E).
    rewrite <- (deref_heap_set_other h flat b
                  (dict_update (h b) (h a)) Hrest).
    apply (IH (heap_set h b (dict_update (h b) (h a))) jd).
    apply NoDup_remove_1 in Hnd. exact Hnd.
  - rewrite <- (deref_dict_set_absent h jd kw a E).
    apply (IH h (dict_set jd kw a)).
    rewrite (map_snd_dict_set_absent jd kw a E), <- app_assoc.
    exact Hnd.
Qed.

(** When the dicts of the store and of the batch are all distinct
    objects, as they are when the store comes from [json.loads] and the
    batch from [get_daily_papers], the loop on objects leaves the store
    that [merge_all] computes on values. *)
Lemma merge_obj_refines (h : Heap) (jd : dict nat) (data_dict : list (dict nat)) :
  NoDup (map snd jd ++ map snd (List.concat data_dict)) ->
  deref (fst (merge_all_obj (h, jd) data_dict))
        (snd (merge_all_obj (h, jd) data_dict))
  = merge_all (deref h jd) (map (deref h) data_dict).
Proof.
  intros Hnd. rewrite merge_obj_flat, merge_all_flat.
  rewrite (merge_obj_refines_flat _ h jd Hnd). f_equal.
  unfold deref. rewrite concat_map. reflexivity.
Qed.

(* ----------------------------------------------------------------- *)
(** ** Which rows the backfill resolves again *)

Lemma split_bar_free (s : string) : Forall bar_free (split "|" s).
Proof.
  induction s as [| c s IH]; cbn [split]; [now repeat constructor |].
  destruct (Ascii.eqb c "|") eqn:E.
  - constructor; [reflexivity | exact IH].
  - destruct (split "|" s) as [| h t]; [now repeat constructor; unfold bar_free; cbn; rewrite E |].
    inversion IH as [| ? ? Hh Ht]; subst. constructor; [| exact Ht].
    unfold bar_free in *. cbn [has_char]. now rewrite E, Hh.
Qed.

Lemma lstrip_bar_free (s : string) : bar_free s -> bar_free (lstrip s).
Proof.
  unfold bar_free. induction s as [| c s IH]; [reflexivity |].
  cbn [lstrip has_char]. intros H. destruct (is_space c); [| exact H].
  apply IH. apply orb_false_elim in H. now destruct H.
Qed.

Lemma rstrip_bar_free (s : string) : bar_free s -> bar_free (rstrip s).
Proof.
  unfold bar_free. induction s as [| c s IH]; [reflexivity |].
  cbn [rstrip has_char]. intros H. apply orb_false_elim in H.
  destruct H as [Hc Hs]. specialize (IH Hs).
  destruct (rstrip s) as [| c' r].
  - destruct (is_space c); [reflexivity |]. cbn [has_char]. now rewrite Hc.
  - cbn [has_char] in *. now rewrite Hc, IH.
Qed.

Lemma strip_bar_free (s : string) : bar_free s -> bar_free (strip s).
Proof. intros H. now apply rstrip_bar_free, lstrip_bar_free. Qed.

Lemma part_bar_free (s : string) (i : nat) (x : string) :
  part (split "|" s) i = inr x -> bar_free x.
Proof.
  unfold part. destruct (nth_error (split "|" s) i) as [y |] eqn:E; [| discriminate].
  intros [= <-]. pose proof (split_bar_free s) as H.
  rewrite Forall_forall in H. eapply H, nth_error_In, E.
Qed.

(** The cells of a parsed row hold no bar. *)
Lemma parse_cells_bar_free (c : string) (f : Fields) :
  parse_arxiv_string c = inr f -> Forall bar_free (cells f).
Proof.
  unfold parse_arxiv_string.
  destruct (part (split "|" c) 1) as [e | p1] eqn:E1; cbn [bindE]; [discriminate |].
  destruct (part (split "|" c) 2) as [e | p2] eqn:E2; cbn [bindE]; [discriminate |].
  destruct (part (split "|" c) 3) as [e | p3] eqn:E3; cbn [bindE]; [discriminate |].
  destruct (part (split "|" c) 4) as [e | p4] eqn:E4; cbn [bindE]; [discriminate |].
  destruct (part (split "|" c) 5) as [e | p5] eqn:E5; cbn [bindE]; [discriminate |].
  intros [= <-]. unfold cells. cbn [f_date f_title f_authors f_pdf_field f_code].
  repeat constructor; apply strip_bar_free; eapply part_bar_free; eassumption.
Qed.

Lemma starts_with_cell (p c rest : string) :
  bar_free p -> bar_free c ->
  starts_with (p ++ "|") (c ++ String "|" rest) = (p =? c)%string.
Proof.
  unfold bar_free. revert c.
  induction p as [| y p IH]; intros [| x c] Hp Hc; cbn [append starts_with String.eqb].
  - reflexivity.
  - cbn [has_char] in Hc. apply orb_false_elim in Hc. destruct Hc as [Hx _].
    rewrite Ascii.eqb_sym. now rewrite Hx.
  - cbn [has_char] in Hp. apply orb_false_elim in Hp. destruct Hp as [Hy _].
    now rewrite Hy.
  - cbn [has_char] in Hp, Hc. apply orb_false_elim in Hp, Hc.
    destruct Hp as [_ Hp], Hc as [_ Hc]. rewrite (IH c Hp Hc).
    now destruct (Ascii.eqb y x).
Qed.

Lemma contains_skips_cell (c rest : string) :
  bar_free c ->
  contains "|null|" (c ++ String "|" rest) = contains "|null|" (String "|" rest).
Proof.
  unfold bar_free. induction c as [| x c IH]; [reflexivity |].
  cbn [has_char]. intros H. apply orb_false_elim in H. destruct H as [Hx Hc].
  change (contains "|null|" (String x c ++ String "|" rest))
    with (starts_with "|null|" (String x (c ++ String "|" rest))
          || contains "|null|" (c ++ String "|" rest)).
  rewrite (IH Hc). cbn [starts_with]. rewrite Ascii.eqb_sym, Hx. reflexivity.
Qed.

Lemma contains_cell (c rest : string) :
  bar_free c ->
  contains "|null|" (String "|" (c ++ String "|" rest))
  = ("null" =? c)%string || contains "|null|" (String "|" rest).
Proof.
  intros Hc.
  change (contains "|null|" (String "|" (c ++ String "|" rest)))
    with (starts_with ("null" ++ "|") (c ++ String "|" rest)
          || contains "|null|" (c ++ String "|" rest)).
  now rewrite (starts_with_cell "null" c rest eq_refl Hc), contains_skips_cell.
Qed.

(** The test of line 337 holds exactly when one of the five cells of the
    row, whichever, is the text [null]. *)
Lemma null_test_is_any_cell (c : string) (f : Fields) :
  parse_arxiv_string c = inr f ->
  contains "|null|" (normalized f) = some_cell_null f.
Proof.
  intros P. pose proof (parse_cells_bar_free c f P) as H.
  unfold cells in H.
  inversion H as [| ? ? H1 H']; subst. inversion H' as [| ? ? H2 H'']; subst.
  inversion H'' as [| ? ? H3 H''']; subst. inversion H''' as [| ? ? H4 H5]; subst.
  inversion H5 as [| ? ? H6 _]; subst.
  unfold some_cell_null, cells. cbn [existsb].
  change (normalized f)
    with (String "|" (f_date f ++ String "|" (f_title f ++ String "|"
            (f_authors f ++ String "|" (f_pdf_field f ++ String "|"
               (f_code f ++ String "|" nl)))))).
  rewrite !contains_cell by assumption.
  change (contains "|null|" (String "|" nl)) with false.
  now rewrite !orb_assoc.
Qed.

(* ----------------------------------------------------------------- *)
(** ** Rows written by [get_daily_papers] *)

Lemma has_char_append (c : ascii) (a b : string) :
  has_char c (a ++ b) = has_char c a || has_char c b.
Proof.
  induction a as [| x a IH]; [reflexivity |].
  cbn [append has_char]. now rewrite IH, orb_assoc.
Qed.

Lemma split_cell (c rest : string) :
  bar_free c -> split "|" (c ++ String "|" rest) = c :: split "|" rest.
Proof.
  unfold bar_free. induction c as [| x c IH]; [reflexivity |].
  cbn [has_char]. intros H. apply orb_false_elim in H. destruct H as [Hx Hc].
  cbn [append split]. now rewrite Hx, (IH Hc).
Qed.

Lemma rstrip_append (s t : string) :
  t <> "" -> rstrip t = t -> rstrip (s ++ t) = s ++ t.
Proof.
  intros Hne Ht. induction s as [| c s IH]; [exact Ht |].
  cbn [append rstrip]. rewrite IH.
  destruct (s ++ t) eqn:E; [| reflexivity].
  destruct s; [cbn in E; contradiction | discriminate].
Qed.

Lemma last_char_append (s t : string) :
  t <> "" -> last_char (s ++ t) = last_char t.
Proof.
  intros Hne. induction s as [| c s IH]; [reflexivity |].
  cbn [append last_char]. rewrite IH.
  destruct (s ++ t) eqn:E; [| reflexivity].
  destruct s; [cbn in E; contradiction | discriminate].
Qed.

(** Whatever the author, the authors cell ends in [et.al.]. *)
Lemma lstrip_authors (a : string) :
  exists y, lstrip (a ++ " et.al.") = y ++ "et.al.".
Proof.
  induction a as [| c a IH]; [now exists "" |].
  cbn [append lstrip]. destruct (is_space c); [exact IH |].
  exists (String c a ++ " "). now rewrite append_assoc.
Qed.

Lemma authors_cell_not_null (a : string) :
  ("null" =? strip (a ++ " et.al."))%string = false.
Proof.
  apply String.eqb_neq. intros H.
  destruct (lstrip_authors a) as (y & Hy).
  unfold strip in H. rewrite Hy, rstrip_append in H; [| discriminate | reflexivity].
  apply (f_equal last_char) in H. rewrite last_char_append in H; discriminate.
Qed.

Section DiscoveryRows.

Variables update_time paper_title paper_first_author paper_key paper_url
          repo_url : string.
Hypothesis time_bar_free : bar_free update_time.
Hypothesis title_bar_free : bar_free paper_title.
Hypothesis author_bar_free : bar_free paper_first_author.
Hypothesis key_bar_free : bar_free paper_key.
Hypothesis url_bar_free : bar_free paper_url.
Hypothesis repo_bar_free : bar_free repo_url.

Lemma row_resolved_cells :
  row_resolved update_time paper_title paper_first_author paper_key paper_url
               repo_url
  = String "|" (("**" ++ update_time ++ "**") ++ String "|"
      (("**" ++ paper_title ++ "**") ++ String "|"
         ((paper_first_author ++ " et.al.") ++ String "|"
            (("[" ++ paper_key ++ "](" ++ paper_url ++ ")") ++ String "|"
               (("**[link](" ++ repo_url ++ ")**") ++ String "|" nl))))).
Proof. unfold row_resolved, nl. rewrite !append_assoc. reflexivity. Qed.

Lemma wrapped_strip (l x r : string) :
  lstrip (l ++ x ++ r) = l ++ x ++ r -> r <> "" -> rstrip r = r ->
  strip (l ++ x ++ r) = l ++ x ++ r.
Proof.
  intros Hl Hne Hr. unfold strip. rewrite Hl.
  rewrite <- append_assoc. apply rstrip_append; assumption.
Qed.

(** A row with a link, written from fields without a bar, parses into
    its five cells, and none of them is the text [null]. *)
Lemma row_resolved_parses :
  exists f,
    parse_arxiv_string
      (row_resolved update_time paper_title paper_first_author paper_key
                    paper_url repo_url) = inr f
    /\ cells f = ["**" ++ update_time ++ "**";
                  "**" ++ paper_title ++ "**";
                  strip (paper_first_author ++ " et.al.");
                  "[" ++ paper_key ++ "](" ++ paper_url ++ ")";
                  "**[link](" ++ repo_url ++ ")**"]
    /\ some_cell_null f = false.
Proof.
  unfold bar_free in *.
  assert (B1 : bar_free ("**" ++ update_time ++ "**"))
    by (unfold bar_free; rewrite !has_char_append, time_bar_free; reflexivity).
  assert (B2 : bar_free ("**" ++ paper_title ++ "**"))
    by (unfold bar_free; rewrite !has_char_append, title_bar_free; reflexivity).
  assert (B3 : bar_free (paper_first_author ++ " et.al."))
    by (unfold bar_free; rewrite !has_char_append, author_bar_free; reflexivity).
  assert (B4 : bar_free ("[" ++ paper_key ++ "](" ++ paper_url ++ ")"))
    by (unfold bar_free; rewrite !has_char_append, key_bar_free, url_bar_free;
        reflexivity).
  assert (B5 : bar_free ("**[link](" ++ repo_url ++ ")**"))
    by (unfold bar_free; rewrite !has_char_append, repo_bar_free; reflexivity).
  unfold parse_arxiv_string. rewrite row_resolved_cells.
  change (split "|" (String "|" ?x)) with ("" :: split "|" x).
  rewrite (split_cell _ _ B1), (split_cell _ _ B2), (split_cell _ _ B3),
          (split_cell _ _ B4), (split_cell _ _ B5).
  cbn [part nth_error bindE].
  eexists. split; [reflexivity |].
  unfold cells, some_cell_null.
  cbn [f_date f_title f_authors f_pdf_field f_code].
  rewrite (wrapped_strip "**" update_time "**") by (reflexivity || discriminate).
  rewrite (wrapped_strip "**" paper_title "**") by (reflexivity || discriminate).
  rewrite (wrapped_strip "**[link](" repo_url ")**") by (reflexivity || discriminate).
  assert (S4 : strip ("[" ++ paper_key ++ "](" ++ paper_url ++ ")")
               = "[" ++ paper_key ++ "](" ++ paper_url ++ ")").
  { unfold strip. change (lstrip ("[" ++ ?x)) with ("[" ++ x).
    rewrite <- !append_assoc. apply rstrip_append; [discriminate | reflexivity]. }
  rewrite S4. split; [reflexivity |].
  unfold some_cell_null, cells.
  cbn [existsb f_date f_title f_authors f_pdf_field f_code].
  rewrite authors_cell_not_null. reflexivity.
Qed.

End DiscoveryRows.

(* ----------------------------------------------------------------- *)
(** ** Normalizing twice *)

Lemma rstrip_idempotent (s : string) : rstrip (rstrip s) = rstrip s.
Proof.
  induction s as [| c s IH]; [reflexivity |].
  cbn [rstrip]. destruct (rstrip s) as [| c' r] eqn:E.
  - destruct (is_space c) eqn:Ec; [reflexivity |]. cbn [rstrip]. now rewrite Ec.
  - cbn [rstrip]. cbn [rstrip] in IH. rewrite IH. reflexivity.
Qed.

Lemma lstrip_head (s : string) :
  match lstrip s with
  | "" => True
  | String c _ => is_space c = false
  end.
Proof.
  induction s as [| c s IH]; [exact I |].
  cbn [lstrip]. destruct (is_space c) eqn:E; [exact IH | exact E].
Qed.

Lemma rstrip_head (c : ascii) (s : string) :
  is_space c = false -> exists r, rstrip (String c s) = String c r.
Proof.
  intros H. cbn [rstrip]. destruct (rstrip s); [rewrite H |]; eauto.
Qed.

Lemma strip_idempotent (s : string) : strip (strip s) = strip s.
Proof.
  unfold strip. pose proof (lstrip_head s) as H.
  destruct (lstrip s) as [| c y]; [reflexivity |].
  destruct (rstrip_head c y H) as (r & Hr).
  rewrite Hr. cbn [lstrip]. rewrite H, <- Hr. apply rstrip_idempotent.
Qed.

Lemma parse_cells_stripped (c : string) (f : Fields) :
  parse_arxiv_string c = inr f -> Forall (fun x => strip x = x) (cells f).
Proof.
  unfold parse_arxiv_string.
  destruct (part (split "|" c) 1) as [e | p1]; cbn [bindE]; [discriminate |].
  destruct (part (split "|" c) 2) as [e | p2]; cbn [bindE]; [discriminate |].
  destruct (part (split "|" c) 3) as [e | p3]; cbn [bindE]; [discriminate |].
  destruct (part (split "|" c) 4) as [e | p4]; cbn [bindE]; [discriminate |].
  destruct (part (split "|" c) 5) as [e | p5]; cbn [bindE]; [discriminate |].
  intros [= <-]. unfold cells. cbn [f_date f_title f_authors f_pdf_field f_code].
  repeat constructor; apply strip_idempotent.
Qed.

(** The normalized form of a row parses back into the same cells: it is
    its own normalized form. *)
Lemma normalized_fixed (c : string) (f : Fields) :
  parse_arxiv_string c = inr f ->
  exists f', parse_arxiv_string (normalized f) = inr f'
             /\ normalized f' = normalized f.
Proof.
  intros P.
  pose proof (parse_cells_bar_free c f P) as B.
  pose proof (parse_cells_stripped c f P) as S.
  unfold cells in B, S.
  inversion B as [| ? ? B1 B']; subst. inversion B' as [| ? ? B2 B'']; subst.
  inversion B'' as [| ? ? B3 B''']; subst. inversion B''' as [| ? ? B4 B5]; subst.
  inversion B5 as [| ? ? B6 _]; subst.
  inversion S as [| ? ? S1 S']; subst. inversion S' as [| ? ? S2 S'']; subst.
  inversion S'' as [| ? ? S3 S''']; subst. inversion S''' as [| ? ? S4 S5]; subst.
  inversion S5 as [| ? ? S6 _]; subst.
  unfold parse_arxiv_string.
  change (normalized f)
    with (String "|" (f_date f ++ String "|" (f_title f ++ String "|"
            (f_authors f ++ String "|" (f_pdf_field f ++ String "|"
               (f_code f ++ String "|" nl)))))).
  change (split "|" (String "|" ?x)) with ("" :: split "|" x).
  rewrite (split_cell _ _ B1), (split_cell _ _ B2), (split_cell _ _ B3),
          (split_cell _ _ B4), (split_cell _ _ B6).
  cbn [part nth_error bindE]. eexists. split; [reflexivity |].
  unfold normalized. cbn [f_date f_title f_authors f_pdf_field f_code].
  now rewrite S1, S2, S3, S4, S6.
Qed.

(* ----------------------------------------------------------------- *)
(** ** Backfill of a store that needs none *)

Lemma store_ext (m1 m2 : Store) :
  wf_store m1 -> same_shape m1 m2 ->
  (forall topic id c, lookup m1 topic id = Some c -> lookup m2 topic id = Some c) ->
  m2 = m1.
Proof.
  intros [Wk Wt] [Sk St] L. symmetry. apply dict_ext; [exact Wk | exact Sk |].
  intros topic. destruct (assoc topic m1) as [T |] eqn:E1.
  - destruct (St _ _ E1) as (T' & E2 & Ek). rewrite E2. f_equal.
    apply dict_ext.
    + eapply (Forall_assoc (fun t : Topic => wf_dict t)); eassumption.
    + now symmetry.
    + intros id. destruct (assoc id T) as [c |] eqn:Ec.
      * specialize (L topic id c). unfold lookup in L. rewrite E1, E2 in L.
        symmetry. now apply L.
      * symmetry. apply assoc_none_keys. rewrite Ek. now apply assoc_none_keys.
  - symmetry. apply assoc_none_keys. rewrite <- Sk. now apply assoc_none_keys.
Qed.

Lemma same_shape_wf (m1 m2 : Store) :
  wf_store m1 -> same_shape m1 m2 -> wf_store m2.
Proof.
  intros [Wk Wt] [Sk St]. assert (Wk2 : wf_dict m2) by (unfold wf_dict; now rewrite <- Sk).
  split; [exact Wk2 |].
  apply Forall_forall. intros [k T'] Hin. cbn [snd].
  pose proof (In_assoc m2 k T' Wk2 Hin) as A2.
  assert (Hk : In k (keys m1)).
  { rewrite Sk. change k with (fst (k, T')). now apply in_map. }
  apply assoc_in_keys in Hk. destruct (assoc k m1) as [T |] eqn:A1; [| congruence].
  destruct (St _ _ A1) as (T'' & A2' & Ek). rewrite A2 in A2'. injection A2' as <-.
  unfold wf_dict. rewrite Ek.
  eapply (Forall_assoc (fun t : Topic => wf_dict t)); eassumption.
Qed.

Lemma lookup_In (m : Store) (topic id c : string) :
  lookup m topic id = Some c ->
  exists T, In (topic, T) m /\ In (id, c) T.
Proof.
  unfold lookup. destruct (assoc topic m) as [T |] eqn:E; [| discriminate].
  intros H. exists T. split; now apply assoc_In.
Qed.

Section QuietStore.

Variable py_repr : json -> string.

(** On a store without [|null|] in the normalized form of any record,
    the backfill leaves each record in its normalized form (or as it
    was, when it does not parse), and a second backfill changes
    nothing. *)
Lemma backfill_quiet_store (m : Store) (w : World) :
  wf_store m -> no_null_cell m ->
  (forall topic id c,
      lookup m topic id = Some c ->
      lookup (fst (backfill py_repr m w)) topic id
      = Some match parse_arxiv_string c with
             | inl _ => c
             | inr f => normalized f
             end)
  /\ forall w', fst (backfill py_repr (fst (backfill py_repr m w)) w')
                = fst (backfill py_repr m w).
Proof.
  intros Hwf Hq.
  destruct (backfill_store py_repr m w Hwf) as (Sh & R).
  assert (L1 : forall topic id c,
             lookup m topic id = Some c ->
             lookup (fst (backfill py_repr m w)) topic id
             = Some match parse_arxiv_string c with
                    | inl _ => c
                    | inr f => normalized f
                    end).
  { intros topic id c Hl. destruct (R _ _ _ Hl) as (x & Hx & Rx).
    rewrite Hx. f_equal. unfold rewritten in Rx.
    destruct (lookup_In _ _ _ _ Hl) as (T & HT & Hc).
    destruct (parse_arxiv_string c) as [e | f] eqn:P; [exact Rx |].
    destruct Rx as [-> | (N & _)]; [reflexivity |].
    rewrite (Hq topic T id c f HT Hc P) in N. discriminate. }
  split; [exact L1 |]. intros w'.
  set (m1 := fst (backfill py_repr m w)) in *.
  assert (Hwf1 : wf_store m1) by (eapply same_shape_wf; eassumption).
  destruct (backfill_store py_repr m1 w' Hwf1) as (Sh1 & R1).
  apply store_ext; [exact Hwf1 | exact Sh1 |].
  intros topic id x Hx.
  destruct (R1 _ _ _ Hx) as (x' & Hx' & Rx'). rewrite Hx'. f_equal.
  (* [x] is the rewriting of a record [c] of [m] *)
  assert (Hc : exists c, lookup m topic id = Some c).
  { destruct Sh as (Sk & St). unfold lookup in Hx |- *.
    destruct (assoc topic m1) as [T1 |] eqn:E1; [| discriminate].
    assert (Hk : In topic (keys m)).
    { rewrite Sk. apply assoc_in_keys. congruence. }
    apply assoc_in_keys in Hk. destruct (assoc topic m) as [T |] eqn:E; [| congruence].
    destruct (St _ _ E) as (T1' & E1' & Ek). rewrite E1 in E1'. injection E1' as <-.
    assert (Hid : In id (keys T)).
    { rewrite <- Ek. apply assoc_in_keys. congruence. }
    apply assoc_in_keys in Hid. destruct (assoc id T) as [c |]; [eauto | congruence]. }
  destruct Hc as (c & Hc). pose proof (L1 _ _ _ Hc) as Hx2. rewrite Hx in Hx2.
  injection Hx2 as Hx2. unfold rewritten in Rx'.
  destruct (lookup_In _ _ _ _ Hc) as (T & HT & HcT).
  destruct (parse_arxiv_string c) as [e | f] eqn:P.
  - subst x. now rewrite P in Rx'.
  - destruct (normalized_fixed c f P) as (f' & P' & N').
    subst x. rewrite P' in Rx'. rewrite N' in Rx'.
    destruct Rx' as [-> | (N & _)]; [reflexivity |].
    rewrite (Hq topic T id c f HT HcT P) in N. discriminate.
Qed.

Lemma linked_rows_no_null_cell (m : Store) : linked_rows m -> no_null_cell m.
Proof.
  intros H topic T id c f HT Hc P.
  destruct (H topic T id c HT Hc)
    as (d & t & a & k & u & r & -> & B1 & B2 & B3 & B4 & B5 & B6).
  destruct (row_resolved_parses d t a k u r B1 B2 B3 B4 B5 B6) as (f0 & P0 & _ & N0).
  rewrite P0 in P. injection P as <-.
  now rewrite (null_test_is_any_cell _ f0 P0).
Qed.

(** A store of rows with links, written by [get_daily_papers] from
    fields without a bar, is backfilled without a request: the log
    receives the topics and nothing else that is not a parse failure,
    every record is left in its normalized form, and a second backfill
    leaves the store as the first one made it. *)
Theorem backfill_linked_rows (m : Store) (w : World) :
  wf_store m -> linked_rows m ->
  sent (snd (backfill py_repr m w)) = sent w
  /\ (exists evs, steps w (snd (backfill py_repr m w)) evs
                  /\ count_gets evs = 0 /\ Forall quiet_event evs)
  /\ (forall topic id c,
        lookup m topic id = Some c ->
        exists f, parse_arxiv_string c = inr f
                  /\ lookup (fst (backfill py_repr m w)) topic id
                     = Some (normalized f))
  /\ forall w', fst (backfill py_repr (fst (backfill py_repr m w)) w')
                = fst (backfill py_repr m w).
Proof.
  intros Hwf Hl. pose proof (linked_rows_no_null_cell m Hl) as Hq.
  destruct (backfill_quiet_store m w Hwf Hq) as (L & Again).
  split; [now apply backfill_quiet_sends_nothing |].
  split; [now apply backfill_quiet |].
  split; [| exact Again].
  intros topic id c Hc. specialize (L _ _ _ Hc).
  destruct (lookup_In _ _ _ _ Hc) as (T & HT & HcT).
  destruct (Hl topic T id c HT HcT)
    as (d & t & a & k & u & r & -> & B1 & B2 & B3 & B4 & B5 & B6).
  destruct (row_resolved_parses d t a k u r B1 B2 B3 B4 B5 B6) as (f0 & P0 & _).
  exists f0. split; [exact P0 |]. now rewrite P0 in L.
Qed.

End QuietStore.

(* ----------------------------------------------------------------- *)
(** ** Further properties *)

Lemma wf_linked_store : wf_store linked_store.
Proof. well_formed. Qed.

Lemma linked_rows_linked_store : linked_rows linked_store.
Proof.
  intros topic T id c [HT | []] Hc. injection HT as <- <-.
  destruct Hc as [Hc | []]. injection Hc as <- <-.
  exists "2024-01-02", "Title A", "Ann", "2401.00001",
         "https://arxiv.org/abs/2401.00001", "https://github.com/a/b".
  repeat split.
Qed.

Lemma backfill_linked_rows_witness :
  wf_store linked_store /\ linked_rows linked_store
  /\ sent (snd (backfill no_repr linked_store generous_world)) = sent generous_world
  /\ forall w', fst (backfill no_repr (fst (backfill no_repr linked_store generous_world)) w')
                = fst (backfill no_repr linked_store generous_world).
Proof.
  split; [exact wf_linked_store |]. split; [exact linked_rows_linked_store |].
  pose proof (backfill_linked_rows no_repr linked_store generous_world
                wf_linked_store linked_rows_linked_store) as (H1 & _ & _ & H4).
  split; [exact H1 | exact H4].
Defined.

(** On identifiers of the current scheme, where no ["v"] comes before
    the version, the key is the identifier without its version, an
    identifier without a version is its own key, and the key of a key is
    the key, on every identifier. *)
Theorem paper_key_of_current_scheme (base version : string) :
  v_free base ->
  paper_key_of (base ++ "v" ++ version) = base
  /\ paper_key_of base = base
  /\ forall s, paper_key_of (paper_key_of s) = paper_key_of s.
Proof.
  intros H. split; [now apply paper_key_of_strips_version |].
  split; [now apply paper_key_of_fixed | apply paper_key_of_stable].
Qed.

Lemma paper_key_of_current_scheme_witness :
  v_free "2108.09112"
  /\ paper_key_of "2108.09112v1" = "2108.09112"
  /\ paper_key_of "2108.09112" = "2108.09112".
Proof.
  assert (H : v_free "2108.09112") by (cbn; repeat split; discriminate).
  split; [exact H |].
  destruct (paper_key_of_current_scheme "2108.09112" "1" H) as (H1 & H2 & _).
  split; [exact H1 | exact H2].
Defined.

Lemma merge_obj_refines_witness :
  NoDup (map snd (@nil (string * nat)) ++ map snd (List.concat two_object_batch))
  /\ deref (fst (merge_all_obj (two_objects, []) two_object_batch))
           (snd (merge_all_obj (two_objects, []) two_object_batch))
     = merge_all (deref two_objects []) (map (deref two_objects) two_object_batch).
Proof.
  assert (H : NoDup (map snd (@nil (string * nat))
                     ++ map snd (List.concat two_object_batch))).
  { cbn. repeat constructor; cbn; intuition discriminate. }
  split; [exact H |].
  exact (merge_obj_refines two_objects [] two_object_batch H).
Defined.

(** The second dict of the batch is merged into the first one, which the
    store holds: the dict object of the batch itself has changed. *)
Example merge_changes_batch_object :
  fst (merge_all_obj (two_objects, []) two_object_batch) 0
  = [("2401.00001", resolved_row); ("2401.00002", unresolved_row)]
  /\ two_objects 0 = [("2401.00001", resolved_row)].
Proof. split; reflexivity. Qed.

(* ----------------------------------------------------------------- *)
(** ** What the two passes write to the store file *)

Section Writes.

Variable py_repr : json -> string.
Variable json_loads : string -> exn + Store.
Variable json_dumps : Store -> string.

(** [update_json_file] replaces the text of the store file by the dump of
    the merged store. *)
Lemma update_json_file_writes (filename : string) (data_dict : list Store)
    (m : Store) (w : World) :
  fst (load json_loads filename w) = inr m ->
  update_json_file json_loads json_dumps filename data_dict w
  = (inr tt, with_file filename (json_dumps (merge_all m data_dict)) w).
Proof.
  intros H. unfold update_json_file. rewrite bind_run, H, load_world.
  reflexivity.
Qed.

(** [update_paper_links] replaces it by the dump of the backfilled
    store. *)
Lemma update_paper_links_writes (filename : string) (m : Store) (w : World) :
  fst (load json_loads filename w) = inr m ->
  fst (update_paper_links py_repr json_loads json_dumps filename w) = inr tt
  /\ files (snd (update_paper_links py_repr json_loads json_dumps filename w))
           filename
     = Some (json_dumps (fst (backfill py_repr m w))).
Proof.
  intros H. unfold update_paper_links. rewrite bind_run, H, load_world.
  rewrite !bind_run. unfold ret. cbn [fst snd write_file files].
  now rewrite String.eqb_refl.
Qed.

End Writes.
(* ----------------------------------------------------------------- *)
(** ** [http_get]: pauses and the closing log entry *)

Lemma count_sleeps_app (a b : list Event) :
  count_sleeps (a ++ b)%list = count_sleeps a + count_sleeps b.
Proof.
  induction a as [| e a IH]; [reflexivity |].
  destruct e; simpl; rewrite IH; reflexivity.
Qed.

Lemma existsb_app_false {A : Type} (f : A -> bool) (a b : list A) :
  existsb f a = false -> existsb f b = false -> existsb f (a ++ b)%list = false.
Proof. intros Ha Hb. now rewrite existsb_app, Ha, Hb. Qed.

Lemma http_get_loop_pauses (req : Request) (retries : Z) :
  forall (n : nat) (i : Z) (le : option string) (w : World),
  exists evs,
    steps w (snd (http_get_loop req retries n i le w)) evs
    /\ count_sleeps evs + (if is_some (fst (fst (http_get_loop req retries n i le w)))
                           then 1 else 0)
       = count_gets evs
    /\ existsb failure_entry evs = false
    /\ (is_some (snd (fst (http_get_loop req retries n i le w))) = true <->
          is_some le = true
          \/ exists j, j < count_sleeps evs /\ raised (answer w req j) = true).
Proof.
  induction n as [| n IH]; intros i le w.
  - exists []. cbn [http_get_loop]. unfold ret. cbn [fst snd is_some count_sleeps count_gets existsb].
    split; [apply steps_refl |]. split; [reflexivity |]. split; [reflexivity |].
    split; [now left | intros [H | (j & Hj & _)]; [exact H | lia]].
  - cbn [http_get_loop]. rewrite bind_run.
    pose proof (steps_requests_get req w) as Hget.
    set (w1 := snd (requests_get req w)) in *.
    change (fst (requests_get req w)) with (oracle w (sent w) req).
    assert (Ans0 : oracle w (sent w) req = answer w req 0)
      by (unfold answer; now rewrite Nat.add_0_r).
    destruct (oracle w (sent w) req) as [r | e] eqn:Ha.
    + destruct (status_code r =? 200)%Z eqn:Hst.
      * exists [EvGet req]. unfold ret. cbn [fst snd is_some count_sleeps count_gets existsb failure_entry].
        split; [exact Hget |]. split; [reflexivity |]. split; [reflexivity |].
        split; [now left | intros [H | (j & Hj & _)]; [exact H | lia]].
      * rewrite !bind_run.
        set (e1 := WarnStatus (url req) (status_code r) (i + 1) (retries + 1)).
        pose proof (steps_emit e1 w1 eq_refl) as S1.
        set (w2 := snd (emit e1 w1)) in *.
        pose proof (steps_when (status_code r =? 403)%Z ErrForbidden w2 eq_refl) as S2.
        set (w3 := snd (when (status_code r =? 403)%Z (emit ErrForbidden) w2)) in *.
        pose proof (steps_emit EvSleep w3 eq_refl) as S3.
        set (w4 := snd (emit EvSleep w3)) in *.
        destruct (IH (i + 1)%Z le w4) as (evs & S4 & Hc & Hf & Hl).
        set (mid := (if (status_code r =? 403)%Z then [ErrForbidden] else [])) in *.
        pose proof (steps_trans _ _ _ _ _
                      (steps_trans _ _ _ _ _
                         (steps_trans _ _ _ _ _ Hget S1) S2) S3) as S03.
        assert (Hg : count_gets ((([EvGet req] ++ [e1]) ++ mid) ++ [EvSleep])%list = 1)
          by (rewrite !count_gets_app; subst mid; destruct (status_code r =? 403)%Z;
              reflexivity).
        assert (Hs : count_sleeps ((([EvGet req] ++ [e1]) ++ mid) ++ [EvSleep])%list = 1)
          by (rewrite !count_sleeps_app; subst mid; destruct (status_code r =? 403)%Z;
              reflexivity).
        exists (((([EvGet req] ++ [e1]) ++ mid) ++ [EvSleep]) ++ evs)%list.
        split; [eapply steps_trans; eassumption |].
        rewrite count_gets_app, count_sleeps_app, Hg, Hs.
        split; [lia |].
        split.
        { apply existsb_app_false; [| exact Hf].
          subst mid. destruct (status_code r =? 403)%Z; reflexivity. }
        rewrite Hl. split.
        { intros [H | (j & Hj & Hr)]; [now left |].
          right. exists (S j). split; [lia |].
          rewrite (answer_after _ _ _ req j S03), Hg in Hr. exact Hr. }
        { intros [H | (j & Hj & Hr)]; [now left |].
          destruct j as [| j].
          - rewrite <- Ans0 in Hr. discriminate.
          - right. exists j. split; [lia |].
            now rewrite (answer_after _ _ _ req j S03), Hg. }
    + rewrite !bind_run.
      set (e1 := WarnException (url req) e (i + 1) (retries + 1)).
      pose proof (steps_emit e1 w1 eq_refl) as S1.
      set (w2 := snd (emit e1 w1)) in *.
      pose proof (steps_emit EvSleep w2 eq_refl) as S2.
      set (w3 := snd (emit EvSleep w2)) in *.
      destruct (IH (i + 1)%Z (Some e) w3) as (evs & S3 & Hc & Hf & Hl).
      pose proof (steps_trans _ _ _ _ _ (steps_trans _ _ _ _ _ Hget S1) S2) as S02.
      exists ((([EvGet req] ++ [e1]) ++ [EvSleep]) ++ evs)%list.
      split; [eapply steps_trans; eassumption |].
      rewrite count_gets_app, count_sleeps_app.
      cbn [app count_gets count_sleeps e1].
      split; [lia |].
      split; [exact Hf |].
      rewrite Hl. split.
      { intros _. right. exists 0. split; [lia |]. now rewrite <- Ans0. }
      { intros _. now left. }
Qed.

(** X4.  [http_get] pauses once after every attempt that did not come
    back with status 200, the last one included, and never after the
    one that did.  The entry "Failed to GET" is written exactly when
    [None] is returned and at least one attempt raised an exception:
    attempts that were all answered with another status leave no such
    entry.  With a negative number of retries nothing is sent and [None]
    is returned. *)
Theorem http_get_pauses (req : Request) (retries : Z) (w : World) :
  exists evs,
    steps w (snd (http_get req retries w)) evs
    /\ count_sleeps evs + (if is_some (fst (http_get req retries w)) then 1 else 0)
       = count_gets evs
    /\ (existsb failure_entry evs = true <->
          fst (http_get req retries w) = None
          /\ exists j, j < count_gets evs /\ raised (answer w req j) = true)
    /\ (existsb failure_entry evs = true ->
          In (ErrFailed (url req) (retries + 1)) evs)
    /\ ((retries < 0)%Z -> http_get req retries w = (None, w)).
Proof.
  assert (Hneg : (retries < 0)%Z -> http_get req retries w = (None, w)).
  { intros H. unfold http_get.
    replace (Z.to_nat (retries + 1)) with 0 by lia. reflexivity. }
  unfold http_get in *. rewrite bind_run in *.
  destruct (http_get_loop_pauses req retries (Z.to_nat (retries + 1)) 0%Z None w)
    as (evs & S1 & Hc & Hf & Hl).
  destruct (http_get_loop req retries (Z.to_nat (retries + 1)) 0 None w)
    as [[res le] w1] eqn:Hloop.
  cbn [fst snd] in *.
  destruct res as [r |].
  - exists evs. unfold ret in *. cbn [fst snd is_some] in *.
    split; [exact S1 |]. split; [exact Hc |].
    split; [rewrite Hf; split; [discriminate | intros [H _]; discriminate] |].
    split; [rewrite Hf; discriminate | exact Hneg].
  - rewrite bind_run in *. unfold ret in *. cbn [fst snd is_some] in *.
    change (match le with Some _ => true | None => false end) with (is_some le) in *.
    set (e := ErrFailed (url req) (retries + 1)) in *.
    pose proof (steps_when (is_some le) e w1 eq_refl) as S2.
    exists (evs ++ (if is_some le then [e] else []))%list.
    split; [eapply steps_trans; eassumption |].
    rewrite count_sleeps_app, count_gets_app, existsb_app, Hf.
    assert (Hz : count_sleeps evs = count_gets evs) by lia.
    split; [destruct (is_some le); simpl; lia |].
    split.
    { replace (count_gets (if is_some le then [e] else [])) with 0
        by (destruct (is_some le); reflexivity).
      rewrite Nat.add_0_r, <- Hz. cbn [orb].
      replace (existsb failure_entry (if is_some le then [e] else []))
        with (is_some le) by (destruct (is_some le); reflexivity).
      rewrite Hl. split.
      - intros [H | H]; [discriminate | now split].
      - intros [_ H]. now right. }
    split; [| exact Hneg].
    cbn [orb]. intros H. apply in_or_app. right.
    destruct (is_some le); [now left | discriminate].
Qed.

(* ----------------------------------------------------------------- *)
(** ** How many requests a run may send *)

Lemma sends_ret {A : Type} (a : A) : sends_at_most 0 (ret a).
Proof. intros w. exists []. split; [apply steps_refl | reflexivity]. Qed.

Lemma sends_emit (e : Event) : count_gets [e] = 0 -> sends_at_most 0 (emit e).
Proof. intros H w. exists [e]. split; [now apply steps_emit | lia]. Qed.

Lemma sends_bind {A B : Type} (n m : nat) (c : M A) (k : A -> M B) :
  sends_at_most n c -> (forall a, sends_at_most m (k a)) ->
  sends_at_most (n + m) (bind c k).
Proof.
  intros Hc Hk w. rewrite bind_run.
  destruct (Hc w) as (e1 & S1 & C1).
  destruct (Hk (fst (c w)) (snd (c w))) as (e2 & S2 & C2).
  exists (e1 ++ e2)%list. split; [eapply steps_trans; eassumption |].
  rewrite count_gets_app. lia.
Qed.

Lemma sends_more {A : Type} (n m : nat) (c : M A) :
  n <= m -> sends_at_most n c -> sends_at_most m c.
Proof.
  intros Hle Hc w. destruct (Hc w) as (evs & S & C).
  exists evs. split; [exact S | lia].
Qed.

Lemma sends_http_get (req : Request) (retries : Z) :
  sends_at_most (Z.to_nat (retries + 1)) (http_get req retries).
Proof.
  unfold http_get.
  apply (sends_more (Z.to_nat (retries + 1) + 0)); [lia |].
  apply sends_bind.
  - intros w.
    destruct (http_get_loop_spec req retries (Z.to_nat (retries + 1)) 0%Z None w)
      as (evs & S & C & _).
    now exists evs.
  - intros [[r |] le]; [apply sends_ret |].
    apply (sends_bind 0 0); [| intros; apply sends_ret].
    destruct le; [now apply sends_emit | apply sends_ret].
Qed.

Lemma sends_gh_get (u : string) (ps : list (string * json)) :
  sends_at_most 3 (gh_get u ps).
Proof. intros w. unfold gh_get. apply (sends_http_get _ default_retries). Qed.

Lemma sends_get_code_link (q : string) : sends_at_most 3 (get_code_link q).
Proof.
  unfold get_code_link. apply (sends_bind 3 0); [apply sends_gh_get |].
  intros [resp |]; [| apply sends_ret].
  destruct (resp_ok resp); [| apply sends_ret].
  destruct (code_link_of resp); [| apply sends_ret].
  apply (sends_bind 0 0); [now apply sends_emit | intros; apply sends_ret].
Qed.

Lemma sends_search_then (n m : nat) (get : M (option Response))
    (picked : Response -> exn + json) (next : M (exn + json)) :
  sends_at_most n get -> sends_at_most m next ->
  sends_at_most (n + m) (search_then get picked next).
Proof.
  intros Hg Hn. unfold search_then. apply sends_bind; [exact Hg |].
  intros r. destruct (items_hit r) as [e | [resp |]];
    [apply (sends_more 0); [lia | apply sends_ret]
    | apply (sends_more 0); [lia | apply sends_ret]
    | exact Hn].
Qed.

Lemma sends_find_code_repo (t k a : string) :
  sends_at_most 9 (find_code_repo t k a).
Proof.
  unfold find_code_repo. apply (sends_bind 9 0).
  - apply (sends_search_then 3 6); [apply sends_gh_get |].
    apply (sends_search_then 3 3); [apply sends_gh_get |].
    apply (sends_search_then 3 0); [apply sends_gh_get | apply sends_ret].
  - intros [e | v]; [| apply sends_ret].
    apply (sends_bind 0 0); [now apply sends_emit | intros; apply sends_ret].
Qed.

Lemma sends_por (n m : nat) (a b : M json) :
  sends_at_most n a -> sends_at_most m b -> sends_at_most (n + m) (por a b).
Proof.
  intros Ha Hb. unfold por. apply sends_bind; [exact Ha |].
  intros x. destruct (truthy x); [| exact Hb].
  apply (sends_more 0); [lia | apply sends_ret].
Qed.

Lemma list_sum_cons (x : nat) (l : list nat) : list_sum (x :: l) = x + list_sum l.
Proof. reflexivity. Qed.

Lemma sends_foldM {A B : Type} (cost : B -> nat) (f : A -> B -> M A)
    (l : list B) (a : A) :
  (forall a b, sends_at_most (cost b) (f a b)) ->
  sends_at_most (list_sum (map cost l)) (foldM f l a).
Proof.
  intros H. revert a. induction l as [| b l IH]; intros a; cbn [foldM map].
  - apply sends_ret.
  - rewrite list_sum_cons. apply sends_bind; [apply H | exact IH].
Qed.

Lemma list_sum_const {B : Type} (n : nat) (l : list B) :
  list_sum (map (fun _ => n) l) = n * List.length l.
Proof.
  induction l as [| b l IH]; simpl; [lia |].
  rewrite IH. lia.
Qed.

Section Budget.

Variable py_repr : json -> string.

Lemma sends_get_repo_from_hf (k : string) :
  sends_at_most 3 (get_repo_from_hf py_repr k).
Proof.
  unfold get_repo_from_hf.
  apply (sends_bind 3 0); [apply (sends_http_get _ default_retries) |].
  intros [resp |]; [| apply sends_ret].
  destruct (resp_ok resp); [| apply sends_ret].
  destruct (data <-? response_json resp; hf_pick_all py_repr data);
    [| apply sends_ret].
  apply (sends_bind 0 0); [now apply sends_emit | intros; apply sends_ret].
Qed.

Lemma sends_resolve_backfill (t k a : string) :
  sends_at_most resolution_budget (resolve_backfill py_repr t k a).
Proof.
  unfold resolve_backfill.
  apply (sends_por 3 15); [apply sends_get_repo_from_hf |].
  apply (sends_por 9 6); [apply sends_find_code_repo |].
  apply (sends_por 3 3); apply sends_get_code_link.
Qed.

Lemma sends_resolve_daily (t k a : string) :
  sends_at_most resolution_budget (resolve_daily py_repr t k a).
Proof.
  intros w. rewrite resolve_daily_backfill. apply sends_resolve_backfill.
Qed.

Lemma sends_daily_step (acc : Topic * Topic) (result : ArxivResult) :
  sends_at_most resolution_budget (daily_step py_repr acc result).
Proof.
  destruct acc as [content content_to_web]. unfold daily_step.
  apply (sends_bind 0 resolution_budget); [now apply sends_emit |]. intros _.
  apply (sends_more (resolution_budget + 0)); [lia |].
  apply sends_bind; [apply sends_resolve_daily |].
  intros repo_url. destruct (negb (is_None repo_url)); apply sends_ret.
Qed.

Lemma sends_get_daily_papers (topic : string) (results : list ArxivResult) :
  sends_at_most (18 * List.length results)
                (get_daily_papers py_repr topic results).
Proof.
  unfold get_daily_papers.
  apply (sends_more (list_sum (map (fun _ => 18) results) + 0));
    [rewrite list_sum_const; lia |].
  apply sends_bind; [| intros; apply sends_ret].
  apply sends_foldM. intros a b. apply sends_daily_step.
Qed.


Lemma sends_backfill_record (v : Topic) (entry : string * string) :
  sends_at_most (if needs_link (snd entry) then 18 else 0)
                (backfill_record py_repr v entry).
Proof.
  destruct entry as [paper_id contents]. unfold backfill_record, needs_link.
  cbn [snd].
  destruct (parse_arxiv_string contents) as [e | f].
  - apply (sends_bind 0 0); [now apply sends_emit | intros; apply sends_ret].
  - destruct (contains "|null|" (normalized f)); cbn [negb]; [| apply sends_ret].
    apply (sends_bind 0 18); [now apply sends_emit |]. intros _.
    apply (sends_bind 18 0); [apply sends_resolve_backfill |]. intros repo_url.
    destruct (negb (is_None repo_url)); [| apply sends_ret].
    apply (sends_bind 0 0); [now apply sends_emit | intros; apply sends_ret].
Qed.

Lemma list_sum_pending (v : Topic) :
  list_sum (map (fun r : string * string => if needs_link (snd r) then 18 else 0) v)
  = 18 * pending_in v.
Proof.
  unfold pending_in.
  induction v as [| r v IH]; [reflexivity |].
  cbn [map filter]. rewrite list_sum_cons, IH.
  destruct (needs_link (snd r)); cbn [List.length]; lia.
Qed.

Lemma sends_backfill_topic (entry : string * Topic) :
  sends_at_most (18 * pending_in (snd entry)) (backfill_topic py_repr entry).
Proof.
  destruct entry as [kw v]. unfold backfill_topic. cbn [snd].
  apply (sends_bind 0 (18 * pending_in v)); [now apply sends_emit |]. intros _.
  apply (sends_more (18 * pending_in v + 0)); [lia |].
  apply sends_bind; [| intros; apply sends_ret].
  rewrite <- list_sum_pending.
  apply (sends_foldM (fun r : string * string => if needs_link (snd r) then 18 else 0)).
  intros a b. apply sends_backfill_record.
Qed.

Lemma sends_backfill (m : Store) :
  sends_at_most (18 * pending m) (backfill py_repr m).
Proof.
  unfold backfill, pending.
  induction m as [| kv m IH]; cbn [mapM map].
  - apply sends_ret.
  - rewrite list_sum_cons. apply (sends_more (18 * pending_in (snd kv)
                       + (18 * list_sum (map (fun kv => pending_in (snd kv)) m) + 0)));
      [lia |].
    apply sends_bind; [apply sends_backfill_topic |]. intros b.
    apply sends_bind; [exact IH | intros; apply sends_ret].
Qed.

Variable json_loads : string -> exn + Store.
Variable json_dumps : Store -> string.

(** X6.  [update_paper_links] sends at most 18 requests for each record
    that parses and has [|null|] in its normalized form, and none for
    any other record; it writes the store file and no other file. *)
Theorem update_paper_links_budget (filename : string) (m : Store) (w : World) :
  fst (load json_loads filename w) = inr m ->
  let w' := snd (update_paper_links py_repr json_loads json_dumps filename w) in
  sent w' <= sent w + 18 * pending m
  /\ (pending m = 0 -> sent w' = sent w)
  /\ (forall p, p <> filename -> files w' p = files w p)
  /\ files w' filename = Some (json_dumps (fst (backfill py_repr m w))).
Proof.
  intros H. cbv zeta. unfold update_paper_links.
  rewrite bind_run, H, load_world, !bind_run. unfold ret.
  cbn [fst snd write_file sent files].
  destruct (sends_backfill m w) as (evs & S & C).
  destruct S as (_ & _ & Hf & _ & _ & Hs).
  split; [lia |]. split; [intros Hz; lia |].
  split.
  - intros p Hp. apply String.eqb_neq in Hp. now rewrite Hp, Hf.
  - now rewrite String.eqb_refl.
Qed.

End Budget.

(* ----------------------------------------------------------------- *)
(** ** Runs in a world that does not answer *)

Lemma unanswered_steps (w w' : World) (evs : list Event) :
  unanswered w -> steps w w' evs -> unanswered w'.
Proof.
  intros H (Ho & _) k req. rewrite Ho. apply H.
Qed.

Lemma gives_up_ret {A : Type} (a : A) : gives_up 0 a (ret a).
Proof.
  intros w _. split; [reflexivity |].
  exists []. split; [apply steps_refl | reflexivity].
Qed.

Lemma gives_up_emit (e : Event) : count_gets [e] = 0 -> gives_up 0 tt (emit e).
Proof.
  intros H w _. split; [reflexivity |].
  exists [e]. split; [now apply steps_emit | exact H].
Qed.

Lemma gives_up_bind {A B : Type} (n m : nat) (a : A) (b : B)
    (c : M A) (k : A -> M B) :
  gives_up n a c -> gives_up m b (k a) -> gives_up (n + m) b (bind c k).
Proof.
  intros Hc Hk w Hw. rewrite bind_run.
  destruct (Hc w Hw) as (Ea & e1 & S1 & C1). rewrite Ea.
  destruct (Hk (snd (c w)) (unanswered_steps _ _ _ Hw S1)) as (Eb & e2 & S2 & C2).
  split; [exact Eb |].
  exists (e1 ++ e2)%list. split; [eapply steps_trans; eassumption |].
  rewrite count_gets_app. lia.
Qed.

Lemma gives_up_http_get (req : Request) (retries : Z) :
  gives_up (Z.to_nat (retries + 1)) None (http_get req retries).
Proof.
  intros w Hw. unfold http_get. rewrite bind_run.
  destruct (http_get_loop_spec req retries (Z.to_nat (retries + 1)) 0%Z None w)
    as (evs & S1 & _ & Hsome & Hnone & _).
  destruct (http_get_loop req retries (Z.to_nat (retries + 1)) 0 None w)
    as [[res le] w1] eqn:Hloop.
  cbn [fst snd] in *.
  destruct res as [r |].
  - exfalso. destruct (Hsome r eq_refl) as (H200 & k & _ & Hk & _).
    pose proof (Hw (sent w + k) req) as Hno. unfold answer in Hk.
    rewrite Hk in Hno. cbn [is_200] in Hno. apply Z.eqb_neq in Hno. contradiction.
  - rewrite bind_run. unfold ret. cbn [fst snd]. split; [reflexivity |].
    destruct (Hnone eq_refl) as (Hn & _).
    set (b := match le with Some _ => true | None => false end).
    pose proof (steps_when b (ErrFailed (url req) (retries + 1)) w1 eq_refl) as S2.
    eexists. split; [eapply steps_trans; eassumption |].
    rewrite count_gets_app, Hn. destruct b; cbn [count_gets]; lia.
Qed.

Lemma gives_up_gh_get (u : string) (ps : list (string * json)) :
  gives_up 3 None (gh_get u ps).
Proof. intros w. unfold gh_get. apply (gives_up_http_get _ default_retries). Qed.

Lemma gives_up_get_code_link (q : string) : gives_up 3 JNull (get_code_link q).
Proof.
  unfold get_code_link.
  apply (gives_up_bind 3 0 None); [apply gives_up_gh_get | apply gives_up_ret].
Qed.

Lemma gives_up_search_then (n m : nat) (x : exn + json)
    (get : M (option Response)) (picked : Response -> exn + json)
    (next : M (exn + json)) :
  gives_up n None get -> gives_up m x next ->
  gives_up (n + m) x (search_then get picked next).
Proof.
  intros Hg Hn. unfold search_then.
  apply (gives_up_bind n m None); [exact Hg | exact Hn].
Qed.

Lemma gives_up_find_code_repo (t k a : string) :
  gives_up 9 JNull (find_code_repo t k a).
Proof.
  unfold find_code_repo. apply (gives_up_bind 9 0 (inr JNull)).
  - apply (gives_up_search_then 3 6); [apply gives_up_gh_get |].
    apply (gives_up_search_then 3 3); [apply gives_up_gh_get |].
    apply (gives_up_search_then 3 0); [apply gives_up_gh_get | apply gives_up_ret].
  - apply gives_up_ret.
Qed.

Lemma gives_up_por (n m : nat) (x : json) (a b : M json) :
  gives_up n JNull a -> gives_up m x b -> gives_up (n + m) x (por a b).
Proof.
  intros Ha Hb. unfold por.
  apply (gives_up_bind n m JNull); [exact Ha | exact Hb].
Qed.

Lemma gives_up_foldM {A B : Type} (cost : B -> nat) (g : A -> B -> A)
    (f : A -> B -> M A) (l : list B) (a : A) :
  (forall a b, gives_up (cost b) (g a b) (f a b)) ->
  gives_up (list_sum (map cost l)) (fold_left g l a) (foldM f l a).
Proof.
  intros H. revert a. induction l as [| b l IH]; intros a; cbn [foldM map fold_left].
  - apply gives_up_ret.
  - rewrite list_sum_cons.
    apply (gives_up_bind _ _ (g a b)); [apply H | apply IH].
Qed.

Lemma gives_up_sent {A : Type} (n : nat) (a : A) (c : M A) (w : World) :
  gives_up n a c -> unanswered w ->
  fst (c w) = a /\ sent (snd (c w)) = sent w + n
  /\ files (snd (c w)) = files w /\ unanswered (snd (c w)).
Proof.
  intros H Hw. destruct (H w Hw) as (E & evs & S & C).
  split; [exact E |].
  pose proof (unanswered_steps _ _ _ Hw S) as Hw'.
  destruct S as (_ & _ & Hf & _ & _ & Hs).
  split; [lia |]. split; assumption.
Qed.

Section Unanswered.

Variable py_repr : json -> string.

Lemma gives_up_get_repo_from_hf (k : string) :
  gives_up 3 JNull (get_repo_from_hf py_repr k).
Proof.
  unfold get_repo_from_hf.
  apply (gives_up_bind 3 0 None);
    [apply (gives_up_http_get _ default_retries) | apply gives_up_ret].
Qed.

Lemma gives_up_resolve_backfill (t k a : string) :
  gives_up 18 JNull (resolve_backfill py_repr t k a).
Proof.
  unfold resolve_backfill.
  apply (gives_up_por 3 15); [apply gives_up_get_repo_from_hf |].
  apply (gives_up_por 9 6); [apply gives_up_find_code_repo |].
  apply (gives_up_por 3 3); apply gives_up_get_code_link.
Qed.

Lemma gives_up_resolve_daily (t k a : string) :
  gives_up 18 JNull (resolve_daily py_repr t k a).
Proof.
  intros w Hw. rewrite resolve_daily_backfill.
  now apply gives_up_resolve_backfill.
Qed.

Lemma gives_up_daily_step (acc : Topic * Topic) (r : ArxivResult) :
  gives_up 18
    (dict_set (fst acc) (key_of r) (unresolved_record r),
     dict_set (snd acc) (key_of r) (unresolved_web_record r))
    (daily_step py_repr acc r).
Proof.
  destruct acc as [content content_to_web]. unfold daily_step.
  apply (gives_up_bind 0 18 tt); [now apply gives_up_emit |].
  apply (gives_up_bind 18 0 JNull); [apply gives_up_resolve_daily |].
  cbn [is_None negb]. apply gives_up_ret.
Qed.

Lemma fold_left_pair {A B C : Type} (g : A -> C -> A) (h : B -> C -> B)
    (l : list C) (a : A) (b : B) :
  fold_left (fun acc c => (g (fst acc) c, h (snd acc) c)) l (a, b)
  = (fold_left g l a, fold_left h l b).
Proof.
  revert a b. induction l as [| c l IH]; intros a b; [reflexivity |].
  cbn [fold_left fst snd]. apply IH.
Qed.

Lemma assoc_fold_unresolved (results : list ArxivResult) :
  forall (content : Topic) (id c : string),
  (forall id c, assoc id content = Some c -> contains "|null|" c = true) ->
  assoc id (fold_left (fun d r => dict_set d (key_of r) (unresolved_record r))
                      results content) = Some c ->
  contains "|null|" c = true.
Proof.
  induction results as [| r results IH]; intros content id c Hc; cbn [fold_left].
  - apply Hc.
  - apply IH. intros id' c'. rewrite assoc_dict_set.
    destruct (key_of r =? id')%string; [| apply Hc].
    intros [= <-]. apply row_unresolved_has_null.
Qed.

(** X7.  When no request is answered with status 200, [get_daily_papers]
    still returns normally: it has sent exactly 18 requests for each
    search result, and it has recorded every paper, in both listings,
    without a link; each record of the table ends in the cell [null]. *)
Theorem get_daily_papers_unanswered (topic : string)
    (results : list ArxivResult) (w : World) :
  unanswered w ->
  let content :=
    fold_left (fun d r => dict_set d (key_of r) (unresolved_record r))
              results [] in
  let content_to_web :=
    fold_left (fun d r => dict_set d (key_of r) (unresolved_web_record r))
              results [] in
  fst (get_daily_papers py_repr topic results w)
  = ([(topic, content)], [(topic, content_to_web)])
  /\ sent (snd (get_daily_papers py_repr topic results w))
     = sent w + 18 * List.length results
  /\ files (snd (get_daily_papers py_repr topic results w)) = files w
  /\ forall id c, assoc id content = Some c -> contains "|null|" c = true.
Proof.
  intros Hw. cbv zeta.
  assert (H : gives_up (18 * List.length results)
                ([(topic, fold_left (fun d r => dict_set d (key_of r)
                                                  (unresolved_record r)) results [])],
                 [(topic, fold_left (fun d r => dict_set d (key_of r)
                                                  (unresolved_web_record r)) results [])])
                (get_daily_papers py_repr topic results)).
  { unfold get_daily_papers.
    replace (18 * List.length results)
      with (list_sum (map (fun _ : ArxivResult => 18) results) + 0)
      by (rewrite list_sum_const; lia).
    eapply gives_up_bind.
    - apply (gives_up_foldM (fun _ : ArxivResult => 18)
               (fun acc r => (dict_set (fst acc) (key_of r) (unresolved_record r),
                              dict_set (snd acc) (key_of r) (unresolved_web_record r)))).
      intros a b. apply gives_up_daily_step.
    - cbv beta.
      rewrite (fold_left_pair
                 (fun d r => dict_set d (key_of r) (unresolved_record r))
                 (fun d r => dict_set d (key_of r) (unresolved_web_record r))).
      cbn [fst snd]. apply gives_up_ret. }
  destruct (gives_up_sent _ _ _ w H Hw) as (E & Hs & Hf & _).
  split; [exact E |]. split; [exact Hs |]. split; [exact Hf |].
  intros id c. apply assoc_fold_unresolved. discriminate.
Qed.

End Unanswered.

(* ----------------------------------------------------------------- *)
(** ** The backfill in a world that does not answer *)

Lemma gives_up_mapM {A B : Type} (cost : A -> nat) (g : A -> B)
    (f : A -> M B) (l : list A) :
  (forall a, gives_up (cost a) (g a) (f a)) ->
  gives_up (list_sum (map cost l)) (map g l) (mapM f l).
Proof.
  intros H. induction l as [| a l IH]; cbn [mapM map].
  - apply gives_up_ret.
  - rewrite list_sum_cons.
    apply (gives_up_bind _ _ (g a)); [apply H |].
    replace (list_sum (map cost l)) with (list_sum (map cost l) + 0) by lia.
    apply (gives_up_bind _ _ (map g l)); [exact IH | apply gives_up_ret].
Qed.

Lemma assoc_map_snd {V W : Type} (g : V -> W) (d : dict V) (k : string) :
  assoc k (map (fun r => (fst r, g (snd r))) d) = option_map g (assoc k d).
Proof.
  induction d as [| [k0 v0] d IH]; [reflexivity |].
  cbn [map assoc fst snd]. now destruct (k0 =? k)%string.
Qed.

Lemma keys_map_snd {V W : Type} (g : V -> W) (d : dict V) :
  keys (map (fun r => (fst r, g (snd r))) d) = keys d.
Proof.
  unfold keys. rewrite map_map. apply map_ext. reflexivity.
Qed.

Lemma normalize_step_fold (items : list (string * string)) :
  forall v : Topic,
  NoDup (keys items) ->
  (forall id c, In (id, c) items -> assoc id v = Some c) ->
  let v' := fold_left normalize_step items v in
  keys v' = keys v
  /\ (forall id, ~ In id (keys items) -> assoc id v' = assoc id v)
  /\ (forall id c, In (id, c) items -> assoc id v' = Some (normalize_record c)).
Proof.
  induction items as [| [id0 c0] items IH]; intros v Hnd Hv; cbv zeta.
  - cbn. repeat split; auto; intros id c [].
  - cbn [fold_left].
    cbn [keys map fst] in Hnd. inversion Hnd as [| ? ? Hnot Hnd']; subst.
    set (v1 := normalize_step v (id0, c0)).
    assert (H0 : assoc id0 v = Some c0) by (apply Hv; now left).
    assert (Hv1 : keys v1 = keys v
                  /\ (forall id, id <> id0 -> assoc id v1 = assoc id v)
                  /\ assoc id0 v1 = Some (normalize_record c0)).
    { subst v1. unfold normalize_step, normalize_record. cbn [fst snd].
      destruct (parse_arxiv_string c0) as [e | f].
      - repeat split; auto.
      - split; [apply keys_dict_set_present, assoc_in_keys; congruence |].
        split.
        + intros id Hne. rewrite assoc_dict_set.
          destruct (id0 =? id)%string eqn:E; [| reflexivity].
          apply String.eqb_eq in E. congruence.
        + now rewrite assoc_dict_set, String.eqb_refl. }
    destruct Hv1 as (K1 & O1 & A0).
    destruct (IH v1 Hnd') as (K2 & O2 & R2).
    { intros id c Hin. rewrite O1; [apply Hv; now right |].
      intros ->. apply Hnot. change id0 with (fst (id0, c)).
      now apply in_map. }
    split; [congruence |]. split.
    + intros id Hid. rewrite O2.
      * apply O1. intros ->. apply Hid. now left.
      * intros H. apply Hid. now right.
    + intros id c [Hin | Hin].
      * injection Hin as <- <-. now rewrite O2.
      * now apply R2.
Qed.

Lemma normalize_step_topic (v : Topic) :
  wf_dict v -> fold_left normalize_step v v = normalize_topic v.
Proof.
  intros Hwf.
  destruct (normalize_step_fold v v Hwf) as (K & _ & R).
  { intros id c. now apply In_assoc. }
  apply dict_ext.
  - unfold wf_dict. now rewrite K.
  - unfold normalize_topic. now rewrite keys_map_snd.
  - intros id. unfold normalize_topic. rewrite assoc_map_snd.
    destruct (assoc id v) as [c |] eqn:E.
    + cbn [option_map]. apply R. now apply assoc_In.
    + cbn [option_map]. apply assoc_none_keys. rewrite K.
      now apply assoc_none_keys.
Qed.

Lemma normalize_record_again (c : string) :
  normalize_record (normalize_record c) = normalize_record c
  /\ needs_link (normalize_record c) = needs_link c.
Proof.
  unfold normalize_record, needs_link.
  destruct (parse_arxiv_string c) as [e | f] eqn:P.
  - now rewrite P.
  - destruct (normalized_fixed c f P) as (f' & P' & N'). now rewrite P', N'.
Qed.

Lemma normalize_topic_again (v : Topic) :
  normalize_topic (normalize_topic v) = normalize_topic v
  /\ pending_in (normalize_topic v) = pending_in v.
Proof.
  unfold normalize_topic, pending_in.
  induction v as [| [id c] v [IH1 IH2]]; [now split |].
  cbn [map fst snd filter].
  destruct (normalize_record_again c) as (E1 & E2).
  rewrite E1, E2, IH1. split; [reflexivity |].
  destruct (needs_link c); cbn [List.length]; now rewrite IH2.
Qed.

Lemma normalize_store_again (m : Store) :
  normalize_store (normalize_store m) = normalize_store m
  /\ pending (normalize_store m) = pending m.
Proof.
  unfold normalize_store, pending.
  induction m as [| [kw v] m [IH1 IH2]]; [now split |].
  cbn [map fst snd].
  destruct (normalize_topic_again v) as (E1 & E2).
  rewrite !list_sum_cons, E1, E2, IH1, IH2. now split.
Qed.

Lemma wf_normalize_store (m : Store) : wf_store m -> wf_store (normalize_store m).
Proof.
  intros [Wk Wt]. unfold wf_store, wf_dict, normalize_store in *.
  rewrite keys_map_snd. split; [exact Wk |].
  apply Forall_forall. intros [kw v'] Hin.
  apply in_map_iff in Hin. destruct Hin as ([kw0 v] & E & Hin).
  cbn [fst snd] in E. injection E as <- <-. cbn [snd].
  unfold normalize_topic. rewrite keys_map_snd.
  rewrite Forall_forall in Wt. exact (Wt _ Hin).
Qed.

Lemma lookup_normalize_store (m : Store) (topic id : string) :
  lookup (normalize_store m) topic id
  = option_map normalize_record (lookup m topic id).
Proof.
  unfold lookup, normalize_store. rewrite assoc_map_snd.
  destruct (assoc topic m) as [T |]; [| reflexivity].
  cbn [option_map]. unfold normalize_topic. apply assoc_map_snd.
Qed.

Section UnansweredBackfill.

Variable py_repr : json -> string.

Lemma gives_up_backfill_record (v : Topic) (entry : string * string) :
  gives_up (if needs_link (snd entry) then 18 else 0)
           (normalize_step v entry)
           (backfill_record py_repr v entry).
Proof.
  destruct entry as [paper_id contents].
  unfold backfill_record, needs_link, normalize_step. cbn [fst snd].
  destruct (parse_arxiv_string contents) as [e | f].
  - apply (gives_up_bind 0 0 tt); [now apply gives_up_emit | apply gives_up_ret].
  - destruct (contains "|null|" (normalized f)); cbn [negb]; [| apply gives_up_ret].
    apply (gives_up_bind 0 18 tt); [now apply gives_up_emit |].
    apply (gives_up_bind 18 0 JNull); [apply gives_up_resolve_backfill |].
    cbn [is_None negb]. apply gives_up_ret.
Qed.

Lemma gives_up_backfill_topic (entry : string * Topic) :
  gives_up (18 * pending_in (snd entry))
           (fst entry, fold_left normalize_step (snd entry) (snd entry))
           (backfill_topic py_repr entry).
Proof.
  destruct entry as [kw v]. unfold backfill_topic. cbn [fst snd].
  apply (gives_up_bind 0 (18 * pending_in v) tt); [now apply gives_up_emit |].
  replace (18 * pending_in v) with (18 * pending_in v + 0) by lia.
  apply (gives_up_bind _ _ (fold_left normalize_step v v)); [| apply gives_up_ret].
  rewrite <- list_sum_pending.
  apply (gives_up_foldM
           (fun r : string * string => if needs_link (snd r) then 18 else 0)).
  intros a b. apply gives_up_backfill_record.
Qed.

Lemma gives_up_backfill (m : Store) :
  wf_store m -> gives_up (18 * pending m) (normalize_store m) (backfill py_repr m).
Proof.
  intros [_ Wt]. unfold backfill.
  assert (E1 : 18 * pending m
               = list_sum (map (fun kv : string * Topic => 18 * pending_in (snd kv)) m)).
  { unfold pending. clear Wt. induction m as [| kv m IH]; [reflexivity |].
    cbn [map]. rewrite !list_sum_cons. lia. }
  assert (E2 : normalize_store m
               = map (fun kv : string * Topic =>
                        (fst kv, fold_left normalize_step (snd kv) (snd kv))) m).
  { unfold normalize_store. apply map_ext_in. intros [kw v] Hin. cbn [fst snd].
    rewrite Forall_forall in Wt. now rewrite (normalize_step_topic v (Wt _ Hin)). }
  rewrite E1, E2.
  apply (gives_up_mapM (fun kv : string * Topic => 18 * pending_in (snd kv))).
  intros a. apply gives_up_backfill_topic.
Qed.

(** X8.  When no request is answered with status 200, the backfill
    sends exactly 18 requests for each record that waits for a link and
    finds nothing: every record that parses is left in its normalized
    form, every other record as it was, in place.  The records that
    waited still wait, so a later backfill in such a world sends the
    same number of requests again and leaves the store as it found
    it. *)
Theorem backfill_unanswered (m : Store) (w : World) :
  wf_store m -> unanswered w ->
  fst (backfill py_repr m w) = normalize_store m
  /\ sent (snd (backfill py_repr m w)) = sent w + 18 * pending m
  /\ (forall topic id c,
        lookup m topic id = Some c ->
        lookup (normalize_store m) topic id
        = Some match parse_arxiv_string c with
               | inl _ => c
               | inr f => normalized f
               end)
  /\ forall w', unanswered w' ->
       fst (backfill py_repr (fst (backfill py_repr m w)) w')
       = fst (backfill py_repr m w)
       /\ sent (snd (backfill py_repr (fst (backfill py_repr m w)) w'))
          = sent w' + 18 * pending m.
Proof.
  intros Hwf Hw.
  destruct (gives_up_sent _ _ _ w (gives_up_backfill m Hwf) Hw) as (E & Hs & _).
  split; [exact E |]. split; [exact Hs |].
  split.
  { intros topic id c Hl. rewrite lookup_normalize_store, Hl. reflexivity. }
  intros w' Hw'. rewrite E.
  destruct (normalize_store_again m) as (N1 & N2).
  destruct (gives_up_sent _ _ _ w'
              (gives_up_backfill _ (wf_normalize_store m Hwf)) Hw')
    as (E' & Hs' & _).
  rewrite E', Hs', N1, N2. now split.
Qed.

End UnansweredBackfill.

(* ----------------------------------------------------------------- *)
(** ** What [get_daily_papers] returns *)

Lemma foldM_app {A B : Type} (f : A -> B -> M A) (l1 l2 : list B) (a : A)
    (w : World) :
  foldM f (l1 ++ l2)%list a w
  = foldM f l2 (fst (foldM f l1 a w)) (snd (foldM f l1 a w)).
Proof.
  revert a w. induction l1 as [| b l1 IH]; intros a w; [reflexivity |].
  cbn [app foldM]. rewrite !bind_run. apply IH.
Qed.

Lemma in_keys_dict_set {V : Type} (d : dict V) (k : string) (v : V) (id : string) :
  In id (keys (dict_set d k v)) <-> In id (keys d) \/ id = k.
Proof.
  destruct (in_dec string_dec k (keys d)) as [H | H].
  - rewrite keys_dict_set_present by exact H. split; [now left |].
    intros [Hin | ->]; assumption.
  - rewrite keys_dict_set_absent by exact H. rewrite in_app_iff. cbn [In].
    split; [intros [Hin | [<- | []]]; auto | intros [Hin | ->]; auto].
Qed.

Lemma keys_dict_set_same {V W : Type} (d1 : dict V) (d2 : dict W)
    (k : string) (a : V) (b : W) :
  keys d1 = keys d2 -> keys (dict_set d1 k a) = keys (dict_set d2 k b).
Proof.
  intros E. destruct (in_dec string_dec k (keys d1)) as [H | H].
  - rewrite !keys_dict_set_present; [exact E | now rewrite <- E | exact H].
  - rewrite !keys_dict_set_absent; [now rewrite E | now rewrite <- E | exact H].
Qed.

Section DailyPapers.

Variable py_repr : json -> string.

Lemma daily_step_shape (acc : Topic * Topic) (r : ArxivResult) (w : World) :
  exists rec web,
    recorded r rec web
    /\ fst (daily_step py_repr acc r w)
       = (dict_set (fst acc) (key_of r) rec, dict_set (snd acc) (key_of r) web).
Proof.
  destruct acc as [content content_to_web]. unfold daily_step.
  rewrite !bind_run. cbn [fst snd].
  destruct (negb (is_None _)); unfold ret; cbn [fst].
  - eexists. eexists. split; [right; eexists; split; reflexivity | reflexivity].
  - eexists. eexists. split; [left; split; reflexivity | reflexivity].
Qed.

Lemma foldM_daily_keys (results : list ArxivResult) :
  forall (acc : Topic * Topic) (w : World),
  let out := fst (foldM (daily_step py_repr) results acc w) in
  (keys (fst acc) = keys (snd acc) -> keys (fst out) = keys (snd out))
  /\ (wf_dict (fst acc) -> wf_dict (fst out))
  /\ (wf_dict (snd acc) -> wf_dict (snd out))
  /\ (forall id, In id (keys (fst out)) <->
        In id (keys (fst acc)) \/ exists r, In r results /\ id = key_of r)
  /\ (forall id, (forall r, In r results -> key_of r <> id) ->
        assoc id (fst out) = assoc id (fst acc)
        /\ assoc id (snd out) = assoc id (snd acc)).
Proof.
  induction results as [| r results IH]; intros acc w; cbv zeta.
  - cbn [foldM]. unfold ret. cbn [fst].
    split; [auto |]. split; [auto |]. split; [auto |].
    split; [| auto].
    intros id. split; [now left | intros [H | (r & [] & _)]; exact H].
  - cbn [foldM]. rewrite bind_run.
    destruct (daily_step_shape acc r w) as (rec & web & _ & E).
    set (acc1 := fst (daily_step py_repr acc r w)) in *.
    clearbody acc1. subst acc1.
    destruct (IH (dict_set (fst acc) (key_of r) rec, dict_set (snd acc) (key_of r) web)
                 (snd (daily_step py_repr acc r w))) as (K & W1 & W2 & I & O).
    cbn [fst snd] in K, W1, W2, I, O.
    split; [intros H; apply K; now apply keys_dict_set_same |].
    split; [intros H; apply W1; now apply wf_dict_set |].
    split; [intros H; apply W2; now apply wf_dict_set |].
    split.
    + intros id. rewrite I, in_keys_dict_set. split.
      * intros [[H | ->] | (r' & Hin & ->)]; [now left | right | right].
        -- exists r. split; [now left | reflexivity].
        -- exists r'. split; [now right | reflexivity].
      * intros [H | (r' & [<- | Hin] & ->)].
        -- left. now left.
        -- left. now right.
        -- right. exists r'. now split.
    + intros id Hid.
      destruct (O id) as (O1 & O2); [intros r' Hin; apply Hid; now right |].
      rewrite O1, O2, !assoc_dict_set.
      assert (Hne : (key_of r =? id)%string = false)
        by (apply String.eqb_neq, Hid; now left).
      now rewrite Hne.
Qed.

(** X9.  [get_daily_papers] returns two dicts of one topic each, the
    table and the web listing, with the same keys in the same order: the
    canonical keys of the search results, each once and without ["v"].
    Under each key stand the two records of the last result with that
    key, both without a link or both with the same link; a result met
    earlier under the same key is overwritten. *)
Theorem get_daily_papers_keys (topic : string) (results : list ArxivResult)
    (w : World) :
  exists content content_to_web,
    fst (get_daily_papers py_repr topic results w)
    = ([(topic, content)], [(topic, content_to_web)])
    /\ keys content_to_web = keys content
    /\ wf_store [(topic, content)] /\ wf_store [(topic, content_to_web)]
    /\ (forall id, In id (keys content) <-> exists r, In r results /\ id = key_of r)
    /\ (forall id, In id (keys content) -> v_free id)
    /\ (forall pre r post,
          results = (pre ++ r :: post)%list ->
          (forall r', In r' post -> key_of r' <> key_of r) ->
          exists rec web,
            recorded r rec web
            /\ assoc (key_of r) content = Some rec
            /\ assoc (key_of r) content_to_web = Some web).
Proof.
  unfold get_daily_papers. rewrite bind_run. unfold ret. cbn [fst].
  set (out := fst (foldM (daily_step py_repr) results ([], []) w)).
  exists (fst out), (snd out). split; [reflexivity |].
  destruct (foldM_daily_keys results ([], []) w) as (K & W1 & W2 & I & _).
  fold out in K, W1, W2, I. cbn [fst snd keys map] in K, W1, W2, I.
  assert (Hnil : wf_dict (@nil (string * string))) by constructor.
  split; [symmetry; now apply K |].
  split.
  { split; [repeat constructor; intros [] | repeat constructor; now apply W1]. }
  split.
  { split; [repeat constructor; intros [] | repeat constructor; now apply W2]. }
  split.
  { intros id. rewrite I. split; [intros [[] | H]; exact H | now right]. }
  split.
  { intros id Hid. apply I in Hid. destruct Hid as [[] | (r & _ & ->)].
    apply paper_key_of_v_free. }
  intros pre r post -> Hpost. subst out.
  change (pre ++ r :: post)%list with (pre ++ [r] ++ post)%list.
  rewrite !foldM_app.
  set (acc := fst (foldM (daily_step py_repr) pre ([], []) w)).
  set (w1 := snd (foldM (daily_step py_repr) pre ([], []) w)).
  cbn [foldM]. rewrite bind_run. unfold ret. cbn [fst snd].
  destruct (daily_step_shape acc r w1) as (rec & web & R & E).
  destruct (foldM_daily_keys post (fst (daily_step py_repr acc r w1))
              (snd (daily_step py_repr acc r w1))) as (_ & _ & _ & _ & O).
  destruct (O (key_of r) Hpost) as (O1 & O2).
  exists rec, web. split; [exact R |].
  rewrite O1, O2, E. cbn [fst snd].
  now rewrite !assoc_dict_set, String.eqb_refl.
Qed.

End DailyPapers.

(* ----------------------------------------------------------------- *)
(** ** Which records parse *)

Lemma count_char_append (c : ascii) (a b : string) :
  count_char c (a ++ b) = count_char c a + count_char c b.
Proof.
  induction a as [| x a IH]; [reflexivity |].
  cbn [append count_char]. rewrite IH. lia.
Qed.

Lemma length_split (sep : ascii) (s : string) :
  List.length (split sep s) = S (count_char sep s).
Proof.
  induction s as [| c s IH]; [reflexivity |].
  cbn [split count_char]. destruct (Ascii.eqb c sep).
  - cbn [List.length]. now rewrite IH.
  - destruct (split sep s) as [| h t]; [discriminate |].
    cbn [List.length] in *. lia.
Qed.

Lemma part_some (parts : list string) (i : nat) :
  i < List.length parts -> exists x, part parts i = inr x.
Proof.
  intros H. unfold part. destruct (nth_error parts i) as [x |] eqn:E; [eauto |].
  apply nth_error_None in E. lia.
Qed.

Lemma part_none (parts : list string) (i : nat) :
  List.length parts <= i -> part parts i = inl IndexError.
Proof.
  intros H. unfold part. apply nth_error_None in H. now rewrite H.
Qed.

(** A record parses exactly when it holds five bars or more; when it
    does not, the exception is an IndexError. *)
Lemma parse_needs_five_bars (s : string) :
  (5 <= count_char "|" s -> exists f, parse_arxiv_string s = inr f)
  /\ (count_char "|" s < 5 -> parse_arxiv_string s = inl IndexError).
Proof.
  pose proof (length_split "|" s) as L. unfold parse_arxiv_string. split.
  - intros H.
    destruct (part_some (split "|" s) 1) as (x1 & E1); [lia |].
    destruct (part_some (split "|" s) 2) as (x2 & E2); [lia |].
    destruct (part_some (split "|" s) 3) as (x3 & E3); [lia |].
    destruct (part_some (split "|" s) 4) as (x4 & E4); [lia |].
    destruct (part_some (split "|" s) 5) as (x5 & E5); [lia |].
    rewrite E1, E2, E3, E4, E5. cbn [bindE]. eauto.
  - intros H.
    assert (E5 : nth_error (split "|" s) 5 = None) by (apply nth_error_None; lia).
    unfold part. rewrite E5.
    destruct (nth_error (split "|" s) 1); [| reflexivity].
    destruct (nth_error (split "|" s) 2); [| reflexivity].
    destruct (nth_error (split "|" s) 3); [| reflexivity].
    destruct (nth_error (split "|" s) 4); reflexivity.
Qed.

Lemma row_resolved_bars (d t a k u repo : string) :
  6 <= count_char "|" (row_resolved d t a k u repo).
Proof.
  unfold row_resolved. rewrite !count_char_append. cbn [count_char Ascii.eqb Bool.eqb].
  lia.
Qed.

Lemma row_unresolved_bars (d t a k u : string) :
  6 <= count_char "|" (row_unresolved d t a k u).
Proof.
  unfold row_unresolved. rewrite !count_char_append. cbn [count_char Ascii.eqb Bool.eqb].
  lia.
Qed.

Lemma count_char_bar_free (s : string) : bar_free s <-> count_char "|" s = 0.
Proof.
  unfold bar_free. induction s as [| c s IH]; [now split |].
  cbn [has_char count_char]. destruct (Ascii.eqb c "|"); cbn [orb].
  - split; [discriminate | lia].
  - rewrite IH. split; lia.
Qed.

Section TableRecords.

Variable py_repr : json -> string.

Lemma foldM_daily_values (P : string -> Prop) (results : list ArxivResult) :
  (forall r rec web, recorded r rec web -> P rec) ->
  forall (acc : Topic * Topic) (w : World),
  Forall (fun kv => P (snd kv)) (fst acc) ->
  Forall (fun kv => P (snd kv))
         (fst (fst (foldM (daily_step py_repr) results acc w))).
Proof.
  intros HP. induction results as [| r results IH]; intros acc w Hacc.
  - exact Hacc.
  - cbn [foldM]. rewrite bind_run.
    destruct (daily_step_shape py_repr acc r w) as (rec & web & R & E).
    apply IH. rewrite E. cbn [fst].
    apply Forall_dict_set; [exact Hacc | exact (HP r rec web R)].
Qed.

(** X10.  A record parses in [update_paper_links] exactly when it holds
    five bars or more, and the only exception parsing raises is an
    IndexError.  Every record [get_daily_papers] puts in the table holds
    six bars at least, whatever the title, the author or the link are,
    so the backfill parses every record of a table it wrote: none of
    them is skipped as unreadable. *)
Theorem table_records_parse (topic : string) (results : list ArxivResult)
    (w : World) :
  (forall s, 5 <= count_char "|" s -> exists f, parse_arxiv_string s = inr f)
  /\ (forall s, count_char "|" s < 5 -> parse_arxiv_string s = inl IndexError)
  /\ forall content id c,
       assoc topic (fst (fst (get_daily_papers py_repr topic results w)))
       = Some content ->
       assoc id content = Some c ->
       6 <= count_char "|" c /\ exists f, parse_arxiv_string c = inr f.
Proof.
  split; [intros s; apply parse_needs_five_bars |].
  split; [intros s; apply parse_needs_five_bars |].
  intros content id c. unfold get_daily_papers. rewrite bind_run.
  unfold ret. cbn [fst assoc]. rewrite String.eqb_refl. intros [= <-] Hc.
  assert (H : Forall (fun kv : string * string => 6 <= count_char "|" (snd kv))
                (fst (fst (foldM (daily_step py_repr) results ([], []) w)))).
  { apply (foldM_daily_values (fun c => 6 <= count_char "|" c)).
    - intros r rec web [[-> _] | (repo & -> & _)].
      + apply row_unresolved_bars.
      + apply row_resolved_bars.
    - constructor. }
  pose proof (Forall_assoc (fun c => 6 <= count_char "|" c) _ _ _ H Hc) as Hb.
  cbn beta in Hb.
  split; [exact Hb |]. apply parse_needs_five_bars. lia.
Qed.

End TableRecords.

(* ----------------------------------------------------------------- *)
(** ** The backfill of a listing that has no cells *)

Section WebListing.

Variable py_repr : json -> string.

Lemma foldM_backfill_unparsable (items : list (string * string)) :
  forall (v : Topic) (w : World),
  (forall id c, In (id, c) items -> count_char "|" c < 5) ->
  fst (foldM (backfill_record py_repr) items v w) = v.
Proof.
  induction items as [| [id c] items IH]; intros v w H; [reflexivity |].
  cbn [foldM]. rewrite bind_run.
  assert (P : parse_arxiv_string c = inl IndexError)
    by (apply parse_needs_five_bars, (H id c); now left).
  rewrite (backfill_record_failure py_repr v id c IndexError w P). cbn [fst snd].
  apply IH. intros id' c' Hin. apply (H id' c'). now right.
Qed.

Lemma pending_in_unparsable (v : Topic) :
  (forall id c, In (id, c) v -> count_char "|" c < 5) -> pending_in v = 0.
Proof.
  unfold pending_in. induction v as [| [id c] v IH]; intros H; [reflexivity |].
  cbn [filter snd]. unfold needs_link at 1.
  rewrite (proj2 (parse_needs_five_bars c)) by (apply (H id c); now left).
  apply IH. intros id' c' Hin. apply (H id' c'). now right.
Qed.

(** X11.  A store whose records hold fewer than five bars each, as the
    lines of the web listing do when their fields hold none, goes
    through [update_paper_links] as it is: no record parses, so the
    store written back is the store that was read and no request is
    sent. *)
Theorem backfill_web_listing (m : Store) (w : World) :
  (forall topic T id c, In (topic, T) m -> In (id, c) T -> count_char "|" c < 5) ->
  fst (backfill py_repr m w) = m
  /\ sent (snd (backfill py_repr m w)) = sent w
  /\ files (snd (backfill py_repr m w)) = files w
  /\ forall update_time paper_title paper_first_author paper_url repo_url,
       bar_free update_time -> bar_free paper_title ->
       bar_free paper_first_author -> bar_free paper_url -> bar_free repo_url ->
       count_char "|" (web_resolved update_time paper_title paper_first_author
                                    paper_url repo_url ++ nl) = 0
       /\ count_char "|" (web_unresolved update_time paper_title
                                         paper_first_author paper_url ++ nl) = 0.
Proof.
  intros H.
  assert (P : pending m = 0).
  { clear - H. unfold pending. induction m as [| [kw v] m IH]; [reflexivity |].
    cbn [map snd]. rewrite list_sum_cons.
    rewrite pending_in_unparsable
      by (intros id c Hin; apply (H kw v id c); [now left | exact Hin]).
    apply IH. intros topic T id c HT. apply (H topic T id c). now right. }
  assert (E : forall w, fst (backfill py_repr m w) = m).
  { clear - H. unfold backfill. induction m as [| [kw v] m IH]; intros w; [reflexivity |].
    cbn [mapM]. rewrite !bind_run. unfold ret. cbn [fst].
    unfold backfill_topic at 1. rewrite !bind_run. unfold ret. cbn [fst].
    rewrite foldM_backfill_unparsable
      by (intros id c Hin; apply (H kw v id c); [now left | exact Hin]).
    f_equal. apply IH. intros topic T id c HT. apply (H topic T id c). now right. }
  split; [apply E |].
  destruct (sends_backfill py_repr m w) as (evs & S & C).
  destruct S as (_ & _ & Hf & _ & _ & Hs).
  split; [lia |]. split; [exact Hf |].
  intros d t a u r Hd Ht Ha Hu Hr.
  apply count_char_bar_free in Hd, Ht, Ha, Hu, Hr.
  unfold web_resolved, web_unresolved, nl. rewrite !count_char_append.
  rewrite Hd, Ht, Ha, Hu, Hr. split; reflexivity.
Qed.

End WebListing.

(* ----------------------------------------------------------------- *)
(** ** The backfill of a row written without a link *)

Lemma row_unresolved_cells (d t a k u : string) :
  row_unresolved d t a k u
  = String "|" (("**" ++ d ++ "**") ++ String "|"
      (("**" ++ t ++ "**") ++ String "|"
         ((a ++ " et.al.") ++ String "|"
            (("[" ++ k ++ "](" ++ u ++ ")") ++ String "|"
               ("null" ++ String "|" nl))))).
Proof. unfold row_unresolved, nl. rewrite !append_assoc. reflexivity. Qed.

Lemma replace_skips_cell (new c rest : string) :
  bar_free c ->
  replace_from "|null|" new 0 (c ++ String "|" rest)
  = c ++ replace_from "|null|" new 0 (String "|" rest).
Proof.
  unfold bar_free. induction c as [| x c IH]; [reflexivity |].
  cbn [has_char]. intros H. apply orb_false_elim in H. destruct H as [Hx Hc].
  cbn [append]. rewrite <- (IH Hc).
  change (replace_from "|null|" new 0 (String x (c ++ String "|" rest)))
    with (if starts_with "|null|" (String x (c ++ String "|" rest))
          then new ++ replace_from "|null|" new (String.length "|null|" - 1)
                                   (c ++ String "|" rest)
          else String x (replace_from "|null|" new 0 (c ++ String "|" rest))).
  cbn [starts_with]. rewrite Ascii.eqb_sym, Hx. reflexivity.
Qed.

Lemma replace_keeps_cell (new c rest : string) :
  bar_free c -> ("null" =? c)%string = false ->
  replace_from "|null|" new 0 (String "|" (c ++ String "|" rest))
  = String "|" (c ++ replace_from "|null|" new 0 (String "|" rest)).
Proof.
  intros Hc Hn.
  change (replace_from "|null|" new 0 (String "|" (c ++ String "|" rest)))
    with (if starts_with ("null" ++ "|") (c ++ String "|" rest)
          then new ++ replace_from "|null|" new (String.length "|null|" - 1)
                                   (c ++ String "|" rest)
          else String "|" (replace_from "|null|" new 0 (c ++ String "|" rest))).
  rewrite (starts_with_cell "null" c rest eq_refl Hc), Hn.
  now rewrite replace_skips_cell.
Qed.

Lemma until_bracket_key (k rest : string) :
  has_char "]" k = false -> has_char newline k = false ->
  until_bracket (k ++ String "]" rest) = Some k.
Proof.
  induction k as [| c k IH]; [reflexivity |].
  cbn [has_char]. intros H1 H2.
  apply orb_false_elim in H1. destruct H1 as [Hc1 Hk1].
  apply orb_false_elim in H2. destruct H2 as [Hc2 Hk2].
  cbn [append until_bracket]. rewrite Hc1, Hc2, (IH Hk1 Hk2). reflexivity.
Qed.

Lemma sub_version_v_free (s : string) : v_free s -> sub_version s = s.
Proof.
  unfold sub_version. induction s as [| c s IH]; [reflexivity |].
  cbn [v_free sub_version_from]. intros [Hc Hs].
  apply Ascii.eqb_neq in Hc. rewrite Hc. cbn [andb]. now rewrite (IH Hs).
Qed.

Lemma strip_authors_black (a : string) :
  starts_black a -> strip (a ++ " et.al.") = a ++ " et.al.".
Proof.
  destruct a as [| c a]; [intros [] |]. cbn [starts_black]. intros Hc.
  unfold strip. cbn [append lstrip]. rewrite Hc.
  change (String c (a ++ " et.al.")) with (String c a ++ " et.al.").
  apply rstrip_append; [discriminate | reflexivity].
Qed.

Section CompletedRows.

Variable py_repr : json -> string.
Variables update_time paper_title paper_first_author paper_key paper_url : string.
Hypothesis time_bar_free : bar_free update_time.
Hypothesis title_bar_free : bar_free paper_title.
Hypothesis author_bar_free : bar_free paper_first_author.
Hypothesis key_bar_free : bar_free paper_key.
Hypothesis url_bar_free : bar_free paper_url.
Hypothesis author_black : starts_black paper_first_author.

Lemma row_unresolved_parses :
  exists f,
    parse_arxiv_string
      (row_unresolved update_time paper_title paper_first_author paper_key
                      paper_url) = inr f
    /\ f_date f = "**" ++ update_time ++ "**"
    /\ f_title f = "**" ++ paper_title ++ "**"
    /\ f_authors f = paper_first_author ++ " et.al."
    /\ f_pdf_field f = "[" ++ paper_key ++ "](" ++ paper_url ++ ")"
    /\ f_code f = "null"
    /\ (plain_key paper_key -> f_arxiv_id f = paper_key).
Proof.
  assert (B1 : bar_free ("**" ++ update_time ++ "**"))
    by (unfold bar_free in *; rewrite !has_char_append, time_bar_free; reflexivity).
  assert (B2 : bar_free ("**" ++ paper_title ++ "**"))
    by (unfold bar_free in *; rewrite !has_char_append, title_bar_free; reflexivity).
  assert (B3 : bar_free (paper_first_author ++ " et.al."))
    by (unfold bar_free in *; rewrite !has_char_append, author_bar_free; reflexivity).
  assert (B4 : bar_free ("[" ++ paper_key ++ "](" ++ paper_url ++ ")"))
    by (unfold bar_free in *; rewrite !has_char_append, key_bar_free, url_bar_free;
        reflexivity).
  assert (B5 : bar_free "null") by reflexivity.
  unfold parse_arxiv_string. rewrite row_unresolved_cells.
  change (split "|" (String "|" ?x)) with ("" :: split "|" x).
  rewrite (split_cell _ _ B1), (split_cell _ _ B2), (split_cell _ _ B3),
          (split_cell _ _ B4), (split_cell _ _ B5).
  cbn [part nth_error bindE].
  eexists. split; [reflexivity |].
  cbn [f_date f_title f_authors f_pdf_field f_code f_arxiv_id].
  assert (S4 : strip ("[" ++ paper_key ++ "](" ++ paper_url ++ ")")
               = "[" ++ paper_key ++ "](" ++ paper_url ++ ")").
  { unfold strip. change (lstrip ("[" ++ ?x)) with ("[" ++ x).
    rewrite <- !append_assoc. apply rstrip_append; [discriminate | reflexivity]. }
  rewrite (wrapped_strip "**" update_time "**") by (reflexivity || discriminate).
  rewrite (wrapped_strip "**" paper_title "**") by (reflexivity || discriminate).
  rewrite (strip_authors_black _ author_black), S4.
  split; [reflexivity |]. split; [reflexivity |]. split; [reflexivity |].
  split; [reflexivity |]. split; [reflexivity |].
  intros (K1 & K2 & K3 & K4).
  change (search_bracket ("[" ++ paper_key ++ "](" ++ paper_url ++ ")"))
    with (match until_bracket (paper_key ++ String "]" ("(" ++ paper_url ++ ")")) with
          | Some g => Some g
          | None => search_bracket (paper_key ++ String "]" ("(" ++ paper_url ++ ")"))
          end).
  rewrite (until_bracket_key _ _ K1 K2), K3. now apply sub_version_v_free.
Qed.

(** X12.  A row that [get_daily_papers] wrote without a link, from
    fields that hold no bar and an author that does not start with
    white space, is completed by the backfill into the very row
    [get_daily_papers] would have written with the link; while no link
    is found it is stored back as it is.  The resolution is asked with
    the cells of the row, not with the fields they were written from:
    the title between its two pairs of asterisks, the author followed
    by [et.al.], and the key read back from the PDF cell. *)
Theorem backfill_completes_row (v : Topic) (id : string) (w : World) :
  let row := row_unresolved update_time paper_title paper_first_author
                            paper_key paper_url in
  exists arxiv_id,
    (plain_key paper_key -> arxiv_id = paper_key)
    /\ let w1 := snd (emit (InfoAttempt arxiv_id) w) in
       let r := resolve_backfill py_repr ("**" ++ paper_title ++ "**") arxiv_id
                                 (paper_first_author ++ " et.al.") w1 in
       backfill_record py_repr v (id, row) w
       = if is_None (fst r)
         then (dict_set v id row, snd r)
         else
           let new_cont :=
             row_resolved update_time paper_title paper_first_author paper_key
                          paper_url (py_str py_repr (fst r)) in
           (dict_set v id new_cont,
            snd (emit (InfoFound arxiv_id new_cont) (snd r))).
Proof.
  cbv zeta.
  destruct row_unresolved_parses as (f & P & F1 & F2 & F3 & F4 & F5 & FK).
  exists (f_arxiv_id f). split; [exact FK |].
  assert (N : normalized f
              = row_unresolved update_time paper_title paper_first_author
                               paper_key paper_url).
  { unfold normalized. rewrite F1, F2, F3, F4, F5. unfold row_unresolved.
    rewrite !append_assoc. reflexivity. }
  assert (C : contains "|null|" (normalized f) = true)
    by (rewrite N; apply row_unresolved_has_null).
  rewrite (backfill_record_null py_repr v id _ f w P C). cbv zeta.
  rewrite F2, F3, N.
  destruct (is_None _); [reflexivity |].
  assert (R : forall x,
             replace "|null|" (link_cell x)
                     (row_unresolved update_time paper_title paper_first_author
                                     paper_key paper_url)
             = row_resolved update_time paper_title paper_first_author paper_key
                            paper_url x).
  { intros x. rewrite row_unresolved_cells, row_resolved_cells.
    unfold replace.
    assert (B1 : bar_free ("**" ++ update_time ++ "**"))
      by (unfold bar_free in *; now rewrite !has_char_append, time_bar_free).
    assert (B2 : bar_free ("**" ++ paper_title ++ "**"))
      by (unfold bar_free in *; now rewrite !has_char_append, title_bar_free).
    assert (B3 : bar_free (paper_first_author ++ " et.al."))
      by (unfold bar_free in *; now rewrite !has_char_append, author_bar_free).
    assert (B4 : bar_free ("[" ++ paper_key ++ "](" ++ paper_url ++ ")"))
      by (unfold bar_free in *;
          now rewrite !has_char_append, key_bar_free, url_bar_free).
    assert (N3 : ("null" =? paper_first_author ++ " et.al.")%string = false).
    { apply String.eqb_neq. intros E. apply (f_equal last_char) in E.
      rewrite last_char_append in E; discriminate. }
    rewrite (replace_keeps_cell _ _ _ B1 eq_refl).
    rewrite (replace_keeps_cell _ _ _ B2 eq_refl).
    rewrite (replace_keeps_cell _ _ _ B3 N3).
    rewrite (replace_keeps_cell _ _ _ B4 eq_refl).
    change (replace_from "|null|" (link_cell x) 0
                         (String "|" ("null" ++ String "|" nl)))
      with (link_cell x ++ nl).
    unfold link_cell, nl. rewrite !append_assoc. reflexivity. }
  now rewrite R.
Qed.

End CompletedRows.

(* ----------------------------------------------------------------- *)
(** ** The unresolved marker, in both passes *)

Lemma normalized_table_row (f : Fields) : normalized f = table_row (cells f).
Proof. reflexivity. Qed.

(** A cell that reads [null] takes the link, and the scan goes on after
    the bar that closes it. *)
Lemma replace_takes_cell (link rest : string) :
  replace_from "|null|" (link_cell link) 0
               (String "|" ("null" ++ String "|" rest))
  = String "|" (link_text link
                ++ String "|" (replace_from "|null|" (link_cell link) 0 rest)).
Proof.
  cbn. unfold link_cell, link_text. cbn. rewrite !append_assoc. reflexivity.
Qed.

(** [str.replace] on a row of cells that hold no bar: the closed form
    [with_link] of the scan from left to right. *)
Lemma replace_fills_cells (link : string) (n : nat) :
  forall cs, List.length cs <= n -> Forall bar_free cs ->
  replace_from "|null|" (link_cell link) 0 (table_row cs)
  = table_row (with_link (link_text link) cs).
Proof.
  induction n as [| n IH]; intros cs Hn Hb.
  - destruct cs; [reflexivity | cbn in Hn; lia].
  - destruct cs as [| c rest]; [reflexivity |].
    inversion Hb as [| ? ? Hc Hrest]; subst.
    cbn [List.length] in Hn. unfold table_row in *. cbn [row_tail with_link].
    destruct ("null" =? c)%string eqn:E.
    + apply String.eqb_eq in E. subst c. rewrite replace_takes_cell.
      destruct rest as [| c' rest'].
      * reflexivity.
      * inversion Hrest as [| ? ? Hc' Hrest']; subst.
        cbn [row_tail]. rewrite (replace_skips_cell _ _ _ Hc').
        cbn [List.length] in Hn.
        rewrite (IH rest') by (assumption || lia). reflexivity.
    + rewrite (replace_keeps_cell _ _ _ Hc E).
      rewrite (IH rest) by (assumption || lia). reflexivity.
Qed.

Lemma replace_normalized (link c : string) (f : Fields) :
  parse_arxiv_string c = inr f ->
  replace "|null|" (link_cell link) (normalized f)
  = table_row (with_link (link_text link) (cells f)).
Proof.
  intros P. rewrite normalized_table_row.
  exact (replace_fills_cells link _ (cells f) (le_n _) (parse_cells_bar_free c f P)).
Qed.

Section Marker.

Variable py_repr : json -> string.

(** In a world that does not answer, every stage comes back without a
    value. *)
Lemma run_stage_unanswered (s : Stage) (t k : string) (w : World) :
  unanswered w ->
  value_of (fst (run_stage py_repr s t k w)) = JNull
  /\ unanswered (snd (run_stage py_repr s t k w)).
Proof.
  intros Hw.
  assert (G : forall u ps picked,
             gives_up 3 NotFound (search_stage (gh_get u ps) picked)).
  { intros u ps picked. unfold search_stage.
    apply (gives_up_bind 3 0 None); [apply gives_up_gh_get | apply gives_up_ret]. }
  assert (H : exists n, gives_up n NotFound (run_stage py_repr s t k)).
  { destruct s; cbn [run_stage]; try (exists 3; apply G); exists (3 + 0).
    - apply (gives_up_bind 3 0 JNull);
        [apply gives_up_get_repo_from_hf | apply gives_up_ret].
    - apply (gives_up_bind 3 0 JNull);
        [apply gives_up_get_code_link | apply gives_up_ret].
    - apply (gives_up_bind 3 0 JNull);
        [apply gives_up_get_code_link | apply gives_up_ret]. }
  destruct H as (n & H).
  destruct (gives_up_sent n NotFound _ w H Hw) as (E & _ & _ & U).
  rewrite E. split; [reflexivity | exact U].
Qed.

Lemma Exec_unanswered (t k : string) (w w' : World)
    (stages : list (Stage * Outcome)) :
  unanswered w -> Exec py_repr t k w stages w' ->
  Forall (fun so => value_of (snd so) = JNull) stages.
Proof.
  intros Hw E. induction E as [| w s o w1 stages w2 R E IH]; [constructor |].
  destruct (run_stage_unanswered s t k w Hw) as (V & U).
  rewrite R in V, U. cbn [fst snd] in V, U.
  constructor; [exact V | exact (IH U)].
Qed.

(** C10.  In [get_daily_papers], when every stage the resolution ran
    came back without a value, the record stored under the key of the
    paper is the row that ends in the cell [null], which contains
    [|null|].  In [update_paper_links], a record that parses is resolved
    again exactly when its normalized form, the row of its five cells,
    contains [|null|], that is, when one of the cells is the text
    [null]: without it the normalized form is stored and the world is
    left as it was; with it the resolution runs, and a result other than
    [None] is written as [**[link](url)**] in the place of the cell
    [null], the other cells and the bars staying where they were (of two
    cells [null] side by side the first takes the link, as they share a
    bar).  For a row whose code cell alone reads [null] the outcome is
    the row with the link as its code cell. *)
Theorem null_cell_marks_unresolved :
  (forall (content content_to_web : Topic) (result : ArxivResult) (w : World),
      let paper_title := title result in
      let paper_first_author := get_authors (authors result) true in
      let publish_time := match published result with Some d => d | None => "" end in
      let update_time := match updated result with Some d => d | None => publish_time end in
      let paper_key := paper_key_of (short_id result) in
      let paper_url := arxiv_url ++ "abs/" ++ paper_key in
      let row := row_unresolved update_time paper_title paper_first_author
                                paper_key paper_url in
      let w1 := snd (emit (InfoPaper update_time paper_title paper_first_author) w) in
      exists steps,
        Exec py_repr paper_title paper_key w1 steps
             (snd (resolve_daily py_repr paper_title paper_key paper_first_author w1))
        /\ (Forall (fun so => value_of (snd so) = JNull) steps ->
            assoc paper_key
                  (fst (fst (daily_step py_repr (content, content_to_web) result w)))
            = Some row
            /\ contains "|null|" row = true))
  /\ (forall (v : Topic) (id c : string) (f : Fields) (w : World),
        parse_arxiv_string c = inr f ->
        normalized f = table_row (cells f)
        /\ contains "|null|" (normalized f) = some_cell_null f
        /\ (contains "|null|" (normalized f) = false ->
            backfill_record py_repr v (id, c) w = (dict_set v id (normalized f), w))
        /\ (contains "|null|" (normalized f) = true ->
            let w1 := snd (emit (InfoAttempt (f_arxiv_id f)) w) in
            let r := resolve_backfill py_repr (f_title f) (f_arxiv_id f)
                                      (f_authors f) w1 in
            backfill_record py_repr v (id, c) w
            = if is_None (fst r)
              then (dict_set v id (normalized f), snd r)
              else
                let link := link_text (py_str py_repr (fst r)) in
                let new_cont := table_row (with_link link (cells f)) in
                (dict_set v id new_cont,
                 snd (emit (InfoFound (f_arxiv_id f) new_cont) (snd r))))
        /\ (forall link,
              existsb (String.eqb "null")
                      [f_date f; f_title f; f_authors f; f_pdf_field f] = false ->
              f_code f = "null" ->
              with_link link (cells f)
              = [f_date f; f_title f; f_authors f; f_pdf_field f; link])).
Proof.
  split.
  - intros content content_to_web result w. cbv zeta.
    set (paper_title := title result).
    set (paper_first_author := get_authors (authors result) true).
    set (update_time := match updated result with
                        | Some d => d
                        | None => match published result with
                                  | Some d => d
                                  | None => ""
                                  end
                        end).
    set (paper_key := paper_key_of (short_id result)).
    set (w1 := snd (emit (InfoPaper update_time paper_title paper_first_author) w)).
    destruct (resolve_backfill_first_success py_repr paper_title paper_key
                paper_first_author w1) as (_ & steps & E & _ & _ & _ & V).
    exists steps. rewrite resolve_daily_backfill. split; [exact E |].
    intros Habs. split; [| apply row_unresolved_has_null].
    unfold daily_step. cbv zeta. rewrite !bind_run.
    fold paper_title paper_first_author update_time paper_key w1.
    rewrite resolve_daily_backfill, V, (final_value_absent steps Habs).
    cbn [is_None negb]. unfold ret. cbn [fst].
    now rewrite assoc_dict_set, String.eqb_refl.
  - intros v id c f w P. split; [apply normalized_table_row |].
    split; [now apply (null_test_is_any_cell c) |]. split.
    + now apply backfill_record_valid.
    + split.
      * intros N. rewrite (backfill_record_null py_repr v id c f w P N). cbv zeta.
        now rewrite (replace_normalized _ c f P).
      * intros link H Hc. unfold cells. cbn [existsb] in H.
        repeat (apply orb_false_elim in H; destruct H as [? H]).
        cbn [with_link].
        repeat match goal with E : (_ =? _)%string = false |- _ => rewrite E; clear E end.
        now rewrite Hc.
Qed.

End Marker.

(* ----------------------------------------------------------------- *)
(** ** [sort_papers] on a topic that is in order *)

Lemma sort_desc_fixed (l : list string) :
  Sorted above_or_equal l -> sort_desc l = l.
Proof.
  induction 1 as [| h t Hs IH Hh]; [reflexivity |].
  cbn [sort_desc fold_right]. fold (sort_desc t). rewrite IH.
  destruct Hh as [| x t Hx]; [reflexivity |].
  cbn [insert_desc]. unfold above_or_equal in Hx. now rewrite Hx.
Qed.

(** X13.  [sort_papers] returns a topic whose identifiers are already in
    descending order as it is, and sorting a second time changes
    nothing: the listing can be sorted at every rendering without the
    order of equal inputs ever moving. *)
Theorem sort_papers_fixed (papers : Topic) :
  wf_dict papers ->
  (Sorted above_or_equal (keys papers) -> sort_papers papers = papers)
  /\ sort_papers (sort_papers papers) = sort_papers papers
  /\ wf_dict (sort_papers papers)
  /\ List.length (sort_papers papers) = List.length papers.
Proof.
  assert (Fix : forall p : Topic,
             wf_dict p -> Sorted above_or_equal (keys p) -> sort_papers p = p).
  { intros p Hwf Hs.
    destruct (sort_papers_sorted p Hwf) as (K & _ & _ & A).
    rewrite (sort_desc_fixed _ Hs) in K.
    apply dict_ext; [unfold wf_dict; now rewrite K | exact K | exact A]. }
  intros Hwf. destruct (sort_papers_sorted papers Hwf) as (K & _ & P & _).
  assert (Hwf' : wf_dict (sort_papers papers)).
  { unfold wf_dict. eapply Permutation_NoDup; [symmetry; exact P | exact Hwf]. }
  split; [now apply Fix |].
  split; [apply Fix; [exact Hwf' | rewrite K; apply sort_desc_sorted] |].
  split; [exact Hwf' |].
  apply Permutation_length in P. unfold keys in P. now rewrite !length_map in P.
Qed.

(* ----------------------------------------------------------------- *)
(** ** [pretty_math] applied twice *)

Lemma last_dollar_split (s : string) (k : nat) :
  last_dollar_in_line s = Some k ->
  exists inner post,
    s = inner ++ String "$" post
    /\ k = String.length inner
    /\ has_char newline inner = false
    /\ last_dollar_in_line post = None.
Proof.
  revert k. induction s as [| c s IH]; intros k; [discriminate |].
  cbn [last_dollar_in_line].
  destruct (Ascii.eqb c newline) eqn:Hn; [discriminate |].
  destruct (last_dollar_in_line s) as [j |] eqn:Hl.
  - intros [= <-]. destruct (IH j eq_refl) as (inner & post & -> & -> & Hi & Hp).
    exists (String c inner), post. cbn [append String.length has_char].
    now rewrite Hn, Hi.
  - destruct (Ascii.eqb c "$") eqn:Hd; [| discriminate].
    intros [= <-]. apply Ascii.eqb_eq in Hd. subst c.
    exists "", s. now repeat split.
Qed.

(** A ["$"] that follows [p] closes no span that starts in [p]: each
    ["$"] of [p] is followed by a line break before the end of [p]. *)
Lemma no_last_dollar_grows (p x : string) :
  last_dollar_in_line (p ++ "$") = None -> last_dollar_in_line (p ++ x) = None.
Proof.
  induction p as [| c p IH]; [discriminate |].
  cbn [append last_dollar_in_line].
  destruct (Ascii.eqb c newline); [reflexivity |].
  destruct (last_dollar_in_line (p ++ "$")) eqn:E; [discriminate |].
  intros H. rewrite (IH eq_refl). exact H.
Qed.

Lemma no_last_dollar_cut (p rest : string) :
  last_dollar_in_line (p ++ String "$" rest) = None ->
  last_dollar_in_line (p ++ "$") = None.
Proof.
  induction p as [| c p IH].
  - cbn [append last_dollar_in_line]. cbn.
    destruct (last_dollar_in_line rest); discriminate.
  - cbn [append last_dollar_in_line].
    destruct (Ascii.eqb c newline); [reflexivity |].
    destruct (last_dollar_in_line (p ++ String "$" rest)) eqn:E; [discriminate |].
    intros H. rewrite (IH eq_refl). exact H.
Qed.

Lemma shift_span_none (k : nat) (m : option (nat * nat)) :
  shift_span k m = None -> m = None.
Proof. destruct m as [[a b] |]; [discriminate | reflexivity]. Qed.

Lemma search_math_split (s : string) :
  forall a b, search_math s = Some (a, b) ->
  exists pre inner post,
    s = pre ++ String "$" (inner ++ String "$" post)
    /\ a = String.length pre
    /\ b = String.length pre + String.length inner + 2
    /\ search_math (pre ++ "$") = None
    /\ has_char newline inner = false
    /\ last_dollar_in_line post = None.
Proof.
  induction s as [| c s IH]; intros a b; [discriminate |].
  cbn [search_math].
  assert (Rec : shift_span 1 (search_math s) = Some (a, b) ->
                (Ascii.eqb c "$" = true -> last_dollar_in_line s = None) ->
                exists pre inner post,
                  String c s = pre ++ String "$" (inner ++ String "$" post)
                  /\ a = String.length pre
                  /\ b = String.length pre + String.length inner + 2
                  /\ search_math (pre ++ "$") = None
                  /\ has_char newline inner = false
                  /\ last_dollar_in_line post = None).
  { intros H Hc. destruct (search_math s) as [[a' b'] |] eqn:E; [| discriminate].
    cbn [shift_span] in H. injection H as <- <-.
    destruct (IH a' b' eq_refl) as (pre & inner & post & -> & -> & -> & Hp & Hi & Ho).
    exists (String c pre), inner, post. cbn [append String.length].
    split; [reflexivity |]. split; [lia |]. split; [lia |].
    split; [| now split].
    cbn [search_math]. rewrite Hp. cbn [shift_span].
    destruct (Ascii.eqb c "$") eqn:Hd; [| reflexivity].
    now rewrite (no_last_dollar_cut pre _ (Hc eq_refl)). }
  destruct (Ascii.eqb c "$") eqn:Hd; [| intros H; apply Rec; [exact H | discriminate]].
  destruct (last_dollar_in_line s) as [k |] eqn:Hl;
    [| intros H; apply Rec; [exact H | reflexivity]].
  intros [= <- <-]. apply Ascii.eqb_eq in Hd. subst c.
  destruct (last_dollar_split s k Hl) as (inner & post & -> & -> & Hi & Hp).
  exists "", inner, post. cbn [append String.length].
  split; [reflexivity |]. split; [reflexivity |]. split; [lia |].
  split; [reflexivity | now split].
Qed.

Lemma search_math_found (pre rest : string) (k : nat) :
  search_math (pre ++ "$") = None ->
  last_dollar_in_line rest = Some k ->
  search_math (pre ++ String "$" rest)
  = Some (String.length pre, String.length pre + k + 2).
Proof.
  intros Hp Hk. induction pre as [| c pre IH]; cbn [append search_math].
  - now rewrite Hk.
  - cbn [append search_math] in Hp.
    assert (Hrec : search_math (pre ++ "$") = None
                   /\ (Ascii.eqb c "$" = true ->
                       last_dollar_in_line (pre ++ "$") = None)).
    { destruct (Ascii.eqb c "$").
      - destruct (last_dollar_in_line (pre ++ "$")); [discriminate |].
        split; [now apply shift_span_none in Hp | reflexivity].
      - split; [now apply shift_span_none in Hp | discriminate]. }
    destruct Hrec as (Hp' & Hc). rewrite (IH Hp').
    cbn [shift_span String.length].
    replace (Some (String.length pre + 1, String.length pre + k + 2 + 1))
      with (Some (S (String.length pre), S (String.length pre) + k + 2))
      by (f_equal; f_equal; lia).
    destruct (Ascii.eqb c "$"); [| reflexivity].
    now rewrite (no_last_dollar_grows pre _ (Hc eq_refl)).
Qed.

Lemma unmatched_after_gap (pre g : string) :
  g = "" \/ g = " " ->
  search_math (pre ++ "$") = None -> search_math ((pre ++ g) ++ "$") = None.
Proof.
  intros [-> | ->]; [now rewrite append_nil_r |].
  induction pre as [| c pre IH]; [reflexivity |].
  cbn [append search_math]. intros Hp.
  destruct (Ascii.eqb c "$").
  - destruct (last_dollar_in_line (pre ++ "$")) eqn:E; [discriminate |].
    apply shift_span_none in Hp. rewrite append_assoc.
    rewrite (no_last_dollar_grows pre _ E), <- append_assoc, (IH Hp). reflexivity.
  - apply shift_span_none in Hp. now rewrite (IH Hp).
Qed.

Lemma lstrip_without (c : ascii) (s : string) :
  has_char c s = false -> has_char c (lstrip s) = false.
Proof.
  induction s as [| x s IH]; [reflexivity |].
  cbn [lstrip]. destruct (is_space x); [| auto].
  cbn [has_char]. intros H. apply orb_false_elim in H. now apply IH.
Qed.

Lemma rstrip_without (c : ascii) (s : string) :
  has_char c s = false -> has_char c (rstrip s) = false.
Proof.
  induction s as [| x s IH]; [reflexivity |].
  cbn [has_char rstrip]. intros H. apply orb_false_elim in H.
  destruct H as [Hx Hs]. specialize (IH Hs).
  destruct (rstrip s) as [| y r].
  - destruct (is_space x); [reflexivity |]. cbn [has_char]. now rewrite Hx.
  - cbn [has_char] in *. now rewrite Hx, IH.
Qed.

Lemma gap_cases (n : option ascii) : gap n = "" \/ gap n = " ".
Proof. unfold gap. destruct (wants_space n); auto. Qed.

Lemma gap_after_gap (pre : string) :
  gap (last_char (pre ++ gap (last_char pre))) = "".
Proof.
  unfold gap at 2. destruct (wants_space (last_char pre)) eqn:E.
  - rewrite last_char_append by discriminate. reflexivity.
  - rewrite append_nil_r. unfold gap. now rewrite E.
Qed.

Lemma gap_before_gap (post : string) :
  gap (first_char (gap (first_char post) ++ post)) = "".
Proof.
  unfold gap at 2. destruct (wants_space (first_char post)) eqn:E.
  - reflexivity.
  - cbn [append]. unfold gap. now rewrite E.
Qed.

Lemma no_last_dollar_after_gap (g post : string) :
  g = "" \/ g = " " ->
  last_dollar_in_line post = None -> last_dollar_in_line (g ++ post) = None.
Proof.
  intros [-> | ->] H; [exact H |].
  cbn [append last_dollar_in_line]. cbn. now rewrite H.
Qed.

Lemma pretty_math_shape (pre inner post : string) :
  search_math (pre ++ "$") = None ->
  has_char newline inner = false ->
  last_dollar_in_line post = None ->
  pretty_math (pre ++ String "$" (inner ++ String "$" post))
  = pre ++ gap (last_char pre) ++ "$" ++ strip inner ++ "$"
    ++ gap (first_char post) ++ post.
Proof.
  intros Hp Hi Ho. rewrite pretty_math_reformat.
  rewrite (search_math_found pre _ (String.length inner) Hp
             (last_dollar_after inner post Hi Ho)).
  apply reformat_span.
Qed.

(** X14.  [pretty_math] is idempotent: a line it has reformatted is
    left as it is by a second application, whatever the line holds. *)
Theorem pretty_math_idempotent (s : string) :
  pretty_math (pretty_math s) = pretty_math s.
Proof.
  destruct (search_math s) as [[a b] |] eqn:E.
  - destruct (search_math_split s a b E)
      as (pre & inner & post & -> & _ & _ & Hp & Hi & Ho).
    rewrite (pretty_math_shape pre inner post Hp Hi Ho).
    set (g1 := gap (last_char pre)). set (g2 := gap (first_char post)).
    assert (Shape : pre ++ g1 ++ "$" ++ strip inner ++ "$" ++ g2 ++ post
                    = (pre ++ g1) ++ String "$" (strip inner ++ String "$" (g2 ++ post)))
      by (now rewrite append_assoc).
    rewrite Shape at 1.
    rewrite (pretty_math_shape (pre ++ g1) (strip inner) (g2 ++ post)).
    + unfold g1 at 2, g2 at 1. rewrite gap_after_gap, gap_before_gap.
      rewrite strip_idempotent. cbn [append].
      now rewrite append_assoc.
    + apply unmatched_after_gap; [apply gap_cases | exact Hp].
    + unfold strip. now apply rstrip_without, lstrip_without.
    + apply no_last_dollar_after_gap; [apply gap_cases | exact Ho].
  - assert (H : pretty_math s = s) by (now rewrite pretty_math_reformat, E).
    now rewrite !H.
Qed.

(* ----------------------------------------------------------------- *)
(** ** One publishing block of [demo] *)

Section Publish.

Variable py_repr : json -> string.
Variable json_loads : string -> exn + Store.
Variable json_dumps : Store -> string.

Lemma load_written (filename : string) (stored : Store) (w : World) :
  reads_back json_loads json_dumps stored ->
  files w filename = Some (json_dumps stored) ->
  fst (load json_loads filename w) = inr stored.
Proof.
  intros [Hrt Hne] H. unfold load, read_file. rewrite bind_run. cbn [fst snd].
  rewrite H. destruct (json_dumps stored =? "")%string eqn:E.
  - apply String.eqb_eq in E. contradiction.
  - unfold ret. cbn [fst]. exact Hrt.
Qed.

Lemma load_fails (filename : string) (e : exn) (w : World) :
  fst (load json_loads filename w) = inl e ->
  forall update md_file data o,
    publish py_repr json_loads json_dumps update filename md_file data o w
    = (inl e, w).
Proof.
  intros H update md_file data o. unfold publish. rewrite bind_run.
  destruct update.
  - unfold update_paper_links. rewrite bind_run, H, load_world. reflexivity.
  - unfold update_json_file. rewrite bind_run, H, load_world. reflexivity.
Qed.

Lemma publish_runs (update : bool) (json_file md_file : string)
    (data : list Store) (o : Options) (m : Store) (w : World) :
  let stored := if update then fst (backfill py_repr m w) else merge_all m data in
  fst (load json_loads json_file w) = inr m ->
  json_file <> md_file ->
  reads_back json_loads json_dumps stored ->
  let run := publish py_repr json_loads json_dumps update json_file md_file data o w in
  fst run = inr tt
  /\ files (snd run) json_file = Some (json_dumps stored)
  /\ files (snd run) md_file
     = Some (render o (replace "-" "." (today w)) stored)
  /\ (forall p, p <> json_file -> p <> md_file -> files (snd run) p = files w p)
  /\ sent w <= sent (snd run) <= sent w + (if update then 18 * pending m else 0)
  /\ today (snd run) = today w
  /\ oracle (snd run) = oracle w.
Proof.
  intros stored Hload Hne Hrb. cbv zeta.
  (* the world after the store file is written *)
  assert (Hw1 : exists w1,
             (if update
              then update_paper_links py_repr json_loads json_dumps json_file
              else update_json_file json_loads json_dumps json_file data) w
             = (inr tt, w1)
             /\ files w1 json_file = Some (json_dumps stored)
             /\ (forall p, p <> json_file -> files w1 p = files w p)
             /\ sent w <= sent w1 <= sent w + (if update then 18 * pending m else 0)
             /\ today w1 = today w /\ oracle w1 = oracle w).
  { clear Hrb. subst stored. destruct update.
    - unfold update_paper_links. rewrite bind_run, Hload, load_world, !bind_run.
      unfold ret. cbn [fst snd]. eexists. split; [reflexivity |].
      destruct (sends_backfill py_repr m w) as (evs & St & C).
      destruct St as (Ho & _ & Hf & Hd & _ & Hs).
      cbn [write_file snd files sent today oracle].
      split; [now rewrite String.eqb_refl |].
      split; [intros p Hp; apply String.eqb_neq in Hp; now rewrite Hp, Hf |].
      split; [lia |]. split; assumption.
    - rewrite (update_json_file_writes json_loads json_dumps json_file data m w Hload).
      eexists. split; [reflexivity |].
      cbn [with_file files sent today oracle].
      split; [now rewrite String.eqb_refl |].
      split; [intros p Hp; apply String.eqb_neq in Hp; now rewrite Hp |].
      split; [lia |]. split; reflexivity. }
  destruct Hw1 as (w1 & E1 & F1 & O1 & S1 & D1 & R1).
  unfold publish. rewrite bind_run, E1. cbn [fst snd].
  destruct (json_to_md_writes json_loads json_file md_file o stored w1
              (load_written json_file stored w1 Hrb F1)) as (R & F & O & D).
  assert (Hs : sent (snd (json_to_md json_loads json_file md_file o w1)) = sent w1
               /\ oracle (snd (json_to_md json_loads json_file md_file o w1))
                  = oracle w1).
  { unfold json_to_md. rewrite bind_run, (load_written json_file stored w1 Hrb F1),
      load_world, !bind_run. split; reflexivity. }
  destruct Hs as (Hs & Ho).
  split; [exact R |].
  split; [rewrite O by exact Hne; exact F1 |].
  split; [rewrite F, D1; reflexivity |].
  split; [intros p H1 H2; rewrite O by exact H2; now apply O1 |].
  split; [lia |]. split; congruence.
Qed.

(** X15.  One publishing block of [demo] leaves the store file and the
    listing file in step: when the store file can be read, the block
    returns normally, the store file holds the merged store (or, when
    links are updated, the backfilled one), and the listing file holds
    the rendering of that very store with the date of the day; no other
    file is touched, and requests are sent only for records that wait
    for a link.  When the store file cannot be read the block raises
    and nothing is written. *)
Theorem publish_in_step (update : bool) (json_file md_file : string)
    (data : list Store) (o : Options) (m : Store) (w : World) :
  let stored := if update then fst (backfill py_repr m w) else merge_all m data in
  fst (load json_loads json_file w) = inr m ->
  json_file <> md_file ->
  reads_back json_loads json_dumps stored ->
  let run := publish py_repr json_loads json_dumps update json_file md_file data o w in
  fst run = inr tt
  /\ files (snd run) json_file = Some (json_dumps stored)
  /\ files (snd run) md_file
     = Some (render o (replace "-" "." (today w)) stored)
  /\ (forall p, p <> json_file -> p <> md_file -> files (snd run) p = files w p)
  /\ sent w <= sent (snd run) <= sent w + (if update then 18 * pending m else 0)
  /\ (forall e w0, fst (load json_loads json_file w0) = inl e ->
        publish py_repr json_loads json_dumps update json_file md_file data o w0
        = (inl e, w0)).
Proof.
  intros stored Hload Hne Hrb. cbv zeta.
  destruct (publish_runs update json_file md_file data o m w Hload Hne Hrb)
    as (R & F1 & F2 & O & Hs & _).
  split; [exact R |]. split; [exact F1 |]. split; [exact F2 |].
  split; [exact O |]. split; [exact Hs |].
  intros e w0 H. now apply load_fails.
Qed.

End Publish.

(* ----------------------------------------------------------------- *)
(** ** The search and the papers of one topic *)

Lemma bindS_run {A B : Type} (c : Script A) (k : A -> Script B) (s : Session) :
  bindS c k s = k (fst (c s)) (snd (c s)).
Proof. unfold bindS. now destruct (c s). Qed.

Lemma lift_run {A : Type} (c : M A) (s : Session) :
  lift c s = (fst (c (world s)),
              mkSession (snd (c (world s))) (console s) (arxiv s) (searches s)).
Proof. unfold lift. now destruct (c (world s)). Qed.

Lemma advanced_refl (s : Session) : advanced s s 0 0 0.
Proof. unfold advanced. repeat split; lia. Qed.

Lemma advanced_trans (s1 s2 s3 : Session) (r1 r2 lo1 lo2 hi1 hi2 : nat) :
  advanced s1 s2 r1 lo1 hi1 -> advanced s2 s3 r2 lo2 hi2 ->
  advanced s1 s3 (r1 + r2) (lo1 + lo2) (hi1 + hi2).
Proof.
  unfold advanced.
  intros (A1 & A2 & A3 & A4 & A5 & A6) (B1 & B2 & B3 & B4 & B5 & B6).
  repeat split; try congruence; lia.
Qed.

Lemma advanced_more (s s' : Session) (r r' lo lo' hi hi' : nat) :
  r <= r' -> lo' <= lo -> hi <= hi' ->
  advanced s s' r lo hi -> advanced s s' r' lo' hi'.
Proof.
  unfold advanced. intros H1 H2 H3 (A1 & A2 & A3 & A4 & A5 & A6).
  repeat split; try assumption; lia.
Qed.

Lemma advanced_say (l : Line) (s : Session) : advanced s (snd (say l s)) 0 0 0.
Proof. unfold advanced, say. cbn. repeat split; lia. Qed.

Lemma advanced_search (query : string) (n : Z) (s : Session) :
  advanced s (snd (client_results query n s)) 0 1 1.
Proof. unfold advanced, client_results. cbn. repeat split; lia. Qed.

Lemma honours_advanced (s s' : Session) (r lo hi : nat) :
  honours_limit s -> advanced s s' r lo hi -> honours_limit s'.
Proof.
  intros H (Ha & _) k query n. rewrite Ha. apply H.
Qed.

(** The generator never yields more than [n + 25] entries, and it runs
    one search, or two when the first ends on an empty page. *)
Lemma iter_arxiv_results_yields (query : string) (n : Z) (s : Session) :
  let first := arxiv s (searches s) query n in
  let fallback := arxiv s (S (searches s)) query (Z.min n 25) in
  let run := _iter_arxiv_results query n s in
  advanced s (snd run) 0 1 2
  /\ world (snd run) = world s
  /\ (fst run = fst first
      \/ (exists e, snd first = UnexpectedEmptyPageError e)
         /\ searches (snd run) = searches s + 2
         /\ fst run = (fst first ++ fst fallback)%list)
  /\ ((forall e, snd first <> UnexpectedEmptyPageError e) ->
      fst run = fst first /\ searches (snd run) = searches s + 1)
  /\ (honours_limit s -> List.length (fst run) <= Z.to_nat n + 25).
Proof.
  cbv zeta. unfold _iter_arxiv_results. rewrite bindS_run.
  change (fst (client_results query n s)) with (arxiv s (searches s) query n).
  set (first := arxiv s (searches s) query n).
  set (s1 := snd (client_results query n s)).
  assert (A1 : advanced s s1 0 1 1) by apply advanced_search.
  assert (L1 : honours_limit s -> List.length (fst first) <= Z.to_nat n)
    by (intros H; apply H).
  destruct (snd first) as [| e | e] eqn:E.
  - unfold retS. cbn [fst snd].
    split; [eapply advanced_more; [| | | exact A1]; lia |].
    split; [reflexivity |]. split; [now left |].
    split; [intros _; split; [reflexivity | cbn; lia] |].
    intros H. specialize (L1 H). lia.
  - rewrite !bindS_run.
    set (s2 := snd (say WarnEmptyPage s1)).
    change (fst (client_results query (Z.min n 25) s2))
      with (arxiv s (S (searches s)) query (Z.min n 25)).
    set (fallback := arxiv s (S (searches s)) query (Z.min n 25)).
    set (s3 := snd (client_results query (Z.min n 25) s2)).
    assert (A3 : advanced s s3 0 2 2).
    { pose proof (advanced_trans _ _ _ _ _ _ _ _ _ A1
                    (advanced_trans _ _ _ _ _ _ _ _ _ (advanced_say WarnEmptyPage s1)
                       (advanced_search query (Z.min n 25) s2))) as H.
      exact H. }
    assert (L2 : honours_limit s ->
                 List.length (fst first ++ fst fallback)%list <= Z.to_nat n + 25).
    { intros H. rewrite length_app. specialize (L1 H).
      pose proof (H (S (searches s)) query (Z.min n 25)) as L3. fold fallback in L3.
      lia. }
    assert (Hs3 : searches s3 = searches s + 2) by (cbn; lia).
    assert (Hw3 : world s3 = world s) by reflexivity.
    destruct (snd fallback) as [| e' | e'].
    + unfold retS. cbn [fst snd].
      split; [eapply advanced_more; [| | | exact A3]; lia |].
      split; [exact Hw3 |].
      split; [right; split; [eauto | split; [exact Hs3 | reflexivity]] |].
      split; [intros H; now elim (H e) | exact L2].
    + rewrite bindS_run. unfold retS. cbn [fst snd].
      split; [eapply advanced_more; [| | | exact A3]; lia |].
      split; [exact Hw3 |].
      split; [right; split; [eauto | split; [exact Hs3 | reflexivity]] |].
      split; [intros H; now elim (H e) | exact L2].
    + rewrite bindS_run. unfold retS. cbn [fst snd].
      split; [eapply advanced_more; [| | | exact A3]; lia |].
      split; [exact Hw3 |].
      split; [right; split; [eauto | split; [exact Hs3 | reflexivity]] |].
      split; [intros H; now elim (H e) | exact L2].
  - rewrite bindS_run. unfold retS. cbn [fst snd].
    split; [eapply advanced_more; [| | | exact A1]; lia |].
    split; [reflexivity |]. split; [now left |].
    split; [intros _; split; [reflexivity | cbn; lia] |].
    intros H. specialize (L1 H). lia.
Qed.

(** What the generator yields and how many searches it runs. *)
Lemma iter_arxiv_results_exact (query : string) (n : Z) (s : Session) :
  let run := _iter_arxiv_results query n s in
  fst run = search_entries (arxiv s) (searches s) query n
  /\ searches (snd run)
     = (if empty_page (arxiv s) (searches s) query n
        then searches s + 2 else searches s + 1)
  /\ world (snd run) = world s
  /\ arxiv (snd run) = arxiv s.
Proof.
  cbv zeta. unfold _iter_arxiv_results, search_entries, empty_page.
  rewrite bindS_run.
  change (fst (client_results query n s)) with (arxiv s (searches s) query n).
  destruct (snd (arxiv s (searches s) query n)) as [| e | e].
  - unfold retS. cbn. repeat split; lia.
  - rewrite !bindS_run.
    change (fst (client_results query (Z.min n 25)
                   (snd (say WarnEmptyPage (snd (client_results query n s))))))
      with (arxiv s (S (searches s)) query (Z.min n 25)).
    destruct (snd (arxiv s (S (searches s)) query (Z.min n 25))) as [| e' | e'];
      rewrite ?bindS_run; unfold retS; cbn; repeat split; lia.
  - rewrite bindS_run. unfold retS. cbn. repeat split; lia.
Qed.

Lemma search_entries_length (s : Session) (k : nat) (query : string) (n : Z) :
  honours_limit s ->
  List.length (search_entries (arxiv s) k query n)
  <= Z.to_nat n + (if empty_page (arxiv s) k query n
                   then Z.to_nat (Z.min n 25) else 0).
Proof.
  intros H. unfold search_entries. pose proof (H k query n) as L1.
  destruct (empty_page (arxiv s) k query n); [| lia].
  rewrite length_app. pose proof (H (S k) query (Z.min n 25)) as L2. lia.
Qed.

Section DemoFacts.

Variable py_repr : json -> string.

Lemma daily_papers_spec (topic query : string) (n : Z) (s : Session) :
  let run := daily_papers py_repr topic query n s in
  exists yielded,
    advanced s (snd run) (18 * yielded) 1 2
    /\ batch_of py_repr (topic, query) (fst run)
    /\ console (snd run) = console (snd (_iter_arxiv_results query n s))
    /\ (honours_limit s -> yielded <= Z.to_nat n + 25)
    /\ ((forall e, snd (arxiv s (searches s) query n) <> UnexpectedEmptyPageError e) ->
        honours_limit s -> yielded <= Z.to_nat n).
Proof.
  cbv zeta. unfold daily_papers. rewrite bindS_run, lift_run. cbn [fst snd].
  destruct (iter_arxiv_results_yields query n s) as (A & W & _ & N & L).
  set (results := fst (_iter_arxiv_results query n s)) in *.
  set (s1 := snd (_iter_arxiv_results query n s)) in *.
  exists (List.length results).
  destruct (sends_get_daily_papers py_repr topic results (world s1))
    as (evs & St & C).
  destruct St as (Ho & _ & Hf & Hd & _ & Hs).
  destruct A as (A1 & A2 & A3 & A4 & A5 & A6).
  split.
  { unfold advanced. cbn [world arxiv searches].
    repeat split; try congruence; lia. }
  split; [exists results, (world s1); reflexivity |].
  split; [reflexivity |]. split; [exact L |].
  intros Hne Hh. destruct (N Hne) as (E & _).
  rewrite E. apply Hh.
Qed.

Lemma daily_papers_exact (topic query : string) (n : Z) (s : Session) :
  let results := search_entries (arxiv s) (searches s) query n in
  let batch := get_daily_papers py_repr topic results (world s) in
  let run := daily_papers py_repr topic query n s in
  fst run = fst batch
  /\ world (snd run) = snd batch
  /\ searches (snd run)
     = (if empty_page (arxiv s) (searches s) query n
        then searches s + 2 else searches s + 1)
  /\ arxiv (snd run) = arxiv s
  /\ console (snd run) = console (snd (_iter_arxiv_results query n s))
  /\ advanced s (snd run) (18 * List.length results) 1 2.
Proof.
  cbv zeta. unfold daily_papers. rewrite bindS_run, lift_run. cbn [fst snd].
  destruct (iter_arxiv_results_exact query n s) as (Y & K & W & A).
  rewrite Y, W. cbn [world searches arxiv console].
  split; [reflexivity |]. split; [reflexivity |]. split; [exact K |].
  split; [exact A |]. split; [reflexivity |].
  destruct (sends_get_daily_papers py_repr topic
              (search_entries (arxiv s) (searches s) query n) (world s))
    as (evs & (Ho & _ & Hf & Hd & _ & Hs) & C).
  unfold advanced. cbn [world searches arxiv].
  split; [exact A |]. split; [rewrite K; destruct (empty_page _ _ _ _); lia |].
  split; [exact Hf |]. split; [exact Hd |]. split; [exact Ho |]. lia.
Qed.

(** X18.  [get_daily_papers], called with a limit of [n] entries,
    resolves the entries of one search, and when that search ends on an
    empty page those of a second search as well, limited to [min n 25]
    entries: the entries the first search gave before the empty page are
    kept and those of the second follow them.  One search is run, two
    after an empty page; at most 18 requests are sent for each entry, and
    no file is read or written.  When the search honours its limit that
    makes [n + min n 25] entries at most, and [n] when no empty page
    occurs. *)
Theorem daily_papers_budget (topic query : string) (n : Z) (s : Session) :
  let second := empty_page (arxiv s) (searches s) query n in
  let results :=
    if second
    then (fst (arxiv s (searches s) query n)
          ++ fst (arxiv s (S (searches s)) query (Z.min n 25)))%list
    else fst (arxiv s (searches s) query n) in
  let run := daily_papers py_repr topic query n s in
  fst (_iter_arxiv_results query n s) = results
  /\ run = (fst (get_daily_papers py_repr topic results (world s)),
            mkSession (snd (get_daily_papers py_repr topic results (world s)))
                      (console (snd (_iter_arxiv_results query n s)))
                      (arxiv s)
                      (if second then searches s + 2 else searches s + 1))
  /\ advanced s (snd run) (18 * List.length results) 1 2
  /\ (honours_limit s ->
      List.length results
      <= Z.to_nat n + (if second then Z.to_nat (Z.min n 25) else 0)
      /\ advanced s (snd run) (18 * (Z.to_nat n + 25)) 1 2
      /\ (second = false -> advanced s (snd run) (18 * Z.to_nat n) 1 1)).
Proof.
  cbv zeta.
  destruct (iter_arxiv_results_exact query n s) as (Y & _).
  destruct (daily_papers_exact topic query n s) as (B & W & K & A & C & Adv).
  fold (search_entries (arxiv s) (searches s) query n).
  split; [exact Y |]. split.
  { destruct (daily_papers py_repr topic query n s) as [d [w' c' a' k']].
    cbn [fst snd world console arxiv searches] in *. now subst. }
  split; [exact Adv |].
  intros Hh. pose proof (search_entries_length s (searches s) query n Hh) as L.
  split; [exact L |]. split.
  - eapply advanced_more; [| | | exact Adv]; try lia.
    destruct (empty_page _ _ _ _); lia.
  - intros E. rewrite E in L, K.
    destruct Adv as (A1 & A2 & A3 & A4 & A5 & A6).
    unfold advanced. repeat split; try assumption; try lia.
Qed.

Lemma collect_spec (keywords : list (string * string)) (n : Z) :
  forall (dc dcw : list Store) (s : Session),
  let run := collect py_repr keywords n dc dcw s in
  exists (batches : list (Store * Store)) (yielded : nat),
    Forall2 (batch_of py_repr) keywords batches
    /\ fst run = ((dc ++ map fst batches)%list, (dcw ++ map snd batches)%list)
    /\ advanced s (snd run) (18 * yielded) (List.length keywords)
                (2 * List.length keywords)
    /\ (honours_limit s -> yielded <= (Z.to_nat n + 25) * List.length keywords).
Proof.
  induction keywords as [| [topic keyword] keywords IH]; intros dc dcw s; cbv zeta.
  - exists [], 0. cbn [collect map List.length]. unfold retS. cbn [fst snd].
    rewrite !app_nil_r. split; [constructor |]. split; [reflexivity |].
    split; [apply advanced_refl | lia].
  - cbn [collect]. rewrite !bindS_run.
    set (s1 := snd (say (InfoKeyword topic) s)).
    destruct (daily_papers_spec topic keyword n s1) as (y1 & A1 & B1 & _ & L1 & _).
    set (d := fst (daily_papers py_repr topic keyword n s1)) in *.
    set (s2 := snd (daily_papers py_repr topic keyword n s1)) in *.
    set (s3 := snd (say PrintNewline s2)).
    destruct (IH (dc ++ [fst d])%list (dcw ++ [snd d])%list s3)
      as (batches & y2 & F & E & A2 & L2).
    exists (d :: batches), (y1 + y2).
    split; [constructor; assumption |].
    split; [rewrite E; cbn [map]; now rewrite <- !app_assoc |].
    pose proof (advanced_trans _ _ _ _ _ _ _ _ _ (advanced_say (InfoKeyword topic) s)
                  (advanced_trans _ _ _ _ _ _ _ _ _ A1
                     (advanced_trans _ _ _ _ _ _ _ _ _ (advanced_say PrintNewline s2)
                        A2))) as A.
    split.
    + eapply advanced_more; [| | | exact A]; cbn [List.length]; lia.
    + intros Hh.
      assert (H1 : honours_limit s1)
        by (eapply honours_advanced; [exact Hh | apply advanced_say]).
      assert (H3 : honours_limit s3).
      { eapply honours_advanced; [exact H1 |].
        exact (advanced_trans _ _ _ _ _ _ _ _ _ A1 (advanced_say PrintNewline s2)). }
      specialize (L1 H1). specialize (L2 H3). cbn [List.length]. lia.
Qed.

End DemoFacts.

(* ----------------------------------------------------------------- *)
(** ** [demo] *)

Lemma NoDup_six {A : Type} (a b c d e f : A) :
  NoDup [a; b; c; d; e; f] ->
  a <> b /\ a <> c /\ a <> d /\ a <> e /\ a <> f
  /\ b <> c /\ b <> d /\ b <> e /\ b <> f
  /\ c <> d /\ c <> e /\ c <> f
  /\ d <> e /\ d <> f
  /\ e <> f.
Proof.
  intros H.
  repeat match goal with
         | H : NoDup (_ :: _) |- _ =>
             let Hn := fresh "Hn" in
             inversion H as [| ? ? Hn ?]; subst; clear H; cbn [In] in Hn
         end.
  repeat split; intros ->; tauto.
Qed.

Section DemoRuns.

Variable py_repr : json -> string.
Variable json_loads : string -> exn + Store.
Variable json_dumps : Store -> string.

(** One publishing block of a daily run, enabled or not. *)
Lemma daily_block (enabled : bool) (json_file md_file : string)
    (data : list Store) (o : Options) (m : Store) (s : Session) :
  (enabled = true -> fst (load json_loads json_file (world s)) = inr m) ->
  json_file <> md_file ->
  (enabled = true -> reads_back json_loads json_dumps (merge_all m data)) ->
  let run := (if enabled
              then lift (publish py_repr json_loads json_dumps false json_file
                                 md_file data o)
              else retS (inr tt)) s in
  fst run = inr tt
  /\ today (world (snd run)) = today (world s)
  /\ sent (world (snd run)) = sent (world s)
  /\ console (snd run) = console s /\ searches (snd run) = searches s
  /\ (enabled = true ->
      files (world (snd run)) json_file = Some (json_dumps (merge_all m data))
      /\ files (world (snd run)) md_file
         = Some (render o (replace "-" "." (today (world s))) (merge_all m data)))
  /\ (forall p, p <> json_file -> p <> md_file ->
        files (world (snd run)) p = files (world s) p).
Proof.
  intros Hload Hne Hrb. cbv zeta. destruct enabled.
  - rewrite lift_run. cbn [fst snd world console arxiv searches].
    destruct (publish_runs py_repr json_loads json_dumps false json_file md_file
                data o m (world s) (Hload eq_refl) Hne (Hrb eq_refl))
      as (R & F1 & F2 & O & Hs & D & _).
    split; [exact R |]. split; [exact D |]. split; [lia |].
    split; [reflexivity |]. split; [reflexivity |].
    split; [intros _; split; assumption | exact O].
  - unfold retS. cbn [fst snd]. repeat split; try reflexivity; discriminate.
Qed.

Lemma daily_targets (c : Config) (s : Session) (dc dcw : list Store)
    (m1 m2 m3 : Store) :
  NoDup (paths c) ->
  (publish_readme c = true ->
   fst (load json_loads (json_readme_path c) (world s)) = inr m1
   /\ reads_back json_loads json_dumps (merge_all m1 dc)) ->
  (publish_gitpage c = true ->
   fst (load json_loads (json_gitpage_path c) (world s)) = inr m2
   /\ reads_back json_loads json_dumps (merge_all m2 dc)) ->
  (publish_wechat c = true ->
   fst (load json_loads (json_wechat_path c) (world s)) = inr m3
   /\ reads_back json_loads json_dumps (merge_all m3 dcw)) ->
  let DateNow := replace "-" "." (today (world s)) in
  let run := publish_targets py_repr json_loads json_dumps c false dc dcw s in
  let w' := world (snd run) in
  fst run = inr tt
  /\ sent w' = sent (world s)
  /\ console (snd run) = console s /\ searches (snd run) = searches s
  /\ (publish_readme c = true ->
      files w' (json_readme_path c) = Some (json_dumps (merge_all m1 dc))
      /\ files w' (md_readme_path c)
         = Some (render (readme_options c) DateNow (merge_all m1 dc)))
  /\ (publish_gitpage c = true ->
      files w' (json_gitpage_path c) = Some (json_dumps (merge_all m2 dc))
      /\ files w' (md_gitpage_path c)
         = Some (render (gitpage_options c) DateNow (merge_all m2 dc)))
  /\ (publish_wechat c = true ->
      files w' (json_wechat_path c) = Some (json_dumps (merge_all m3 dcw))
      /\ files w' (md_wechat_path c)
         = Some (render (wechat_options c) DateNow (merge_all m3 dcw)))
  /\ (forall p, ~ In p (paths c) -> files w' p = files (world s) p)
  /\ (publish_readme c = false ->
      files w' (json_readme_path c) = files (world s) (json_readme_path c)
      /\ files w' (md_readme_path c) = files (world s) (md_readme_path c)).
Proof.
  intros Hnd L1 L2 L3. cbv zeta.
  apply NoDup_six in Hnd.
  destruct Hnd as (N12 & N13 & N14 & N15 & N16 & N23 & N24 & N25 & N26
                   & N34 & N35 & N36 & N45 & N46 & N56).
  assert (Hl : forall p m w,
             files w p = files (world s) p ->
             fst (load json_loads p (world s)) = inr m ->
             fst (load json_loads p w) = inr m).
  { intros p m w Hp Hm. now rewrite (load_reads_file json_loads p (world s) w Hp). }
  unfold publish_targets. rewrite bindS_run.
  (* the README *)
  destruct (daily_block (publish_readme c) (json_readme_path c) (md_readme_path c)
              dc (readme_options c) m1 s)
    as (Q1 & D1 & S1 & C1 & K1 & F1 & O1);
    [intros H; now apply L1 | exact N12 | intros H; now apply L1 |].
  set (b1 := if publish_readme c then _ else _) in *.
  rewrite Q1. rewrite bindS_run.
  (* the page *)
  destruct (daily_block (publish_gitpage c) (json_gitpage_path c) (md_gitpage_path c)
              dc (gitpage_options c) m2 (snd (b1 s)))
    as (Q2 & D2 & S2 & C2 & K2 & F2 & O2);
    [intros H; apply Hl; [rewrite O1; congruence | now apply L2]
    | exact N34 | intros H; now apply L2 |].
  set (b2 := if publish_gitpage c then _ else _) in *.
  rewrite Q2.
  (* the third target *)
  destruct (daily_block (publish_wechat c) (json_wechat_path c) (md_wechat_path c)
              dcw (wechat_options c) m3 (snd (b2 (snd (b1 s)))))
    as (Q3 & D3 & S3 & C3 & K3 & F3 & O3);
    [intros H; apply Hl; [rewrite O2, O1; congruence | now apply L3]
    | exact N56 | intros H; now apply L3 |].
  set (b3 := if publish_wechat c then _ else _) in *.
  split; [exact Q3 |].
  split; [congruence |]. split; [congruence |]. split; [congruence |].
  split.
  { intros H. destruct (F1 H) as (J & Md).
    rewrite !O3, !O2 by congruence. now split. }
  split.
  { intros H. destruct (F2 H) as (J & Md).
    rewrite !O3 by congruence. rewrite D1 in Md. now split. }
  split.
  { intros H. destruct (F3 H) as (J & Md).
    rewrite D2, D1 in Md. now split. }
  split.
  { intros p Hp. unfold paths in Hp. cbn [In] in Hp.
    rewrite O3, O2, O1 by (intros ->; tauto). reflexivity. }
  intros H.
  rewrite !O3, !O2 by congruence.
  assert (E1 : snd (b1 s) = s) by (subst b1; rewrite H; reflexivity).
  rewrite E1. now split.
Qed.

(** X16.  A daily run of [demo] with six distinct files: for each topic
    of the configuration, in order, one pair of batches is collected;
    every enabled target has its store file merged with the batches (the
    table batches for the README and the page, the web batches for the
    third target) and its listing file rendered from the merged store
    with the options of the target and the date of the day; the files
    of a disabled target and every other file are left alone. *)
Theorem demo_daily_files (c : Config) (s : Session) (m1 m2 m3 : Store) :
  config_update_paper_links c = false ->
  NoDup (paths c) ->
  (publish_readme c = true ->
   fst (load json_loads (json_readme_path c) (world s)) = inr m1
   /\ reads_back json_loads json_dumps
                 (merge_all m1 (fst (collected py_repr c s)))) ->
  (publish_gitpage c = true ->
   fst (load json_loads (json_gitpage_path c) (world s)) = inr m2
   /\ reads_back json_loads json_dumps
                 (merge_all m2 (fst (collected py_repr c s)))) ->
  (publish_wechat c = true ->
   fst (load json_loads (json_wechat_path c) (world s)) = inr m3
   /\ reads_back json_loads json_dumps
                 (merge_all m3 (snd (collected py_repr c s)))) ->
  let data_collector := fst (collected py_repr c s) in
  let data_collector_web := snd (collected py_repr c s) in
  let DateNow := replace "-" "." (today (world s)) in
  let run := demo py_repr json_loads json_dumps c s in
  let w' := world (snd run) in
  (exists batches : list (Store * Store),
      Forall2 (batch_of py_repr) (kv c) batches
      /\ data_collector = map fst batches
      /\ data_collector_web = map snd batches)
  /\ fst run = inr tt
  /\ (publish_readme c = true ->
      files w' (json_readme_path c)
      = Some (json_dumps (merge_all m1 data_collector))
      /\ files w' (md_readme_path c)
         = Some (render (readme_options c) DateNow
                        (merge_all m1 data_collector)))
  /\ (publish_gitpage c = true ->
      files w' (json_gitpage_path c)
      = Some (json_dumps (merge_all m2 data_collector))
      /\ files w' (md_gitpage_path c)
         = Some (render (gitpage_options c) DateNow
                        (merge_all m2 data_collector)))
  /\ (publish_wechat c = true ->
      files w' (json_wechat_path c)
      = Some (json_dumps (merge_all m3 data_collector_web))
      /\ files w' (md_wechat_path c)
         = Some (render (wechat_options c) DateNow
                        (merge_all m3 data_collector_web)))
  /\ (forall p, ~ In p (paths c) -> files w' p = files (world s) p)
  /\ (publish_readme c = false ->
      files w' (json_readme_path c) = files (world s) (json_readme_path c)
      /\ files w' (md_readme_path c) = files (world s) (md_readme_path c)).
Proof.
  intros Hmode Hnd L1 L2 L3. cbv zeta.
  unfold demo. rewrite Hmode. cbn [negb]. rewrite !bindS_run.
  fold (daily_begun s).
  destruct (collect_spec py_repr (kv c) (max_results c) [] [] (daily_begun s))
    as (batches & y & F & E & A & _).
  cbn [app] in E. fold (collected py_repr c s) in E.
  set (s1 := snd (collect py_repr (kv c) (max_results c) [] [] (daily_begun s))) in *.
  fold (collected py_repr c s).
  split.
  { exists batches. rewrite E. repeat split. exact F. }
  unfold retS. cbn [fst snd].
  set (s2 := snd (say InfoDailyEnd s1)).
  assert (Hf2 : files (world s2) = files (world s)
                /\ today (world s2) = today (world s)).
  { destruct A as (_ & _ & Af & Ad & _). cbn [world s2 say snd].
    split; [rewrite Af | rewrite Ad]; reflexivity. }
  destruct Hf2 as (Hf2 & Hd2).
  assert (Hl : forall p m,
             fst (load json_loads p (world s)) = inr m ->
             fst (load json_loads p (world s2)) = inr m).
  { intros p m Hm.
    rewrite (load_reads_file json_loads p (world s) (world s2)); [exact Hm |].
    now rewrite Hf2. }
  destruct (daily_targets c s2
              (fst (collected py_repr c s)) (snd (collected py_repr c s))
              m1 m2 m3 Hnd)
    as (Q & _ & _ & _ & T1 & T2 & T3 & O & D).
  { intros H. destruct (L1 H). split; [now apply Hl | assumption]. }
  { intros H. destruct (L2 H). split; [now apply Hl | assumption]. }
  { intros H. destruct (L3 H). split; [now apply Hl | assumption]. }
  rewrite Hd2, Hf2 in *.
  split; [exact Q |]. split; [exact T1 |]. split; [exact T2 |].
  split; [exact T3 |]. split; [exact O | exact D].
Qed.

Lemma publish_daily_sent (json_file md_file : string) (data : list Store)
    (o : Options) (w : World) :
  sent (snd (publish py_repr json_loads json_dumps false json_file md_file data o w))
  = sent w.
Proof.
  unfold publish, update_json_file. rewrite !bind_run, load_world.
  destruct (fst (load json_loads json_file w)) as [e | m]; [reflexivity |].
  rewrite !bind_run. unfold ret. cbn [fst snd].
  unfold json_to_md. rewrite bind_run, load_world.
  destruct (fst (load json_loads json_file _)) as [e | m']; [reflexivity |].
  rewrite !bind_run. reflexivity.
Qed.

Lemma block_session (enabled update : bool) (json_file md_file : string)
    (data : list Store) (o : Options) (s : Session) :
  let run := (if enabled
              then lift (publish py_repr json_loads json_dumps update json_file
                                 md_file data o)
              else retS (inr tt)) s in
  arxiv (snd run) = arxiv s /\ searches (snd run) = searches s
  /\ console (snd run) = console s
  /\ (update = false -> sent (world (snd run)) = sent (world s)).
Proof.
  cbv zeta. destruct enabled.
  - rewrite lift_run. cbn [snd arxiv searches console world].
    repeat split. intros ->. apply publish_daily_sent.
  - unfold retS. cbn [snd]. repeat split.
Qed.

Lemma targets_session (c : Config) (update : bool) (dc dcw : list Store)
    (s : Session) :
  let run := publish_targets py_repr json_loads json_dumps c update dc dcw s in
  arxiv (snd run) = arxiv s /\ searches (snd run) = searches s
  /\ console (snd run) = console s
  /\ (update = false -> sent (world (snd run)) = sent (world s)).
Proof.
  cbv zeta. unfold publish_targets. rewrite bindS_run.
  destruct (block_session (publish_readme c) update (json_readme_path c)
              (md_readme_path c) dc (readme_options c) s) as (A1 & B1 & C1 & D1).
  set (b1 := if publish_readme c then _ else _) in *.
  destruct (fst (b1 s)) as [e | []].
  { unfold retS. cbn [snd]. repeat split; assumption. }
  rewrite bindS_run.
  destruct (block_session (publish_gitpage c) update (json_gitpage_path c)
              (md_gitpage_path c) dc (gitpage_options c) (snd (b1 s)))
    as (A2 & B2 & C2 & D2).
  set (b2 := if publish_gitpage c then _ else _) in *.
  destruct (fst (b2 (snd (b1 s)))) as [e | []].
  { unfold retS. cbn [snd]. repeat split; try congruence.
    intros H. rewrite (D2 H). now apply D1. }
  destruct (block_session (publish_wechat c) update (json_wechat_path c)
              (md_wechat_path c) dcw (wechat_options c) (snd (b2 (snd (b1 s)))))
    as (A3 & B3 & C3 & D3).
  repeat split; try congruence.
  intros H. rewrite (D3 H), (D2 H). now apply D1.
Qed.

Lemma demo_update_ignores_keywords (c : Config) (s : Session)
    (keywords : dict string) (n : Z) :
  config_update_paper_links c = true ->
  demo py_repr json_loads json_dumps (with_keywords keywords n c) s
  = demo py_repr json_loads json_dumps c s.
Proof.
  intros Hmode. unfold demo.
  cbn [with_keywords config_update_paper_links]. rewrite Hmode. reflexivity.
Qed.

Lemma demo_update_session (c : Config) (s : Session) :
  config_update_paper_links c = true ->
  let run := demo py_repr json_loads json_dumps c s in
  arxiv (snd run) = arxiv s
  /\ searches (snd run) = searches s
  /\ console (snd run) = (console s ++ [InfoUpdatePaperLink true])%list.
Proof.
  intros Hmode. cbv zeta. unfold demo. rewrite Hmode, !bindS_run.
  cbn [negb]. unfold retS. cbn [fst snd].
  destruct (targets_session c true [] [] (snd (say (InfoUpdatePaperLink true) s)))
    as (A & B & C & _).
  rewrite A, B, C. repeat split.
Qed.

Lemma demo_daily_session (c : Config) (s : Session) :
  config_update_paper_links c = false ->
  let run := demo py_repr json_loads json_dumps c s in
  arxiv (snd run) = arxiv s
  /\ searches s + List.length (kv c) <= searches (snd run)
  /\ searches (snd run) <= searches s + 2 * List.length (kv c)
  /\ (honours_limit s ->
      sent (world (snd run))
      <= sent (world s)
         + 18 * ((Z.to_nat (max_results c) + 25) * List.length (kv c))).
Proof.
  intros Hmode. cbv zeta. unfold demo. rewrite Hmode, !bindS_run.
  cbn [negb]. rewrite !bindS_run.
  set (s0 := snd (say InfoDailyBegin (snd (say (InfoUpdatePaperLink false) s)))).
  destruct (collect_spec py_repr (kv c) (max_results c) [] [] s0)
    as (batches & y & _ & _ & A & L).
  set (s1 := snd (collect py_repr (kv c) (max_results c) [] [] s0)) in *.
  unfold retS. cbn [fst snd].
  set (s2 := snd (say InfoDailyEnd s1)).
  set (col := fst (collect py_repr (kv c) (max_results c) [] [] s0)).
  destruct (targets_session c false (fst col) (snd col) s2) as (A3 & B3 & _ & D3).
  destruct A as (Aa & As & _ & _ & _ & Ar).
  rewrite A3, B3, (D3 eq_refl). cbn [s2 say snd searches world arxiv].
  cbn [s0 say snd searches world arxiv] in Aa, As, Ar, L.
  split; [exact Aa |]. split; [lia |]. split; [lia |].
  intros Hh. specialize (L Hh). nia.
Qed.

Lemma collect_searches (keywords : list (string * string)) (n : Z) :
  forall (dc dcw : list Store) (s : Session),
  searches (snd (collect py_repr keywords n dc dcw s))
  = searches_after (arxiv s) n keywords (searches s).
Proof.
  induction keywords as [| [topic keyword] keywords IH]; intros dc dcw s.
  - reflexivity.
  - cbn [collect searches_after]. rewrite !bindS_run.
    set (s1 := snd (say (InfoKeyword topic) s)).
    destruct (daily_papers_exact py_repr topic keyword n s1)
      as (_ & _ & K & A & _).
    rewrite IH. cbn [say snd arxiv searches].
    rewrite A, K. reflexivity.
Qed.

Lemma searches_after_bounds (feed : nat -> string -> Z -> Feed) (n : Z)
    (keywords : list (string * string)) :
  forall k,
  k + List.length keywords <= searches_after feed n keywords k
  /\ searches_after feed n keywords k <= k + 2 * List.length keywords
  /\ ((forall i query, empty_page feed i query n = false) ->
      searches_after feed n keywords k = k + List.length keywords).
Proof.
  induction keywords as [| [topic query] keywords IH]; intros k;
    cbn [searches_after List.length].
  - repeat split; lia.
  - destruct (IH (if empty_page feed k query n then k + 2 else k + 1))
      as (L & U & E).
    split; [destruct (empty_page feed k query n); lia |].
    split; [destruct (empty_page feed k query n); lia |].
    intros H. rewrite (E H), H. lia.
Qed.

(** A daily run of [demo] ends with the searches and the requests of its
    collecting loop: publishing adds none. *)
Lemma demo_daily_loop (c : Config) (s : Session) :
  config_update_paper_links c = false ->
  let loop := collect py_repr (kv c) (max_results c) [] [] (daily_begun s) in
  let run := demo py_repr json_loads json_dumps c s in
  searches (snd run) = searches (snd loop)
  /\ sent (world (snd run)) = sent (world (snd loop)).
Proof.
  intros Hmode. cbv zeta. unfold demo. rewrite Hmode, !bindS_run.
  cbn [negb]. rewrite !bindS_run.
  fold (daily_begun s).
  set (loop := collect py_repr (kv c) (max_results c) [] [] (daily_begun s)).
  unfold retS. cbn [fst snd].
  destruct (targets_session c false
              (fst (fst loop)) (snd (fst loop)) (snd (say InfoDailyEnd (snd loop))))
    as (_ & B & _ & D).
  rewrite B, (D eq_refl). split; reflexivity.
Qed.

(** X17.  In a run that updates links, [demo] searches nothing: the
    topics and the limit of the configuration are not used, and the
    console receives one line.  In a daily run it searches once for each
    topic, and once more for a topic whose first search ends on an empty
    page; the publishing blocks send no request, so that all the
    requests of the run are those of the papers it collects: at most 18
    for each of the [max_results + 25] entries a topic may yield when
    the search honours its limit. *)
Theorem demo_searches (c : Config) (s : Session) :
  let run := demo py_repr json_loads json_dumps c s in
  arxiv (snd run) = arxiv s
  /\ (config_update_paper_links c = true ->
      searches (snd run) = searches s
      /\ console (snd run) = (console s ++ [InfoUpdatePaperLink true])%list
      /\ forall keywords n,
           demo py_repr json_loads json_dumps (with_keywords keywords n c) s = run)
  /\ (config_update_paper_links c = false ->
      let loop := collect py_repr (kv c) (max_results c) [] [] (daily_begun s) in
      searches (snd run)
      = searches_after (arxiv s) (max_results c) (kv c) (searches s)
      /\ ((forall k query, empty_page (arxiv s) k query (max_results c) = false) ->
          searches (snd run) = searches s + List.length (kv c))
      /\ searches s + List.length (kv c) <= searches (snd run)
      /\ searches (snd run) <= searches s + 2 * List.length (kv c)
      /\ sent (world (snd run)) = sent (world (snd loop))
      /\ (honours_limit s ->
          sent (world (snd run))
          <= sent (world s)
             + 18 * ((Z.to_nat (max_results c) + 25) * List.length (kv c)))).
Proof.
  cbv zeta. split; [| split].
  - destruct (config_update_paper_links c) eqn:Hmode.
    + apply (demo_update_session c s Hmode).
    + apply (demo_daily_session c s Hmode).
  - intros Hmode.
    destruct (demo_update_session c s Hmode)
      as (_ & B & C).
    split; [exact B |]. split; [exact C |].
    intros keywords n. now apply demo_update_ignores_keywords.
  - intros Hmode.
    destruct (demo_daily_session c s Hmode)
      as (_ & _ & _ & R).
    destruct (demo_daily_loop c s Hmode) as (K & Q).
    assert (E : searches (snd (demo py_repr json_loads json_dumps c s))
                = searches_after (arxiv s) (max_results c) (kv c) (searches s))
      by (rewrite K, collect_searches; reflexivity).
    destruct (searches_after_bounds (arxiv s) (max_results c) (kv c) (searches s))
      as (L & U & N).
    split; [exact E |]. split; [intros H; rewrite E; now apply N |].
    split; [lia |]. split; [lia |]. split; [exact Q | exact R].
Qed.

End DemoRuns.

(* ----------------------------------------------------------------- *)
(** ** [load_config] *)

Lemma dict_set_absent {V : Type} (d : dict V) (k : string) (v : V) :
  ~ In k (keys d) -> dict_set d k v = (d ++ [(k, v)])%list.
Proof.
  induction d as [| [k0 v0] d IH]; [reflexivity |].
  cbn [keys map fst In dict_set app]. intros H.
  destruct (k0 =? k)%string eqn:E.
  - apply String.eqb_eq in E. tauto.
  - rewrite IH; [reflexivity | tauto].
Qed.

Lemma parse_terms_strings (filters : list string) :
  parse_terms (map JStr filters)
  = inr (map (fun f => "all:" ++ quote_if_needed f) filters).
Proof.
  induction filters as [| f filters IH]; [reflexivity |].
  cbn [map parse_terms]. rewrite IH. reflexivity.
Qed.

Lemma parse_filters_strings (filters : list string) :
  parse_filters (JArr (map JStr filters)) = inr (query_of filters).
Proof.
  unfold parse_filters. cbn [py_iter bindE].
  now rewrite parse_terms_strings.
Qed.

Lemma chars_letters (s : string) : chars s = map JStr (letters s).
Proof. induction s as [| c s IH]; [reflexivity |]. cbn. now rewrite IH. Qed.

Lemma pretty_loop_topics (topics : list (string * json)) :
  forall (filters : list (string * list string)) (keywords : dict string),
  NoDup (keys keywords ++ keys topics)%list ->
  Forall2 (fun tv tf => fst tf = fst tv /\ has_filters (snd tv) (snd tf))
          topics filters ->
  pretty_loop topics keywords
  = inr (keywords ++ map (fun tf => (fst tf, query_of (snd tf))) filters)%list.
Proof.
  induction topics as [| [k v] topics IH]; intros filters keywords Hnd F.
  - inversion F; subst. cbn. now rewrite app_nil_r.
  - inversion F as [| ? [k' fs] ? filters' [Hk Hf] F']; subst.
    cbn [fst snd] in Hk, Hf. subst k'.
    cbn [pretty_loop]. unfold has_filters in Hf. rewrite Hf. cbn [bindE].
    rewrite parse_filters_strings. cbn [bindE].
    assert (Hout : ~ In k (keys keywords)).
    { intros Hin. cbn [keys map fst] in Hnd.
      apply NoDup_remove_2 in Hnd. apply Hnd. apply in_or_app. now left. }
    rewrite (dict_set_absent keywords k _ Hout).
    rewrite (IH filters').
    + cbn [map fst snd]. now rewrite <- app_assoc.
    + unfold keys in *. rewrite map_app, <- app_assoc. cbn [map fst app].
      exact Hnd.
    + exact F'.
Qed.

Section ConfigFacts.

Variable yaml_load : string -> exn + json.
Variable py_repr : json -> string.

(** X19.  For a configuration whose [keywords] map each topic to an
    entry with a list of filter strings, [load_config] returns the
    configuration with one more key, [kv], that maps each topic, in the
    order of the document, to the query made of one term [all:...] for
    each filter, joined by [ OR ]; every other key keeps its value, one
    line is logged and no file is written.  A topic without filters
    gets the empty query; filters given as one string instead of a list
    are taken character by character; a document without [keywords], or
    a topic without [filters], raises a KeyError. *)
Theorem load_config_queries (config_file text : string)
    (config topics : list (string * json))
    (filters : list (string * list string)) (s : Session) :
  files (world s) config_file = Some text ->
  yaml_load text = inr (JObj config) ->
  assoc "keywords" config = Some (JObj topics) ->
  NoDup (keys topics) ->
  Forall2 (fun tv tf => fst tf = fst tv /\ has_filters (snd tv) (snd tf))
          topics filters ->
  let kv := map (fun tf => (fst tf, JStr (query_of (snd tf)))) filters in
  let config' := dict_set config "kv" (JObj kv) in
  load_config yaml_load py_repr config_file s
  = (inr (JObj config'),
     mkSession (world s) (console s ++ [InfoConfig (py_repr (JObj config'))])%list
               (arxiv s) (searches s))
  /\ keys kv = keys topics
  /\ assoc "kv" config' = Some (JObj kv)
  /\ (forall k, k <> "kv" -> assoc k config' = assoc k config)
  /\ query_of [] = ""
  /\ (forall f, query_of [f] = "all:" ++ quote_if_needed f)
  /\ (forall chars, parse_filters (JStr chars) = inr (query_of (letters chars)))
  /\ (forall other, assoc "keywords" other = None ->
        pretty_filters other = inl KeyError)
  /\ (forall k fields rest keywords,
        assoc "filters" fields = None ->
        pretty_loop ((k, JObj fields) :: rest) keywords = inl KeyError).
Proof.
  intros Hfile Hyaml Hkw Hnd F. cbv zeta.
  assert (P : pretty_filters config
              = inr (map (fun tf => (fst tf, query_of (snd tf))) filters)).
  { unfold pretty_filters. cbn [subscript_str]. rewrite Hkw. cbn [bindE].
    now rewrite (pretty_loop_topics topics filters []). }
  split.
  { unfold load_config. rewrite bindS_run, lift_run.
    unfold read_file. cbn [fst snd world]. rewrite Hfile, Hyaml, P.
    rewrite map_map. cbn [fst snd]. rewrite bindS_run. reflexivity. }
  split.
  { unfold keys. rewrite map_map. cbn [fst].
    clear - F. induction F as [| [k v] [k' fs] topics filters [Hk _] F IH];
      [reflexivity |].
    cbn [map fst snd] in *. now rewrite Hk, IH. }
  split; [now rewrite assoc_dict_set, String.eqb_refl |].
  split.
  { intros k Hk. rewrite assoc_dict_set.
    destruct ("kv" =? k)%string eqn:E; [| reflexivity].
    apply String.eqb_eq in E. congruence. }
  split; [reflexivity |]. split; [reflexivity |].
  split.
  { intros cs. unfold parse_filters. cbn [py_iter bindE].
    rewrite chars_letters, parse_terms_strings. reflexivity. }
  split.
  { intros other H. unfold pretty_filters. cbn [subscript_str]. now rewrite H. }
  intros k fields rest keywords H. cbn [pretty_loop subscript_str]. now rewrite H.
Qed.

End ConfigFacts.

(* ----------------------------------------------------------------- *)
(** ** The choice among the entries of the hub *)

Section HubChoice.

Variable py_repr : json -> string.

Lemma pick_loop_ids (category : string) (items : list json)
    (ids : list (option string)) :
  Forall2 id_of items ids ->
  pick_loop py_repr items category
  = inr (match first_id ids with
         | Some id => hub_link category id
         | None => JNull
         end).
Proof.
  induction 1 as [| it id items ids Hid _ IH]; [reflexivity |].
  cbn [pick_loop]. unfold id_of in Hid. rewrite Hid. cbn [bindE].
  destruct id as [[| c s] |]; cbn [truthy String.eqb negb first_id]; try exact IH.
  reflexivity.
Qed.

Lemma pick_lists (data : json) (category : string) (ids : list (option string)) :
  lists data category ids ->
  (arr <-? get_method data category JNull ; pick py_repr arr category)
  = inr (match first_id ids with
         | Some id => hub_link category id
         | None => JNull
         end).
Proof.
  intros (arr & Hget & [[-> ->] | (items & -> & F)]); rewrite Hget; cbn [bindE].
  - reflexivity.
  - unfold pick. destruct items as [| it items].
    + inversion F; subst. reflexivity.
    + cbn [truthy py_iter bindE]. now apply pick_loop_ids.
Qed.

Lemma truthy_hub_link (category id : string) : truthy (hub_link category id) = true.
Proof. reflexivity. Qed.

(** X20.  When the hub answers the first request with status 200 and a
    document that lists entries under [spaces], [models] and [datasets]
    (missing categories list nothing), [get_repo_from_hf] returns, after
    that one request, the link of the first entry with a non-empty
    identifier, Spaces before Models before Datasets, and [None] when
    there is none: entries without identifier are passed over. *)
Theorem hub_priority (arxiv_id_no_ver : string) (data : json)
    (spaces models datasets : list (option string)) (w : World) :
  answer w (hf_request arxiv_id_no_ver) 0
  = Responded (mkResponse 200 (Some data)) ->
  lists data "spaces" spaces ->
  lists data "models" models ->
  lists data "datasets" datasets ->
  hf_pick_all py_repr data = inr (hub_choice spaces models datasets)
  /\ fst (get_repo_from_hf py_repr arxiv_id_no_ver w)
     = hub_choice spaces models datasets
  /\ sent (snd (get_repo_from_hf py_repr arxiv_id_no_ver w)) = sent w + 1
  /\ trace (snd (get_repo_from_hf py_repr arxiv_id_no_ver w))
     = (trace w ++ [EvGet (hf_request arxiv_id_no_ver)])%list.
Proof.
  intros Ha Hs Hm Hd.
  assert (P : hf_pick_all py_repr data = inr (hub_choice spaces models datasets)).
  { unfold hf_pick_all, hub_choice.
    pose proof (pick_lists data "spaces" spaces Hs) as Ps.
    pose proof (pick_lists data "models" models Hm) as Pm.
    pose proof (pick_lists data "datasets" datasets Hd) as Pd.
    destruct (get_method data "spaces" JNull) as [e | a1]; [discriminate |].
    cbn [bindE] in Ps |- *. rewrite Ps. cbn [bindE].
    destruct (first_id spaces) as [id |]; [reflexivity |]. cbn [truthy].
    destruct (get_method data "models" JNull) as [e | a2]; [discriminate |].
    cbn [bindE] in Pm |- *. rewrite Pm. cbn [bindE].
    destruct (first_id models) as [id |]; [reflexivity |]. cbn [truthy].
    destruct (get_method data "datasets" JNull) as [e | a3]; [discriminate |].
    cbn [bindE] in Pd |- *. exact Pd. }
  split; [exact P |].
  unfold answer in Ha. rewrite Nat.add_0_r in Ha.
  assert (E : get_repo_from_hf py_repr arxiv_id_no_ver w
              = (hub_choice spaces models datasets,
                 snd (requests_get (hf_request arxiv_id_no_ver) w))).
  { unfold get_repo_from_hf, http_get. rewrite !bind_run.
    change (Z.to_nat (default_retries + 1)) with 3.
    cbn [http_get_loop]. rewrite !bind_run.
    change (fst (requests_get (hf_request arxiv_id_no_ver) w))
      with (oracle w (sent w) (hf_request arxiv_id_no_ver)).
    rewrite Ha. cbn [status_code Z.eqb Pos.eqb]. unfold ret. cbn [fst snd].
    change (resp_ok (mkResponse 200 (Some data))) with true.
    cbn [response_json body bindE]. now rewrite P. }
  rewrite E. cbn [fst snd requests_get sent trace].
  split; [reflexivity |]. split; [lia | reflexivity].
Qed.

End HubChoice.

(* ----------------------------------------------------------------- *)
(** ** Where the requests go *)

Lemma GH_HEADERS_env (w w' : World) :
  getenv w' = getenv w -> GH_HEADERS w' = GH_HEADERS w.
Proof. intros H. unfold GH_HEADERS. now rewrite H. Qed.

Lemma polite_env (w w' : World) (e : Event) :
  getenv w' = getenv w -> polite w' e -> polite w e.
Proof.
  intros H. destruct e; try exact (fun x => x). cbn [polite]. unfold allowed.
  now rewrite (GH_HEADERS_env w w' H).
Qed.

Lemma discreet_ret {A : Type} (a : A) : discreet (ret a).
Proof. intros w. exists []. split; [apply steps_refl | constructor]. Qed.

Lemma discreet_emit (e : Event) : count_gets [e] = 0 -> discreet (emit e).
Proof.
  intros H w. exists [e]. split; [now apply steps_emit |].
  constructor; [| constructor]. destruct e; try exact I. discriminate.
Qed.

Lemma discreet_bind {A B : Type} (c : M A) (k : A -> M B) :
  discreet c -> (forall a, discreet (k a)) -> discreet (bind c k).
Proof.
  intros Hc Hk w. rewrite bind_run.
  destruct (Hc w) as (e1 & S1 & P1).
  destruct (Hk (fst (c w)) (snd (c w))) as (e2 & S2 & P2).
  exists (e1 ++ e2)%list. split; [eapply steps_trans; eassumption |].
  apply Forall_app. split; [exact P1 |].
  destruct S1 as (_ & He & _).
  eapply Forall_impl; [| exact P2]. intros e. now apply polite_env.
Qed.

Lemma http_get_loop_requests (req : Request) (retries : Z) :
  forall (n : nat) (i : Z) (le : option string) (w : World),
  exists evs,
    steps w (snd (http_get_loop req retries n i le w)) evs
    /\ Forall (fun e => match e with EvGet r => r = req | _ => True end) evs.
Proof.
  induction n as [| n IH]; intros i le w.
  - exists []. split; [apply steps_refl | constructor].
  - cbn [http_get_loop]. rewrite bind_run.
    pose proof (steps_requests_get req w) as Hget.
    set (w1 := snd (requests_get req w)) in *.
    destruct (fst (requests_get req w)) as [r | e].
    + destruct (status_code r =? 200)%Z.
      * exists [EvGet req]. split; [exact Hget | now repeat constructor].
      * rewrite !bind_run.
        set (e1 := WarnStatus (url req) (status_code r) (i + 1) (retries + 1)).
        pose proof (steps_emit e1 w1 eq_refl) as S1.
        set (w2 := snd (emit e1 w1)) in *.
        pose proof (steps_when (status_code r =? 403)%Z ErrForbidden w2 eq_refl) as S2.
        set (w3 := snd (when (status_code r =? 403)%Z (emit ErrForbidden) w2)) in *.
        pose proof (steps_emit EvSleep w3 eq_refl) as S3.
        set (w4 := snd (emit EvSleep w3)) in *.
        destruct (IH (i + 1)%Z le w4) as (evs & S4 & P).
        eexists. split.
        { eapply steps_trans; [| exact S4].
          eapply steps_trans; [| exact S3].
          eapply steps_trans; [| exact S2].
          eapply steps_trans; [exact Hget | exact S1]. }
        apply Forall_app. split; [| exact P].
        repeat (apply Forall_app; split); try now repeat constructor.
        destruct (status_code r =? 403)%Z; now repeat constructor.
    + rewrite !bind_run.
      set (e1 := WarnException (url req) e (i + 1) (retries + 1)).
      pose proof (steps_emit e1 w1 eq_refl) as S1.
      set (w2 := snd (emit e1 w1)) in *.
      pose proof (steps_emit EvSleep w2 eq_refl) as S2.
      set (w3 := snd (emit EvSleep w2)) in *.
      destruct (IH (i + 1)%Z (Some e) w3) as (evs & S3 & P).
      eexists. split.
      { eapply steps_trans; [| exact S3].
        eapply steps_trans; [| exact S2].
        eapply steps_trans; [exact Hget | exact S1]. }
      apply Forall_app. split; [| exact P]. now repeat constructor.
Qed.

(** [http_get] sends [req] and nothing else. *)
Lemma http_get_requests (req : Request) (retries : Z) (w : World) :
  exists evs,
    steps w (snd (http_get req retries w)) evs
    /\ Forall (fun e => match e with EvGet r => r = req | _ => True end) evs.
Proof.
  unfold http_get. rewrite bind_run.
  destruct (http_get_loop_requests req retries (Z.to_nat (retries + 1)) 0%Z None w)
    as (evs & S1 & P).
  destruct (http_get_loop req retries (Z.to_nat (retries + 1)) 0 None w)
    as [[[r |] le] w1]; cbn [fst snd] in *.
  - exists evs. now split.
  - rewrite bind_run. unfold ret. cbn [fst snd].
    set (b := match le with Some _ => true | None => false end).
    pose proof (steps_when b (ErrFailed (url req) (retries + 1)) w1 eq_refl) as S2.
    eexists. split; [eapply steps_trans; eassumption |].
    apply Forall_app. split; [exact P |]. destruct b; now repeat constructor.
Qed.

Lemma discreet_hub_get (key : string) :
  discreet (http_get (hf_request key) default_retries).
Proof.
  intros w. destruct (http_get_requests (hf_request key) default_retries w)
    as (evs & S & P).
  exists evs. split; [exact S |].
  eapply Forall_impl; [| exact P]. intros [] H; try exact I.
  cbn [polite]. left. eauto.
Qed.

Lemma discreet_gh_get (u : string) (ps : list (string * json)) :
  u = GITHUB_SEARCH_REPO \/ u = GITHUB_SEARCH_CODE -> discreet (gh_get u ps).
Proof.
  intros Hu w. unfold gh_get.
  destruct (http_get_requests (mkRequest u (GH_HEADERS w) (Some ps) 10)
              default_retries w) as (evs & S & P).
  exists evs. split; [exact S |].
  eapply Forall_impl; [| exact P]. intros [] H; try exact I.
  cbn [polite]. right. eauto.
Qed.

Lemma discreet_get_code_link (q : string) : discreet (get_code_link q).
Proof.
  unfold get_code_link. apply discreet_bind; [apply discreet_gh_get; now left |].
  intros [resp |]; [| apply discreet_ret].
  destruct (resp_ok resp); [| apply discreet_ret].
  destruct (code_link_of resp); [| apply discreet_ret].
  apply discreet_bind; [now apply discreet_emit | intros; apply discreet_ret].
Qed.

Lemma discreet_search_then (get : M (option Response))
    (picked : Response -> exn + json) (next : M (exn + json)) :
  discreet get -> discreet next -> discreet (search_then get picked next).
Proof.
  intros Hg Hn. unfold search_then. apply discreet_bind; [exact Hg |].
  intros r. destruct (items_hit r) as [e | [resp |]];
    [apply discreet_ret | apply discreet_ret | exact Hn].
Qed.

Lemma discreet_find_code_repo (t k a : string) : discreet (find_code_repo t k a).
Proof.
  unfold find_code_repo. apply discreet_bind.
  - apply discreet_search_then; [apply discreet_gh_get; now left |].
    apply discreet_search_then; [apply discreet_gh_get; now left |].
    apply discreet_search_then; [apply discreet_gh_get; now right |].
    apply discreet_ret.
  - intros [e | v]; [| apply discreet_ret].
    apply discreet_bind; [now apply discreet_emit | intros; apply discreet_ret].
Qed.

Lemma discreet_por (a b : M json) : discreet a -> discreet b -> discreet (por a b).
Proof.
  intros Ha Hb. unfold por. apply discreet_bind; [exact Ha |].
  intros x. destruct (truthy x); [apply discreet_ret | exact Hb].
Qed.

Lemma discreet_foldM {A B : Type} (f : A -> B -> M A) (l : list B) (a : A) :
  (forall a b, discreet (f a b)) -> discreet (foldM f l a).
Proof.
  intros H. revert a. induction l as [| b l IH]; intros a; cbn [foldM].
  - apply discreet_ret.
  - apply discreet_bind; [apply H | exact IH].
Qed.

Lemma discreet_mapM {A B : Type} (f : A -> M B) (l : list A) :
  (forall a, discreet (f a)) -> discreet (mapM f l).
Proof.
  intros H. induction l as [| a l IH]; cbn [mapM].
  - apply discreet_ret.
  - apply discreet_bind; [apply H |]. intros b.
    apply discreet_bind; [exact IH | intros; apply discreet_ret].
Qed.

Section Destinations.

Variable py_repr : json -> string.

Lemma discreet_get_repo_from_hf (k : string) :
  discreet (get_repo_from_hf py_repr k).
Proof.
  unfold get_repo_from_hf. apply discreet_bind; [apply discreet_hub_get |].
  intros [resp |]; [| apply discreet_ret].
  destruct (resp_ok resp); [| apply discreet_ret].
  destruct (data <-? response_json resp; hf_pick_all py_repr data);
    [| apply discreet_ret].
  apply discreet_bind; [now apply discreet_emit | intros; apply discreet_ret].
Qed.

Lemma discreet_resolve_backfill (t k a : string) :
  discreet (resolve_backfill py_repr t k a).
Proof.
  unfold resolve_backfill.
  repeat apply discreet_por;
    auto using discreet_get_repo_from_hf, discreet_find_code_repo,
               discreet_get_code_link.
Qed.

Lemma discreet_daily_step (acc : Topic * Topic) (r : ArxivResult) :
  discreet (daily_step py_repr acc r).
Proof.
  destruct acc as [content content_to_web]. unfold daily_step.
  apply discreet_bind; [now apply discreet_emit |]. intros _.
  apply discreet_bind.
  - intros w. rewrite resolve_daily_backfill. apply discreet_resolve_backfill.
  - intros repo_url. destruct (negb (is_None repo_url)); apply discreet_ret.
Qed.

Lemma discreet_backfill_record (v : Topic) (entry : string * string) :
  discreet (backfill_record py_repr v entry).
Proof.
  destruct entry as [paper_id contents]. unfold backfill_record.
  destruct (parse_arxiv_string contents) as [e | f].
  - apply discreet_bind; [now apply discreet_emit | intros; apply discreet_ret].
  - destruct (negb (contains "|null|" (normalized f))); [apply discreet_ret |].
    apply discreet_bind; [now apply discreet_emit |]. intros _.
    apply discreet_bind; [apply discreet_resolve_backfill |]. intros repo_url.
    destruct (negb (is_None repo_url)); [| apply discreet_ret].
    apply discreet_bind; [now apply discreet_emit | intros; apply discreet_ret].
Qed.

(** X21.  Every request [get_daily_papers] and the backfill send goes
    to the lookup of the hub or to one of the two searches of the code
    host, with a timeout of ten seconds.  The requests to the code host
    carry the token of the environment, [MY_GITHUB_TOKEN] before
    [GITHUB_TOKEN], an empty one counting as none; the requests to the
    hub carry no [Authorization] header: the token is never sent to the
    hub. *)
Theorem requests_stay_home (topic : string) (results : list ArxivResult)
    (m : Store) (w : World) :
  (exists evs,
     steps w (snd (get_daily_papers py_repr topic results w)) evs
     /\ Forall (polite w) evs)
  /\ (exists evs,
        steps w (snd (backfill py_repr m w)) evs /\ Forall (polite w) evs)
  /\ (forall req, allowed w req ->
        timeout req = 10%Z
        /\ (starts_with "https://huggingface.co/api/arxiv/" (url req) = true
            /\ assoc "Authorization" (headers req) = None
            \/ (url req = GITHUB_SEARCH_REPO \/ url req = GITHUB_SEARCH_CODE)
               /\ assoc "Authorization" (headers req)
                  = option_map (fun t => "Bearer " ++ t) (token_of (getenv w))))
  /\ assoc "Authorization" HF_HEADERS = None.
Proof.
  split; [| split; [| split; [| reflexivity]]].
  - apply (discreet_bind (foldM (daily_step py_repr) results ([], []))).
    + apply discreet_foldM. intros a b. apply discreet_daily_step.
    + intros a. apply discreet_ret.
  - apply discreet_mapM. intros [kw v]. unfold backfill_topic.
    apply discreet_bind; [now apply discreet_emit |]. intros _.
    apply discreet_bind; [| intros; apply discreet_ret].
    apply discreet_foldM. intros a b. apply discreet_backfill_record.
  - intros req [(key & ->) | (u & ps & Hu & ->)].
    + split; [reflexivity |]. left. split; reflexivity.
    + split; [reflexivity |]. right. cbn [url headers]. split; [exact Hu |].
      unfold GH_HEADERS, token_of, env_set.
      destruct (getenv w "MY_GITHUB_TOKEN") as [[| c t] |];
        destruct (getenv w "GITHUB_TOKEN") as [[| c' t'] |]; reflexivity.
Qed.

End Destinations.

(* ----------------------------------------------------------------- *)
(** ** The papers of the day, merged into the store *)

Section DailyMerge.

Variable py_repr : json -> string.

Lemma merge_one_batch (m : Store) (topic : string) (content : Topic) :
  merge_all m [[(topic, content)]] = merge_keyword m topic content.
Proof. reflexivity. Qed.

Lemma last_result_recorded (topic : string) (pre post : list ArxivResult)
    (r : ArxivResult) (w : World) :
  (forall r', In r' post -> key_of r' <> key_of r) ->
  let out := fst (foldM (daily_step py_repr) (pre ++ r :: post)%list ([], []) w) in
  let at_r := snd (foldM (daily_step py_repr) pre ([], []) w) in
  exists rec web,
    recorded r rec web
    /\ assoc (key_of r) (fst out) = Some rec
    /\ assoc (key_of r) (snd out) = Some web
    /\ (unanswered at_r -> rec = unresolved_record r).
Proof.
  intros Hpost. cbv zeta.
  change (pre ++ r :: post)%list with (pre ++ [r] ++ post)%list.
  rewrite !foldM_app.
  set (acc := fst (foldM (daily_step py_repr) pre ([], []) w)).
  set (w1 := snd (foldM (daily_step py_repr) pre ([], []) w)).
  cbn [foldM]. rewrite bind_run. unfold ret. cbn [fst snd].
  destruct (daily_step_shape py_repr acc r w1) as (rec & web & R & E).
  destruct (foldM_daily_keys py_repr post (fst (daily_step py_repr acc r w1))
              (snd (daily_step py_repr acc r w1))) as (_ & _ & _ & _ & O).
  destruct (O (key_of r) Hpost) as (O1 & O2).
  exists rec, web. split; [exact R |].
  rewrite O1, O2, E. cbn [fst snd].
  rewrite !assoc_dict_set, String.eqb_refl.
  split; [reflexivity |]. split; [reflexivity |].
  intros Hw1. destruct (gives_up_daily_step py_repr acc r w1 Hw1) as (E' & _).
  pose proof (eq_trans (eq_sym E) E') as E0. injection E0 as E1 _.
  apply (f_equal (assoc (key_of r))) in E1.
  rewrite !assoc_dict_set, String.eqb_refl in E1. now injection E1.
Qed.

(** X22.  After [get_daily_papers] and [update_json_file], the store
    holds, under the key of each paper met today, the record written
    today for the last result with that key, whatever it held before: a
    record with a link found on an earlier day is replaced by a record
    without one when today's resolution finds nothing.  Records of the
    topic whose papers were not met today, and the other topics, are
    kept as they were. *)
Theorem daily_merge_overwrites (m : Store) (topic : string)
    (pre post : list ArxivResult) (r : ArxivResult) (w : World) :
  (forall r', In r' post -> key_of r' <> key_of r) ->
  let out := fst (get_daily_papers py_repr topic (pre ++ r :: post)%list w) in
  (exists rec web,
     recorded r rec web
     /\ lookup (merge_all m [fst out]) topic (key_of r) = Some rec
     /\ lookup (merge_all m [snd out]) topic (key_of r) = Some web)
  /\ (unanswered w ->
      lookup (merge_all m [fst out]) topic (key_of r) = Some (unresolved_record r))
  /\ (forall id,
        (forall r', In r' (pre ++ r :: post)%list -> key_of r' <> id) ->
        lookup (merge_all m [fst out]) topic id = lookup m topic id)
  /\ (forall topic' id,
        topic' <> topic ->
        lookup (merge_all m [fst out]) topic' id = lookup m topic' id).
Proof.
  intros Hpost. cbv zeta. unfold get_daily_papers. rewrite bind_run.
  unfold ret. cbn [fst snd]. rewrite !merge_one_batch.
  set (out := fst (foldM (daily_step py_repr) (pre ++ r :: post)%list ([], []) w)).
  destruct (foldM_daily_keys py_repr (pre ++ r :: post)%list ([], []) w)
    as (_ & W1 & W2 & _ & O).
  fold out in W1, W2, O. cbn [fst snd] in W1, W2, O.
  assert (Hnil : wf_dict (@nil (string * string))) by constructor.
  specialize (W1 Hnil). specialize (W2 Hnil).
  destruct (last_result_recorded topic pre post r w Hpost)
    as (rec & web & R & A1 & A2 & U).
  fold out in A1, A2.
  split.
  { exists rec, web. split; [exact R |].
    rewrite !lookup_merge_keyword by assumption.
    now rewrite String.eqb_refl, A1, A2. }
  split.
  { intros Hw. rewrite lookup_merge_keyword by assumption.
    rewrite String.eqb_refl, A1. f_equal. apply U.
    destruct (acts_foldM (daily_step py_repr) pre ([], [])) with (w := w)
      as (evs & St).
    - intros a b. intros w0.
      destruct (sends_daily_step py_repr a b w0) as (evs & St & _). eauto.
    - exact (unanswered_steps _ _ _ Hw St). }
  split.
  { intros id Hid. rewrite lookup_merge_keyword by assumption.
    rewrite String.eqb_refl. destruct (O id Hid) as (O1 & _).
    rewrite O1. reflexivity. }
  intros topic' id Hne. rewrite lookup_merge_keyword by assumption.
  assert (E : (topic =? topic')%string = false)
    by (apply String.eqb_neq; congruence).
  now rewrite E.
Qed.

End DailyMerge.

(* ----------------------------------------------------------------- *)
(** ** [pretty_math] moves white space only *)

Lemma squeeze_append (a b : string) : squeeze (a ++ b) = squeeze a ++ squeeze b.
Proof.
  induction a as [| c a IH]; [reflexivity |].
  cbn [append squeeze]. destruct (is_space c); [exact IH |].
  cbn [append]. now rewrite IH.
Qed.

Lemma squeeze_lstrip (s : string) : squeeze (lstrip s) = squeeze s.
Proof.
  induction s as [| c s IH]; [reflexivity |].
  cbn [lstrip]. destruct (is_space c) eqn:E; [| reflexivity].
  cbn [squeeze]. now rewrite E.
Qed.

Lemma squeeze_rstrip (s : string) : squeeze (rstrip s) = squeeze s.
Proof.
  induction s as [| c s IH]; [reflexivity |].
  cbn [rstrip squeeze]. rewrite <- IH.
  destruct (rstrip s) as [| y r].
  - destruct (is_space c) eqn:E; [reflexivity |]. cbn [squeeze]. now rewrite E.
  - reflexivity.
Qed.

Lemma squeeze_gap (n : option ascii) : squeeze (gap n) = "".
Proof. destruct (gap_cases n) as [-> | ->]; reflexivity. Qed.

Lemma length_gap (n : option ascii) : String.length (gap n) <= 1.
Proof. destruct (gap_cases n) as [-> | ->]; cbn; lia. Qed.

Lemma length_lstrip (s : string) : String.length (lstrip s) <= String.length s.
Proof.
  induction s as [| c s IH]; [reflexivity |].
  cbn [lstrip]. destruct (is_space c); cbn [String.length]; lia.
Qed.

Lemma length_rstrip (s : string) : String.length (rstrip s) <= String.length s.
Proof.
  induction s as [| c s IH]; [reflexivity |].
  cbn [rstrip]. destruct (rstrip s) as [| y r].
  - destruct (is_space c); cbn [String.length]; lia.
  - cbn [String.length] in *. lia.
Qed.

(** X23.  [pretty_math] moves white space and nothing else: the line it
    returns has the same characters other than white space, in the same
    order, as the line it was given, and is at most two characters
    longer. *)
Theorem pretty_math_keeps_text (s : string) :
  squeeze (pretty_math s) = squeeze s
  /\ String.length (pretty_math s) <= String.length s + 2.
Proof.
  destruct (search_math s) as [[a b] |] eqn:E.
  - destruct (search_math_split s a b E)
      as (pre & inner & post & -> & _ & _ & Hp & Hi & Ho).
    rewrite (pretty_math_shape pre inner post Hp Hi Ho).
    change (pre ++ String "$" (inner ++ String "$" post))
      with (pre ++ "$" ++ inner ++ "$" ++ post).
    split.
    + rewrite !squeeze_append, !squeeze_gap. unfold strip.
      rewrite squeeze_rstrip, squeeze_lstrip. reflexivity.
    + rewrite !length_append.
      pose proof (length_gap (last_char pre)).
      pose proof (length_gap (first_char post)).
      pose proof (length_rstrip (lstrip inner)).
      pose proof (length_lstrip inner).
      unfold strip. lia.
  - assert (H : pretty_math s = s) by (now rewrite pretty_math_reformat, E).
    rewrite H. split; [reflexivity | lia].
Qed.

(* ----------------------------------------------------------------- *)
(** ** The further properties on sample inputs *)

Lemma unanswered_silent_world : unanswered silent_world.
Proof. intros k req. reflexivity. Qed.

Lemma update_paper_links_budget_witness :
  fst (load sample_loads "docs/store.json" sample_file_world) = inr sample_store
  /\ sent (snd (update_paper_links no_repr sample_loads no_dumps "docs/store.json"
                                   sample_file_world))
     <= sent sample_file_world + 18 * pending sample_store.
Proof.
  split; [reflexivity |].
  exact (proj1 (update_paper_links_budget no_repr sample_loads no_dumps
                  "docs/store.json" sample_store sample_file_world eq_refl)).
Defined.

Lemma get_daily_papers_unanswered_witness :
  unanswered silent_world
  /\ sent (snd (get_daily_papers no_repr "SLAM" [sample_paper] silent_world))
     = sent silent_world + 18 * List.length [sample_paper].
Proof.
  split; [exact unanswered_silent_world |].
  exact (proj1 (proj2 (get_daily_papers_unanswered no_repr "SLAM" [sample_paper]
                         silent_world unanswered_silent_world))).
Defined.

Lemma backfill_unanswered_witness :
  wf_store sample_store /\ unanswered silent_world
  /\ fst (backfill no_repr sample_store silent_world) = normalize_store sample_store.
Proof.
  split; [exact wf_sample_store |]. split; [exact unanswered_silent_world |].
  exact (proj1 (backfill_unanswered no_repr sample_store silent_world
                  wf_sample_store unanswered_silent_world)).
Defined.

Lemma web_store_has_no_cells :
  forall topic T id c,
    In (topic, T) web_store -> In (id, c) T -> count_char "|" c < 5.
Proof.
  intros topic T id c [[= <- <-] | []] [[= <- <-] | []]. vm_compute. lia.
Qed.

Lemma backfill_web_listing_witness :
  (forall topic T id c,
      In (topic, T) web_store -> In (id, c) T -> count_char "|" c < 5)
  /\ fst (backfill no_repr web_store generous_world) = web_store.
Proof.
  split; [exact web_store_has_no_cells |].
  exact (proj1 (backfill_web_listing no_repr web_store generous_world
                  web_store_has_no_cells)).
Defined.

Lemma backfill_completes_row_witness :
  bar_free "2024-01-03" /\ bar_free "Title B" /\ bar_free "Bob"
  /\ bar_free "2401.00002" /\ bar_free "https://arxiv.org/abs/2401.00002"
  /\ starts_black "Bob"
  /\ exists arxiv_id,
       (plain_key "2401.00002" -> arxiv_id = "2401.00002")
       /\ let w1 := snd (emit (InfoAttempt arxiv_id) generous_world) in
          let r := resolve_backfill no_repr ("**" ++ "Title B" ++ "**") arxiv_id
                                    ("Bob" ++ " et.al.") w1 in
          backfill_record no_repr [] ("2401.00002", unresolved_row) generous_world
          = if is_None (fst r)
            then ([("2401.00002", unresolved_row)], snd r)
            else
              let new_cont :=
                row_resolved "2024-01-03" "Title B" "Bob" "2401.00002"
                             "https://arxiv.org/abs/2401.00002"
                             (py_str no_repr (fst r)) in
              ([("2401.00002", new_cont)],
               snd (emit (InfoFound arxiv_id new_cont) (snd r))).
Proof.
  repeat (split; [reflexivity |]).
  exact (backfill_completes_row no_repr "2024-01-03" "Title B" "Bob" "2401.00002"
           "https://arxiv.org/abs/2401.00002" eq_refl eq_refl eq_refl eq_refl
           eq_refl eq_refl [] "2401.00002" generous_world).
Defined.

Lemma wf_ordered_topic : wf_dict ordered_topic.
Proof.
  unfold wf_dict, ordered_topic. cbn [keys map fst].
  repeat constructor; cbn [In]; intuition discriminate.
Qed.

Lemma sort_papers_fixed_witness :
  wf_dict ordered_topic
  /\ (Sorted above_or_equal (keys ordered_topic) ->
      sort_papers ordered_topic = ordered_topic).
Proof.
  split; [exact wf_ordered_topic |].
  exact (proj1 (sort_papers_fixed ordered_topic wf_ordered_topic)).
Defined.

Lemma publish_in_step_witness :
  fst (load merged_loads "docs/store.json" sample_file_world) = inr sample_store
  /\ "docs/store.json" <> "README.md"
  /\ reads_back merged_loads merged_dumps (merge_all sample_store sample_batch)
  /\ files (snd (publish no_repr merged_loads merged_dumps false "docs/store.json"
                         "README.md" sample_batch default_options
                         sample_file_world))
           "README.md"
     = Some (render default_options (replace "-" "." (today sample_file_world))
                    (merge_all sample_store sample_batch)).
Proof.
  assert (R : reads_back merged_loads merged_dumps
                (merge_all sample_store sample_batch))
    by (split; [reflexivity | discriminate]).
  split; [reflexivity |]. split; [discriminate |]. split; [exact R |].
  exact (proj1 (proj2 (proj2
           (publish_in_step no_repr merged_loads merged_dumps false
              "docs/store.json" "README.md" sample_batch default_options
              sample_store sample_file_world eq_refl
              (fun H => ltac:(discriminate H)) R)))).
Defined.

Lemma null_cell_marks_unresolved_witness :
  assoc "2108.09112"
        (fst (fst (daily_step no_repr ([], []) sample_paper silent_world)))
  = Some (row_unresolved "2021-08-21" "A Paper" "Ann Author" "2108.09112"
                         "https://arxiv.org/abs/2108.09112")
  /\ backfill_record no_repr [("2401.00001", resolved_row)]
                     ("2401.00001", resolved_row) silent_world
     = ([("2401.00001", resolved_row)], silent_world)
  /\ fst (backfill_record no_repr [("2401.00002", unresolved_row)]
                          ("2401.00002", unresolved_row) generous_world)
     = [("2401.00002",
         row_resolved "2024-01-03" "Title B" "Bob" "2401.00002"
                      "https://arxiv.org/abs/2401.00002"
                      "https://huggingface.co/models/org/model")]
  /\ fst (backfill_record no_repr [("2401.00002", unresolved_row)]
                          ("2401.00002", unresolved_row) silent_world)
     = [("2401.00002", unresolved_row)].
Proof.
  split.
  { destruct (proj1 (null_cell_marks_unresolved no_repr) [] [] sample_paper
                silent_world) as (stages & E & H).
    apply H. eapply Exec_unanswered; [| exact E].
    exact unanswered_silent_world. }
  split.
  { destruct (proj2 (null_cell_marks_unresolved no_repr)
                [("2401.00001", resolved_row)] "2401.00001" resolved_row _
                silent_world eq_refl) as (_ & _ & H & _).
    exact (H eq_refl). }
  split.
  { destruct (proj2 (null_cell_marks_unresolved no_repr)
                [("2401.00002", unresolved_row)] "2401.00002" unresolved_row _
                generous_world eq_refl) as (_ & _ & _ & H & L).
    rewrite (H eq_refl). cbv zeta. rewrite (L _ eq_refl eq_refl). reflexivity. }
  destruct (proj2 (null_cell_marks_unresolved no_repr)
              [("2401.00002", unresolved_row)] "2401.00002" unresolved_row _
              silent_world eq_refl) as (_ & _ & _ & H & _).
  rewrite (H eq_refl). reflexivity.
Defined.

Lemma paths_full_config : NoDup (paths full_config).
Proof.
  unfold paths, full_config.
  cbn [json_readme_path md_readme_path json_gitpage_path md_gitpage_path
       json_wechat_path md_wechat_path].
  repeat constructor; cbn [In]; intuition discriminate.
Qed.

Lemma full_batches_table :
  fst full_batches
  = [[("SLAM", [("2108.09112", unresolved_record sample_paper);
                ("2401.00001", unresolved_record known_paper)])]].
Proof. vm_compute. reflexivity. Qed.

Lemma reads_back_readme :
  reads_back full_loads flat_dumps (merge_all sample_store (fst full_batches)).
Proof. split; [vm_compute; reflexivity | vm_compute; discriminate]. Qed.

Lemma reads_back_gitpage :
  reads_back full_loads flat_dumps (merge_all [] (fst full_batches)).
Proof. split; [vm_compute; reflexivity | vm_compute; discriminate]. Qed.

Lemma reads_back_wechat :
  reads_back full_loads flat_dumps (merge_all web_store (snd full_batches)).
Proof. split; [vm_compute; reflexivity | vm_compute; discriminate]. Qed.

Lemma demo_daily_files_witness :
  config_update_paper_links full_config = false
  /\ NoDup (paths full_config)
  /\ fst (load full_loads "docs/store.json" (world full_session)) = inr sample_store
  /\ fst (load full_loads "docs/gitpage.json" (world full_session)) = inr []
  /\ fst (load full_loads "docs/wechat.json" (world full_session)) = inr web_store
  /\ reads_back full_loads flat_dumps (merge_all sample_store (fst full_batches))
  /\ reads_back full_loads flat_dumps (merge_all [] (fst full_batches))
  /\ reads_back full_loads flat_dumps (merge_all web_store (snd full_batches))
  /\ let run := demo no_repr full_loads flat_dumps full_config full_session in
     let w' := world (snd run) in
     fst run = inr tt
     /\ files w' "docs/store.json"
        = Some (flat_dumps (merge_all sample_store (fst full_batches)))
     /\ files w' "README.md"
        = Some (render (readme_options full_config)
                       (replace "-" "." (today full_world))
                       (merge_all sample_store (fst full_batches)))
     /\ files w' "docs/gitpage.json"
        = Some (flat_dumps (merge_all [] (fst full_batches)))
     /\ files w' "docs/index.md"
        = Some (render (gitpage_options full_config)
                       (replace "-" "." (today full_world))
                       (merge_all [] (fst full_batches)))
     /\ files w' "docs/wechat.json"
        = Some (flat_dumps (merge_all web_store (snd full_batches)))
     /\ files w' "docs/wechat.md"
        = Some (render (wechat_options full_config)
                       (replace "-" "." (today full_world))
                       (merge_all web_store (snd full_batches))).
Proof.
  assert (L1 : fst (load full_loads "docs/store.json" (world full_session))
               = inr sample_store) by (vm_compute; reflexivity).
  assert (L2 : fst (load full_loads "docs/gitpage.json" (world full_session))
               = inr []) by (vm_compute; reflexivity).
  assert (L3 : fst (load full_loads "docs/wechat.json" (world full_session))
               = inr web_store) by (vm_compute; reflexivity).
  split; [reflexivity |]. split; [exact paths_full_config |].
  split; [exact L1 |]. split; [exact L2 |]. split; [exact L3 |].
  split; [exact reads_back_readme |]. split; [exact reads_back_gitpage |].
  split; [exact reads_back_wechat |].
  destruct (demo_daily_files no_repr full_loads flat_dumps full_config
              full_session sample_store [] web_store eq_refl paths_full_config
              (fun _ => conj L1 reads_back_readme)
              (fun _ => conj L2 reads_back_gitpage)
              (fun _ => conj L3 reads_back_wechat))
    as (_ & Q & T1 & T2 & T3 & _).
  cbv zeta.
  destruct (T1 eq_refl) as (J1 & M1).
  destruct (T2 eq_refl) as (J2 & M2).
  destruct (T3 eq_refl) as (J3 & M3).
  repeat split; assumption.
Defined.

Lemma honours_full_session : honours_limit full_session.
Proof.
  intros [| k] query n; cbn; rewrite length_firstn; lia.
Qed.

Lemma demo_searches_witness :
  (config_update_paper_links backfill_config = true
   /\ searches (snd (demo no_repr full_loads flat_dumps backfill_config full_session))
      = 0)
  /\ (config_update_paper_links full_config = false
      /\ honours_limit full_session
      /\ searches (snd (demo no_repr full_loads flat_dumps full_config full_session))
         = 2
      /\ sent (world (snd (demo no_repr full_loads flat_dumps full_config
                                full_session)))
         <= 18 * ((Z.to_nat 2 + 25) * 1))
  /\ (config_update_paper_links sample_config = false
      /\ (forall k query,
            empty_page (arxiv quiet_session) k query (max_results sample_config)
            = false)
      /\ searches (snd (demo no_repr merged_loads merged_dumps sample_config
                             quiet_session))
         = 1).
Proof.
  split; [| split].
  - split; [reflexivity |].
    exact (proj1 (proj1 (proj2 (demo_searches no_repr full_loads flat_dumps
                                   backfill_config full_session)) eq_refl)).
  - split; [reflexivity |]. split; [exact honours_full_session |].
    destruct (proj2 (proj2 (demo_searches no_repr full_loads flat_dumps
                              full_config full_session)) eq_refl)
      as (E & _ & _ & _ & _ & R).
    split; [exact E | exact (R honours_full_session)].
  - split; [reflexivity |]. split; [reflexivity |].
    destruct (proj2 (proj2 (demo_searches no_repr merged_loads merged_dumps
                              sample_config quiet_session)) eq_refl)
      as (_ & N & _).
    exact (N (fun _ _ => eq_refl)).
Defined.

Lemma honours_paged_session : honours_limit paged_session.
Proof.
  intros [| k] query n; cbn; rewrite length_firstn; lia.
Qed.

Lemma daily_papers_budget_witness :
  honours_limit paged_session
  /\ fst (_iter_arxiv_results "all:SLAM" 2 paged_session)
     = [sample_paper; known_paper; sample_paper]
  /\ searches (snd (daily_papers no_repr "SLAM" "all:SLAM" 2 paged_session)) = 2
  /\ sent (world (snd (daily_papers no_repr "SLAM" "all:SLAM" 2 paged_session)))
     <= 18 * 3
  /\ advanced paged_session
              (snd (daily_papers no_repr "SLAM" "all:SLAM" 2 paged_session))
              (18 * (Z.to_nat 2 + 25)) 1 2.
Proof.
  split; [exact honours_paged_session |].
  destruct (daily_papers_budget no_repr "SLAM" "all:SLAM" 2 paged_session)
    as (Y & R & A & H).
  split; [exact Y |]. split; [now rewrite R |].
  split; [destruct A as (_ & _ & _ & _ & _ & A); exact (proj2 A) |].
  exact (proj1 (proj2 (H honours_paged_session))).
Defined.

Lemma sample_filters_match :
  Forall2 (fun tv tf => fst tf = fst tv /\ has_filters (snd tv) (snd tf))
          [("SLAM", JObj [("filters", JArr [JStr "SLAM"; JStr "Visual Odometry"])]);
           ("NeRF", JObj [("filters", JArr [JStr " NeRF "])])]
          sample_filters.
Proof. repeat constructor. Qed.

Lemma load_config_queries_witness :
  files (world config_session) "config.yaml" = Some "document"
  /\ sample_yaml "document" = inr (JObj sample_document)
  /\ fst (load_config sample_yaml no_repr "config.yaml" config_session)
     = inr (JObj (dict_set sample_document "kv"
                    (JObj [("SLAM", JStr ("all:SLAM OR all:" ++ quoted "Visual Odometry"));
                           ("NeRF", JStr "all:NeRF")]))).
Proof.
  split; [reflexivity |]. split; [reflexivity |].
  assert (Hnd : NoDup (keys [("SLAM", JObj [("filters",
                                            JArr [JStr "SLAM"; JStr "Visual Odometry"])]);
                             ("NeRF", JObj [("filters", JArr [JStr " NeRF "])])])).
  { cbn [keys map fst]. repeat constructor; cbn [In]; intuition discriminate. }
  exact (f_equal fst
           (proj1 (load_config_queries sample_yaml no_repr "config.yaml" "document"
                     sample_document _ sample_filters config_session
                     eq_refl eq_refl eq_refl Hnd sample_filters_match))).
Defined.

Lemma hub_priority_witness :
  answer generous_world (hf_request "2108.09112") 0
  = Responded (mkResponse 200 (Some generous_document))
  /\ lists generous_document "spaces" []
  /\ lists generous_document "models" [Some "org/model"]
  /\ lists generous_document "datasets" []
  /\ fst (get_repo_from_hf no_repr "2108.09112" generous_world)
     = hub_choice [] [Some "org/model"] [].
Proof.
  assert (L1 : lists generous_document "spaces" [])
    by (exists JNull; split; [reflexivity | now left]).
  assert (L2 : lists generous_document "models" [Some "org/model"]).
  { exists (JArr [JObj [("id", JStr "org/model")]]). split; [reflexivity |].
    right. eexists. split; [reflexivity |]. repeat constructor. }
  assert (L3 : lists generous_document "datasets" [])
    by (exists JNull; split; [reflexivity | now left]).
  split; [reflexivity |]. split; [exact L1 |]. split; [exact L2 |].
  split; [exact L3 |].
  exact (proj1 (proj2 (hub_priority no_repr "2108.09112" generous_document
                         [] [Some "org/model"] [] generous_world
                         eq_refl L1 L2 L3))).
Defined.

Lemma daily_merge_overwrites_witness :
  (forall r', In r' [] -> key_of r' <> key_of known_paper)
  /\ lookup linked_store "SLAM" (key_of known_paper) = Some resolved_row
  /\ lookup (merge_all linked_store
               [fst (fst (get_daily_papers no_repr "SLAM"
                            ([] ++ known_paper :: [])%list silent_world))])
            "SLAM" (key_of known_paper)
     = Some (unresolved_record known_paper).
Proof.
  split; [intros r' [] |]. split; [reflexivity |].
  exact (proj1 (proj2 (daily_merge_overwrites no_repr linked_store "SLAM" [] []
                         known_paper silent_world
                         (fun r' H => match H with end)))
               unanswered_silent_world).
Defined.
